(** * Reconciliation and currency-normalisation engine: a shallow embedding

    The Python sources under [flask-server/] are embedded function by
    function.  Conventions used throughout:

    - the amounts of the validation reports and of the adjustment rows are
      binary64 floats (the primitive [float]): they are multiplied,
      subtracted and compared with a threshold, and rounding decides at the
      threshold; exchange rates and the numbers held by the cells of a sheet
      are exact rationals ([Q]), and equalities between rates are stated
      with [==];
    - a Python [str] is a [string] of 8-bit characters; [lower] and [strip]
      act on the ASCII range;
    - a pandas cell is a [cell]: [NaN], a text value or a number;
    - a [dict] that is only looked up is a [gmap]; a [dict] whose iteration
      order decides the order of the output is an association list;
    - a [try]/[except] block is a value of [result], and a handler is a
      function out of it. *)

From Stdlib Require Import Floats.
From Stdlib Require Import Ascii String QArith Qabs Lqa Qcanon.
From stdpp Require Import gmap strings list fin_maps sorting pretty.

Set Warnings "-clear-no-such-hyp,-inexact-float".


Open Scope string_scope.

(** ** Python strings *)

Module py.

Definition isspace (c : ascii) : bool :=
  let n := Ascii.nat_of_ascii c in
  (((9 <=? n) && (n <=? 13)) || ((28 <=? n) && (n <=? 32)))%nat.

Definition lower_char (c : ascii) : ascii :=
  let n := Ascii.nat_of_ascii c in
  if ((65 <=? n) && (n <=? 90))%nat then Ascii.ascii_of_nat (n + 32) else c.

Fixpoint lower (s : string) : string :=
  match s with
  | EmptyString => EmptyString
  | String c s' => String (lower_char c) (lower s')
  end.

Definition upper_char (c : ascii) : ascii :=
  let n := Ascii.nat_of_ascii c in
  if ((97 <=? n) && (n <=? 122))%nat then Ascii.ascii_of_nat (n - 32) else c.

Fixpoint upper (s : string) : string :=
  match s with
  | EmptyString => EmptyString
  | String c s' => String (upper_char c) (upper s')
  end.

Fixpoint lstrip (s : string) : string :=
  match s with
  | EmptyString => EmptyString
  | String c s' => if isspace c then lstrip s' else s
  end.

Fixpoint rstrip (s : string) : string :=
  match s with
  | EmptyString => EmptyString
  | String c s' =>
      match rstrip s' with
      | EmptyString => if isspace c then EmptyString else String c EmptyString
      | r => String c r
      end
  end.

Definition strip (s : string) : string := rstrip (lstrip s).

(** [contains sub s] is Python's [sub in s]. *)
Fixpoint contains (sub s : string) : bool :=
  String.prefix sub s ||
  match s with
  | EmptyString => false
  | String _ s' => contains sub s'
  end.

(** Outcome of a block that may raise. *)
Inductive exn :=
  | KeyError (key : string)
  | ZeroDivisionError
  | TypeError
  | NameError (name : string)
  | ValueError
  | OSError.

Inductive result (A : Type) :=
  | Return (a : A)
  | Raise (e : exn).
Arguments Return {A} a.
Arguments Raise {A} e.

Definition bind {A B} (r : result A) (k : A -> result B) : result B :=
  match r with
  | Return a => k a
  | Raise e => Raise e
  end.

(** [try: body except ...]: a handler that answers [None] does not catch. *)
Definition try_except {A} (body : result A) (handler : exn -> option A)
    : result A :=
  match body with
  | Return a => Return a
  | Raise e =>
      match handler e with
      | Some a => Return a
      | None => Raise e
      end
  end.

(** [os.path.join] on two components (POSIX). *)
Fixpoint endswith_sep (s : string) : bool :=
  match s with
  | EmptyString => false
  | String c EmptyString => Ascii.eqb c "/"
  | String _ s' => endswith_sep s'
  end.

Definition endswith (s suffix : string) : bool :=
  String.prefix (String.rev suffix) (String.rev s).

Definition path_join (a b : string) : string :=
  if String.prefix "/" b then b
  else if (a =? "") || endswith_sep a then a ++ b
  else a ++ "/" ++ b.

(** [s[-2:]] *)
Definition last2 (s : string) : string :=
  String.substring (String.length s - 2) 2 s.

(** [s.rfind(c)] for a single character: [-1] when [c] is not in [s]. *)
Fixpoint rfind_from (c : ascii) (s : string) (i : nat) (last : Z) : Z :=
  match s with
  | EmptyString => last
  | String d s' =>
      rfind_from c s' (S i) (if Ascii.eqb d c then Z.of_nat i else last)
  end.

Definition rfind (c : ascii) (s : string) : Z := rfind_from c s 0 (-1).

(** [p[i:j]] for [0 <= i] *)
Definition slice (p : string) (i j : Z) : string :=
  String.substring (Z.to_nat i) (Z.to_nat (j - i)) p.

(** [os.path.splitext] (POSIX): the extension starts at the last dot of the
    last component, unless only dots come before it there. *)
Definition splitext (p : string) : string * string :=
  let sepIndex := rfind "/" p in
  let dotIndex := rfind "." p in
  if (sepIndex <? dotIndex)%Z
     && existsb (fun c => negb (Ascii.eqb c "."))
          (list_ascii_of_string (slice p (sepIndex + 1) dotIndex))
  then (slice p 0 dotIndex, slice p dotIndex (Z.of_nat (String.length p)))
  else (p, "").

(** [int(s)] for a string of digits *)
Definition int (s : string) : nat :=
  fold_left (fun n c => (10 * n + (Ascii.nat_of_ascii c - 48))%nat)
    (list_ascii_of_string s) 0%nat.

(** [f"{n:02d}"] *)
Definition format_02d (n : nat) : string :=
  if (n <? 10)%nat then "0" ++ pretty n else pretty n.

(** [s.replace(old, new)] for a single character [old] *)
Fixpoint replace1 (old : ascii) (new s : string) : string :=
  match s with
  | EmptyString => EmptyString
  | String c s' =>
      (if Ascii.eqb c old then new else String c EmptyString)
        ++ replace1 old new s'
  end.

(** [os.path.basename] (POSIX) *)
Definition basename (p : string) : string :=
  slice p (rfind "/" p + 1) (Z.of_nat (String.length p)).

End py.

(** ** Python's [re], for the patterns the sources use

    A pattern is built from literal text, character classes with [+] or
    [{n}], sequence, alternation, capturing groups, [?] on a group and [$].
    Matching is the backtracking search of [re]: alternatives are tried left
    to right, [+] and [?] take as much as they can first, and [search] tries
    the start positions from left to right.  Characters are ASCII. *)

Module re.

Definition isdigit (c : ascii) : bool :=
  let n := Ascii.nat_of_ascii c in ((48 <=? n) && (n <=? 57))%nat.

Definition isupper (c : ascii) : bool :=
  let n := Ascii.nat_of_ascii c in ((65 <=? n) && (n <=? 90))%nat.

Definition islower (c : ascii) : bool :=
  let n := Ascii.nat_of_ascii c in ((97 <=? n) && (n <=? 122))%nat.

(** [[A-Z0-9]], [\d] and [[A-Za-z]] *)
Definition upper_alnum (c : ascii) : bool := isupper c || isdigit c.
Definition digit (c : ascii) : bool := isdigit c.
Definition alpha (c : ascii) : bool := isupper c || islower c.

Inductive regex :=
  | Lit (l : string)
  | Plus (p : ascii -> bool)
  | Times (n : nat) (p : ascii -> bool)
  | Seq (r1 r2 : regex)
  | Alt (r1 r2 : regex)
  | Group (r : regex)
  | Opt (r : regex)
  | Eos.

(** [r1 r2 ... rn] *)
Fixpoint cat (rs : list regex) : regex :=
  match rs with
  | [] => Lit ""
  | [r] => r
  | r :: rs' => Seq r (cat rs')
  end.

(** Membership in a class, and equality with a literal character, under the
    flag [re.IGNORECASE], on ASCII text: a letter matches in either case.
    (On other text Python folds more: [[A-Z]] then also matches the Kelvin
    sign, the dotted capital I, the dotless i and the long s.) *)
Definition in_class (ic : bool) (p : ascii -> bool) (c : ascii) : bool :=
  p c || (ic && (p (py.lower_char c) || p (py.upper_char c))).

Definition char_eqb (ic : bool) (a b : ascii) : bool :=
  if ic then Ascii.eqb (py.lower_char a) (py.lower_char b) else Ascii.eqb a b.

(** The rest of [s] after the literal [l]. *)
Fixpoint lit (ic : bool) (l s : string) : option string :=
  match l with
  | EmptyString => Some s
  | String a l' =>
      match s with
      | String b s' => if char_eqb ic a b then lit ic l' s' else None
      | EmptyString => None
      end
  end.

Section quantifiers.

Context {R : Type}.

(** [p*] then [k], longest first. *)
Fixpoint star (ic : bool) (p : ascii -> bool) (s : string)
    (k : string -> option R) : option R :=
  match s with
  | String c s' =>
      if in_class ic p c then
        match star ic p s' k with
        | Some x => Some x
        | None => k s
        end
      else k s
  | EmptyString => k s
  end.

Definition plus (ic : bool) (p : ascii -> bool) (s : string)
    (k : string -> option R) : option R :=
  match s with
  | String c s' => if in_class ic p c then star ic p s' k else None
  | EmptyString => None
  end.

Fixpoint times (ic : bool) (n : nat) (p : ascii -> bool) (s : string)
    (k : string -> option R) : option R :=
  match n with
  | O => k s
  | S n' =>
      match s with
      | String c s' => if in_class ic p c then times ic n' p s' k else None
      | EmptyString => None
      end
  end.

End quantifiers.

Fixpoint ngroups (r : regex) : nat :=
  match r with
  | Seq r1 r2 | Alt r1 r2 => ngroups r1 + ngroups r2
  | Group r' => S (ngroups r')
  | Opt r' => ngroups r'
  | _ => 0
  end.

(** The text between the start [s] of a group and what is left, [s'], when
    the group closes. *)
Definition consumed (s s' : string) : string :=
  String.substring 0 (String.length s - String.length s') s.

(** The groups closed so far, in order; [None] for a group that took no
    part in the match. *)
Abbreviation groups := (list (option string)).

Fixpoint run (ic : bool) (r : regex) (s : string) (caps : groups)
    (k : string -> groups -> option groups) : option groups :=
  match r with
  | Lit l =>
      match lit ic l s with
      | Some s' => k s' caps
      | None => None
      end
  | Plus p => plus ic p s (fun s' => k s' caps)
  | Times n p => times ic n p s (fun s' => k s' caps)
  | Seq r1 r2 => run ic r1 s caps (fun s' caps' => run ic r2 s' caps' k)
  | Alt r1 r2 =>
      match run ic r1 s caps k with
      | Some x => Some x
      | None => run ic r2 s caps k
      end
  | Group r' =>
      run ic r' s caps (fun s' caps' => k s' (caps' ++ [Some (consumed s s')])%list)
  | Opt r' =>
      match run ic r' s caps k with
      | Some x => Some x
      | None => k s (caps ++ replicate (ngroups r') None)%list
      end
  | Eos =>
      if String.eqb s "" || String.eqb s (String (Ascii.ascii_of_nat 10) "")
      then k s caps else None
  end.

(** [re.match(r, s)]: a match at the start of [s]. *)
Definition match_ (ic : bool) (r : regex) (s : string) : option groups :=
  run ic r s [] (fun _ caps => Some caps).

(** [re.search(r, s)]: the groups of the leftmost match.  A pattern that
    begins with [^] is searched with [match_]. *)
Fixpoint search (ic : bool) (r : regex) (s : string) : option groups :=
  match match_ ic r s with
  | Some caps => Some caps
  | None =>
      match s with
      | String _ s' => search ic r s'
      | EmptyString => None
      end
  end.

(** [match.group(i)], for a group that took part in the match. *)
Definition group (m : groups) (i : nat) : string :=
  default "" (mjoin (m !! (i - 1)%nat)).

End re.


Global Instance result_ret : MRet py.result := @py.Return.
Global Instance result_bind : MBind py.result :=
  fun A B k r => py.bind r k.

(** ** pandas cells *)

Inductive cell :=
  | NaN
  | Str (s : string)
  | Num (q : Q).

(** A label is a value of a text column used as a grouping key: a string, or
    [None] for a blank ([NaN]) cell. *)
Abbreviation label := (option string).

(** [pd.to_numeric(col, errors='coerce').fillna(0)] on a column whose cells
    are numbers or values that do not parse ([None]); a [NaN] is filled like
    a value that does not parse. *)
Definition to_numeric_fillna (v : option float) : float :=
  match v with
  | Some x => if PrimFloat.is_nan x then 0%float else x
  | None => 0%float
  end.

(** [abs(x) > y] on floats. *)
Definition abs_gt (x y : float) : bool := (y <? PrimFloat.abs x)%float.

(** [d.get(k)] on an insertion-ordered dict kept as an association list. *)
Fixpoint dict_get {K V} `{EqDecision K} (d : list (K * V)) (k : K) : option V :=
  match d with
  | [] => None
  | (k', v) :: d' => if decide (k' = k) then Some v else dict_get d' k
  end.

(** ** pandas frames and dicts keyed by cells *)

(** A frame read with [header=None] is a list of rows of one length. *)
Abbreviation frame := (list (list cell)).

(** [len(df.columns)] *)
Definition ncols (df : frame) : nat := length (hd [] df).

(** [df.empty]: no row or no column. *)
Definition frame_empty (df : frame) : bool :=
  (length df =? 0)%nat || (ncols df =? 0)%nat.

(** [==] and [hash] on the values a cell can hold, as a [dict] uses them for
    its keys.  Blank cells of an object column are one object, [np.nan], so
    they are one key. *)
Definition cell_eqb (a b : cell) : bool :=
  match a, b with
  | NaN, NaN => true
  | Str s, Str t => String.eqb s t
  | Num p, Num q => Qeq_bool p q
  | _, _ => false
  end.

(** [d[k] = v] on an insertion-ordered dict: a key that is there keeps its
    place. *)
Fixpoint cell_dict_set {V} (d : list (cell * V)) (k : cell) (v : V)
    : list (cell * V) :=
  match d with
  | [] => [(k, v)]
  | (k', v') :: d' =>
      if cell_eqb k' k then (k', v) :: d' else (k', v') :: cell_dict_set d' k v
  end.

(** [d.get(k)] *)
Fixpoint cell_dict_get {V} (d : list (cell * V)) (k : cell) : option V :=
  match d with
  | [] => None
  | (k', v) :: d' => if cell_eqb k' k then Some v else cell_dict_get d' k
  end.

(** [pd.Series(values, index=keys).to_dict()] *)
Definition series_to_dict {V} (items : list (cell * V)) : list (cell * V) :=
  foldl (fun d kv => cell_dict_set d kv.1 kv.2) [] items.

(** ** Keys taken from a column of a sheet

    [pd.Series(values, index=column).to_dict()] keeps every cell of the
    column as a key: a text, a number, or the blank [NaN].  Two numbers are
    one key when their values are equal, so a number key is kept in lowest
    terms. *)

Inductive dict_key :=
  | KNaN
  | KStr (s : string)
  | KNum (x : Qc).

Global Instance dict_key_eq_dec : EqDecision dict_key.
Proof. solve_decision. Defined.

Global Instance dict_key_countable : Countable dict_key :=
  inj_countable'
    (fun k => match k with
              | KNaN => None
              | KStr s => Some (inl s)
              | KNum x => Some (inr x)
              end)
    (fun o => match o with
              | None => KNaN
              | Some (inl s) => KStr s
              | Some (inr x) => KNum x
              end)
    (fun k => match k with KNaN => eq_refl | KStr _ => eq_refl | KNum _ => eq_refl end).

(** The key a cell makes. *)
Definition cell_key (c : cell) : dict_key :=
  match c with
  | NaN => KNaN
  | Str s => KStr s
  | Num q => KNum (Q2Qc q)
  end.

(** [isinstance(k, str)] *)
Definition is_text (k : dict_key) : bool :=
  match k with
  | KStr _ => true
  | _ => false
  end.

(** ** cleaning_configurations.py *)

Module cleaning_configurations.

(** *** The status rule shared by the three validation reports *)

Definition variance : float := 5%float.

(** ["Matching" if abs(difference) <= variance else "Not Matching"] *)
Definition status_of (difference : float) : string :=
  if (PrimFloat.abs difference <=? variance)%float then "Matching"
  else "Not Matching".

(** *** generate_sales_validation_data, section 4: compare the two maps *)

Abbreviation group3 := (string * string * string)%type.

(** Python compares tuples lexicographically, strings by code point. *)
Definition group3_le (a b : group3) : Prop :=
  match String.compare a.1.1 b.1.1 with
  | Lt => True
  | Gt => False
  | Eq =>
      match String.compare a.1.2 b.1.2 with
      | Lt => True
      | Gt => False
      | Eq => String.le a.2 b.2
      end
  end.

Global Instance group3_le_dec : RelDecision group3_le.
Proof.
  intros a b. unfold group3_le.
  destruct (String.compare a.1.1 b.1.1); try apply _.
  destruct (String.compare a.1.2 b.1.2); apply _.
Defined.

Record sales_validation_row := {
  sv_Product_Service : string;
  sv_Division : string;
  sv_DPC : string;
  sv_BI_actual : float;
  sv_BI_prior : float;
  sv_Hyperion_actual : float;
  sv_Hyperion_prior : float;
  sv_Difference_actual : float;
  sv_Difference_prior : float;
  sv_Status_actual : string;
  sv_Status_prior : string
}.

Definition sales_row_for (bi_map hyperion_map : gmap group3 (float * float))
    (group_key : group3) : sales_validation_row :=
  let '(prod_svc, division, dpc) := group_key in
  let bi_vals := default (0, 0)%float (bi_map !! group_key) in
  let bi_actual := bi_vals.1 in
  let bi_prior := bi_vals.2 in
  let hyperion_vals := default (0, 0)%float (hyperion_map !! group_key) in
  let hyperion_actual := (hyperion_vals.1 * 1000)%float in
  let hyperion_prior := (hyperion_vals.2 * 1000)%float in
  let difference_actual := (hyperion_actual - bi_actual)%float in
  let difference_prior := (hyperion_prior - bi_prior)%float in
  {| sv_Product_Service := prod_svc;
     sv_Division := division;
     sv_DPC := dpc;
     sv_BI_actual := bi_actual;
     sv_BI_prior := bi_prior;
     sv_Hyperion_actual := hyperion_actual;
     sv_Hyperion_prior := hyperion_prior;
     sv_Difference_actual := difference_actual;
     sv_Difference_prior := difference_prior;
     sv_Status_actual := status_of difference_actual;
     sv_Status_prior := status_of difference_prior |}.

(** The keys of both maps are 3-tuples of strings by construction (they come
    from a [groupby] on three columns turned into text with [astype(str)]),
    so the [isinstance]/[len] guard of the loop never skips and [sorted]
    never meets two values it cannot compare. *)
Definition generate_sales_validation_data
    (bi_map hyperion_map : gmap group3 (float * float))
    : list sales_validation_row :=
  let all_groups_bi : gset group3 := dom bi_map in
  let all_groups_hyperion : gset group3 := dom hyperion_map in
  let all_groups :=
    merge_sort group3_le (elements (all_groups_bi ∪ all_groups_hyperion)) in
  sales_row_for bi_map hyperion_map <$> all_groups.

(** *** Alias tables *)

Definition DPC_TO_DIVISION_MAP : list (string * string) :=
  [("Labtec", "Lab"); ("ANA", "Lab"); ("Ohaus", "Lab"); ("Pipettes", "Lab");
   ("Biotix", "Lab"); ("AutoChem", "Lab");
   ("OEM", "Industrial"); ("Standard Industrial", "Industrial");
   ("T&L", "Industrial"); ("Vehicle", "Industrial"); ("AS", "Industrial");
   ("Miscellaneous", "Misc"); ("PI", "PI"); ("Retail", "Retail");
   ("PRO", "PRO");
   ("Adjustment figure", "SERVICE")].

Definition HYPERION_TO_BI_DPC_MAP : list (string * string) :=
  [("OEM_SI", "OEM"); ("SI_S", "Standard Industrial"); ("TL", "T&L");
   ("Misc", "Miscellaneous"); ("Pro", "PRO"); ("AC", "AutoChem");
   ("AS_S", "AS")].

(** [HYPERION_TO_BI_DPC_MAP.get(k, k)] for a text [k] *)
Definition hyperion_to_bi (k : string) : string :=
  default k (dict_get HYPERION_TO_BI_DPC_MAP k).

(** The reverse lookup of the OE comparison loop, for a text [dpc_key]:
    [next((k for k, v in MAP.items() if v == dpc_key), dpc_key)] when
    [dpc_key in MAP.values()], and [dpc_key] otherwise. *)
Definition bi_to_hyperion (dpc_key : string) : string :=
  match List.find (fun kv => String.eqb kv.2 dpc_key) HYPERION_TO_BI_DPC_MAP with
  | Some kv => kv.1
  | None => dpc_key
  end.

(** The two lookups for any key: the table holds text only, so a blank or a
    number is neither one of its keys nor one of its values. *)
Definition hyperion_to_bi_key (k : dict_key) : dict_key :=
  match k with
  | KStr s => KStr (hyperion_to_bi s)
  | _ => k
  end.

Definition bi_to_hyperion_key (dpc_key : dict_key) : dict_key :=
  match dpc_key with
  | KStr s => KStr (bi_to_hyperion s)
  | _ => dpc_key
  end.

(** *** generate_oe_validation_data, section 4: compare the two maps

    The keys of the BI maps are text: the DPC column of the processed file
    goes through [astype(str)].  The keys of the Hyperion maps are the cells
    of column B of the sheet as they are. *)

Record oe_validation_row := {
  ov_Group : dict_key;
  ov_BI_MTD : float;
  ov_BI_PY : float;
  ov_Hyperion_MTD : float;
  ov_Hyperion_PY : float;
  ov_Difference_MTD : float;
  ov_Difference_PY : float;
  ov_Status_MTD : string;
  ov_Status_PY : string
}.

(** The order of [sorted] on keys of one kind: text by code points, numbers
    by value.  Between kinds Python has no order; here a blank comes first
    and a number before a text, which [sorted_keys] never relies on. *)
Definition key_le (a b : dict_key) : Prop :=
  match a, b with
  | KNaN, _ => True
  | KNum _, KNaN => False
  | KNum x, KNum y => Qcle x y
  | KNum _, KStr _ => True
  | KStr x, KStr y => String.le x y
  | KStr _, _ => False
  end.

Global Instance key_le_dec : RelDecision key_le.
Proof. intros [| x | x] [| y | y]; simpl; apply _. Defined.

(** [bi_map.get(dpc_key, 0)] *)
Definition bi_map_get (bi_map : gmap string float) (dpc_key : dict_key) : float :=
  match dpc_key with
  | KStr s => default 0%float (bi_map !! s)
  | _ => 0%float
  end.

(** The two [continue] guards at the head of the loop body. *)
Definition oe_compared_key (dpc_key : dict_key) : option dict_key :=
  match dpc_key with
  | KNaN => None
  | KStr s =>
      if String.eqb s "nan" then None
      else if String.eqb s "Adjustment figure" then None
      else Some dpc_key
  | KNum _ => Some dpc_key
  end.

Definition oe_row_for (bi_map_mtd bi_map_py : gmap string float)
    (hyperion_dpc_map_mtd hyperion_dpc_map_py : gmap dict_key float)
    (dpc_key : dict_key) : oe_validation_row :=
  let bi_val_mtd := bi_map_get bi_map_mtd dpc_key in
  let bi_val_py := bi_map_get bi_map_py dpc_key in
  let hyperion_key := bi_to_hyperion_key dpc_key in
  let hyp_val_mtd :=
    (default 0 (hyperion_dpc_map_mtd !! hyperion_key) * 1000)%float in
  let hyp_val_py :=
    (default 0 (hyperion_dpc_map_py !! hyperion_key) * 1000)%float in
  let diff_mtd := (hyp_val_mtd - bi_val_mtd)%float in
  let diff_py := (hyp_val_py - bi_val_py)%float in
  {| ov_Group := dpc_key;
     ov_BI_MTD := bi_val_mtd;
     ov_BI_PY := bi_val_py;
     ov_Hyperion_MTD := hyp_val_mtd;
     ov_Hyperion_PY := hyp_val_py;
     ov_Difference_MTD := diff_mtd;
     ov_Difference_PY := diff_py;
     ov_Status_MTD := status_of diff_mtd;
     ov_Status_PY := status_of diff_py |}.

Definition oe_service_row (bi_service_total_mtd bi_service_total_py : float)
    (last_row_mtd last_row_py : float) : oe_validation_row :=
  let hyp_val_mtd_svc := (last_row_mtd * 1000)%float in
  let hyp_val_py_svc := (last_row_py * 1000)%float in
  let diff_mtd_svc := (hyp_val_mtd_svc - bi_service_total_mtd)%float in
  let diff_py_svc := (hyp_val_py_svc - bi_service_total_py)%float in
  {| ov_Group := KStr "SERVICE (Total)";
     ov_BI_MTD := bi_service_total_mtd;
     ov_BI_PY := bi_service_total_py;
     ov_Hyperion_MTD := hyp_val_mtd_svc;
     ov_Hyperion_PY := hyp_val_py_svc;
     ov_Difference_MTD := diff_mtd_svc;
     ov_Difference_PY := diff_py_svc;
     ov_Status_MTD := status_of diff_mtd_svc;
     ov_Status_PY := status_of diff_py_svc |}.

Section oe_validation.

(** What [sorted] makes of a set of floats that holds [NaN] and a number:
    every comparison with [NaN] is false, so the outcome follows the order
    in which the set is iterated, which nothing in the program fixes. *)
Variable sorted_floats : gset dict_key -> list dict_key.

(** [sorted(list(keys))]: a set of texts is put in ascending order, and so
    is a set of numbers; comparing a text with a float, [NaN] or not, raises
    [TypeError], so a set mixing the two cannot be sorted. *)
Definition sorted_keys (keys : gset dict_key) : py.result (list dict_key) :=
  if decide (set_Forall (fun k => is_text k) keys)
  then py.Return (merge_sort key_le (elements keys))
  else if decide (set_Exists (fun k => is_text k) keys)
  then py.Raise py.TypeError
  else if decide (KNaN ∈ keys ∧ keys ≠ {[KNaN]})
  then py.Return (sorted_floats keys)
  else py.Return (merge_sort key_le (elements keys)).

(** The body of the [try] block from section 4 on.  The name [variance] is
    bound inside the loop body only, so the SERVICE comparison after the loop
    raises [NameError] when no key got past the two guards. *)
Definition oe_compare (bi_map_mtd bi_map_py : gmap string float)
    (bi_service_total_mtd bi_service_total_py : float)
    (hyperion_dpc_map_mtd hyperion_dpc_map_py : gmap dict_key float)
    (last_row_mtd last_row_py : float) : py.result (list oe_validation_row) :=
  let all_dpc_keys_bi : gset dict_key :=
    set_map KStr (dom bi_map_mtd ∪ dom bi_map_py : gset string) in
  let all_dpc_keys_hyperion : gset dict_key :=
    dom hyperion_dpc_map_mtd ∪ dom hyperion_dpc_map_py in
  let mapped_hyperion_keys : gset dict_key :=
    set_map hyperion_to_bi_key all_dpc_keys_hyperion in
  all_dpc_keys ← sorted_keys (all_dpc_keys_bi ∪ mapped_hyperion_keys);
  let compared : list dict_key := omap oe_compared_key all_dpc_keys in
  let validation_data : list oe_validation_row :=
    oe_row_for bi_map_mtd bi_map_py hyperion_dpc_map_mtd hyperion_dpc_map_py
      <$> compared in
  match compared with
  | [] => py.Raise (py.NameError "variance")
  | _ :: _ =>
      py.Return (validation_data ++
        [oe_service_row bi_service_total_mtd bi_service_total_py
           last_row_mtd last_row_py])%list
  end.

(** From the extracted maps to the validation sheet; [None] is the empty
    result returned by the early exit and by the [except] handler. *)
Definition generate_oe_validation_data
    (bi_map_mtd bi_map_py : gmap string float)
    (bi_service_total_mtd bi_service_total_py : float)
    (hyperion_dpc_map_mtd hyperion_dpc_map_py : gmap dict_key float)
    (last_row_mtd last_row_py : float) : option (list oe_validation_row) :=
  if bool_decide (size hyperion_dpc_map_mtd = 0%nat) && (last_row_mtd =? 0)%float
  then None
  else
    match oe_compare bi_map_mtd bi_map_py bi_service_total_mtd
            bi_service_total_py hyperion_dpc_map_mtd hyperion_dpc_map_py
            last_row_mtd last_row_py with
    | py.Return rows => Some rows
    | py.Raise _ => None
    end.

End oe_validation.

(** *** generate_pex_validation_data, step D: compare and build the sheet

    The groups of both sides are text ([astype(str)]). *)

Record pex_validation_row := {
  pv_Group : string;
  pv_BI_actual : float;
  pv_BI_prior : float;
  pv_Hyperion_actual : float;
  pv_Hyperion_prior : float;
  pv_Difference_actual : float;
  pv_Difference_prior : float;
  pv_Status_actual : string;
  pv_Status_prior : string
}.

Section pex_validation.

(** [Series.sum()]: the order and the compensation of the additions are
    those of pandas. *)
Variable series_sum : list float -> float.

(** A column of [df_bi_grouped], which [groupby] leaves in the order of the
    groups. *)
Definition bi_grouped_column (col : float * float -> float)
    (df_bi_grouped : gmap string (float * float)) : list float :=
  (fun group => col (default (0, 0)%float (df_bi_grouped !! group)))
    <$> merge_sort String.le (elements (dom df_bi_grouped)).

Definition pex_row_for (df_bi_grouped hyperion_map : gmap string (float * float))
    (group : string) : pex_validation_row :=
  let bi_total_actual_sum := series_sum (bi_grouped_column fst df_bi_grouped) in
  let bi_total_prior_sum := series_sum (bi_grouped_column snd df_bi_grouped) in
  let bi_actual :=
    if String.eqb group "Total Period Expense" then bi_total_actual_sum
    else (default (0, 0)%float (df_bi_grouped !! group)).1 in
  let bi_prior :=
    if String.eqb group "Total Period Expense" then bi_total_prior_sum
    else (default (0, 0)%float (df_bi_grouped !! group)).2 in
  let hyperion_vals := default (0, 0)%float (hyperion_map !! group) in
  let hyperion_actual := (hyperion_vals.1 * 1000)%float in
  let hyperion_prior := (hyperion_vals.2 * 1000)%float in
  let difference_actual := (hyperion_actual - bi_actual)%float in
  let difference_prior := (hyperion_prior - bi_prior)%float in
  {| pv_Group := group;
     pv_BI_actual := bi_actual;
     pv_BI_prior := bi_prior;
     pv_Hyperion_actual := hyperion_actual;
     pv_Hyperion_prior := hyperion_prior;
     pv_Difference_actual := difference_actual;
     pv_Difference_prior := difference_prior;
     pv_Status_actual := status_of difference_actual;
     pv_Status_prior := status_of difference_prior |}.

Definition generate_pex_validation_data
    (df_bi_grouped hyperion_map : gmap string (float * float))
    : list pex_validation_row :=
  let all_groups_bi : gset string := dom df_bi_grouped in
  let all_groups_hyperion : gset string := dom hyperion_map in
  let all_groups :=
    merge_sort String.le (elements (all_groups_bi ∪ all_groups_hyperion)) in
  pex_row_for df_bi_grouped hyperion_map
    <$> List.filter (fun group => negb (String.eqb group "nan")) all_groups.

End pex_validation.

(** *** add_hyperion_adjustments

    The model starts after the Hyperion sheet has been read and
    [_extract_dpc_maps_from_sheet] has returned; the early exits for a
    missing column, workbook or sheet return the table unchanged and are not
    part of it.  A row keeps the columns the function reads or writes by
    name, and ['Sales doc. type'] as one of the remaining text columns.  The
    loop body is in no [try] block: what it raises leaves the function. *)

Record oe_row := {
  Product_Service : label;
  P1_Division : label;
  P2_DPC : label;
  Sales_doc_type : label;
  Bookings_MTD_Net_Sales : option float;
  Bookings_PY_MTD : option float
}.

(** The two [pd.to_numeric(...).fillna(0)] assignments. *)
Definition numeric_bookings (r : oe_row) : oe_row :=
  {| Product_Service := Product_Service r;
     P1_Division := P1_Division r;
     P2_DPC := P2_DPC r;
     Sales_doc_type := Sales_doc_type r;
     Bookings_MTD_Net_Sales := Some (to_numeric_fillna (Bookings_MTD_Net_Sales r));
     Bookings_PY_MTD := Some (to_numeric_fillna (Bookings_PY_MTD r)) |}.

(** The values of a column in the rows of one DPC, in the order of the
    table. *)
Definition group_values (col : oe_row -> option float) (bi_df : list oe_row)
    (key : string) : list float :=
  (fun r => to_numeric_fillna (col r))
    <$> filter (fun r => P2_DPC r = Some key) bi_df.

Definition adjustment_row (bi_dpc_str : string)
    (difference_mtd difference_py : float) : oe_row :=
  {| Product_Service := Some "PRODUCT";
     P1_Division :=
       Some (default "Adjustment figure" (dict_get DPC_TO_DIVISION_MAP bi_dpc_str));
     P2_DPC := Some bi_dpc_str;
     Sales_doc_type := Some "Adjustment figure";
     Bookings_MTD_Net_Sales := Some difference_mtd;
     Bookings_PY_MTD := Some difference_py |}.

Definition service_adjustment (last_row_mtd last_row_py : float) : list oe_row :=
  let service_mtd_val := (last_row_mtd * 1000)%float in
  let service_py_val := (last_row_py * 1000)%float in
  if abs_gt service_mtd_val 0.001%float || abs_gt service_py_val 0.001%float
  then
    [ {| Product_Service := Some "SERVICE";
         P1_Division :=
           Some (default "SERVICE" (dict_get DPC_TO_DIVISION_MAP "Adjustment figure"));
         P2_DPC := Some "Adjustment figure";
         Sales_doc_type := Some "Adjustment figure";
         Bookings_MTD_Net_Sales := Some service_mtd_val;
         Bookings_PY_MTD := Some service_py_val |} ]
  else [].

Section adjustments.

(** The sum [groupby(...).sum()] takes of the values of one group: the order
    and the compensation of the additions are those of pandas. *)
Variable series_sum : list float -> float.

(** [bi_df.groupby(p2_dpc_col_name)[col].sum().get(key, 0)]: a DPC without
    rows is no group. *)
Definition groupby_sum (col : oe_row -> option float) (bi_df : list oe_row)
    (key : string) : float :=
  match group_values col bi_df key with
  | [] => 0%float
  | values => series_sum values
  end.

(** One iteration of the loop over [hyperion_dpc_map_mtd.items()].  A blank
    key is skipped by [pd.isna]; for a number, ["Total" in key] raises
    [TypeError]. *)
Definition adjustment_for (bi_df : list oe_row)
    (hyperion_dpc_map_py : gmap dict_key float)
    (item : dict_key * float) : py.result (option oe_row) :=
  match item.1 with
  | KNaN => py.Return None
  | KNum _ => py.Raise py.TypeError
  | KStr hyperion_dpc_str =>
      if py.contains "Total" hyperion_dpc_str then py.Return None
      else
        let bi_dpc_str := hyperion_to_bi hyperion_dpc_str in
        let bi_value_mtd := groupby_sum Bookings_MTD_Net_Sales bi_df bi_dpc_str in
        let bi_value_py := groupby_sum Bookings_PY_MTD bi_df bi_dpc_str in
        let hyperion_value_mtd_scaled := (item.2 * 1000)%float in
        let difference_mtd := (hyperion_value_mtd_scaled - bi_value_mtd)%float in
        let hyperion_value_py :=
          default 0%float (hyperion_dpc_map_py !! KStr hyperion_dpc_str) in
        let hyperion_value_py_scaled := (hyperion_value_py * 1000)%float in
        let difference_py := (hyperion_value_py_scaled - bi_value_py)%float in
        if abs_gt difference_mtd 0.001%float || abs_gt difference_py 0.001%float
        then py.Return (Some (adjustment_row bi_dpc_str difference_mtd difference_py))
        else py.Return None
  end.

Definition add_hyperion_adjustments (bi_df : list oe_row)
    (hyperion_dpc_map_mtd : list (dict_key * float))
    (hyperion_dpc_map_py : gmap dict_key float)
    (last_row_mtd last_row_py : float) : py.result (list oe_row) :=
  let bi_df := numeric_bookings <$> bi_df in
  found ← mapM (adjustment_for bi_df hyperion_dpc_map_py) hyperion_dpc_map_mtd;
  let adjustments_to_add :=
    (omap id found ++ service_adjustment last_row_mtd last_row_py)%list in
  py.Return (bi_df ++ adjustments_to_add)%list.

End adjustments.


(** *** _get_file_content_hash and remove_duplicate_files

    The output folder is a finite map from paths to file contents.  What
    pandas makes of a file is a parameter: [csv_data_string] is
    [pd.read_csv], the [reindex] on the sorted column names, [sort_values] on
    all columns and [to_string]; [xlsx_data_string] does the same for every
    sheet in the order of the sorted sheet names and joins the results;
    either raises when pandas does. *)

Section duplicates.

Variable csv_data_string : string -> py.result string.
Variable xlsx_data_string : string -> py.result string.
Variable md5_hexdigest : string -> string.

(** [os.path.exists(file_path)] *)
Definition path_exists (disk : gmap string string) (file_path : string) : bool :=
  bool_decide (is_Some (disk !! file_path)).

(** Reading a file that is not there raises. *)
Definition read_file (disk : gmap string string) (file_path : string)
    : py.result string :=
  match disk !! file_path with
  | Some content => py.Return content
  | None => py.Raise py.OSError
  end.

(** The body of the [try] block: [None] is the early [return file_path] for
    a file that is neither CSV nor Excel. *)
Definition content_digest (disk : gmap string string) (file_path : string)
    : py.result (option string) :=
  if py.endswith file_path ".csv" then
    content ← read_file disk file_path;
    data_string ← csv_data_string content;
    py.Return (Some (md5_hexdigest data_string))
  else if py.endswith file_path ".xlsx" then
    content ← read_file disk file_path;
    data_string ← xlsx_data_string content;
    py.Return (Some (md5_hexdigest data_string))
  else py.Return None.

Definition _get_file_content_hash (disk : gmap string string)
    (file_path : string) : string :=
  match content_digest disk file_path with
  | py.Return (Some digest) => digest
  | py.Return None => file_path
  | py.Raise _ => file_path
  end.

(** The first loop: [(files_to_keep, files_to_remove)]. *)
Fixpoint scan_files (output_folder : string) (disk : gmap string string)
    (processed_files : list string) (content_map : gmap string string)
    : list string * list string :=
  match processed_files with
  | [] => ([], [])
  | filename :: rest =>
      let file_path := py.path_join output_folder filename in
      if negb (path_exists disk file_path)
      then scan_files output_folder disk rest content_map
      else
        let file_hash := _get_file_content_hash disk file_path in
        match content_map !! file_hash with
        | Some original_file =>
            let '(files_to_keep, files_to_remove) :=
              scan_files output_folder disk rest content_map in
            (files_to_keep, filename :: files_to_remove)
        | None =>
            let '(files_to_keep, files_to_remove) :=
              scan_files output_folder disk rest
                (<[file_hash := filename]> content_map) in
            (filename :: files_to_keep, files_to_remove)
        end
  end.

(** [os.remove(file_path)] inside [try]/[except]: a path that is not there
    raises, which is caught, and the disk is unchanged. *)
Definition os_remove (disk : gmap string string) (file_path : string)
    : gmap string string :=
  delete file_path disk.

(** The returned list and the disk after the call. *)
Definition remove_duplicate_files (output_folder : string)
    (processed_files : list string) (disk : gmap string string)
    : list string * gmap string string :=
  let '(files_to_keep, files_to_remove) :=
    scan_files output_folder disk processed_files ∅ in
  match files_to_remove with
  | [] => (processed_files, disk)
  | _ :: _ =>
      (files_to_keep,
       foldl (fun disk filename =>
                os_remove disk (py.path_join output_folder filename))
         disk files_to_remove)
  end.

End duplicates.

(** *** _extract_dpc_maps_from_sheet

    The sheet is the frame read with [header=None]; the caller has checked
    that it is there. *)

Section extraction.

(** What [pd.to_numeric] makes of a text cell. *)
Variable parse_float : string -> option Q.

(** [pd.to_numeric(x, errors='coerce')]: [None] is [NaN]. *)
Definition to_numeric (c : cell) : option Q :=
  match c with
  | NaN => None
  | Str s => parse_float s
  | Num q => Some q
  end.

(** [isinstance(val, str) and val.strip().endswith(f'.{profit_center}')] *)
Definition names_profit_center (profit_center : string) (val : cell) : bool :=
  match val with
  | Str s => py.endswith (py.strip s) ("." ++ profit_center)
  | _ => false
  end.

(** The loop over [enumerate(header_row_7)], from index [idx] on. *)
Fixpoint find_target_col (profit_center : string) (idx : nat)
    (header_row_7 : list cell) : option nat :=
  match header_row_7 with
  | [] => None
  | val :: rest =>
      if (idx <? 4)%nat then find_target_col profit_center (S idx) rest
      else if names_profit_center profit_center val then Some idx
      else find_target_col profit_center (S idx) rest
  end.

(** [pd.Series(pd.to_numeric(data.iloc[:, col], errors='coerce').fillna(0).values,
               index=data.iloc[:, 1]).to_dict()] *)
Definition dpc_map (hyperion_dpc_data : frame) (col : nat) : list (cell * Q) :=
  series_to_dict
    ((fun row => (nth 1 row NaN, default 0%Q (to_numeric (nth col row NaN))))
       <$> hyperion_dpc_data).

Definition _extract_dpc_maps_from_sheet (df_sheet : frame)
    (profit_center : string) : list (cell * Q) * list (cell * Q) * Q * Q :=
  if (length df_sheet <? 27)%nat then ([], [], 0%Q, 0%Q)
  else
    let header_row_7 := nth 6 df_sheet [] in
    match find_target_col profit_center 0 header_row_7 with
    | None => ([], [], 0%Q, 0%Q)
    | Some target_col_idx =>
        let prior_year_col_idx := S target_col_idx in
        if (length df_sheet <=? 12)%nat then ([], [], 0%Q, 0%Q)
        else
          let hyperion_data_full := drop 11 df_sheet in
          if frame_empty hyperion_data_full then ([], [], 0%Q, 0%Q)
          else
            let hyperion_dpc_data :=
              take (length hyperion_data_full - 1) hyperion_data_full in
            let last_row_data := List.last hyperion_data_full [] in
            let has_prior := (prior_year_col_idx <? ncols df_sheet)%nat in
            let mtd_map :=
              if frame_empty hyperion_dpc_data then []
              else dpc_map hyperion_dpc_data target_col_idx in
            let py_map :=
              if frame_empty hyperion_dpc_data then []
              else if has_prior then dpc_map hyperion_dpc_data prior_year_col_idx
              else [] in
            let last_row_mtd :=
              default 0%Q (to_numeric (nth target_col_idx last_row_data NaN)) in
            let last_row_py :=
              if has_prior
              then default 0%Q (to_numeric (nth prior_year_col_idx last_row_data NaN))
              else 0%Q in
            (mtd_map, py_map, last_row_mtd, last_row_py)
    end.

End extraction.

(** *** _parse_sales_filename *)

Record sales_file_info := {
  sfi_comp_no : string;
  sfi_unit : string;
  sfi_date_part : string;
  sfi_type : option string
}.

(** [r'Sales_Data_Processed_([A-Z0-9]+)_(\d+)_(\d{4})_([A-Z0-9]+)\.csv'] *)
Definition sales_typed_pattern : re.regex :=
  re.cat [re.Lit "Sales_Data_Processed_"; re.Group (re.Plus re.upper_alnum);
          re.Lit "_"; re.Group (re.Plus re.digit); re.Lit "_";
          re.Group (re.Times 4 re.digit); re.Lit "_";
          re.Group (re.Plus re.upper_alnum); re.Lit ".csv"].

(** [r'Sales_Data_Processed_([A-Z0-9]+)_(\d+)_(\d{4})\.csv'] *)
Definition sales_untyped_pattern : re.regex :=
  re.cat [re.Lit "Sales_Data_Processed_"; re.Group (re.Plus re.upper_alnum);
          re.Lit "_"; re.Group (re.Plus re.digit); re.Lit "_";
          re.Group (re.Times 4 re.digit); re.Lit ".csv"].

Definition _parse_sales_filename (filename : string) : option sales_file_info :=
  match re.search false sales_typed_pattern filename with
  | Some m =>
      Some {| sfi_comp_no := re.group m 2; sfi_unit := re.group m 1;
              sfi_date_part := re.group m 3; sfi_type := Some (re.group m 4) |}
  | None =>
      match re.search false sales_untyped_pattern filename with
      | Some m =>
          Some {| sfi_comp_no := re.group m 2; sfi_unit := re.group m 1;
                  sfi_date_part := re.group m 3; sfi_type := None |}
      | None => None
      end
  end.

(** *** _parse_oe_filename *)

Record oe_file_info := {
  ofi_unit : string;
  ofi_comp_no : string;
  ofi_date_part : string
}.

(** [r'OE_Data_Processed_([A-Z0-9]+)_(\d+)_(\d{4})(\(\d+\))?\.csv'] *)
Definition oe_processed_pattern : re.regex :=
  re.cat [re.Lit "OE_Data_Processed_"; re.Group (re.Plus re.upper_alnum);
          re.Lit "_"; re.Group (re.Plus re.digit); re.Lit "_";
          re.Group (re.Times 4 re.digit);
          re.Opt (re.Group (re.cat [re.Lit "("; re.Plus re.digit; re.Lit ")"]));
          re.Lit ".csv"].

Definition _parse_oe_filename (filename : string) : option oe_file_info :=
  match re.search true oe_processed_pattern filename with
  | Some m =>
      Some {| ofi_unit := re.group m 1; ofi_comp_no := re.group m 2;
              ofi_date_part := re.group m 3 |}
  | None => None
  end.

(** *** generate_oe_validation_data, section 1: the profit center and the
    sheet to check *)

Definition month_num_to_abbr : list (string * string) :=
  [("01", "Jan"); ("02", "Feb"); ("03", "Mar"); ("04", "Apr"); ("05", "May");
   ("06", "Jun"); ("07", "Jul"); ("08", "Aug"); ("09", "Sep"); ("10", "Oct");
   ("11", "Nov"); ("12", "Dec")].

(** [(\(\d+\))?] *)
Definition counter_suffix : re.regex :=
  re.Opt (re.Group (re.cat [re.Lit "("; re.Plus re.digit; re.Lit ")"])).

(** [r'_[A-Z0-9]+_(\d+)_\d{4}(\(\d+\))?\.csv'] *)
Definition oe_single_regex : re.regex :=
  re.cat [re.Lit "_"; re.Plus re.upper_alnum; re.Lit "_";
          re.Group (re.Plus re.digit); re.Lit "_"; re.Times 4 re.digit;
          counter_suffix; re.Lit ".csv"].

(** [[A-Za-z\s()-]] *)
Definition group_name_char (c : ascii) : bool :=
  re.alpha c || py.isspace c || Ascii.eqb c "(" || Ascii.eqb c ")"
  || Ascii.eqb c "-".

(** [r'_Processed_([A-Za-z\s()-]+)_\d{4}(\(\d+\))?\.csv'] *)
Definition oe_grouped_regex : re.regex :=
  re.cat [re.Lit "_Processed_"; re.Group (re.Plus group_name_char);
          re.Lit "_"; re.Times 4 re.digit; counter_suffix; re.Lit ".csv"].

(** [r'_(\d{4})(\(\d+\))?\.csv'] *)
Definition oe_date_regex : re.regex :=
  re.cat [re.Lit "_"; re.Group (re.Times 4 re.digit); counter_suffix;
          re.Lit ".csv"].

Record oe_target := {
  pc_str : string;
  target_date_part : string;
  target_month_abbr : string
}.

(** [d.get(key)] followed by a test of its truth: an empty text counts as
    no entry. *)
Definition get_truthy (d : gmap string string) (key : string) : option string :=
  match d !! key with
  | Some "" | None => None
  | Some v => Some v
  end.

(** The steps before the files are read: [None] where the function returns
    without a sheet. *)
Definition oe_validation_target
    (comp_no_to_oe_map group_to_pc_map : gmap string string)
    (filename : string) : option oe_target :=
  if bool_decide (comp_no_to_oe_map = ∅) then None
  else if bool_decide (group_to_pc_map = ∅) then None
  else
    let pc_str :=
      match re.search true oe_single_regex filename with
      | Some match_single =>
          get_truthy comp_no_to_oe_map (py.strip (re.group match_single 1))
      | None =>
          match re.search true oe_grouped_regex filename with
          | Some match_grouped =>
              get_truthy group_to_pc_map (py.strip (re.group match_grouped 1))
          | None => None
          end
      end in
    match pc_str with
    | None => None
    | Some pc_str =>
        match re.search true oe_date_regex filename with
        | None => None
        | Some m =>
            let date_part := re.group m 1 in
            if String.eqb date_part "" then None
            else
              let month_mm := String.substring 0 2 date_part in
              let month_abbr :=
                default "Sheet1"
                  (snd <$> List.find (fun kv => String.eqb kv.1 month_mm)
                             month_num_to_abbr) in
              Some {| pc_str := pc_str; target_date_part := date_part;
                      target_month_abbr := month_abbr |}
        end
    end.

(** *** _get_pc_and_group_from_filename *)

Definition _get_pc_and_group_from_filename (filename : string)
    (group_to_pc_map : gmap string string)
    (single_file_regex grouped_file_regex : re.regex) : option string * bool :=
  match re.search true single_file_regex filename with
  | Some match_single => (Some (py.strip (re.group match_single 1)), false)
  | None =>
      match re.search true grouped_file_regex filename with
      | Some match_grouped =>
          (get_truthy group_to_pc_map (py.strip (re.group match_grouped 1)),
           true)
      | None => (None, false)
      end
  end.

(** *** generate_sales_validation_data, section 1: the profit center, the
    type and the sheet to check *)

(** [(3RD|IC)] *)
Definition type_group : re.regex :=
  re.Group (re.Alt (re.Lit "3RD") (re.Lit "IC")).

(** [r'_[A-Z0-9]+_(\d+)_\d{4}_(3RD|IC)\.csv'] *)
Definition sales_single_regex : re.regex :=
  re.cat [re.Lit "_"; re.Plus re.upper_alnum; re.Lit "_";
          re.Group (re.Plus re.digit); re.Lit "_"; re.Times 4 re.digit;
          re.Lit "_"; type_group; re.Lit ".csv"].

(** [r'_Processed_([A-Za-z\s()-]+)_\d{4}_(3RD|IC)\.csv'] *)
Definition sales_grouped_regex : re.regex :=
  re.cat [re.Lit "_Processed_"; re.Group (re.Plus group_name_char);
          re.Lit "_"; re.Times 4 re.digit; re.Lit "_"; type_group;
          re.Lit ".csv"].

(** [r'_(\d{4})_3RD\.csv'] and [r'_(\d{4})_IC\.csv'] *)
Definition sales_date_regex (file_type_str : string) : re.regex :=
  re.cat [re.Lit "_"; re.Group (re.Times 4 re.digit);
          re.Lit ("_" ++ file_type_str ++ ".csv")].

Record sales_target := {
  st_pc_str : string;
  st_is_grouped : bool;
  st_file_type_str : string;
  st_date_part : string;
  st_month_abbr : string
}.

(** The steps before the Hyperion file is looked for: [None] where the
    function returns without a sheet. *)
Definition sales_validation_target
    (hyperion_3rd_file_path hyperion_IC_file_path : string)
    (group_to_pc_map : gmap string string) (filename : string)
    : option sales_target :=
  let '(pc_str, is_grouped) :=
    _get_pc_and_group_from_filename filename group_to_pc_map
      sales_single_regex sales_grouped_regex in
  match pc_str with
  | None | Some "" => None
  | Some pc_str =>
      let '(hyperion_file_to_use, file_type_str) :=
        if py.contains "_3RD" (py.upper filename)
        then (hyperion_3rd_file_path, "3RD")
        else if py.contains "_IC" (py.upper filename)
        then (hyperion_IC_file_path, "IC")
        else ("", "") in
      let date_part :=
        if String.eqb file_type_str "" then ""
        else
          match re.search true (sales_date_regex file_type_str) filename with
          | Some m => re.group m 1
          | None => ""
          end in
      if String.eqb hyperion_file_to_use "" || String.eqb date_part ""
         || String.eqb file_type_str ""
      then None
      else
        let month_mm := String.substring 0 2 date_part in
        let month_abbr :=
          default "Sheet1"
            (snd <$> List.find (fun kv => String.eqb kv.1 month_mm)
                       month_num_to_abbr) in
        Some {| st_pc_str := pc_str; st_is_grouped := is_grouped;
                st_file_type_str := file_type_str; st_date_part := date_part;
                st_month_abbr := month_abbr |}
  end.

(** *** group_sales_files *)

(** [(group_name, date_part, file_type)], or [(group_name, date_part)] for a
    file without a type. *)
Definition group_key : Type := string * string * option string.

(** What the first loop does with one file name: [None] keeps it as it is.
    The map holds the texts of the column Grouping Unit. *)
Definition sales_group_key (group_map : gmap string string) (filename : string)
    : option group_key :=
  match _parse_sales_filename filename with
  | None => None
  | Some file_info =>
      let comp_no := sfi_comp_no file_info in
      let group_name :=
        if String.eqb comp_no "" then None else get_truthy group_map comp_no in
      match group_name with
      | None => None
      | Some group_name =>
          match sfi_type file_info with
          | Some (String c t) =>
              Some (group_name, sfi_date_part file_info, Some (String c t))
          | _ => Some (group_name, sfi_date_part file_info, None)
          end
      end
  end.

(** [files_to_group[group_key].append(file_path)], on a dictionary that
    keeps the order in which its keys came. *)
Fixpoint queue (files_to_group : list (group_key * list string))
    (key : group_key) (file_path : string) : list (group_key * list string) :=
  match files_to_group with
  | [] => [(key, [file_path])]
  | (k, file_paths) :: rest =>
      if decide (k = key) then (k, file_paths ++ [file_path])%list :: rest
      else (k, file_paths) :: queue rest key file_path
  end.

(** The first loop, from the state [(files_to_group, final_file_list)]. *)
Definition queue_files (output_folder : string) (group_map : gmap string string)
    (processed_files : list string)
    : list (group_key * list string) * list string :=
  foldl (fun '(files_to_group, final_file_list) filename =>
           match sales_group_key group_map filename with
           | None => (files_to_group, final_file_list ++ [filename])%list
           | Some key =>
               (queue files_to_group key (py.path_join output_folder filename),
                final_file_list)
           end)
    ([], []) processed_files.

Definition new_filename (key : group_key) : string :=
  match key with
  | (group_name, date_part, Some file_type) =>
      "Sales_Data_Processed_" ++ group_name ++ "_" ++ date_part ++ "_"
        ++ file_type ++ ".csv"
  | (group_name, date_part, None) =>
      "Sales_Data_Processed_" ++ group_name ++ "_" ++ date_part ++ ".csv"
  end.

Section grouping.

(** A frame as [pd.read_csv] gives it for the content of a file, and the
    content [to_csv] writes for [pd.concat] of a list of frames; both may
    raise. *)
Variable A : Type.
Variable read_csv : string -> py.result A.
Variable concat_to_csv : list A -> py.result string.

(** The list [df_list] of the files of a group that could be read. *)
Definition read_group (disk : gmap string string) (file_paths : list string)
    : list A :=
  omap (fun f_path =>
          match py.bind (read_file disk f_path) read_csv with
          | py.Return df => Some df
          | py.Raise _ => None
          end) file_paths.

(** One turn of the second loop, from the state [(disk, final_file_list)]. *)
Definition merge_group (output_folder : string)
    (st : gmap string string * list string)
    (entry : group_key * list string) : gmap string string * list string :=
  let '(disk, final_file_list) := st in
  let '(key, file_paths) := entry in
  let new_file_path := py.path_join output_folder (new_filename key) in
  match read_group disk file_paths with
  | [] => (disk, final_file_list)
  | df_list =>
      match concat_to_csv df_list with
      | py.Return content =>
          (foldl os_remove (<[new_file_path := content]> disk) file_paths,
           (final_file_list ++ [new_filename key])%list)
      | py.Raise _ =>
          (disk, (final_file_list ++ (py.basename <$> file_paths))%list)
      end
  end.

(** The disk after the call and the returned list. *)
Definition group_sales_files (output_folder : string)
    (processed_files : list string) (group_map : gmap string string)
    (disk : gmap string string) : gmap string string * list string :=
  if bool_decide (group_map = ∅) then (disk, processed_files)
  else
    let '(files_to_group, final_file_list) :=
      queue_files output_folder group_map processed_files in
    foldl (merge_group output_folder) (disk, final_file_list) files_to_group.

End grouping.

End cleaning_configurations.

(** ** Exchange rates

    [load_currency_rates] returns [df_rates.to_dict('index')]: currency code
    to the two rates of its row.  Rates are numbers; a cell that holds no
    number is outside the model. *)

Record rate_entry := {
  Current_Year_Rate : Q;
  Prev_Year_Rate : Q
}.

(** The three messages [get_cross_rates] can print. *)
Inductive cross_rate_report :=
  | CurrencyNotFound (code : string)
  | DivideByZero (source_curr : string)
  | CalculationFailed.

(** [rates_dict[curr]] *)
Definition rates_getitem (rates_dict : gmap string rate_entry) (curr : string)
    : py.result rate_entry :=
  match rates_dict !! curr with
  | Some entry => py.Return entry
  | None => py.Raise (py.KeyError curr)
  end.

(** [x / y] on floats *)
Definition truediv (x y : Q) : py.result Q :=
  if Qeq_bool y 0 then py.Raise py.ZeroDivisionError else py.Return (x / y)%Q.

(** ** clean_oe.py *)

Module clean_oe.

(** *** load_directory_info

    The directory sheet is a list of rows with the six required columns; a
    cell is modelled by its text, [None] being a blank ([NaN]) cell.  The
    model starts after the workbook has been read and the required columns
    have been found. *)

Record directory_row := {
  Comp_No : label;
  Comp_No_for_OE : label;
  Type_ : label;
  SAP_Comp_Code : label;
  Original_Currency : label;
  Conversion_Currency : label
}.

(** [.astype(str)] *)
Definition astype_str (c : label) : string := default "nan" c.

(** Step 1: [set] of the [Comp_No_for_OE] of the rows whose [Type] matches
    the regular expression ["MO|MOPO"]. *)
Definition comp_numbers_to_process (df_dir : list directory_row) : gset string :=
  let filtered_dir :=
    List.filter (fun r => py.contains "MO" (astype_str (Type_ r))
                          || py.contains "MOPO" (astype_str (Type_ r))) df_dir in
  list_to_set ((fun r => astype_str (Comp_No_for_OE r)) <$> filtered_dir).

(** A row of [df_currencies] after [dropna] and the [astype(str)] of the two
    key columns. *)
Record currency_row := {
  cr_Comp_No_for_OE : string;
  cr_SAP_Comp_Code : string;
  cr_Original_Currency : string;
  cr_Conversion_Currency : string
}.

Global Instance currency_row_eq_dec : EqDecision currency_row.
Proof. solve_decision. Defined.

Definition key_of (r : currency_row) : string * string :=
  (cr_Comp_No_for_OE r, cr_SAP_Comp_Code r).

Definition currencies_of (r : currency_row) : string * string :=
  (cr_Original_Currency r, cr_Conversion_Currency r).

(** [df_dir[key_cols + currency_data_cols].dropna(...)] *)
Definition df_currencies (df_dir : list directory_row) : list currency_row :=
  omap (fun r =>
          match Comp_No_for_OE r, SAP_Comp_Code r,
                Original_Currency r, Conversion_Currency r with
          | Some oe, Some sap, Some orig, Some conv =>
              Some {| cr_Comp_No_for_OE := oe; cr_SAP_Comp_Code := sap;
                      cr_Original_Currency := orig;
                      cr_Conversion_Currency := conv |}
          | _, _, _, _ => None
          end) df_dir.

(** [DataFrame.drop_duplicates()]: the first of equal rows is kept. *)
Definition drop_duplicates {A} `{EqDecision A} (l : list A) : list A :=
  reverse (remove_dups (reverse l)).

(** [df[df.duplicated(subset=key_cols, keep=False)]]: every row whose key
    occurs more than once. *)
Definition duplicated_keys (rows : list currency_row) : list currency_row :=
  filter (fun r => 1 < length (filter (fun r' => key_of r' = key_of r) rows)) rows.

Definition key_le (a b : currency_row) : Prop :=
  match String.compare (cr_Comp_No_for_OE a) (cr_Comp_No_for_OE b) with
  | Lt => True
  | Gt => False
  | Eq => String.le (cr_SAP_Comp_Code a) (cr_SAP_Comp_Code b)
  end.

Global Instance key_le_dec : RelDecision key_le.
Proof.
  intros a b. unfold key_le.
  destruct (String.compare (cr_Comp_No_for_OE a) (cr_Comp_No_for_OE b)); apply _.
Defined.

(** Step 3: [Comp_No -> Comp_No_for_OE], first occurrence of a [Comp_No]
    wins. *)
Definition comp_no_to_oe_map (df_dir : list directory_row) : gmap string string :=
  list_to_map
    (omap (fun r =>
             match Comp_No r, Comp_No_for_OE r with
             | Some c, Some oe => Some (py.strip c, py.strip oe)
             | _, _ => None
             end) df_dir).

(** Result of the load.  [Failed conflicting_data] stands for the return of
    [(None, None, None)] after [conflicting_data] has been printed. *)
Inductive load_result :=
  | Loaded (comp_numbers : gset string)
      (currency_map : gmap (string * string) (string * string))
      (comp_no_to_oe : gmap string string)
  | Failed (conflicting_data : list currency_row).

Definition load_directory_info (df_dir : list directory_row) : load_result :=
  let comp_numbers := comp_numbers_to_process df_dir in
  let rows := drop_duplicates (df_currencies df_dir) in
  let duplicates := duplicated_keys rows in
  match duplicates with
  | _ :: _ =>
      let conflicting_data := merge_sort key_le duplicates in
      Failed conflicting_data
  | [] =>
      let currency_map :=
        list_to_map ((fun r => (key_of r, currencies_of r)) <$> rows) in
      Loaded comp_numbers currency_map (comp_no_to_oe_map df_dir)
  end.

(** *** get_cross_rates *)

Definition cross_rates_body (source_curr target_curr : string)
    (rates_dict : gmap string rate_entry) : py.result (Q * Q) :=
  target ← rates_getitem rates_dict target_curr;
  let target_rate_current := Current_Year_Rate target in
  let target_rate_prev := Prev_Year_Rate target in
  source ← rates_getitem rates_dict source_curr;
  let source_rate_current := Current_Year_Rate source in
  let source_rate_prev := Prev_Year_Rate source in
  cross_rate_current ← truediv target_rate_current source_rate_current;
  cross_rate_prev ← truediv target_rate_prev source_rate_prev;
  py.Return (cross_rate_current, cross_rate_prev).

(** The function returns what it printed together with its value, which is
    [(None, None)] on every handled exception. *)
Definition get_cross_rates (source_curr target_curr : string)
    (rates_dict : gmap string rate_entry)
    : py.result (list cross_rate_report * (option Q * option Q)) :=
  py.try_except
    (rates ← cross_rates_body source_curr target_curr rates_dict;
     py.Return ([], (Some rates.1, Some rates.2)))
    (fun e =>
       match e with
       | py.KeyError code => Some ([CurrencyNotFound code], (None, None))
       | py.ZeroDivisionError => Some ([DivideByZero source_curr], (None, None))
       | _ => Some ([CalculationFailed], (None, None))
       end).

(** *** process_excel_files

    A sheet read with [header=None] is a list of rows of cells.  The batch
    loop is modelled up to the guard on the first cell; the cleaning steps
    after the guard, which end in writing the CSV file, are the parameter
    [clean_and_save] (the classification step among them is [classify]
    below). *)

Abbreviation sheet := (list (list cell)).

(** [df.empty] *)
Definition empty (df : sheet) : bool :=
  match df with
  | [] => true
  | [] :: _ => true
  | _ => false
  end.

(** [df.iloc[0, 0]] of a frame that is not empty *)
Definition iloc_0_0 (df : sheet) : cell :=
  match df with
  | (c :: _) :: _ => c
  | _ => NaN
  end.

(** [not df.empty and isinstance(df.iloc[0, 0], str)
     and "no applicable data found" in df.iloc[0, 0].lower()] *)
Definition no_applicable_data (df : sheet) : bool :=
  negb (empty df) &&
  match iloc_0_0 df with
  | Str s => py.contains "no applicable data found" (py.lower s)
  | _ => false
  end.

(** The groups of the filename pattern
    [Order Entry_MMM_YYYY_Unit_CompNo_Type.xlsx]. *)
Record name_parts := {
  month_abbr : string;
  year_str : string;
  unit : string;
  profit_center : string;
  type_mo : string
}.

(** [datetime.strptime(month_abbr, '%b').month]; the match ignores case and
    raises [ValueError] for anything that is not a month abbreviation. *)
Definition strptime_month (month_abbr : string) : py.result nat :=
  match List.find (fun kv => String.eqb kv.1 (py.lower month_abbr))
          [("jan", 1); ("feb", 2); ("mar", 3); ("apr", 4); ("may", 5);
           ("jun", 6); ("jul", 7); ("aug", 8); ("sep", 9); ("oct", 10);
           ("nov", 11); ("dec", 12)]%nat with
  | Some kv => py.Return kv.2
  | None => py.Raise py.ValueError
  end.

Record input_file := {
  filename : string;
  (** [pd.read_excel(file_path, sheet_name='Sheet1', header=None)] *)
  read_Sheet1 : py.result sheet
}.

Inductive skip_reason :=
  | FilenameDoesNotMatch
  | CompNoNotInDirectory
  | NoApplicableDataFound.

(** What the loop prints for one file. *)
Inductive outcome :=
  | Skipped (why : skip_reason)
  | ErrorProcessing (e : py.exn)
  | Processed (final_output_filename : string).

Section batch.

(** The output folder, and the part of an iteration after the guard. *)
Variable folder : Type.
Variable match_filename : string -> option name_parts.
Variable load_currency_rates : nat -> string -> option (gmap string rate_entry).
Variable clean_and_save :
  gset string -> name_parts -> string -> Q * Q * bool -> sheet -> folder ->
  py.result (folder * string).

Record batch_state := {
  output_folder : folder;
  processed_files : list string;
  rates_cache : gmap (nat * string) (option (gmap string rate_entry))
}.

(** The block "Get Currency Conversion Rates": the cache after it, and
    [(cross_rate_current, cross_rate_prev, conversion_needed)]. *)
Definition conversion_rates
    (currency_map : gmap (string * string) (string * string))
    (rates_cache : gmap (nat * string) (option (gmap string rate_entry)))
    (comp_no_for_oe unit : string) (month_int : nat) (year_str : string)
    : gmap (nat * string) (option (gmap string rate_entry)) * (Q * Q * bool) :=
  match currency_map !! (comp_no_for_oe, unit) with
  | None => (rates_cache, (1, 1, false)%Q)
  | Some (source_curr, target_curr) =>
      if String.eqb source_curr target_curr then (rates_cache, (1, 1, false)%Q)
      else
        let rates_key := (month_int, year_str) in
        let rates_cache :=
          match rates_cache !! rates_key with
          | Some _ => rates_cache
          | None =>
              <[rates_key := load_currency_rates month_int year_str]> rates_cache
          end in
        match rates_cache !! rates_key with
        | Some (Some rates_dict) =>
            if bool_decide (size rates_dict = 0%nat)
            then (rates_cache, (1, 1, false)%Q)
            else
              match get_cross_rates source_curr target_curr rates_dict with
              | py.Return (_, (Some cross_rate_current, Some cross_rate_prev)) =>
                  (rates_cache, (cross_rate_current, cross_rate_prev, true))
              | _ => (rates_cache, (1, 1, false)%Q)
              end
        | _ => (rates_cache, (1, 1, false)%Q)
        end
  end.

(** The body of the [try] block of one iteration.  [inl why] is a
    [continue]. *)
Definition iteration (mo_comp_numbers : gset string)
    (currency_map : gmap (string * string) (string * string))
    (comp_no_to_oe_map : gmap string string)
    (st : batch_state) (file : input_file)
    : batch_state * py.result (skip_reason + string) :=
  match match_filename (filename file) with
  | None => (st, py.Return (inl FilenameDoesNotMatch))
  | Some parts =>
      match strptime_month (month_abbr parts) with
      | py.Raise e => (st, py.Raise e)
      | py.Return month_int =>
          match comp_no_to_oe_map !! profit_center parts with
          | None | Some "" => (st, py.Return (inl CompNoNotInDirectory))
          | Some comp_no_for_oe =>
              let '(cache, rates) :=
                conversion_rates currency_map (rates_cache st) comp_no_for_oe
                  (unit parts) month_int (year_str parts) in
              let st := {| output_folder := output_folder st;
                           processed_files := processed_files st;
                           rates_cache := cache |} in
              match read_Sheet1 file with
              | py.Raise e => (st, py.Raise e)
              | py.Return df =>
                  if no_applicable_data df
                  then (st, py.Return (inl NoApplicableDataFound))
                  else
                    match clean_and_save mo_comp_numbers parts comp_no_for_oe
                            rates df (output_folder st) with
                    | py.Raise e => (st, py.Raise e)
                    | py.Return (folder', final_output_filename) =>
                        ({| output_folder := folder';
                            processed_files :=
                              (processed_files st ++ [final_output_filename])%list;
                            rates_cache := cache |},
                         py.Return (inr final_output_filename))
                    end
              end
          end
      end
  end.

(** One iteration with its [except Exception] handler, which prints the
    error and lets the loop go on. *)
Definition process_file (mo_comp_numbers : gset string)
    (currency_map : gmap (string * string) (string * string))
    (comp_no_to_oe_map : gmap string string)
    (st : batch_state) (file : input_file) : batch_state * outcome :=
  match iteration mo_comp_numbers currency_map comp_no_to_oe_map st file with
  | (st', py.Return (inl why)) => (st', Skipped why)
  | (st', py.Return (inr name)) => (st', Processed name)
  | (st', py.Raise e) => (st', ErrorProcessing e)
  end.

(** [for file_path in excel_files: ...] *)
Fixpoint batch_loop (mo_comp_numbers : gset string)
    (currency_map : gmap (string * string) (string * string))
    (comp_no_to_oe_map : gmap string string)
    (st : batch_state) (excel_files : list input_file)
    : batch_state * list outcome :=
  match excel_files with
  | [] => (st, [])
  | file :: rest =>
      let '(st', o) :=
        process_file mo_comp_numbers currency_map comp_no_to_oe_map st file in
      let '(st'', os) :=
        batch_loop mo_comp_numbers currency_map comp_no_to_oe_map st' rest in
      (st'', o :: os)
  end.

(** The whole function: the folder after the run, what was printed per file,
    and the returned list of written files. *)
Definition process_excel_files (output : folder) (df_dir : list directory_row)
    (excel_files : list input_file) : folder * list outcome * list string :=
  match excel_files with
  | [] => (output, [], [])
  | _ :: _ =>
      match load_directory_info df_dir with
      | Failed _ => (output, [], [])
      | Loaded mo_comp_numbers currency_map comp_no_to_oe_map =>
          let st := {| output_folder := output; processed_files := [];
                       rates_cache := ∅ |} in
          let '(st', outcomes) :=
            batch_loop mo_comp_numbers currency_map comp_no_to_oe_map st
              excel_files in
          (output_folder st', outcomes, processed_files st')
      end
  end.

End batch.

(** *** process_excel_files: the classification block

    The table at this point has the columns ['Sales doc. type'] and
    ['Product/Service'] (the block is skipped otherwise); a row keeps these
    two and the remaining cells. *)

Definition classification_map : list (string * string) :=
  [("mt arm return", "PRODUCT"); ("mt credit memo req", "PRODUCT");
   ("mt debit memo req", "PRODUCT"); ("mt eco order hybris", "PRODUCT");
   ("mt epro order b2b", "PRODUCT"); ("mt standard order", "PRODUCT");
   ("mt rental deb req", "SERVICE"); ("mt svc conf dmr", "SERVICE");
   ("mt svc contract dmr", "SERVICE"); ("pipette svc order", "SERVICE");
   ("mt free of charge", "SERVICE"); ("mt int cred memo req", "PRODUCT")].

Record doc_row := {
  Sales_doc_type : cell;
  Product_Service : cell;
  other_columns : list cell
}.

Inductive classify_message :=
  | UnmappedDocTypes (unmapped_types : list string)
  | AllDocTypesMapped
  | RowsDefaulted (unmapped_count : nat) (sample_preview : list doc_row)
  | RemovingNoneRows (none_count : nat)
  | NoRowsDefaulted.

Section classification.

(** [str(x)] of a number. *)
Variable float_repr : Q -> string.

Definition cell_astype_str (c : cell) : string :=
  match c with
  | NaN => "nan"
  | Str s => s
  | Num q => float_repr q
  end.

(** [df[doc_type_col].astype(str).str.strip().str.lower()] *)
Definition source_series (r : doc_row) : string :=
  py.lower (py.strip (cell_astype_str (Sales_doc_type r))).

(** [source_series.map(classification_map)] *)
Definition mapped_series (r : doc_row) : option string :=
  dict_get classification_map (source_series r).

(** [df[product_service_col] = mapped_series.fillna('Product')] *)
Definition classified (r : doc_row) : doc_row :=
  {| Sales_doc_type := Sales_doc_type r;
     Product_Service := Str (default "Product" (mapped_series r));
     other_columns := other_columns r |}.

Definition unmapped_types_of (df : list doc_row) : list string :=
  let unique_doc_types := drop_duplicates (source_series <$> df) in
  let normalized_map_keys := fst <$> classification_map in
  List.filter (fun t => negb (String.eqb t "")
                        && negb (bool_decide (t ∈ normalized_map_keys)))
    unique_doc_types.

(** The table after the block, and what the block printed. *)
Definition classify (df : list doc_row) : list doc_row * list classify_message :=
  let unmapped_types := unmapped_types_of df in
  let types_message :=
    match unmapped_types with
    | [] => AllDocTypesMapped
    | _ :: _ => UnmappedDocTypes unmapped_types
    end in
  let unmapped_rows := filter (fun r => mapped_series r = None) df in
  let unmapped_count := length unmapped_rows in
  if (0 <? unmapped_count)%nat then
    let sample_preview := take 20 (classified <$> unmapped_rows) in
    let defaulted_message := RowsDefaulted unmapped_count sample_preview in
    if bool_decide ("none" ∈ (py.lower <$> unmapped_types)) then
      let none_count := length (filter (fun r => source_series r = "none") df) in
      if (0 <? none_count)%nat then
        (classified <$> filter (fun r => source_series r ≠ "none") df,
         [types_message; defaulted_message; RemovingNoneRows none_count])
      else (classified <$> df, [types_message; defaulted_message])
    else (classified <$> df, [types_message; defaulted_message])
  else (classified <$> df, [types_message; NoRowsDefaulted]).

End classification.

(** [df[df[product_service_col] != 'SERVICE']], the step after the
    classification block: [cell_is c s] is [c == s] for a cell and a string. *)
Definition cell_is (c : cell) (s : string) : bool :=
  match c with
  | Str t => String.eqb t s
  | _ => false
  end.

Definition remove_service (df : list doc_row) : list doc_row :=
  List.filter (fun r => negb (cell_is (Product_Service r) "SERVICE")) df.

(** *** process_excel_files: the names of the input and the output file *)

(** [r'Order Entry_([A-Za-z]{3})_(\d{4})_([A-Z0-9]+)_(\d+)_([A-Z0-9]+)\.xlsx'] *)
Definition order_entry_pattern : re.regex :=
  re.cat [re.Lit "Order Entry_"; re.Group (re.Times 3 re.alpha); re.Lit "_";
          re.Group (re.Times 4 re.digit); re.Lit "_";
          re.Group (re.Plus re.upper_alnum); re.Lit "_";
          re.Group (re.Plus re.digit); re.Lit "_";
          re.Group (re.Plus re.upper_alnum); re.Lit ".xlsx"].

(** [re.search(..., filename, re.IGNORECASE)] and [match.groups()] *)
Definition match_order_entry (filename : string) : option name_parts :=
  match re.search true order_entry_pattern filename with
  | Some m =>
      Some {| month_abbr := re.group m 1; year_str := re.group m 2;
              unit := re.group m 3; profit_center := re.group m 4;
              type_mo := re.group m 5 |}
  | None => None
  end.

Definition month_map : list (string * string) :=
  [("Jan", "01"); ("Feb", "02"); ("Mar", "03"); ("Apr", "04"); ("May", "05");
   ("Jun", "06"); ("Jul", "07"); ("Aug", "08"); ("Sep", "09"); ("Oct", "10");
   ("Nov", "11"); ("Dec", "12")].

(** [month_map.get(month_abbr, 'MM')] *)
Definition month_mm (month_abbr : string) : string :=
  default "MM"
    (snd <$> List.find (fun kv => String.eqb kv.1 month_abbr) month_map).

Definition date_part (parts : name_parts) : string :=
  month_mm (month_abbr parts) ++ py.last2 (year_str parts).

Definition base_output_filename (parts : name_parts) : string :=
  "OE_Data_Processed_" ++ unit parts ++ "_" ++ profit_center parts ++ "_"
    ++ date_part parts ++ ".csv".

Section output_name.

Variable disk : gmap string string.
Variable output_folder : string.

(** [while os.path.exists(output_path): ...], from the state
    [(final_output_filename, counter)]; [None] when the fuel runs out. *)
Fixpoint while_exists (base_output_filename : string) (fuel : nat)
    (final_output_filename : string) (counter : nat) : option string :=
  match fuel with
  | O => None
  | S fuel' =>
      if cleaning_configurations.path_exists disk (py.path_join output_folder final_output_filename)
      then
        let '(base_name, extension) := py.splitext base_output_filename in
        while_exists base_output_filename fuel'
          (base_name ++ "(" ++ pretty counter ++ ")" ++ extension) (S counter)
      else Some final_output_filename
  end.

(** The name the file is written under.  Two more steps than there are files
    on the disk are enough for the loop to end. *)
Definition final_output_filename (base_output_filename : string)
    : option string :=
  while_exists base_output_filename (S (S (size disk))) base_output_filename 1.

End output_name.

End clean_oe.

(** ** clean_sales.py *)

Module clean_sales.

(** *** get_cross_rates *)

Definition cross_rates_body (source_curr target_curr : string)
    (rates_dict : gmap string rate_entry) : py.result (Q * Q) :=
  target ← rates_getitem rates_dict target_curr;
  let target_rate_current := Current_Year_Rate target in
  let target_rate_prev := Prev_Year_Rate target in
  source ← rates_getitem rates_dict source_curr;
  let source_rate_current := Current_Year_Rate source in
  let source_rate_prev := Prev_Year_Rate source in
  cross_rate_current ← truediv target_rate_current source_rate_current;
  cross_rate_prev ← truediv target_rate_prev source_rate_prev;
  py.Return (cross_rate_current, cross_rate_prev).

(** The function returns what it printed together with its value, which is
    [(None, None)] on every handled exception. *)
Definition get_cross_rates (source_curr target_curr : string)
    (rates_dict : gmap string rate_entry)
    : py.result (list cross_rate_report * (option Q * option Q)) :=
  py.try_except
    (rates ← cross_rates_body source_curr target_curr rates_dict;
     py.Return ([], (Some rates.1, Some rates.2)))
    (fun e =>
       match e with
       | py.KeyError code => Some ([CurrencyNotFound code], (None, None))
       | py.ZeroDivisionError => Some ([DivideByZero source_curr], (None, None))
       | _ => Some ([CalculationFailed], (None, None))
       end).

(** *** process_files_to_csv: routing by entity type and row segregation

    The model starts from the cleaned frame of one file ([df_cleaned], read
    with [header=None], so row 0 holds the sheet's own header and columns are
    addressed by position) and returns the files the iteration writes. *)

Record file_parts := {
  unit_name : string;
  comp_no : option string;
  month_part : string;
  year_part_short : string;
  sales_col : string;
  py_col : string
}.

Record csv_file := {
  output_filename : string;
  columns : list string;
  data : list (list cell)
}.

Definition base_headers : list string :=
  ["Product/Service"; "P1-Division"; "P2-DPC"; "P3-SBU"; "P4-SPG";
   "Customer Group"; "Holding"; "Distribution Channel"; "Sales doc. type"].

Section segregation.

(** [str(x)] of a number, and the parser behind [pd.to_numeric]. *)
Variable float_repr : Q -> string.
Variable parse_float : string -> option Q.

Definition cell_astype_str (c : cell) : string :=
  match c with
  | NaN => "nan"
  | Str s => s
  | Num q => float_repr q
  end.

(** [pd.to_numeric(x, errors='coerce')] followed by [.fillna(0)] *)
Definition to_numeric_fillna0 (c : cell) : Q :=
  match c with
  | NaN => 0%Q
  | Str s => default 0%Q (parse_float s)
  | Num q => q
  end.

(** The frame's rows with their index labels. *)
Definition indexed (df : list (list cell)) : list (nat * list cell) :=
  imap (fun i row => (i, row)) df.

(** Column L of a row: [df[11]]. *)
Definition column_11 (row : list cell) : cell := nth 11 row NaN.

(** [df[11].astype(str).str.strip() == seg_type] *)
Definition tag_equals (seg_type : string) (row : list cell) : bool :=
  String.eqb (py.strip (cell_astype_str (column_11 row))) seg_type.

(** [df[11].astype(str).str.contains("3RD", na=False)] *)
Definition tag_contains_3RD (row : list cell) : bool :=
  py.contains "3RD" (cell_astype_str (column_11 row)).

(** [.iloc[:, list(range(2, 11)) + [12, 14]]]: columns C-K, M and O.  A
    position the frame does not have raises [IndexError], which is [None]
    here. *)
Definition final_columns_indices : list nat :=
  (seq 2 9 ++ [12; 14])%list%nat.

Definition select_final_columns (row : list cell) : option (list cell) :=
  mapM (fun i => row !! i) final_columns_indices.

Definition iloc_final_columns (df : list (list cell))
    : option (list (list cell)) :=
  mapM select_final_columns df.

(** The conversion of the two amount columns (positions 9 and 10 of the final
    frame), applied when a rate differs from 1. *)
Definition convert_row (cross_rate_current cross_rate_prev : Q)
    (row : list cell) : list cell :=
  if Qeq_bool cross_rate_current 1 && Qeq_bool cross_rate_prev 1 then row
  else
    <[10 := Num (to_numeric_fillna0 (nth 10 row NaN) * cross_rate_prev)]>
      (<[9 := Num (to_numeric_fillna0 (nth 9 row NaN) * cross_rate_current)]> row).

(** Steps 3 and 4 on the selected columns: drop the original header row,
    convert. *)
Definition finalize (cross_rate_current cross_rate_prev : Q)
    (df_final : list (list cell)) : list (list cell) :=
  let df_final := drop 1 df_final in
  convert_row cross_rate_current cross_rate_prev <$> df_final.

Definition fixed_headers (file_parts : file_parts) : list string :=
  (base_headers ++ [sales_col file_parts; py_col file_parts])%list.

Definition segregated_filename (file_parts : file_parts) (seg_type : string)
    : string :=
  "Sales_Data_Processed_" ++ unit_name file_parts ++ "_"
    ++ default "None" (comp_no file_parts) ++ "_"
    ++ month_part file_parts ++ year_part_short file_parts ++ "_"
    ++ seg_type ++ ".csv".

(** One iteration of the loop over [types_to_create]: [None] is a
    [continue]. *)
Definition segregate_one (df : list (list cell)) (file_parts : file_parts)
    (cross_rate_current cross_rate_prev : Q) (seg_type : string)
    : option csv_file :=
  let df_segregated :=
    snd <$> List.filter (fun ir => (ir.1 =? 0)%nat || tag_equals seg_type ir.2)
              (indexed df) in
  if (length df_segregated <=? 1)%nat then None
  else
    match iloc_final_columns df_segregated with
    | None => None
    | Some df_final =>
        let df_final := finalize cross_rate_current cross_rate_prev df_final in
        match df_final with
        | [] => None
        | _ :: _ =>
            Some {| output_filename := segregated_filename file_parts seg_type;
                    columns := fixed_headers file_parts;
                    data := df_final |}
        end
    end.

Definition _process_segregated_file (df : list (list cell))
    (file_parts : file_parts) (types_to_create : list string)
    (cross_rate_current cross_rate_prev : Q) : list csv_file :=
  omap (segregate_one df file_parts cross_rate_current cross_rate_prev)
    types_to_create.

Definition fallback_filename (file_parts : file_parts) : string :=
  match comp_no file_parts with
  | Some c =>
      if String.eqb c "" then
        "Sales_Data_Processed_" ++ unit_name file_parts ++ "_"
          ++ month_part file_parts ++ year_part_short file_parts ++ ".csv"
      else
        "Sales_Data_Processed_" ++ unit_name file_parts ++ "_" ++ c ++ "_"
          ++ month_part file_parts ++ year_part_short file_parts ++ ".csv"
  | None =>
      "Sales_Data_Processed_" ++ unit_name file_parts ++ "_"
        ++ month_part file_parts ++ year_part_short file_parts ++ ".csv"
  end.

Definition _process_3rd_only_file (df : list (list cell))
    (file_parts : file_parts) (cross_rate_current cross_rate_prev : Q)
    : list csv_file :=
  let df_filtered :=
    snd <$> List.filter (fun ir => (ir.1 =? 0)%nat || tag_contains_3RD ir.2)
              (indexed df) in
  if (length df_filtered <=? 1)%nat then []
  else
    match iloc_final_columns df_filtered with
    | None => []
    | Some df_final =>
        let df_final := finalize cross_rate_current cross_rate_prev df_final in
        match df_final with
        | [] => []
        | _ :: _ =>
            [ {| output_filename := fallback_filename file_parts;
                 columns := fixed_headers file_parts;
                 data := df_final |} ]
        end
    end.

(** Step E of the loop body: [Some types_to_create] when the file is
    processed with segregation. *)
Definition route (comp_type_map : gmap string string) (comp_no : option string)
    : option (list string) :=
  match comp_no with
  | None => None
  | Some c =>
      if String.eqb c "" then None
      else
        match comp_type_map !! c with
        | Some comp_type =>
            if String.eqb comp_type "MO" then Some ["3RD"]
            else if String.eqb comp_type "PO" then Some ["IC"]
            else if String.eqb comp_type "MOPO" then Some ["3RD"; "IC"]
            else None
        | None => None
        end
  end.

Definition process_cleaned_file (comp_type_map : gmap string string)
    (df_cleaned : list (list cell)) (file_parts : file_parts)
    (cross_rate_current cross_rate_prev : Q) : list csv_file :=
  match route comp_type_map (comp_no file_parts) with
  | Some types_to_create =>
      _process_segregated_file df_cleaned file_parts types_to_create
        cross_rate_current cross_rate_prev
  | None =>
      _process_3rd_only_file df_cleaned file_parts
        cross_rate_current cross_rate_prev
  end.

End segregation.

(** *** _clean_dataframe *)

Section cleaning.

Variable float_repr : Q -> string.

(** [df.replace({r'\n': ' '}, regex=True)], on one cell *)
Definition newline_to_space (c : cell) : cell :=
  match c with
  | Str s => Str (py.replace1 "010" " " s)
  | _ => c
  end.

(** [.astype(str).str.replace('#', 'non-holding', regex=False)] *)
Definition non_holding (c : cell) : cell :=
  Str (py.replace1 "#" "non-holding" (cell_astype_str float_repr c)).

(** [.astype(str).replace('Std Industrial', 'Standard Industrial',
    regex=False)]: the whole value is compared. *)
Definition standard_industrial (c : cell) : cell :=
  let s := cell_astype_str float_repr c in
  Str (if String.eqb s "Std Industrial" then "Standard Industrial" else s).

Definition safe_replace (cell_value : cell) : cell :=
  match cell_value with
  | Str s => Str (py.replace1 "," "_" (py.replace1 "/" "_" s))
  | _ => cell_value
  end.

Definition _clean_dataframe (df : list (list cell)) : list (list cell) :=
  let df_cleaned : list (list cell) := fmap (M := list) newline_to_space <$> df in
  let df_cleaned : list (list cell) :=
    if (8 <? ncols df_cleaned)%nat
    then alter non_holding 8 <$> df_cleaned else df_cleaned in
  let df_cleaned : list (list cell) :=
    if (4 <? ncols df_cleaned)%nat
    then alter standard_industrial 4 <$> df_cleaned else df_cleaned in
  if (1 <? length df_cleaned)%nat
  then (take 1 df_cleaned ++ (fmap (M := list) safe_replace <$> drop 1 df_cleaned))%list
  else df_cleaned.

End cleaning.

(** *** _get_headers_and_parts *)

(** [r'^Sales_([A-Z0-9]+)_(\d+)_(\d{2})_(\d{4})$'], searched from the start
    of the text only *)
Definition sales_name_pattern : re.regex :=
  re.cat [re.Lit "Sales_"; re.Group (re.Plus re.upper_alnum); re.Lit "_";
          re.Group (re.Plus re.digit); re.Lit "_";
          re.Group (re.Times 2 re.digit); re.Lit "_";
          re.Group (re.Times 4 re.digit); re.Eos].

(** [r'_([A-Z0-9]+)_(\d{2})_(\d{4})$'] *)
Definition old_name_pattern : re.regex :=
  re.cat [re.Lit "_"; re.Group (re.Plus re.upper_alnum); re.Lit "_";
          re.Group (re.Times 2 re.digit); re.Lit "_";
          re.Group (re.Times 4 re.digit); re.Eos].

(** [calendar.month_abbr], in the C locale *)
Definition month_abbr : list string :=
  [""; "Jan"; "Feb"; "Mar"; "Apr"; "May"; "Jun"; "Jul"; "Aug"; "Sep"; "Oct";
   "Nov"; "Dec"].

(** The name components of an input file, and the two headers made of them.
    [now_month] and [now_year] are those of [datetime.now()]; [None] is the
    [IndexError] of [calendar.month_abbr] for a month above 12.  Of the
    dictionary the function returns, the record keeps the entries the later
    steps read. *)
Definition _get_headers_and_parts (now_month now_year : nat) (filename : string)
    : option file_parts :=
  let base_name := (py.splitext filename).1 in
  let '(unit_name, comp_no, month_part, year_part_short, month_int, year_int) :=
    match re.match_ true sales_name_pattern base_name with
    | Some m =>
        (py.upper (re.group m 1), Some (re.group m 2), re.group m 3,
         py.last2 (re.group m 4), py.int (re.group m 3), py.int (re.group m 4))
    | None =>
        match re.search true old_name_pattern base_name with
        | Some m =>
            (py.upper (re.group m 1), None, re.group m 2,
             py.last2 (re.group m 3), py.int (re.group m 2),
             py.int (re.group m 3))
        | None =>
            ("UnknownUnit", None, py.format_02d now_month,
             py.last2 (py.format_02d now_year), now_month, now_year)
        end
    end in
  match month_abbr !! month_int with
  | None => None
  | Some abbr =>
      Some {| unit_name := unit_name; comp_no := comp_no;
              month_part := month_part; year_part_short := year_part_short;
              sales_col := "Sales " ++ py.upper abbr ++ " " ++ pretty year_int;
              py_col := "PY Sales " ++ py.upper abbr ++ " "
                          ++ pretty (Z.of_nat year_int - 1)%Z |}
  end.

End clean_sales.


(** ** The comparisons a validation report makes

    Every row of a validation sheet records two comparisons, one for the
    current period and one for the prior period. *)

Record comparison := {
  cmp_truth : float;
  cmp_subject : float;
  cmp_difference : float;
  cmp_status : string
}.

Definition sales_comparisons (r : cleaning_configurations.sales_validation_row)
    : list comparison :=
  [ {| cmp_truth := cleaning_configurations.sv_Hyperion_actual r;
       cmp_subject := cleaning_configurations.sv_BI_actual r;
       cmp_difference := cleaning_configurations.sv_Difference_actual r;
       cmp_status := cleaning_configurations.sv_Status_actual r |};
    {| cmp_truth := cleaning_configurations.sv_Hyperion_prior r;
       cmp_subject := cleaning_configurations.sv_BI_prior r;
       cmp_difference := cleaning_configurations.sv_Difference_prior r;
       cmp_status := cleaning_configurations.sv_Status_prior r |} ].

Definition oe_comparisons (r : cleaning_configurations.oe_validation_row)
    : list comparison :=
  [ {| cmp_truth := cleaning_configurations.ov_Hyperion_MTD r;
       cmp_subject := cleaning_configurations.ov_BI_MTD r;
       cmp_difference := cleaning_configurations.ov_Difference_MTD r;
       cmp_status := cleaning_configurations.ov_Status_MTD r |};
    {| cmp_truth := cleaning_configurations.ov_Hyperion_PY r;
       cmp_subject := cleaning_configurations.ov_BI_PY r;
       cmp_difference := cleaning_configurations.ov_Difference_PY r;
       cmp_status := cleaning_configurations.ov_Status_PY r |} ].

Definition pex_comparisons (r : cleaning_configurations.pex_validation_row)
    : list comparison :=
  [ {| cmp_truth := cleaning_configurations.pv_Hyperion_actual r;
       cmp_subject := cleaning_configurations.pv_BI_actual r;
       cmp_difference := cleaning_configurations.pv_Difference_actual r;
       cmp_status := cleaning_configurations.pv_Status_actual r |};
    {| cmp_truth := cleaning_configurations.pv_Hyperion_prior r;
       cmp_subject := cleaning_configurations.pv_BI_prior r;
       cmp_difference := cleaning_configurations.pv_Difference_prior r;
       cmp_status := cleaning_configurations.pv_Status_prior r |} ].

Definition sales_key (r : cleaning_configurations.sales_validation_row)
    : cleaning_configurations.group3 :=
  (cleaning_configurations.sv_Product_Service r,
   cleaning_configurations.sv_Division r,
   cleaning_configurations.sv_DPC r).

(** The status rule, on the difference a comparison records: "Matching" when
    its absolute value is at most 5.0 and "Not Matching" when it is not. *)
Definition within_tolerance (difference : float) : bool :=
  (PrimFloat.abs difference <=? 5)%float.

(** What a comparison records for a truth amount given in thousands and a
    subject amount: the truth amount times 1000, the subject amount as it
    is, their difference as floats, and the status that follows the rule; in
    particular a difference of 5.0 is "Matching" and one of 5.01 is not. *)
Definition compares (c : comparison) (truth subject : float) : Prop :=
  cmp_truth c = (truth * 1000)%float ∧
  cmp_subject c = subject ∧
  cmp_difference c = (cmp_truth c - cmp_subject c)%float ∧
  (cmp_status c = "Matching" ↔ within_tolerance (cmp_difference c) = true) ∧
  (cmp_status c = "Not Matching" ↔ within_tolerance (cmp_difference c) = false) ∧
  (cmp_difference c = 5%float → cmp_status c = "Matching") ∧
  (cmp_difference c = 5.01%float → cmp_status c = "Not Matching").

(** A comparison for a key the subject side does not have: subject 0, the
    scaled truth amount as difference. *)
Definition subject_missing (c : comparison) (truth : float) : Prop :=
  cmp_subject c = 0%float ∧
  cmp_truth c = (truth * 1000)%float ∧
  cmp_difference c = (truth * 1000)%float ∧
  (cmp_status c = "Not Matching" ↔ within_tolerance (truth * 1000)%float = false) ∧
  (cmp_status c = "Matching" ↔ within_tolerance (truth * 1000)%float = true).

(** A comparison for a key the truth side does not have: truth 0, and 0
    minus the subject amount as difference. *)
Definition truth_missing (c : comparison) (subject : float) : Prop :=
  cmp_truth c = 0%float ∧
  cmp_subject c = subject ∧
  cmp_difference c = (0 - subject)%float ∧
  (cmp_status c = "Not Matching" ↔ within_tolerance subject = false) ∧
  (cmp_status c = "Matching" ↔ within_tolerance subject = true).

(** The plain sum of a list of floats, added from left to right, as
    [sum(values)] does. *)
Definition float_sum (values : list float) : float :=
  foldl PrimFloat.add 0%float values.

(** The keys the OE comparison loop runs over: those of the BI maps and
    the translated keys of the Hyperion maps. *)
Definition oe_keys (bm bp : gmap string float)
    (hm hp : gmap dict_key float)
    : gset dict_key :=
  set_map KStr (dom bm ∪ dom bp : gset string)
    ∪ set_map cleaning_configurations.hyperion_to_bi_key
        (dom hm ∪ dom hp : gset dict_key).

(** The keys cannot be sorted: a text among them, and a blank or a number. *)
Definition mixed_keys (keys : gset dict_key) : Prop :=
  (∃ k, k ∈ keys ∧ is_text k = true) ∧ (∃ k, k ∈ keys ∧ is_text k = false).

(** What one iteration of the adjustment loop appends, when it does not
    raise. *)
Definition adjustment_of (series_sum : list float → float)
    (bi_df : list cleaning_configurations.oe_row)
    (hyperion_dpc_map_py : gmap dict_key float) (item : dict_key * float)
    : option cleaning_configurations.oe_row :=
  match cleaning_configurations.adjustment_for series_sum bi_df
          hyperion_dpc_map_py item with
  | py.Return found => found
  | py.Raise _ => None
  end.

(** A sheet whose first cell is a string containing the phrase
    "no applicable data found" in some letter case. *)
Definition sentinel_sheet (df : clean_oe.sheet) : Prop :=
  ∃ s row rest phrase,
    df = (Str s :: row) :: rest ∧
    py.lower phrase = "no applicable data found" ∧
    py.contains phrase s = true.


(** Columns C to K, M and O of a row of a sheet that reaches column O. *)
Definition selected_columns (row : list cell) : list cell :=
  (fun i => nth i row NaN) <$> clean_sales.final_columns_indices.

(** A sheet that has column O (index 14); the pipeline skips any other. *)
Definition has_column_O (df : list (list cell)) : Prop :=
  Forall (fun row => (15 ≤ length row)%nat) df.

(** The file a sales input yields for one tag: none when no data row carries
    the tag, else one file holding the selected (and converted) columns of
    the rows carrying it. *)
Definition segregated_output (float_repr : Q -> string)
    (parse_float : string -> option Q) (file_parts : clean_sales.file_parts)
    (cross_rate_current cross_rate_prev : Q) (rows : list (list cell))
    (seg_type : string) : list clean_sales.csv_file :=
  let kept := List.filter (clean_sales.tag_equals float_repr seg_type) rows in
  match kept with
  | [] => []
  | _ :: _ =>
      [ {| clean_sales.output_filename :=
             clean_sales.segregated_filename file_parts seg_type;
           clean_sales.columns := clean_sales.fixed_headers file_parts;
           clean_sales.data :=
             clean_sales.convert_row parse_float cross_rate_current cross_rate_prev
               <$> (selected_columns <$> kept) |} ]
  end.

(** The file the fallback yields: the rows whose tag contains "3RD". *)
Definition fallback_output (float_repr : Q -> string)
    (parse_float : string -> option Q) (file_parts : clean_sales.file_parts)
    (cross_rate_current cross_rate_prev : Q) (rows : list (list cell))
    : list clean_sales.csv_file :=
  let kept := List.filter (clean_sales.tag_contains_3RD float_repr) rows in
  match kept with
  | [] => []
  | _ :: _ =>
      [ {| clean_sales.output_filename := clean_sales.fallback_filename file_parts;
           clean_sales.columns := clean_sales.fixed_headers file_parts;
           clean_sales.data :=
             clean_sales.convert_row parse_float cross_rate_current cross_rate_prev
               <$> (selected_columns <$> kept) |} ]
  end.


(** Among the listed files found on disk, [f] is the first with its content
    hash: no file listed before it that is on disk has the same hash. *)
Definition first_occurrence (hash : string -> string) (here : string -> Prop)
    (files : list string) (f : string) : Prop :=
  ∃ l1 l2, files = (l1 ++ f :: l2)%list ∧ here f ∧
           ∀ g, g ∈ l1 → here g → hash g ≠ hash f.

(** [f] is on disk and some file listed before it, also on disk, has the
    same content hash. *)
Definition later_occurrence (hash : string -> string) (here : string -> Prop)
    (files : list string) (f : string) : Prop :=
  ∃ l1 l2, files = (l1 ++ f :: l2)%list ∧ here f ∧
           ∃ g, g ∈ l1 ∧ here g ∧ hash g = hash f.


(** The names a list of outcomes reports as written. *)
Definition written_names (outcomes : list clean_oe.outcome) : list string :=
  omap (fun o => match o with clean_oe.Processed name => Some name | _ => None end)
    outcomes.


(** The value a dict built from [items] holds for a text key: that of the
    last item with the key. *)
Definition last_value {V} (items : list (cell * V)) (s : string) : option V :=
  snd <$> last (List.filter (fun kv => cell_eqb kv.1 (Str s)) items).

(** No two keys of a dict are equal. *)
Definition distinct_keys (keys : list cell) : Prop :=
  ∀ i j a b, keys !! i = Some a → keys !! j = Some b →
             cell_eqb a b = true → i = j.

(** ** Words over a character class *)

(** Every character of [s] is in the class [p]. *)
Fixpoint all_in (p : ascii -> bool) (s : string) : bool :=
  match s with
  | EmptyString => true
  | String c s' => p c && all_in p s'
  end.

(** A word over [p]: at least one character, and all of them in [p]. *)
Definition word_of (p : ascii -> bool) (s : string) : Prop :=
  s ≠ "" ∧ all_in p s = true.

(** A string stops the class [p]: it is empty or starts outside it. *)
Definition stops (ic : bool) (p : ascii → bool) (s : string) : Prop :=
  match s with
  | EmptyString => True
  | String c _ => re.in_class ic p c = false
  end.

(** Two neighbouring characters [a], [b] somewhere in [s]. *)
Fixpoint has_pair (ic : bool) (a b : ascii) (s : string) : bool :=
  match s with
  | String c s' =>
      (re.char_eqb ic a c &&
       match s' with
       | String d _ => re.char_eqb ic b d
       | EmptyString => false
       end) || has_pair ic a b s'
  | EmptyString => false
  end.

(** The end of a processed file name: the extension, after a counter or
    not. *)
Definition name_end (s : string) : Prop :=
  s = ".csv" ∨ ∃ n, word_of re.digit n ∧ s = "(" ++ n ++ ")" ++ ".csv".

(** A character that is neither a dot nor a path separator. *)
Definition plain (c : ascii) : bool :=
  negb (Ascii.eqb c ".") && negb (Ascii.eqb c "/").

(** No character of [s] is [a]. *)
Definition free_of (a : ascii) (s : string) : bool :=
  all_in (fun c => negb (Ascii.eqb c a)) s.

(** A text of ASCII characters: [s.isascii()]. *)
Definition isascii (s : string) : bool :=
  all_in (fun c => (Ascii.nat_of_ascii c <? 128)%nat) s.

(** No character of [s] is an underscore. *)
Definition no_underscore (s : string) : bool :=
  all_in (fun c => negb (re.char_eqb true "_" c)) s.

(** A type tag right before a dot: "D." or "C.", in any case. *)
Definition has_type_dot (s : string) : bool :=
  has_pair true "D" "." s || has_pair true "C" "." s.

(** * Theorems *)

Import cleaning_configurations.

Section StatusRule.

Lemma elem_of_merge_sort {A} (R : relation A) `{∀ x y, Decision (R x y)}
    (l : list A) (x : A) :
  x ∈ merge_sort R l ↔ x ∈ l.
Proof. by rewrite merge_sort_Permutation. Qed.

Lemma status_of_cases d :
  status_of d = "Matching" ∨ status_of d = "Not Matching".
Proof. unfold status_of. destruct (_ <=? _)%float; auto. Qed.

Lemma status_of_matching d :
  status_of d = "Matching" ↔ within_tolerance d = true.
Proof.
  unfold status_of, within_tolerance, variance.
  destruct (_ <=? _)%float; split; done.
Qed.

Lemma status_of_not_matching d :
  status_of d = "Not Matching" ↔ within_tolerance d = false.
Proof.
  unfold status_of, within_tolerance, variance.
  destruct (_ <=? _)%float; split; done.
Qed.

Lemma compares_intro (c : comparison) (truth subject : float) :
  cmp_truth c = (truth * 1000)%float →
  cmp_subject c = subject →
  cmp_difference c = (cmp_truth c - cmp_subject c)%float →
  cmp_status c = status_of (cmp_difference c) →
  compares c truth subject.
Proof.
  intros Ht Hs Hd Hst. unfold compares. rewrite Hst.
  split_and!; try done.
  - apply status_of_matching.
  - apply status_of_not_matching.
  - intros ->. reflexivity.
  - intros ->. reflexivity.
Qed.

Lemma sales_key_row bi hyp k : sales_key (sales_row_for bi hyp k) = k.
Proof. by destruct k as [[??]?]. Qed.

Lemma oe_compare_rows sorted_floats bm bp sm sp hm hp lm lp rows :
  oe_compare sorted_floats bm bp sm sp hm hp lm lp = py.Return rows →
  ∃ compared,
    compared ≠ [] ∧
    Forall (fun k => k ≠ KNaN) compared ∧
    rows = ((oe_row_for bm bp hm hp <$> compared)
            ++ [oe_service_row sm sp lm lp])%list.
Proof.
  unfold oe_compare. cbv zeta. intros H.
  destruct (sorted_keys _ _) as [keys | e]; simpl in H; [| discriminate].
  destruct (omap oe_compared_key keys) as [| k0 ks] eqn:E; [discriminate |].
  injection H as <-. exists (k0 :: ks). split_and!; [done | | done].
  rewrite <- E. apply Forall_forall. intros k (k' & _ & Hk)%list_elem_of_omap.
  destruct k' as [| s | x]; simpl in Hk; [done | | by simplify_eq].
  repeat case_match; by simplify_eq.
Qed.

(** C1. In every validation sheet, each row records for each of its two
    periods the Hyperion amount of its key times 1000 as truth, the BI amount
    of its key as subject (0 for a key a side does not have), and truth minus
    subject as difference, all as floats; the status of a period is
    "Matching" exactly when the absolute value of that difference is at most
    5.0 and "Not Matching" when it is not, so a difference of 5.0 is
    "Matching" and a difference of 5.01 is "Not Matching".  This holds for
    the rows of the sales sheet, for the DPC rows of the OE sheet and its
    closing row "SERVICE (Total)", which compares the total of the Hyperion
    sheet with the BI SERVICE total, and for the rows of the PEX sheet, where
    the row "Total Period Expense" takes the sum of all BI groups as
    subject. *)
Theorem status_rule_tolerance :
  (∀ (bi_map hyperion_map : gmap group3 (float * float)) r,
     r ∈ generate_sales_validation_data bi_map hyperion_map →
     let truth := default (0, 0)%float (hyperion_map !! sales_key r) in
     let subject := default (0, 0)%float (bi_map !! sales_key r) in
     ∃ c1 c2, sales_comparisons r = [c1; c2] ∧
       compares c1 truth.1 subject.1 ∧ compares c2 truth.2 subject.2) ∧
  (∀ sorted_floats (bi_map_mtd bi_map_py : gmap string float)
     (bi_service_total_mtd bi_service_total_py : float)
     (hyperion_dpc_map_mtd hyperion_dpc_map_py : gmap dict_key float)
     (last_row_mtd last_row_py : float) rows,
     generate_oe_validation_data sorted_floats bi_map_mtd bi_map_py
       bi_service_total_mtd bi_service_total_py
       hyperion_dpc_map_mtd hyperion_dpc_map_py last_row_mtd last_row_py
     = Some rows →
     ∃ body service,
       rows = (body ++ [service])%list ∧ body ≠ [] ∧
       (∀ r, r ∈ body →
          ∃ c1 c2, oe_comparisons r = [c1; c2] ∧
            (∀ s, ov_Group r = KStr s →
               compares c1
                 (default 0%float (hyperion_dpc_map_mtd !! KStr (bi_to_hyperion s)))
                 (default 0%float (bi_map_mtd !! s)) ∧
               compares c2
                 (default 0%float (hyperion_dpc_map_py !! KStr (bi_to_hyperion s)))
                 (default 0%float (bi_map_py !! s))) ∧
            (∀ x, ov_Group r = KNum x →
               compares c1 (default 0%float (hyperion_dpc_map_mtd !! KNum x)) 0 ∧
               compares c2 (default 0%float (hyperion_dpc_map_py !! KNum x)) 0) ∧
            ov_Group r ≠ KNaN) ∧
       ov_Group service = KStr "SERVICE (Total)" ∧
       ∃ c1 c2, oe_comparisons service = [c1; c2] ∧
         compares c1 last_row_mtd bi_service_total_mtd ∧
         compares c2 last_row_py bi_service_total_py) ∧
  (∀ series_sum (df_bi_grouped hyperion_map : gmap string (float * float)) r,
     r ∈ generate_pex_validation_data series_sum df_bi_grouped hyperion_map →
     let truth := default (0, 0)%float (hyperion_map !! pv_Group r) in
     let subject := default (0, 0)%float (df_bi_grouped !! pv_Group r) in
     let groups := merge_sort String.le (elements (dom df_bi_grouped)) in
     let column col :=
       (fun g => col (default (0, 0)%float (df_bi_grouped !! g))) <$> groups in
     ∃ c1 c2, pex_comparisons r = [c1; c2] ∧
       (pv_Group r = "Total Period Expense" →
          compares c1 truth.1 (series_sum (column fst)) ∧
          compares c2 truth.2 (series_sum (column snd))) ∧
       (pv_Group r ≠ "Total Period Expense" →
          compares c1 truth.1 subject.1 ∧ compares c2 truth.2 subject.2)).
Proof.
  split_and!.
  - intros bi hyp r (k & -> & _)%list_elem_of_fmap. rewrite sales_key_row.
    destruct k as [[ps dv] dpc]. cbv zeta.
    eexists _, _. split; [reflexivity |].
    split; by apply compares_intro.
  - intros sorted_floats bm bp sm sp hm hp lm lp rows.
    unfold generate_oe_validation_data. destruct (_ && _); [done |].
    destruct (oe_compare _ _ _ _ _ _ _ _ _) as [rows' | e] eqn:E; [| done].
    intros [= <-].
    apply oe_compare_rows in E as (compared & Hne & Hnan & ->).
    eexists _, _. split; [reflexivity |]. split_and!.
    + intros H. by apply fmap_nil_inv in H.
    + intros r (k & -> & Hk)%list_elem_of_fmap.
      eexists _, _. split; [reflexivity |]. split_and!.
      * intros s. cbn [ov_Group oe_row_for]. intros ->.
        split; by apply compares_intro.
      * intros x. cbn [ov_Group oe_row_for]. intros ->.
        split; by apply compares_intro.
      * cbn [ov_Group oe_row_for]. eapply Forall_forall in Hnan; eauto.
    + reflexivity.
    + eexists _, _. split; [reflexivity |]. split; by apply compares_intro.
  - intros series_sum bi hyp r (g & -> & _)%list_elem_of_fmap. cbv zeta.
    cbn [pv_Group pex_row_for].
    eexists _, _. split; [reflexivity |]. split.
    + intros ->. split; by apply compares_intro.
    + intros Hg. destruct (String.eqb_spec g "Total Period Expense"); [done |].
      split; apply compares_intro; try done; cbn;
        by destruct (String.eqb_spec g "Total Period Expense").
Qed.
End StatusRule.

(** A sales sheet with one key: Hyperion 0.005 against BI 0 in the current
    period, a difference of 5.0; Hyperion 0.05326 against BI 48.26 in the
    prior period, where the product 53.260000000000005 is above 53.26 and the
    difference is above 5.0.  An OE sheet with the DPC "ANA", Hyperion 1
    against BI 995, and a SERVICE total of 0 against -5.01.  A PEX sheet with
    two BI groups that add up to the Hyperion total of 0.3. *)
Lemma status_rule_tolerance_witness :
  let k : group3 := ("PRODUCT", "Lab", "ANA") in
  let sales :=
    generate_sales_validation_data
      {[k := (0, 48.26)%float]} {[k := (0.005, 0.05326)%float]} in
  let oe :=
    generate_oe_validation_data elements
      {["ANA" := 995%float]} ∅ (-5.01)%float 0%float
      {[KStr "ANA" := 1%float]} ∅ 0%float 0%float in
  let pex :=
    generate_pex_validation_data float_sum
      (<["Rent" := (200, 0)%float]> {["Travel" := (100, 0)%float]})
      {["Total Period Expense" := (0.3, 0)%float]} in
  (∃ r, sales = [r] ∧
     sv_Difference_actual r = 5%float ∧ sv_Status_actual r = "Matching" ∧
     sv_Status_prior r = "Not Matching") ∧
  (∃ r service, oe = Some [r; service] ∧
     ov_Difference_MTD r = 5%float ∧ ov_Status_MTD r = "Matching" ∧
     ov_Difference_MTD service = 5.01%float ∧
     ov_Status_MTD service = "Not Matching") ∧
  (∃ rent total travel, pex = [rent; total; travel] ∧
     pv_BI_actual total = 300%float ∧ pv_Status_actual total = "Matching" ∧
     pv_Status_actual rent = "Not Matching").
Proof.
  intros k sales oe pex.
  destruct status_rule_tolerance as (Hsales & Hoe & Hpex).
  split_and!.
  - eexists. split; [vm_compute; reflexivity |].
    match goal with |- sv_Difference_actual ?r = _ ∧ _ =>
      destruct (Hsales {[k := (0, 48.26)%float]} {[k := (0.005, 0.05326)%float]} r)
        as (c1 & c2 & Hc & H1 & H2)
    end.
    { vm_compute. constructor. }
    injection Hc as <- <-.
    destruct H1 as (_ & _ & _ & _ & _ & M1 & _).
    destruct H2 as (_ & _ & _ & _ & N2 & _).
    split_and!; [reflexivity | by apply M1 | by apply N2].
  - eexists _, _. split; [vm_compute; reflexivity |].
    match goal with |- ov_Difference_MTD ?r = _ ∧ _ ∧ ov_Difference_MTD ?s = _ ∧ _ =>
      assert (E : generate_oe_validation_data elements
                    {["ANA" := 995%float]} ∅ (-5.01)%float 0%float
                    {[KStr "ANA" := 1%float]} ∅ 0%float 0%float = Some [r; s])
        by (vm_compute; reflexivity)
    end.
    destruct (Hoe _ _ _ _ _ _ _ _ _ _ E)
      as (body & service & Hrows & _ & Hbody & _ & c1 & c2 & Hc & H1 & _).
    destruct body as [| r [| r' body]]; try discriminate Hrows.
    2:{ destruct body; discriminate Hrows. }
    injection Hrows as <- <-.
    destruct (Hbody _ ltac:(left)) as (d1 & d2 & Hd & Htext & _).
    injection Hd as <- <-. injection Hc as <- <-.
    destruct (Htext "ANA" eq_refl) as [(_ & _ & _ & _ & _ & M1 & _) _].
    destruct H1 as (_ & _ & _ & _ & _ & _ & N1).
    split_and!; [reflexivity | by apply M1 | reflexivity | by apply N1].
  - eexists _, _, _. split; [vm_compute; reflexivity |].
    match goal with |- pv_BI_actual ?t = _ ∧ _ ∧ pv_Status_actual ?r = _ =>
      destruct (Hpex float_sum
                  (<["Rent" := (200, 0)%float]> {["Travel" := (100, 0)%float]})
                  {["Total Period Expense" := (0.3, 0)%float]} t)
        as (c1 & c2 & Hc & Htotal & _);
      [ vm_compute; repeat constructor |];
      destruct (Hpex float_sum
                  (<["Rent" := (200, 0)%float]> {["Travel" := (100, 0)%float]})
                  {["Total Period Expense" := (0.3, 0)%float]} r)
        as (d1 & d2 & Hd & _ & Hother);
      [ vm_compute; repeat constructor |]
    end.
    injection Hc as <- <-. injection Hd as <- <-.
    destruct (Htotal eq_refl) as [(_ & _ & _ & M1 & _) _].
    destruct (Hother ltac:(discriminate)) as [(_ & _ & _ & _ & N1 & _) _].
    split_and!; [reflexivity | by apply M1 | by apply N1].
Defined.
Section UnionKeys.

(** Two cells are one key of a dict exactly when they make the same
    [dict_key]. *)
Lemma cell_key_eq (a b : cell) : cell_eqb a b = true ↔ cell_key a = cell_key b.
Proof.
  destruct a as [| s | p], b as [| t | q]; simpl; try (split; done).
  - rewrite String.eqb_eq. split; [by intros -> | by intros [= ->]].
  - rewrite Qeq_bool_iff, <- Q2Qc_eq_iff. split.
    + intros H. exact (f_equal KNum H).
    + intros H.
      exact (f_equal (fun k => match k with KNum x => x | _ => Q2Qc p end) H).
Qed.

(** Subtracting 0 changes no float, and 0 minus a float has the absolute
    value of the float. *)
Lemma float_sub_zero (x : float) : (x - 0)%float = x.
Proof.
  rewrite <- (SF2Prim_Prim2SF (x - 0)), <- (SF2Prim_Prim2SF x).
  f_equal. rewrite sub_spec, SF2Prim_Prim2SF.
  replace (Prim2SF 0) with (S754_zero false) by reflexivity.
  destruct (Prim2SF x) as [[] | [] | | s m e]; reflexivity.
Qed.

Lemma float_zero_sub_abs (x : float) :
  PrimFloat.abs (0 - x)%float = PrimFloat.abs x.
Proof.
  rewrite <- (SF2Prim_Prim2SF (PrimFloat.abs (0 - x))),
          <- (SF2Prim_Prim2SF (PrimFloat.abs x)).
  f_equal. rewrite !abs_spec, sub_spec.
  replace (Prim2SF 0) with (S754_zero false) by reflexivity.
  destruct (Prim2SF x) as [[] | [] | | s m e]; reflexivity.
Qed.

Lemma sales_row_present bi hyp (k : group3) :
  k ∈ dom bi ∪ dom hyp →
  sales_row_for bi hyp k ∈ generate_sales_validation_data bi hyp.
Proof.
  intros Hk. unfold generate_sales_validation_data.
  apply list_elem_of_fmap. exists k. split; [done |].
  apply elem_of_merge_sort. by apply elem_of_elements.
Qed.

Lemma alias_round_trip s :
  s ∉ (snd <$> HYPERION_TO_BI_DPC_MAP) →
  bi_to_hyperion (hyperion_to_bi s) = s.
Proof.
  intros Hs. unfold hyperion_to_bi, HYPERION_TO_BI_DPC_MAP. simpl.
  repeat (case_decide; [subst; reflexivity |]).
  unfold bi_to_hyperion, HYPERION_TO_BI_DPC_MAP.
  cbn [default List.find snd fst].
  repeat match goal with
  | |- context [String.eqb ?a s] =>
      destruct (String.eqb_spec a s);
        [subst; exfalso; apply Hs; vm_compute; set_solver |]
  end.
  reflexivity.
Qed.

Lemma alias_back s :
  hyperion_to_bi (bi_to_hyperion s) = s ∨ bi_to_hyperion s = s.
Proof.
  unfold bi_to_hyperion, HYPERION_TO_BI_DPC_MAP. cbn [List.find snd fst].
  repeat match goal with
  | |- context [String.eqb ?a s] =>
      destruct (String.eqb_spec a s); [subst; left; reflexivity |]
  end.
  by right.
Qed.

Lemma subject_missing_intro truth c :
  cmp_subject c = 0%float →
  cmp_truth c = (truth * 1000)%float →
  cmp_difference c = (cmp_truth c - cmp_subject c)%float →
  cmp_status c = status_of (cmp_difference c) →
  subject_missing c truth.
Proof.
  intros Hs Ht Hd Hst. unfold subject_missing.
  rewrite Hs, Ht, float_sub_zero in Hd. rewrite Hst, Hd.
  split_and!; try done.
  - apply status_of_not_matching.
  - apply status_of_matching.
Qed.

Lemma truth_missing_intro subject c :
  cmp_truth c = (0 * 1000)%float →
  cmp_subject c = subject →
  cmp_difference c = (cmp_truth c - cmp_subject c)%float →
  cmp_status c = status_of (cmp_difference c) →
  truth_missing c subject.
Proof.
  intros Ht Hs Hd Hst. unfold truth_missing.
  change (0 * 1000)%float with 0%float in Ht.
  rewrite Hs, Ht in Hd. rewrite Hst, Hd.
  split_and!; try done.
  - rewrite status_of_not_matching. unfold within_tolerance.
    by rewrite float_zero_sub_abs.
  - rewrite status_of_matching. unfold within_tolerance.
    by rewrite float_zero_sub_abs.
Qed.

Lemma elem_of_oe_keys bm bp hm hp k :
  k ∈ oe_keys bm bp hm hp ↔
  (∃ m, k = KStr m ∧ m ∈ dom bm ∪ dom bp) ∨
  (∃ h, k = hyperion_to_bi_key h ∧ h ∈ dom hm ∪ dom hp).
Proof. unfold oe_keys. by rewrite elem_of_union, !elem_of_map. Qed.

Lemma hyperion_to_bi_key_text k : is_text (hyperion_to_bi_key k) = is_text k.
Proof. by destruct k. Qed.

Lemma oe_keys_text bm bp hm hp :
  set_Forall (fun k => is_text k) (dom hm ∪ dom hp) →
  set_Forall (fun k => is_text k) (oe_keys bm bp hm hp).
Proof.
  intros Hall k [(m & -> & _) | (h & -> & Hh)]%elem_of_oe_keys; [done |].
  rewrite hyperion_to_bi_key_text. by apply Hall.
Qed.

Lemma oe_compared_key_Some k k' :
  oe_compared_key k = Some k' ↔
  k' = k ∧ k ≠ KNaN ∧ k ≠ KStr "nan" ∧ k ≠ KStr "Adjustment figure".
Proof.
  destruct k as [| s | x]; simpl.
  - split; [done | by intros (_ & ? & _)].
  - destruct (String.eqb_spec s "nan") as [-> | Hn].
    { split; [done | by intros (_ & _ & ? & _)]. }
    destruct (String.eqb_spec s "Adjustment figure") as [-> | Ha].
    { split; [done | by intros (_ & _ & _ & ?)]. }
    split; [intros [= <-] | intros [-> _]; done].
    split_and!; congruence.
  - split; [intros [= <-]; done | by intros [-> _]].
Qed.

Lemma compared_elem (l : list dict_key) (k : dict_key) :
  k ∈ omap oe_compared_key l ↔
  k ∈ l ∧ k ≠ KNaN ∧ k ≠ KStr "nan" ∧ k ≠ KStr "Adjustment figure".
Proof.
  rewrite list_elem_of_omap. split.
  - intros (k' & Hk' & (-> & H)%oe_compared_key_Some). done.
  - intros (Hin & H). exists k. split; [done |]. by apply oe_compared_key_Some.
Qed.

(** What the comparison returns once the keys are sorted. *)
Lemma oe_compare_sorted sorted_floats bm bp sm sp hm hp lm lp keys :
  sorted_keys sorted_floats (oe_keys bm bp hm hp) = py.Return keys →
  oe_compare sorted_floats bm bp sm sp hm hp lm lp
  = match omap oe_compared_key keys with
    | [] => py.Raise (py.NameError "variance")
    | compared =>
        py.Return ((oe_row_for bm bp hm hp <$> compared)
                   ++ [oe_service_row sm sp lm lp])%list
    end.
Proof.
  intros H. unfold oe_compare. cbv zeta. fold (oe_keys bm bp hm hp).
  rewrite H. cbn [mbind result_bind py.bind].
  by destruct (omap oe_compared_key keys).
Qed.

Lemma oe_compare_unsorted sorted_floats bm bp sm sp hm hp lm lp e :
  sorted_keys sorted_floats (oe_keys bm bp hm hp) = py.Raise e →
  oe_compare sorted_floats bm bp sm sp hm hp lm lp = py.Raise e.
Proof.
  intros H. unfold oe_compare. cbv zeta. fold (oe_keys bm bp hm hp).
  by rewrite H.
Qed.

Lemma sorted_keys_text sorted_floats keys :
  set_Forall (fun k => is_text k) keys →
  sorted_keys sorted_floats keys = py.Return (merge_sort key_le (elements keys)).
Proof. intros H. unfold sorted_keys. by rewrite decide_True. Qed.

Lemma sorted_keys_mixed sorted_floats keys k1 k2 :
  k1 ∈ keys → is_text k1 = true → k2 ∈ keys → is_text k2 = false →
  sorted_keys sorted_floats keys = py.Raise py.TypeError.
Proof.
  intros H1 T1 H2 T2. unfold sorted_keys.
  rewrite decide_False.
  2:{ intros Hall. specialize (Hall k2 H2). simpl in Hall. by rewrite T2 in Hall. }
  rewrite decide_True; [done |].
  exists k1. split; [done |]. by rewrite T1.
Qed.

Lemma oe_row_present sorted_floats bm bp sm sp hm hp lm lp (m : string) :
  set_Forall (fun k => is_text k) (dom hm ∪ dom hp) →
  ¬ (size hm = 0%nat ∧ (lm =? 0)%float = true) →
  KStr m ∈ oe_keys bm bp hm hp →
  m ≠ "nan" → m ≠ "Adjustment figure" →
  ∃ rows,
    generate_oe_validation_data sorted_floats bm bp sm sp hm hp lm lp = Some rows ∧
    oe_row_for bm bp hm hp (KStr m) ∈ rows.
Proof.
  intros Htext Hguard Hm Hn Ha. unfold generate_oe_validation_data.
  destruct (bool_decide _ && (lm =? 0)%float) eqn:G.
  { exfalso. apply andb_true_iff in G as [G1 G2]. apply Hguard.
    split; [by apply bool_decide_eq_true in G1 | done]. }
  rewrite (oe_compare_sorted _ _ _ _ _ _ _ _ _ _
             (sorted_keys_text sorted_floats _ (oe_keys_text bm bp hm hp Htext))).
  set (keys := merge_sort key_le (elements (oe_keys bm bp hm hp))).
  assert (Hk : KStr m ∈ omap oe_compared_key keys).
  { apply compared_elem. split_and!; try congruence.
    subst keys. apply elem_of_merge_sort. by apply elem_of_elements. }
  destruct (omap oe_compared_key keys) as [| k0 ks] eqn:E.
  { by apply elem_of_nil in Hk. }
  eexists. split; [reflexivity |].
  apply elem_of_app. left. apply list_elem_of_fmap. eauto.
Qed.

(** C2 (as amended). The comparison runs over the union of the keys of both
    sides.  Sales: a key present only in the Hyperion map yields a row with
    subject values 0 and differences equal to the scaled truth values, and a
    key present only in the BI map yields a row with truth values 0; in both
    cases the status of a period is "Not Matching" exactly when the amount
    shown exceeds 5.0 in absolute value.  OE: the report has no sheet at all
    when no Hyperion data was found (an empty DPC map and a total of 0), and
    none when a cell of column B that is blank or a number has become a key
    next to a name, since the keys then cannot be sorted.  When every
    Hyperion key is a name and Hyperion data was found, the same holds as for
    sales, for a Hyperion key that is not itself a BI alias name and for a BI
    key the Hyperion sheet names neither directly nor through an alias,
    provided the key is neither "nan" nor "Adjustment figure". *)
Theorem union_key_rows :
  (∀ (bi hyp : gmap group3 (float * float)) k t,
     hyp !! k = Some t → bi !! k = None →
     ∃ r, r ∈ generate_sales_validation_data bi hyp ∧ sales_key r = k ∧
       ∃ c1 c2, sales_comparisons r = [c1; c2] ∧
         subject_missing c1 t.1 ∧ subject_missing c2 t.2) ∧
  (∀ (bi hyp : gmap group3 (float * float)) k b,
     bi !! k = Some b → hyp !! k = None →
     ∃ r, r ∈ generate_sales_validation_data bi hyp ∧ sales_key r = k ∧
       ∃ c1 c2, sales_comparisons r = [c1; c2] ∧
         truth_missing c1 b.1 ∧ truth_missing c2 b.2) ∧
  (∀ sorted_floats (bm bp : gmap string float) sm sp
     (hm hp : gmap dict_key float) lm lp,
     size hm = 0%nat → (lm =? 0)%float = true →
     generate_oe_validation_data sorted_floats bm bp sm sp hm hp lm lp = None) ∧
  (∀ sorted_floats (bm bp : gmap string float) sm sp
     (hm hp : gmap dict_key float) lm lp k,
     k ∈ dom hm ∪ dom hp → is_text k = false →
     (∃ m, m ∈ dom bm ∪ dom bp) ∨ (∃ s, KStr s ∈ dom hm ∪ dom hp) →
     generate_oe_validation_data sorted_floats bm bp sm sp hm hp lm lp = None) ∧
  (∀ sorted_floats (bm bp : gmap string float) sm sp
     (hm hp : gmap dict_key float) lm lp s v,
     set_Forall (fun k => is_text k) (dom hm ∪ dom hp) →
     hm !! KStr s = Some v →
     s ∉ (snd <$> HYPERION_TO_BI_DPC_MAP) →
     hyperion_to_bi s ≠ "nan" → hyperion_to_bi s ≠ "Adjustment figure" →
     bm !! hyperion_to_bi s = None → bp !! hyperion_to_bi s = None →
     ∃ rows r,
       generate_oe_validation_data sorted_floats bm bp sm sp hm hp lm lp
       = Some rows ∧
       r ∈ rows ∧ ov_Group r = KStr (hyperion_to_bi s) ∧
       ∃ c1 c2, oe_comparisons r = [c1; c2] ∧
         subject_missing c1 v ∧
         subject_missing c2 (default 0%float (hp !! KStr s))) ∧
  (∀ sorted_floats (bm bp : gmap string float) sm sp
     (hm hp : gmap dict_key float) lm lp m,
     set_Forall (fun k => is_text k) (dom hm ∪ dom hp) →
     ¬ (size hm = 0%nat ∧ (lm =? 0)%float = true) →
     m ∈ dom bm ∪ dom bp →
     m ≠ "nan" → m ≠ "Adjustment figure" →
     (∀ h, KStr h ∈ dom hm ∪ dom hp → h ≠ m ∧ hyperion_to_bi h ≠ m) →
     ∃ rows r,
       generate_oe_validation_data sorted_floats bm bp sm sp hm hp lm lp
       = Some rows ∧
       r ∈ rows ∧ ov_Group r = KStr m ∧
       ∃ c1 c2, oe_comparisons r = [c1; c2] ∧
         truth_missing c1 (default 0%float (bm !! m)) ∧
         truth_missing c2 (default 0%float (bp !! m))).
Proof.
  split_and!.
  - intros bi hyp k t Hh Hb.
    exists (sales_row_for bi hyp k). split.
    { apply sales_row_present, elem_of_union. right. by apply elem_of_dom. }
    destruct k as [[ps dv] dpc]. split; [reflexivity |].
    eexists _, _. split; [reflexivity |].
    split; apply subject_missing_intro; simpl; rewrite ?Hh, ?Hb; done.
  - intros bi hyp k b Hb Hh.
    exists (sales_row_for bi hyp k). split.
    { apply sales_row_present, elem_of_union. left. by apply elem_of_dom. }
    destruct k as [[ps dv] dpc]. split; [reflexivity |].
    eexists _, _. split; [reflexivity |].
    split; apply truth_missing_intro; simpl; rewrite ?Hh, ?Hb; done.
  - intros sorted_floats bm bp sm sp hm hp lm lp Hsz Hl.
    unfold generate_oe_validation_data.
    by rewrite bool_decide_true, Hl.
  - intros sorted_floats bm bp sm sp hm hp lm lp k Hk Hnt Htext.
    unfold generate_oe_validation_data. destruct (_ && _); [done |].
    assert (H2 : hyperion_to_bi_key k ∈ oe_keys bm bp hm hp).
    { apply elem_of_oe_keys. right. eauto. }
    assert (T2 : is_text (hyperion_to_bi_key k) = false)
      by (by rewrite hyperion_to_bi_key_text).
    assert (∃ k1, k1 ∈ oe_keys bm bp hm hp ∧ is_text k1 = true)
      as (k1 & H1 & T1).
    { destruct Htext as [[m Hm] | [s Hs]].
      - exists (KStr m). split; [| done]. apply elem_of_oe_keys. left. eauto.
      - exists (hyperion_to_bi_key (KStr s)). split; [| done].
        apply elem_of_oe_keys. right. eauto. }
    by rewrite (oe_compare_unsorted _ _ _ _ _ _ _ _ _ _
                  (sorted_keys_mixed sorted_floats _ _ _ H1 T1 H2 T2)).
  - intros sorted_floats bm bp sm sp hm hp lm lp s v Htext Hv Hs Hn Ha Hbm Hbp.
    destruct (oe_row_present sorted_floats bm bp sm sp hm hp lm lp
                (hyperion_to_bi s)) as (rows & Hrows & Hr); try done.
    { intros [Hsz _]. apply map_size_empty_iff in Hsz. by rewrite Hsz in Hv. }
    { apply elem_of_oe_keys. right. exists (KStr s). split; [done |].
      apply elem_of_union. left. by apply elem_of_dom. }
    exists rows, (oe_row_for bm bp hm hp (KStr (hyperion_to_bi s))).
    split_and!; try done.
    eexists _, _. split; [reflexivity |].
    split; apply subject_missing_intro; simpl;
      rewrite ?Hbm, ?Hbp, ?(alias_round_trip s Hs), ?Hv; done.
  - intros sorted_floats bm bp sm sp hm hp lm lp m Htext Hguard Hm Hn Ha Hfresh.
    destruct (oe_row_present sorted_floats bm bp sm sp hm hp lm lp m)
      as (rows & Hrows & Hr); try done.
    { apply elem_of_oe_keys. left. eauto. }
    exists rows, (oe_row_for bm bp hm hp (KStr m)).
    split_and!; try done.
    assert (Hnone : ¬ KStr (bi_to_hyperion m) ∈ dom hm ∪ dom hp).
    { intros Hin. destruct (Hfresh _ Hin) as [H1 H2].
      destruct (alias_back m); congruence. }
    assert (Hm1 : hm !! KStr (bi_to_hyperion m) = None).
    { apply not_elem_of_dom. intros H. apply Hnone, elem_of_union. by left. }
    assert (Hm2 : hp !! KStr (bi_to_hyperion m) = None).
    { apply not_elem_of_dom. intros H. apply Hnone, elem_of_union. by right. }
    eexists _, _. split; [reflexivity |].
    split; apply truth_missing_intro; simpl; rewrite ?Hm1, ?Hm2; done.
Qed.

End UnionKeys.
(** The scenario of the specification: truth has key K with 0.1 (100 after
    scaling) and the subject has no row for K.  And an OE file with
    bookings under "ANA" checked against a sheet whose column B holds the
    number 2024 next to the name "PI": no sheet. *)
Lemma union_key_rows_witness :
  let k : group3 := ("PRODUCT", "Lab", "ANA") in
  let hyp : gmap group3 (float * float) := {[k := (0.1, 0)%float]} in
  let hm : gmap dict_key float :=
    <[KNum (Q2Qc 2024) := 1%float]> {[KStr "PI" := 2%float]} in
  (∃ r, r ∈ generate_sales_validation_data ∅ hyp ∧ sales_key r = k ∧
     sv_BI_actual r = 0%float ∧ sv_Difference_actual r = 100%float ∧
     sv_Status_actual r = "Not Matching") ∧
  generate_oe_validation_data elements {["ANA" := 1000%float]} ∅ 0%float 0%float
    hm ∅ 3%float 0%float = None.
Proof.
  intros k hyp hm.
  destruct union_key_rows as (Htruth & _ & _ & Hmixed & _).
  split.
  - destruct (Htruth ∅ hyp k (0.1, 0)%float)
      as (r & Hr & Hk & c1 & c2 & Hc & (Hs & Ht & Hd & Hn & _) & _).
    { vm_compute. reflexivity. }
    { vm_compute. reflexivity. }
    exists r. unfold sales_comparisons in Hc. injection Hc as <- <-.
    cbn [cmp_subject cmp_difference cmp_status] in *.
    split_and!; try done. apply Hn. reflexivity.
  - apply (Hmixed elements _ _ _ _ hm _ _ _ (KNum (Q2Qc 2024))).
    + apply (bool_decide_unpack _). vm_compute. exact I.
    + reflexivity.
    + left. exists "ANA". apply (bool_decide_unpack _). vm_compute. exact I.
Defined.

(** C2 as stated fails.  A key present only on the truth side whose scaled
    amounts are within the tolerance gets a "Matching" row, so the sheet has
    no "Not Matching" row for it.  And in the OE report the subject-only key
    "Adjustment figure" gets no row at all, whatever its amount. *)
Lemma union_key_counterexample :
  let k : group3 := ("PRODUCT", "Lab", "ANA") in
  let hyp : gmap group3 (float * float) := {[k := (0.001, 0)%float]} in
  let bi : gmap group3 (float * float) := ∅ in
  let bi_map_mtd : gmap string float :=
    <["Adjustment figure" := 200%float]> {["ANA" := 1000%float]} in
  let hyperion_dpc_map_mtd : gmap dict_key float := {[KStr "ANA" := 1%float]} in
  hyp !! k = Some (0.001, 0)%float ∧ bi !! k = None ∧
  (sv_Status_actual <$> generate_sales_validation_data bi hyp) = ["Matching"] ∧
  (sv_Status_prior <$> generate_sales_validation_data bi hyp) = ["Matching"] ∧
  option_map (fmap ov_Group)
    (generate_oe_validation_data elements bi_map_mtd ∅ 0%float 0%float
       hyperion_dpc_map_mtd ∅ 0%float 0%float)
  = Some [KStr "ANA"; KStr "SERVICE (Total)"].
Proof.
  intros k hyp bi bi_map_mtd hyperion_dpc_map_mtd.
  split_and!; vm_compute; reflexivity.
Qed.

Section Adjustments.

Variable series_sum : list float → float.

Lemma to_numeric_fillna_idemp (v : option float) :
  to_numeric_fillna (Some (to_numeric_fillna v)) = to_numeric_fillna v.
Proof.
  destruct v as [x |]; [| reflexivity]. simpl.
  destruct (PrimFloat.is_nan x) eqn:E; [reflexivity |]. by rewrite E.
Qed.

Lemma filter_numeric_bookings (df : list oe_row) (k : string) :
  filter (fun r => P2_DPC r = Some k) (numeric_bookings <$> df)
  = numeric_bookings <$> filter (fun r => P2_DPC r = Some k) df.
Proof.
  induction df as [| r df IH]; [reflexivity |].
  rewrite fmap_cons, !filter_cons.
  change (P2_DPC (numeric_bookings r)) with (P2_DPC r).
  destruct (decide (P2_DPC r = Some k)); [| exact IH].
  by rewrite fmap_cons, IH.
Qed.

Lemma group_values_numeric_mtd df k :
  group_values Bookings_MTD_Net_Sales (numeric_bookings <$> df) k
  = group_values Bookings_MTD_Net_Sales df k.
Proof.
  unfold group_values. rewrite filter_numeric_bookings, <- list_fmap_compose.
  apply list_fmap_ext. intros i r _. apply to_numeric_fillna_idemp.
Qed.

Lemma group_values_numeric_py df k :
  group_values Bookings_PY_MTD (numeric_bookings <$> df) k
  = group_values Bookings_PY_MTD df k.
Proof.
  unfold group_values. rewrite filter_numeric_bookings, <- list_fmap_compose.
  apply list_fmap_ext. intros i r _. apply to_numeric_fillna_idemp.
Qed.

Lemma groupby_sum_numeric_mtd df k :
  groupby_sum series_sum Bookings_MTD_Net_Sales (numeric_bookings <$> df) k
  = groupby_sum series_sum Bookings_MTD_Net_Sales df k.
Proof. unfold groupby_sum. by rewrite group_values_numeric_mtd. Qed.

Lemma groupby_sum_numeric_py df k :
  groupby_sum series_sum Bookings_PY_MTD (numeric_bookings <$> df) k
  = groupby_sum series_sum Bookings_PY_MTD df k.
Proof. unfold groupby_sum. by rewrite group_values_numeric_py. Qed.


(** The loop raises for a number key, and for nothing else. *)
Lemma adjustment_for_raises df hp item e :
  adjustment_for series_sum df hp item = py.Raise e →
  e = py.TypeError ∧ ∃ x, item.1 = KNum x.
Proof.
  unfold adjustment_for. destruct item as [[| s | x] v]; cbn [fst snd].
  - discriminate.
  - destruct (py.contains "Total" s); [discriminate |].
    cbv zeta. destruct (_ || _); discriminate.
  - intros [= <-]. eauto.
Qed.

Lemma adjustment_for_number df hp x v :
  adjustment_for series_sum df hp (KNum x, v) = py.Raise py.TypeError.
Proof. reflexivity. Qed.

Lemma mapM_adjustments_raise df hp (l : list (dict_key * float)) x v :
  (KNum x, v) ∈ l →
  mapM (adjustment_for series_sum df hp) l = py.Raise py.TypeError.
Proof.
  induction l as [| item l IH]; intros Hin; [by apply elem_of_nil in Hin |].
  cbn [mapM].
  destruct (adjustment_for series_sum df hp item) as [found | e] eqn:E.
  - cbn [mbind result_bind py.bind].
    apply elem_of_cons in Hin as [<- | Hin]; [discriminate E |].
    by rewrite (IH Hin).
  - apply adjustment_for_raises in E as [-> _]. reflexivity.
Qed.

Lemma mapM_adjustments_return df hp (l : list (dict_key * float)) :
  (∀ x v, (KNum x, v) ∉ l) →
  mapM (adjustment_for series_sum df hp) l
  = py.Return (adjustment_of series_sum df hp <$> l).
Proof.
  induction l as [| item l IH]; intros Hl; [reflexivity |].
  cbn [mapM fmap list_fmap]. unfold adjustment_of at 1.
  destruct (adjustment_for series_sum df hp item) as [found | e] eqn:E.
  - cbn [mbind result_bind py.bind]. rewrite IH; [reflexivity |].
    intros x v Hin. apply (Hl x v). by right.
  - apply adjustment_for_raises in E as [_ [x Hx]].
    destruct item as [k v]. cbn in Hx. subst k.
    exfalso. apply (Hl x v). left.
Qed.

Lemma omap_id_fmap {A B} (f : A → option B) (l : list A) :
  omap id (f <$> l) = omap f l.
Proof.
  induction l as [| x l IH]; [reflexivity |].
  cbn [fmap list_fmap omap list_omap]. destruct (f x); simpl; by rewrite <- IH.
Qed.

(** What the function returns when no key is a number. *)
Lemma add_hyperion_adjustments_return bi_df mtd hp lm lp :
  (∀ x v, (KNum x, v) ∉ mtd) →
  add_hyperion_adjustments series_sum bi_df mtd hp lm lp
  = py.Return ((numeric_bookings <$> bi_df)
               ++ (omap (adjustment_of series_sum (numeric_bookings <$> bi_df) hp) mtd
                   ++ service_adjustment lm lp))%list.
Proof.
  intros H. unfold add_hyperion_adjustments. cbv zeta.
  rewrite (mapM_adjustments_return _ _ _ H).
  cbn [mbind result_bind py.bind]. by rewrite omap_id_fmap.
Qed.

Lemma adjustment_of_row df hp item r :
  adjustment_of series_sum df hp item = Some r →
  ∃ s, item.1 = KStr s ∧ py.contains "Total" s = false ∧
       P2_DPC r = Some (hyperion_to_bi s) ∧
       Product_Service r = Some "PRODUCT" ∧
       Sales_doc_type r = Some "Adjustment figure".
Proof.
  unfold adjustment_of, adjustment_for.
  destruct item as [[| s | x] v]; cbn [fst snd]; [discriminate | | discriminate].
  destruct (py.contains "Total" s) eqn:E; [discriminate |].
  cbv zeta. destruct (_ || _); [| discriminate].
  intros [= <-]. eauto 10.
Qed.







Lemma service_adjustment_row lm lp r :
  r ∈ service_adjustment lm lp →
  Product_Service r = Some "SERVICE" ∧ P2_DPC r = Some "Adjustment figure" ∧
  Sales_doc_type r = Some "Adjustment figure".
Proof.
  unfold service_adjustment. cbv zeta. destruct (_ || _).
  - intros ->%list_elem_of_singleton. done.
  - by intros ?%elem_of_nil.
Qed.



End Adjustments.


(** The adjustment is a float, and so is the sum that takes it up.  With
    the additions of a group made from left to right, bookings of 3257.96
    and 3943.62 against a Hyperion value of 0.9386 get an adjustment after
    which the group adds up to 938.6000000000004, not to the scaled truth
    value 938.6: the later comparison is "Matching" within the tolerance,
    but the two amounts are not equal. *)
Lemma adjustment_rounding_example :
  let row v :=
    {| Product_Service := Some "PRODUCT"; P1_Division := Some "Lab";
       P2_DPC := Some "ANA"; Sales_doc_type := Some "MT Standard Order";
       Bookings_MTD_Net_Sales := Some v; Bookings_PY_MTD := Some 0%float |} in
  ∃ out,
    add_hyperion_adjustments float_sum [row 3257.96%float; row 3943.62%float]
      [(KStr "ANA", 0.9386%float)] ∅ 0%float 0%float = py.Return out ∧
    (0.9386 * 1000)%float = 938.6%float ∧
    groupby_sum float_sum Bookings_MTD_Net_Sales out "ANA"
      = 938.6000000000004%float ∧
    status_of (0.9386 * 1000
               - groupby_sum float_sum Bookings_MTD_Net_Sales out "ANA")%float
      = "Matching".
Proof.
  intros row. eexists. split_and!; vm_compute; reflexivity.
Qed.

Section Directory.

Import clean_oe.

Lemma elem_of_drop_duplicates {A} `{EqDecision A} (l : list A) (x : A) :
  x ∈ drop_duplicates l ↔ x ∈ l.
Proof.
  unfold drop_duplicates.
  by rewrite elem_of_reverse, elem_of_remove_dups, elem_of_reverse.
Qed.

Lemma NoDup_drop_duplicates {A} `{EqDecision A} (l : list A) :
  NoDup (drop_duplicates l).
Proof.
  unfold drop_duplicates. rewrite reverse_Permutation. apply NoDup_remove_dups.
Qed.

Lemma two_distinct_members {A} (l : list A) (x y : A) :
  NoDup l → x ∈ l → y ∈ l → x ≠ y → 1 < length l.
Proof.
  intros Hnd Hx Hy Hxy.
  assert (Hsub : [x; y] ⊆+ l).
  { apply NoDup_submseteq.
    - apply NoDup_cons. split; [| apply NoDup_singleton].
      intros H%list_elem_of_singleton. done.
    - intros z Hz. apply elem_of_cons in Hz as [-> | Hz]; [done |].
      apply list_elem_of_singleton in Hz. by subst. }
  apply submseteq_length in Hsub. simpl in Hsub. lia.
Qed.

Lemma another_member {A} (l : list A) (x : A) :
  NoDup l → x ∈ l → 1 < length l → ∃ y, y ∈ l ∧ y ≠ x.
Proof.
  intros Hnd Hx Hlen.
  destruct l as [| a [| b l]]; simpl in Hlen; try lia.
  apply NoDup_cons in Hnd as [Hab _].
  assert (Hne : a ≠ b) by (intros ->; apply Hab; left).
  apply elem_of_cons in Hx as [-> | Hx].
  - exists b. split; [right; left | by intros ->].
  - exists a. split; [left |]. intros ->. by apply Hab.
Qed.

Lemma duplicated_keys_spec (rows : list currency_row) (r : currency_row) :
  NoDup rows →
  r ∈ duplicated_keys rows ↔
  r ∈ rows ∧ ∃ r', r' ∈ rows ∧ key_of r' = key_of r ∧ r' ≠ r.
Proof.
  intros Hnd. unfold duplicated_keys. rewrite list_elem_of_filter.
  set (same := filter (fun r' => key_of r' = key_of r) rows).
  assert (Hnd' : NoDup same) by by apply NoDup_filter.
  split.
  - intros [Hlen Hr]. split; [done |].
    assert (Hin : r ∈ same) by by apply list_elem_of_filter.
    destruct (another_member same r Hnd' Hin Hlen) as (y & Hy & Hne).
    apply list_elem_of_filter in Hy as [Hk Hy]. eauto.
  - intros [Hr (r' & Hr' & Hk & Hne)]. split; [| done].
    apply (two_distinct_members same r' r); try done;
      by apply list_elem_of_filter.
Qed.

Lemma currency_map_lookup (rows : list currency_row) (r : currency_row) :
  (∀ r1 r2, r1 ∈ rows → r2 ∈ rows → key_of r1 = key_of r2 → r1 = r2) →
  NoDup rows →
  r ∈ rows →
  (list_to_map ((fun r => (key_of r, currencies_of r)) <$> rows)
     : gmap (string * string) (string * string)) !! key_of r
  = Some (currencies_of r).
Proof.
  intros Hfun Hnd Hr. apply elem_of_list_to_map_1.
  - rewrite <- list_fmap_compose. by apply NoDup_fmap_2_strong.
  - apply list_elem_of_fmap. by exists r.
Qed.

(** C4. Loading the entity directory: when every two rows of the currency
    table (after dropping blank rows) with the same
    (Comp_No_for_OE, SAP_Comp_Code) key are identical, the load succeeds and
    the currency map sends each key to the currency pair of its row; when two
    rows with the same key differ, the load fails, returning nothing, and the
    printed conflict listing contains both rows and only conflicting rows. *)
Theorem directory_currency_conflicts (df_dir : list directory_row) :
  let rows := df_currencies df_dir in
  ((∀ r1 r2, r1 ∈ rows → r2 ∈ rows → key_of r1 = key_of r2 → r1 = r2) →
   ∃ comp_numbers currency_map comp_no_to_oe,
     load_directory_info df_dir = Loaded comp_numbers currency_map comp_no_to_oe ∧
     ∀ r, r ∈ rows → currency_map !! key_of r = Some (currencies_of r)) ∧
  (∀ r1 r2, r1 ∈ rows → r2 ∈ rows → key_of r1 = key_of r2 → r1 ≠ r2 →
   ∃ conflicting_data,
     load_directory_info df_dir = Failed conflicting_data ∧
     r1 ∈ conflicting_data ∧ r2 ∈ conflicting_data ∧
     ∀ r, r ∈ conflicting_data →
          r ∈ rows ∧ ∃ r', r' ∈ rows ∧ key_of r' = key_of r ∧ r' ≠ r).
Proof.
  intros rows. unfold load_directory_info. cbv zeta.
  set (rows' := drop_duplicates (df_currencies df_dir)).
  assert (Hnd : NoDup rows') by apply NoDup_drop_duplicates.
  assert (Hmem : ∀ r, r ∈ rows' ↔ r ∈ rows)
    by (intros r; apply elem_of_drop_duplicates).
  assert (Hdup : ∀ r, r ∈ duplicated_keys rows' ↔
                      r ∈ rows ∧ ∃ r', r' ∈ rows ∧ key_of r' = key_of r ∧ r' ≠ r).
  { intros r. rewrite duplicated_keys_spec by done. rewrite Hmem.
    split; intros [Hr (r' & Hr' & H)]; (split; [done |]); exists r';
      (split; [by apply Hmem | done]). }
  split.
  - intros Hfun.
    destruct (duplicated_keys rows') as [| d ds] eqn:E.
    + eexists _, _, _. split; [reflexivity |].
      intros r Hr. apply currency_map_lookup; try done.
      * intros r1 r2 H1 H2. apply Hfun; by apply Hmem.
      * by apply Hmem.
    + exfalso. destruct (proj1 (Hdup d)) as [Hd (r' & Hr' & Hk & Hne)].
      { left. }
      apply Hne. by apply Hfun.
  - intros r1 r2 H1 H2 Hk Hne.
    assert (D1 : r1 ∈ duplicated_keys rows') by (apply Hdup; eauto).
    assert (D2 : r2 ∈ duplicated_keys rows').
    { apply Hdup. split; [done |]. exists r1. by split_and!. }
    destruct (duplicated_keys rows') as [| d ds] eqn:E.
    { by apply elem_of_nil in D1. }
    eexists. split; [reflexivity |].
    split_and!.
    + by apply elem_of_merge_sort.
    + by apply elem_of_merge_sort.
    + intros r Hr. apply elem_of_merge_sort in Hr. by apply Hdup.
Qed.

(** A directory with a repeated identical row for key (9005, DK01) loads; a
    directory giving the same key two different currency pairs does not. *)
Lemma directory_currency_conflicts_witness :
  let row oe sap orig conv :=
    {| Comp_No := Some "5231"; Comp_No_for_OE := Some oe; Type_ := Some "MO";
       SAP_Comp_Code := Some sap; Original_Currency := Some orig;
       Conversion_Currency := Some conv |} in
  let good := [row "9005" "DK01" "DKK" "SEK"; row "9005" "DK01" "DKK" "SEK";
               row "9001" "SE01" "SEK" "SEK"] in
  let bad := [row "9005" "DK01" "DKK" "SEK"; row "9005" "DK01" "DKK" "EUR"] in
  (∃ comp_numbers currency_map comp_no_to_oe,
     load_directory_info good = Loaded comp_numbers currency_map comp_no_to_oe ∧
     currency_map !! ("9005", "DK01") = Some ("DKK", "SEK")) ∧
  (∃ conflicting_data,
     load_directory_info bad = Failed conflicting_data ∧
     length conflicting_data = 2).
Proof.
  intros row good bad. split.
  - destruct (proj1 (directory_currency_conflicts good))
      as (cn & cm & oe & Hload & Hmap).
    { intros r1 r2 H1 H2 Hk. vm_compute in H1, H2.
      set_unfold. destruct H1 as [-> | [-> | [-> | []]]];
        destruct H2 as [-> | [-> | [-> | []]]];
        try reflexivity; vm_compute in Hk; discriminate. }
    exists cn, cm, oe. split; [exact Hload |].
    apply (Hmap {| cr_Comp_No_for_OE := "9005"; cr_SAP_Comp_Code := "DK01";
                   cr_Original_Currency := "DKK";
                   cr_Conversion_Currency := "SEK" |}).
    vm_compute. left.
  - destruct (proj2 (directory_currency_conflicts bad)
               {| cr_Comp_No_for_OE := "9005"; cr_SAP_Comp_Code := "DK01";
                  cr_Original_Currency := "DKK";
                  cr_Conversion_Currency := "SEK" |}
               {| cr_Comp_No_for_OE := "9005"; cr_SAP_Comp_Code := "DK01";
                  cr_Original_Currency := "DKK";
                  cr_Conversion_Currency := "EUR" |})
      as (cd & Hload & _).
    + vm_compute. left.
    + vm_compute. right. left.
    + reflexivity.
    + discriminate.
    + exists cd. split; [exact Hload |].
      vm_compute in Hload. by injection Hload as <-.
Defined.

End Directory.

Section CrossRates.

Lemma truediv_zero x y : (y == 0)%Q → truediv x y = py.Raise py.ZeroDivisionError.
Proof. intros H. unfold truediv. apply Qeq_bool_iff in H. by rewrite H. Qed.

Lemma truediv_nonzero x y : ¬ (y == 0)%Q → truediv x y = py.Return (x / y)%Q.
Proof.
  intros H. unfold truediv. destruct (Qeq_bool y 0) eqn:E; [| done].
  by apply Qeq_bool_iff in E.
Qed.

Lemma get_cross_rates_same :
  clean_oe.get_cross_rates = clean_sales.get_cross_rates.
Proof. reflexivity. Qed.

Lemma get_cross_rates_sales_total source_curr target_curr rates_dict :
  ∃ out, clean_sales.get_cross_rates source_curr target_curr rates_dict
         = py.Return out.
Proof.
  unfold clean_sales.get_cross_rates, py.try_except.
  destruct (_ ≫= _) as [a | e]; [eauto |].
  destruct e; eauto.
Qed.

(** C5. [get_cross_rates] (in both pipelines) always returns: it never
    propagates an exception.  When the target code, or else the source code,
    is absent from the rates table it prints that the code was not found and
    returns [(None, None)]; when both are present and a rate of the source
    currency is zero it prints the division-by-zero message and returns
    [(None, None)]. *)
Theorem get_cross_rates_reports
    (get_cross_rates : string → string → gmap string rate_entry →
       py.result (list cross_rate_report * (option Q * option Q)))
    (source_curr target_curr : string) (rates_dict : gmap string rate_entry) :
  get_cross_rates = clean_sales.get_cross_rates
    ∨ get_cross_rates = clean_oe.get_cross_rates →
  (∃ out, get_cross_rates source_curr target_curr rates_dict = py.Return out) ∧
  (rates_dict !! target_curr = None →
   get_cross_rates source_curr target_curr rates_dict
   = py.Return ([CurrencyNotFound target_curr], (None, None))) ∧
  (is_Some (rates_dict !! target_curr) → rates_dict !! source_curr = None →
   get_cross_rates source_curr target_curr rates_dict
   = py.Return ([CurrencyNotFound source_curr], (None, None))) ∧
  (∀ source, is_Some (rates_dict !! target_curr) →
     rates_dict !! source_curr = Some source →
     (Current_Year_Rate source == 0)%Q ∨ (Prev_Year_Rate source == 0)%Q →
     get_cross_rates source_curr target_curr rates_dict
     = py.Return ([DivideByZero source_curr], (None, None))) ∧
  (rates_dict !! target_curr = None ∨ rates_dict !! source_curr = None ∨
   (∃ source, rates_dict !! source_curr = Some source ∧
      ((Current_Year_Rate source == 0)%Q ∨ (Prev_Year_Rate source == 0)%Q)) →
   ∃ report, get_cross_rates source_curr target_curr rates_dict
             = py.Return ([report], (None, None))).
Proof.
  intros Hf.
  assert (get_cross_rates = clean_sales.get_cross_rates) as ->
    by (destruct Hf as [-> | ->]; [done | apply get_cross_rates_same]).
  clear Hf. split; [apply get_cross_rates_sales_total |].
  unfold clean_sales.get_cross_rates, clean_sales.cross_rates_body, rates_getitem.
  split_and!.
  - intros ->. reflexivity.
  - intros [target ->] ->. reflexivity.
  - intros source [target ->] -> Hz. cbn [mbind result_bind py.bind].
    destruct (Qeq_dec (Current_Year_Rate source) 0) as [Hc | Hc].
    + by rewrite (truediv_zero _ _ Hc).
    + destruct Hz as [Hz | Hz]; [done |].
      by rewrite (truediv_nonzero _ _ Hc), (truediv_zero _ _ Hz).
  - intros Hcase.
    destruct (rates_dict !! target_curr) as [target |] eqn:Et; [| by eexists].
    destruct (rates_dict !! source_curr) as [source |] eqn:Es; [| by eexists].
    destruct Hcase as [? | [? | (source' & [= <-] & Hz)]]; try done.
    cbn [mbind result_bind py.bind].
    destruct (Qeq_dec (Current_Year_Rate source) 0) as [Hc | Hc].
    + rewrite (truediv_zero _ _ Hc). by eexists.
    + destruct Hz as [Hz | Hz]; [done |].
      rewrite (truediv_nonzero _ _ Hc), (truediv_zero _ _ Hz). by eexists.
Qed.

(** A table without the target code, and a table whose source rate is 0. *)
Lemma get_cross_rates_reports_witness :
  let rates : gmap string rate_entry :=
    {[ "DKK" := {| Current_Year_Rate := 0; Prev_Year_Rate := 7 |};
       "SEK" := {| Current_Year_Rate := 11; Prev_Year_Rate := 10 |} ]} in
  clean_oe.get_cross_rates "DKK" "EUR" rates
    = py.Return ([CurrencyNotFound "EUR"], (None, None)) ∧
  clean_sales.get_cross_rates "DKK" "SEK" rates
    = py.Return ([DivideByZero "DKK"], (None, None)).
Proof.
  intros rates.
  destruct (get_cross_rates_reports clean_oe.get_cross_rates "DKK" "EUR" rates)
    as (_ & Hmissing & _); [by right |].
  destruct (get_cross_rates_reports clean_sales.get_cross_rates "DKK" "SEK" rates)
    as (_ & _ & _ & Hzero & _); [by left |].
  split.
  - apply Hmissing. vm_compute. reflexivity.
  - apply (Hzero {| Current_Year_Rate := 0; Prev_Year_Rate := 7 |}).
    + eexists. vm_compute. reflexivity.
    + vm_compute. reflexivity.
    + left. reflexivity.
Defined.

(** C6. For two currencies present in the rate map with nonzero rates, the
    cross rate from S to T is the inverse of the cross rate from T to S, for
    the current and for the prior period, and the cross rate from S to S
    is 1. *)
Theorem cross_rate_inverse (rates_dict : gmap string rate_entry)
    (S T : string) (s t : rate_entry) :
  rates_dict !! S = Some s →
  rates_dict !! T = Some t →
  ¬ (Current_Year_Rate s == 0)%Q → ¬ (Prev_Year_Rate s == 0)%Q →
  ¬ (Current_Year_Rate t == 0)%Q → ¬ (Prev_Year_Rate t == 0)%Q →
  ∃ st_current st_prev ts_current ts_prev ss_current ss_prev,
    clean_sales.get_cross_rates S T rates_dict
      = py.Return ([], (Some st_current, Some st_prev)) ∧
    clean_sales.get_cross_rates T S rates_dict
      = py.Return ([], (Some ts_current, Some ts_prev)) ∧
    clean_sales.get_cross_rates S S rates_dict
      = py.Return ([], (Some ss_current, Some ss_prev)) ∧
    (st_current == 1 / ts_current)%Q ∧ (st_prev == 1 / ts_prev)%Q ∧
    (ss_current == 1)%Q ∧ (ss_prev == 1)%Q.
Proof.
  intros HS HT Hsc Hsp Htc Htp.
  exists (Current_Year_Rate t / Current_Year_Rate s)%Q,
         (Prev_Year_Rate t / Prev_Year_Rate s)%Q,
         (Current_Year_Rate s / Current_Year_Rate t)%Q,
         (Prev_Year_Rate s / Prev_Year_Rate t)%Q,
         (Current_Year_Rate s / Current_Year_Rate s)%Q,
         (Prev_Year_Rate s / Prev_Year_Rate s)%Q.
  unfold clean_sales.get_cross_rates, clean_sales.cross_rates_body, rates_getitem.
  rewrite HS, HT. cbn [mbind result_bind py.bind].
  rewrite !truediv_nonzero by done.
  split_and!; try reflexivity; field; auto.
Qed.

Lemma cross_rate_inverse_witness :
  let rates : gmap string rate_entry :=
    {[ "DKK" := {| Current_Year_Rate := 7; Prev_Year_Rate := 8 |};
       "SEK" := {| Current_Year_Rate := 11; Prev_Year_Rate := 10 |} ]} in
  ∃ c p c' p',
    clean_sales.get_cross_rates "DKK" "SEK" rates = py.Return ([], (Some c, Some p)) ∧
    clean_sales.get_cross_rates "SEK" "DKK" rates = py.Return ([], (Some c', Some p')) ∧
    (c == 11 # 7)%Q ∧ (c' == 7 # 11)%Q ∧ (c == 1 / c')%Q ∧ (p == 1 / p')%Q.
Proof.
  intros rates.
  destruct (cross_rate_inverse rates "DKK" "SEK"
              {| Current_Year_Rate := 7; Prev_Year_Rate := 8 |}
              {| Current_Year_Rate := 11; Prev_Year_Rate := 10 |})
    as (c & p & c' & p' & _ & _ & H1 & H2 & _ & Hc & Hp & _);
    try (vm_compute; reflexivity); try (vm_compute; discriminate).
  exists c, p, c', p'. split_and!; try done.
  - vm_compute in H1. injection H1 as <- <-. reflexivity.
  - vm_compute in H2. injection H2 as <- <-. reflexivity.
Defined.

End CrossRates.

Section SentinelSkip.

Import clean_oe.

Variable folder : Type.
Variable match_filename : string → option name_parts.
Variable load_currency_rates : nat → string → option (gmap string rate_entry).
Variable clean_and_save :
  gset string → name_parts → string → Q * Q * bool → sheet → folder →
  py.result (folder * string).

Lemma prefix_lower p s :
  String.prefix p s = true → String.prefix (py.lower p) (py.lower s) = true.
Proof.
  revert s. induction p as [| a p IH]; intros [| b s]; simpl; try done.
  destruct (Ascii.ascii_dec a b) as [-> | Hne]; [| done].
  intros H. destruct (Ascii.ascii_dec _ _); [by apply IH | done].
Qed.

Lemma contains_lower p s :
  py.contains p s = true → py.contains (py.lower p) (py.lower s) = true.
Proof.
  induction s as [| b s IH]; simpl; rewrite !orb_true_iff.
  - intros [H | H]; [| done]. left. by apply (prefix_lower p "").
  - intros [H | H]; [left | right; by apply IH].
    by apply (prefix_lower p (String b s)).
Qed.

Lemma sentinel_sheet_guard df : sentinel_sheet df → no_applicable_data df = true.
Proof.
  intros (s & row & rest & phrase & -> & Hl & Hc).
  unfold no_applicable_data. simpl. rewrite <- Hl. by apply contains_lower.
Qed.

(** C7. A file whose sheet has, as first cell, a string containing
    "no applicable data found" in any letter case writes nothing: the output
    folder and the list of processed files are as before.  Once the file name
    has been parsed and its entity found in the directory the outcome is the
    skip, not an error (the only error such a file can end in is a file name
    whose month is not a month, raised before the sheet is read), and the loop
    goes on with the remaining files. *)
Theorem sentinel_sheet_skipped (mo_comp_numbers : gset string)
    (currency_map : gmap (string * string) (string * string))
    (comp_no_to_oe_map : gmap string string)
    (st : batch_state folder) (file : input_file) (df : sheet)
    (rest : list input_file) :
  read_Sheet1 file = py.Return df →
  sentinel_sheet df →
  ∃ st' o,
    process_file folder match_filename load_currency_rates clean_and_save
      mo_comp_numbers currency_map comp_no_to_oe_map st file = (st', o) ∧
    output_folder folder st' = output_folder folder st ∧
    processed_files folder st' = processed_files folder st ∧
    (∀ name, o ≠ Processed name) ∧
    (∀ parts month_int comp_no_for_oe,
       match_filename (filename file) = Some parts →
       strptime_month (month_abbr parts) = py.Return month_int →
       comp_no_to_oe_map !! profit_center parts = Some comp_no_for_oe →
       comp_no_for_oe ≠ "" →
       o = Skipped NoApplicableDataFound) ∧
    (∀ e, o = ErrorProcessing e →
       ∃ parts, match_filename (filename file) = Some parts ∧
                strptime_month (month_abbr parts) = py.Raise e) ∧
    batch_loop folder match_filename load_currency_rates clean_and_save
      mo_comp_numbers currency_map comp_no_to_oe_map st (file :: rest)
    = (let '(st'', os) :=
         batch_loop folder match_filename load_currency_rates clean_and_save
           mo_comp_numbers currency_map comp_no_to_oe_map st' rest in
       (st'', o :: os)).
Proof.
  intros Hread Hsent. apply sentinel_sheet_guard in Hsent.
  cbn [batch_loop]. unfold process_file, iteration.
  destruct (match_filename (filename file)) as [parts |] eqn:Ep.
  2:{ eexists _, _. split_and!; try reflexivity; intros; congruence. }
  destruct (strptime_month (month_abbr parts)) as [month_int | e] eqn:Em.
  2:{ eexists _, _. split_and!; try reflexivity; try (intros; congruence).
      intros e' [= <-]. eauto. }
  destruct (comp_no_to_oe_map !! profit_center parts) as [oe |] eqn:Eo.
  2:{ eexists _, _. split_and!; try reflexivity; intros; congruence. }
  destruct oe as [| a oe].
  { eexists _, _. split_and!; try reflexivity; intros; congruence. }
  destruct (conversion_rates _ _ _ _ _ _ _) as [cache rates].
  rewrite Hread, Hsent.
  eexists _, _. split_and!; try reflexivity; intros; congruence.
Qed.

End SentinelSkip.

(** A file "Order Entry_Sep_2025_DK01_2033_MO.xlsx" whose first cell reads
    "No Applicable Data Found for the selection", followed by another file. *)
Lemma sentinel_sheet_skipped_witness :
  let parts := {| clean_oe.month_abbr := "Sep"; clean_oe.year_str := "2025";
                  clean_oe.unit := "DK01"; clean_oe.profit_center := "2033";
                  clean_oe.type_mo := "MO" |} in
  let df := [[Str "No Applicable Data Found for the selection"; NaN]; [NaN; NaN]] in
  let file := {| clean_oe.filename := "Order Entry_Sep_2025_DK01_2033_MO.xlsx";
                 clean_oe.read_Sheet1 := py.Return df |} in
  let st := {| clean_oe.output_folder := ([] : list string);
               clean_oe.processed_files := [];
               clean_oe.rates_cache := ∅ |} in
  let save := fun (_ : gset string) (_ : clean_oe.name_parts) (_ : string)
                  (_ : Q * Q * bool) (_ : clean_oe.sheet) (out : list string) =>
                py.Return ("out.csv" :: out, "out.csv") in
  ∃ st',
    clean_oe.process_file (list string) (fun _ => Some parts) (fun _ _ => None)
      save ∅ ∅ {["2033" := "9005"]} st file
    = (st', clean_oe.Skipped clean_oe.NoApplicableDataFound) ∧
    clean_oe.processed_files _ st' = [].
Proof.
  intros parts df file st save.
  destruct (sentinel_sheet_skipped (list string) (fun _ => Some parts)
              (fun _ _ => None) save ∅ ∅ {["2033" := "9005"]} st file df [])
    as (st' & o & Hp & _ & Hfiles & _ & Hskip & _).
  - reflexivity.
  - exists "No Applicable Data Found for the selection", [NaN], [[NaN; NaN]],
      "No Applicable Data Found".
    split; [reflexivity |]. split; vm_compute; reflexivity.
  - assert (Ho : o = clean_oe.Skipped clean_oe.NoApplicableDataFound).
    { apply (Hskip parts 9%nat "9005").
      - reflexivity.
      - vm_compute. reflexivity.
      - vm_compute. reflexivity.
      - discriminate. }
    subst o. exists st'. split; [exact Hp | exact Hfiles].
Defined.

Section Classification.

Import clean_oe.

Variable float_repr : Q → string.

Local Abbreviation source := (source_series float_repr).
Local Abbreviation mapped := (mapped_series float_repr).

Lemma lower_char_idem c : py.lower_char (py.lower_char c) = py.lower_char c.
Proof. destruct c as [[] [] [] [] [] [] [] []]; reflexivity. Qed.

Lemma lower_idem s : py.lower (py.lower s) = py.lower s.
Proof. induction s as [| c s IH]; simpl; [done |]. by rewrite lower_char_idem, IH. Qed.

Lemma dict_get_None {V} (d : list (string * V)) (k : string) :
  dict_get d k = None ↔ k ∉ (fst <$> d).
Proof.
  induction d as [| [k' v] d IH]; simpl.
  - split; [intros _; apply not_elem_of_nil | done].
  - case_decide as E.
    + subst. split; [done |]. intros H. exfalso. apply H. left.
    + rewrite IH, not_elem_of_cons. naive_solver.
Qed.

Lemma classification_values t c :
  dict_get classification_map t = Some c → c = "PRODUCT" ∨ c = "SERVICE".
Proof.
  unfold classification_map. simpl.
  repeat (case_decide; [intros [= <-]; auto |]). discriminate.
Qed.

Lemma unmapped_types_spec (df : list doc_row) (t : string) :
  t ∈ unmapped_types_of float_repr df ↔
  t ≠ "" ∧ dict_get classification_map t = None ∧ ∃ r, r ∈ df ∧ source r = t.
Proof.
  unfold unmapped_types_of. rewrite list_elem_of_In, filter_In, <- list_elem_of_In.
  rewrite elem_of_drop_duplicates, list_elem_of_fmap, andb_true_iff, !negb_true_iff.
  rewrite bool_decide_eq_false, dict_get_None.
  destruct (String.eqb_spec t ""); naive_solver.
Qed.

Lemma unmapped_types_lower (df : list doc_row) :
  py.lower <$> unmapped_types_of float_repr df = unmapped_types_of float_repr df.
Proof.
  rewrite <- (list_fmap_id (unmapped_types_of float_repr df)) at 2.
  apply list_fmap_ext. intros i t Ht.
  apply list_elem_of_lookup_2, unmapped_types_spec in Ht as (_ & _ & r & _ & <-).
  apply lower_idem.
Qed.

Lemma none_rows_listed (df : list doc_row) :
  "none" ∈ unmapped_types_of float_repr df ↔ ∃ r, r ∈ df ∧ source r = "none".
Proof. rewrite unmapped_types_spec. naive_solver. Qed.

Lemma filter_all {A} (P : A → Prop) `{∀ x, Decision (P x)} (l : list A) :
  (∀ x, x ∈ l → P x) → filter P l = l.
Proof.
  induction l as [| x l IH]; intros H'; [done |].
  rewrite filter_cons, decide_True by (apply H'; left).
  f_equal. apply IH. intros y Hy. apply H'. by right.
Qed.

Lemma length_filter_pos {A} (P : A → Prop) `{∀ x, Decision (P x)} (l : list A) :
  (0 <? length (filter P l))%nat = true ↔ ∃ x, x ∈ l ∧ P x.
Proof.
  rewrite Nat.ltb_lt. split.
  - intros Hlen. destruct (filter P l) as [| x l'] eqn:E; [simpl in Hlen; lia |].
    assert (Hx : x ∈ filter P l) by (rewrite E; left).
    apply list_elem_of_filter in Hx. naive_solver.
  - intros (x & Hx & HP).
    assert (Hin : x ∈ filter P l) by by apply list_elem_of_filter.
    destruct (filter P l); [by apply elem_of_nil in Hin | simpl; lia].
Qed.

Lemma classify_table (df : list doc_row) :
  (classify float_repr df).1
  = classified float_repr <$> filter (fun r => source r ≠ "none") df.
Proof.
  unfold classify. cbv zeta.
  assert (Hkeep : (¬ ∃ r, r ∈ df ∧ source r = "none") →
                  filter (fun r => source r ≠ "none") df = df).
  { intros Hno. apply filter_all. intros r Hr Heq. apply Hno. eauto. }
  destruct (0 <? length (filter (fun r => mapped r = None) df))%nat eqn:E1.
  2:{ simpl. rewrite Hkeep; [done |]. intros (r & Hr & Hs).
      assert ((0 <? length (filter (fun r => mapped r = None) df))%nat = true);
        [| congruence].
      apply length_filter_pos. exists r. split; [done |].
      unfold mapped_series. by rewrite Hs. }
  rewrite unmapped_types_lower.
  case_bool_decide as E2.
  2:{ simpl. rewrite Hkeep; [done |]. by rewrite <- none_rows_listed. }
  destruct (0 <? length (filter (fun r => source r = "none") df))%nat eqn:E3;
    [done |].
  simpl. rewrite Hkeep; [done |]. intros Hex.
  pose proof (proj2 (length_filter_pos (fun r => source r = "none") df) Hex).
  congruence.
Qed.

Lemma classify_log_types (df : list doc_row) (t : string) :
  (∃ l, UnmappedDocTypes l ∈ (classify float_repr df).2 ∧ t ∈ l)
  ↔ t ∈ unmapped_types_of float_repr df.
Proof.
  unfold classify. cbv zeta.
  set (types_message := match unmapped_types_of float_repr df with
                        | [] => AllDocTypesMapped
                        | _ :: _ => UnmappedDocTypes (unmapped_types_of float_repr df)
                        end).
  assert (Hmsg : ∀ l, UnmappedDocTypes l = types_message →
                      l = unmapped_types_of float_repr df).
  { subst types_message. intros l.
    destruct (unmapped_types_of float_repr df); [discriminate | by intros [= ->]]. }
  assert (Hhead : t ∈ unmapped_types_of float_repr df →
                  UnmappedDocTypes (unmapped_types_of float_repr df) = types_message).
  { subst types_message.
    destruct (unmapped_types_of float_repr df); [by intros ?%elem_of_nil | done]. }
  split.
  - intros (l & Hl & Ht).
    repeat match type of Hl with
    | context [if ?b then _ else _] => destruct b
    end; simpl in Hl; set_unfold in Hl;
      (destruct Hl as [Hl | Hl]; [by rewrite <- (Hmsg l Hl) |]);
      repeat (destruct Hl as [Hl | Hl]; [discriminate |]); try done.
  - intros Ht. exists (unmapped_types_of float_repr df). split; [| done].
    rewrite (Hhead Ht).
    repeat match goal with
    | |- context [if ?b then _ else _] => destruct b
    end; simpl; left.
Qed.

Lemma classify_log_none (df : list doc_row) :
  (∃ r, r ∈ df ∧ source r = "none") →
  RemovingNoneRows (length (filter (fun r => source r = "none") df))
    ∈ (classify float_repr df).2.
Proof.
  intros Hex. unfold classify. cbv zeta.
  assert (E1 : (0 <? length (filter (fun r => mapped r = None) df))%nat = true).
  { apply length_filter_pos. destruct Hex as (r & Hr & Hs). exists r.
    split; [done |]. unfold mapped_series. by rewrite Hs. }
  assert (E3 : (0 <? length (filter (fun r => source r = "none") df))%nat = true)
    by by apply length_filter_pos.
  rewrite E1, unmapped_types_lower, E3.
  rewrite bool_decide_eq_true_2 by by apply none_rows_listed.
  simpl. set_solver.
Qed.

(** C9 (as amended). The document type of every row is rendered as text,
    trimmed and lower-cased, and looked up in the classification table.  A
    value found there gets the table's category, PRODUCT or SERVICE; a value
    not found gets the literal "Product".  Rows whose normalised document
    type is "none" are removed, and the removal is logged; all other rows are
    kept in order.  The logged list of unmapped types holds exactly the
    distinct non-empty normalised document types that are not in the
    table. *)
Theorem classification_of_document_types (df : list doc_row) :
  (classify float_repr df).1
    = classified float_repr <$> filter (fun r => source r ≠ "none") df ∧
  (∀ r, (∃ c, dict_get classification_map (source r) = Some c ∧
              (c = "PRODUCT" ∨ c = "SERVICE") ∧
              Product_Service (classified float_repr r) = Str c) ∨
        (dict_get classification_map (source r) = None ∧
         Product_Service (classified float_repr r) = Str "Product")) ∧
  (∀ t, (t ≠ "" ∧ dict_get classification_map t = None ∧
         ∃ r, r ∈ df ∧ source r = t) ↔
        (∃ l, UnmappedDocTypes l ∈ (classify float_repr df).2 ∧ t ∈ l)) ∧
  ((∃ r, r ∈ df ∧ source r = "none") →
   RemovingNoneRows (length (filter (fun r => source r = "none") df))
     ∈ (classify float_repr df).2).
Proof.
  split_and!.
  - apply classify_table.
  - intros r. unfold classified, mapped_series. cbn [Product_Service].
    destruct (dict_get classification_map (source r)) as [c |] eqn:E.
    + left. exists c. split; [done |].
      split; [by eapply classification_values | reflexivity].
    + right. split; [done | reflexivity].
  - intros t. by rewrite classify_log_types, unmapped_types_spec.
  - apply classify_log_none.
Qed.

End Classification.

(** Three rows: a mapped type written with capitals and spaces, a type that
    is not in the table, and a blank cell. *)
Lemma classification_of_document_types_witness :
  let row c := {| clean_oe.Sales_doc_type := c;
                  clean_oe.Product_Service := NaN;
                  clean_oe.other_columns := [] |} in
  let df := [row (Str " MT Svc Conf DMR "); row (Str "ZZ New Type"); row NaN] in
  let out := clean_oe.classify (fun _ => "0.0") df in
  clean_oe.Product_Service <$> out.1 = [Str "SERVICE"; Str "Product"; Str "Product"] ∧
  (∃ l, clean_oe.UnmappedDocTypes l ∈ out.2 ∧ "zz new type" ∈ l).
Proof.
  intros row df out.
  destruct (classification_of_document_types (fun _ => "0.0") df)
    as (Htable & _ & Hlog & _).
  split.
  - subst out. rewrite Htable. vm_compute. reflexivity.
  - apply Hlog. split; [discriminate |]. split; [vm_compute; reflexivity |].
    exists (row (Str "ZZ New Type")). split; [| vm_compute; reflexivity].
    right. left.
Defined.

(** C9 as stated fails: a document type that is not in the table is not
    classified as PRODUCT (nor SERVICE) but as "Product"; a whitespace-only
    document type is defaulted without being listed among the unmapped
    types; and a row whose document type reads "None" is not classified at
    all but removed from the table. *)
Lemma classification_counterexample :
  let row c := {| clean_oe.Sales_doc_type := c;
                  clean_oe.Product_Service := NaN;
                  clean_oe.other_columns := [] |} in
  let df := [row (Str "ZZ New Type"); row (Str "  ")] in
  let out := clean_oe.classify (fun _ => "0.0") df in
  clean_oe.Product_Service <$> out.1 = [Str "Product"; Str "Product"] ∧
  Str "Product" ≠ Str "PRODUCT" ∧ Str "Product" ≠ Str "SERVICE" ∧
  out.2 = [clean_oe.UnmappedDocTypes ["zz new type"];
           clean_oe.RowsDefaulted 2 out.1] ∧
  (clean_oe.classify (fun _ => "0.0") [row (Str "None")]).1 = [].
Proof.
  intros row df out. split_and!; try discriminate; vm_compute; reflexivity.
Qed.

Section Segregation.

Import clean_sales.

Variable float_repr : Q → string.
Variable parse_float : string → option Q.

Lemma filter_indexed_tail (P : list cell → bool) (g : nat → nat)
    (rows : list (list cell)) :
  (∀ i, g i ≠ 0%nat) →
  snd <$> List.filter (fun ir => (ir.1 =? 0)%nat || P ir.2)
            (imap (fun i row => (g i, row)) rows)
  = List.filter P rows.
Proof.
  revert g. induction rows as [| row rows IH]; intros g Hg; [reflexivity |].
  rewrite imap_cons. cbn [List.filter fst snd].
  destruct (Nat.eqb_spec (g 0%nat) 0) as [E | _]; [by apply Hg in E |].
  specialize (IH (g ∘ S) (fun i => Hg (S i))).
  cbn [orb]. destruct (P row); cbn [fmap list_fmap]; by rewrite <- IH.
Qed.

Lemma filter_indexed (P : list cell → bool) (header : list cell)
    (rows : list (list cell)) :
  snd <$> List.filter (fun ir => (ir.1 =? 0)%nat || P ir.2)
            (indexed (header :: rows))
  = header :: List.filter P rows.
Proof.
  unfold indexed. rewrite imap_cons. cbn [List.filter fst snd Nat.eqb orb].
  rewrite fmap_cons. f_equal.
  by apply (filter_indexed_tail P S).
Qed.

Lemma select_final_columns_wide (row : list cell) :
  (15 ≤ length row)%nat → select_final_columns row = Some (selected_columns row).
Proof.
  intros Hrow. unfold select_final_columns, selected_columns.
  apply mapM_Some, Forall2_fmap_r, Forall_Forall2_diag, Forall_forall.
  intros i Hi. unfold compose. rewrite nth_lookup.
  assert (Hlt : (i < 15)%nat).
  { revert i Hi. apply Forall_forall. vm_compute. repeat constructor. }
  destruct (row !! i) eqn:E; [done |].
  apply lookup_ge_None in E. lia.
Qed.

Lemma iloc_final_columns_wide (df : list (list cell)) :
  has_column_O df → iloc_final_columns df = Some (selected_columns <$> df).
Proof.
  intros Hdf. unfold iloc_final_columns.
  apply mapM_Some, Forall2_fmap_r, Forall_Forall2_diag.
  eapply Forall_impl; [exact Hdf |]. apply select_final_columns_wide.
Qed.

Lemma has_column_O_filter (P : list cell → bool) header rows :
  has_column_O (header :: rows) → has_column_O (header :: List.filter P rows).
Proof.
  unfold has_column_O. rewrite !Forall_cons. intros [Hh Hrows]. split; [done |].
  apply Forall_forall. intros row Hrow%list_elem_of_In%filter_In.
  destruct Hrow as [Hin _]. apply list_elem_of_In in Hin.
  by eapply Forall_forall in Hrows.
Qed.

Lemma iloc_final_columns_narrow (header : list cell) (rows : list (list cell)) :
  (length header ≤ 14)%nat → iloc_final_columns (header :: rows) = None.
Proof.
  intros Hheader. unfold iloc_final_columns.
  apply mapM_None, Exists_cons_hd. unfold select_final_columns.
  apply mapM_None, Exists_exists. exists 14%nat. split.
  - apply elem_of_app. right. apply list_elem_of_further, list_elem_of_here.
  - apply lookup_ge_None. lia.
Qed.

Lemma segregate_one_narrow header rows file_parts rc rp seg_type :
  (length header ≤ 14)%nat →
  segregate_one float_repr parse_float (header :: rows) file_parts rc rp seg_type
  = None.
Proof.
  intros Hheader. unfold segregate_one. cbv zeta.
  rewrite filter_indexed, (iloc_final_columns_narrow _ _ Hheader).
  by destruct (_ <=? _)%nat.
Qed.

Lemma process_3rd_only_narrow header rows file_parts rc rp :
  (length header ≤ 14)%nat →
  _process_3rd_only_file float_repr parse_float (header :: rows) file_parts rc rp
  = [].
Proof.
  intros Hheader. unfold _process_3rd_only_file. cbv zeta.
  rewrite filter_indexed, (iloc_final_columns_narrow _ _ Hheader).
  by destruct (_ <=? _)%nat.
Qed.

Lemma segregate_one_spec header rows file_parts rc rp seg_type :
  has_column_O (header :: rows) →
  option_list (segregate_one float_repr parse_float (header :: rows) file_parts
                 rc rp seg_type)
  = segregated_output float_repr parse_float file_parts rc rp rows seg_type.
Proof.
  intros Hwide%(has_column_O_filter (tag_equals float_repr seg_type)).
  unfold segregate_one, segregated_output. cbv zeta.
  rewrite filter_indexed, (iloc_final_columns_wide _ Hwide).
  destruct (List.filter (tag_equals float_repr seg_type) rows) as [| r kept];
    reflexivity.
Qed.

Lemma process_3rd_only_spec header rows file_parts rc rp :
  has_column_O (header :: rows) →
  _process_3rd_only_file float_repr parse_float (header :: rows) file_parts rc rp
  = fallback_output float_repr parse_float file_parts rc rp rows.
Proof.
  intros Hwide%(has_column_O_filter (tag_contains_3RD float_repr)).
  unfold _process_3rd_only_file, fallback_output. cbv zeta.
  rewrite filter_indexed, (iloc_final_columns_wide _ Hwide).
  destruct (List.filter (tag_contains_3RD float_repr) rows) as [| r kept];
    reflexivity.
Qed.

Lemma route_fallback (comp_type_map : gmap string string) (comp_no : option string) :
  (∀ c, comp_no = Some c → c ≠ "" →
        comp_type_map !! c ≠ Some "MO" ∧ comp_type_map !! c ≠ Some "PO" ∧
        comp_type_map !! c ≠ Some "MOPO") →
  route comp_type_map comp_no = None.
Proof.
  intros H. unfold route. destruct comp_no as [c |]; [| done].
  destruct (String.eqb_spec c "") as [| Hc]; [done |].
  destruct (H c eq_refl Hc) as (H1 & H2 & H3).
  destruct (comp_type_map !! c) as [t |]; [| done].
  destruct (String.eqb_spec t "MO") as [-> | _]; [done |].
  destruct (String.eqb_spec t "PO") as [-> | _]; [done |].
  by destruct (String.eqb_spec t "MOPO") as [-> | _].
Qed.

(** C8 (as amended). The sales pipeline routes a file by the type of its
    entity.  For a sheet that has column O: MO writes the rows whose tag
    column (index 11), rendered as text and stripped, equals "3RD"; PO those
    equal to "IC"; MOPO both, as two files, "3RD" first; a tag that no data
    row carries yields no file (so MO and PO write at most one file and MOPO
    at most two); any other case (no entity number in the file name, entity
    absent from the type map, another type) falls back to one file of the
    rows whose tag contains "3RD".  A sheet without column O yields no file
    whatever the type. *)
Theorem sales_segregation_by_type (comp_type_map : gmap string string)
    (header : list cell) (rows : list (list cell)) (file_parts : file_parts)
    (rc rp : Q) :
  let written :=
    process_cleaned_file float_repr parse_float comp_type_map (header :: rows)
      file_parts rc rp in
  let output := segregated_output float_repr parse_float file_parts rc rp rows in
  (has_column_O (header :: rows) →
     (∀ c, comp_no file_parts = Some c → c ≠ "" →
           comp_type_map !! c = Some "MO" → written = output "3RD") ∧
     (∀ c, comp_no file_parts = Some c → c ≠ "" →
           comp_type_map !! c = Some "PO" → written = output "IC") ∧
     (∀ c, comp_no file_parts = Some c → c ≠ "" →
           comp_type_map !! c = Some "MOPO" →
           written = (output "3RD" ++ output "IC")%list) ∧
     ((∀ c, comp_no file_parts = Some c → c ≠ "" →
            comp_type_map !! c ≠ Some "MO" ∧ comp_type_map !! c ≠ Some "PO" ∧
            comp_type_map !! c ≠ Some "MOPO") →
      written = fallback_output float_repr parse_float file_parts rc rp rows)) ∧
  ((length header ≤ 14)%nat → written = []) ∧
  (∀ seg_type f r, f ∈ output seg_type → r ∈ data f →
     ∃ row, row ∈ rows ∧
       py.strip (cell_astype_str float_repr (column_11 row)) = seg_type ∧
       r = convert_row parse_float rc rp (selected_columns row)).
Proof.
  intros written output. subst written output.
  unfold process_cleaned_file.
  assert (Hroute : ∀ c t types, comp_no file_parts = Some c → c ≠ "" →
            comp_type_map !! c = Some t →
            (if String.eqb t "MO" then Some ["3RD"]
             else if String.eqb t "PO" then Some ["IC"]
             else if String.eqb t "MOPO" then Some ["3RD"; "IC"] else None)
            = Some types →
            route comp_type_map (comp_no file_parts) = Some types).
  { intros c t types -> Hc Ht <-. unfold route. rewrite Ht.
    by destruct (String.eqb_spec c ""). }
  split; [intros Hwide; split_and! | split].
  - intros c Hc Hne Ht. rewrite (Hroute c _ ["3RD"] Hc Hne Ht eq_refl).
    unfold _process_segregated_file. cbn [omap list_omap].
    rewrite <- (segregate_one_spec header) by done.
    by destruct (segregate_one _ _ _ _ _ _ _).
  - intros c Hc Hne Ht. rewrite (Hroute c _ ["IC"] Hc Hne Ht eq_refl).
    unfold _process_segregated_file. cbn [omap list_omap].
    rewrite <- (segregate_one_spec header) by done.
    by destruct (segregate_one _ _ _ _ _ _ _).
  - intros c Hc Hne Ht. rewrite (Hroute c _ ["3RD"; "IC"] Hc Hne Ht eq_refl).
    unfold _process_segregated_file. cbn [omap list_omap].
    rewrite <- !(segregate_one_spec header) by done.
    by do 2 destruct (segregate_one _ _ _ _ _ _ _).
  - intros H. rewrite (route_fallback _ _ H). by apply process_3rd_only_spec.
  - intros Hheader. clear Hroute.
    destruct (route comp_type_map (comp_no file_parts)) as [types |];
      [| by apply process_3rd_only_narrow].
    unfold _process_segregated_file.
    induction types as [| t types IH]; [done |].
    cbn [omap list_omap]. rewrite segregate_one_narrow by done. exact IH.
  - intros seg_type f r Hf Hr. unfold segregated_output in Hf. cbv zeta in Hf.
    destruct (List.filter (tag_equals float_repr seg_type) rows)
      as [| k kept] eqn:E; [by apply elem_of_nil in Hf |].
    apply list_elem_of_singleton in Hf. subst f. cbn [data] in Hr.
    apply list_elem_of_fmap in Hr as (x & -> & Hx).
    apply list_elem_of_fmap in Hx as (row & -> & Hrow).
    rewrite <- E in Hrow. apply list_elem_of_In, filter_In in Hrow as [Hin Htag].
    exists row. split_and!; try done.
    + by apply list_elem_of_In.
    + unfold tag_equals in Htag. by apply String.eqb_eq in Htag.
Qed.

End Segregation.

(** A MOPO entity whose sheet has two rows tagged "3RD" and one tagged
    " IC ": two files, the first with two rows, the second with one. *)
Lemma sales_segregation_by_type_witness :
  let row tag := (replicate 11 (Str "x") ++ [Str tag; Num 100; NaN; Num 90])%list in
  let rows := [row "3RD"; row " IC "; row "3RD"] in
  let parts := {| clean_sales.unit_name := "DK01"; clean_sales.comp_no := Some "2033";
                  clean_sales.month_part := "09"; clean_sales.year_part_short := "25";
                  clean_sales.sales_col := "Sales SEP 2025";
                  clean_sales.py_col := "PY Sales SEP 2024" |} in
  let written :=
    clean_sales.process_cleaned_file (fun _ => "0.0") (fun _ => None)
      {["2033" := "MOPO"]} (row "Tag" :: rows) parts 1 1 in
  clean_sales.output_filename <$> written
    = ["Sales_Data_Processed_DK01_2033_0925_3RD.csv";
       "Sales_Data_Processed_DK01_2033_0925_IC.csv"] ∧
  (length ∘ clean_sales.data) <$> written = [2; 1]%nat.
Proof.
  intros row rows parts written.
  destruct (sales_segregation_by_type (fun _ => "0.0") (fun _ => None)
              {["2033" := "MOPO"]} (row "Tag") rows parts 1 1)
    as (Hwide & _).
  destruct Hwide as (_ & _ & Hmopo & _); [repeat constructor |].
  subst written. rewrite (Hmopo "2033").
  - split; vm_compute; reflexivity.
  - reflexivity.
  - discriminate.
  - vm_compute. reflexivity.
Defined.

(** C8 as stated fails: an entity of type MO whose sheet has no row tagged
    "3RD" writes no file at all, and an entity of type MOPO whose sheet has
    only "3RD" rows writes one file, not two. *)
Lemma sales_segregation_counterexample :
  let row tag := (replicate 11 (Str "x") ++ [Str tag; Num 100; NaN; Num 90])%list in
  let parts := {| clean_sales.unit_name := "DK01"; clean_sales.comp_no := Some "2033";
                  clean_sales.month_part := "09"; clean_sales.year_part_short := "25";
                  clean_sales.sales_col := "Sales SEP 2025";
                  clean_sales.py_col := "PY Sales SEP 2024" |} in
  clean_sales.process_cleaned_file (fun _ => "0.0") (fun _ => None)
    {["2033" := "MO"]} [row "Tag"; row "IC"; row "IC"] parts 1 1 = [] ∧
  clean_sales.output_filename <$>
    clean_sales.process_cleaned_file (fun _ => "0.0") (fun _ => None)
      {["2033" := "MOPO"]} [row "Tag"; row "3RD"] parts 1 1
  = ["Sales_Data_Processed_DK01_2033_0925_3RD.csv"].
Proof.
  intros row parts. split; vm_compute; reflexivity.
Qed.

Section Duplicates.

Variable csv_data_string : string → py.result string.
Variable xlsx_data_string : string → py.result string.
Variable md5_hexdigest : string → string.
Variable output_folder : string.
Variable disk : gmap string string.

Local Abbreviation path := (py.path_join output_folder).
Local Abbreviation hash f :=
  (_get_file_content_hash csv_data_string xlsx_data_string md5_hexdigest
     disk (path f)).
Local Abbreviation here f := (path_exists disk (path f) = true).
Local Abbreviation scan :=
  (scan_files csv_data_string xlsx_data_string md5_hexdigest output_folder disk).

Lemma scan_cons_absent x l cm :
  ¬ here x → scan (x :: l) cm = scan l cm.
Proof.
  intros H. cbn [scan_files].
  destruct (path_exists disk (path x)); [by destruct H | done].
Qed.

Lemma scan_cons_seen x l cm o :
  here x → cm !! hash x = Some o →
  scan (x :: l) cm = ((scan l cm).1, x :: (scan l cm).2).
Proof.
  intros Hx Hc. cbn [scan_files]. rewrite Hx, Hc. cbn [negb].
  by destruct (scan l cm).
Qed.

Lemma scan_cons_new x l cm :
  here x → cm !! hash x = None →
  scan (x :: l) cm
  = (x :: (scan l (<[hash x := x]> cm)).1, (scan l (<[hash x := x]> cm)).2).
Proof.
  intros Hx Hc. cbn [scan_files]. rewrite Hx, Hc. cbn [negb].
  by destruct (scan l _).
Qed.

Lemma scan_keep_spec l cm f :
  f ∈ (scan l cm).1 ↔
  ∃ l1 l2, l = (l1 ++ f :: l2)%list ∧ here f ∧ cm !! hash f = None ∧
           ∀ g, g ∈ l1 → here g → hash g ≠ hash f.
Proof.
  revert cm. induction l as [| x l IH]; intros cm.
  { simpl. split; [by intros ?%elem_of_nil |].
    intros (l1 & l2 & E & _). by destruct l1. }
  destruct (path_exists disk (path x)) eqn:Hx.
  2:{ rewrite scan_cons_absent by congruence. rewrite IH. split.
      - intros (l1 & l2 & -> & Hf & Hc & Hall). exists (x :: l1), l2.
        split_and!; try done. intros g [-> | Hg]%elem_of_cons; [congruence | eauto].
      - intros (l1 & l2 & E & Hf & Hc & Hall). destruct l1 as [| y l1].
        + injection E as -> ->. congruence.
        + injection E as -> ->. exists l1, l2. split_and!; try done.
          intros g Hg. apply Hall. by right. }
  destruct (cm !! hash x) as [o |] eqn:Hc.
  - rewrite (scan_cons_seen x l cm o Hx Hc). cbn [fst]. rewrite IH. split.
    + intros (l1 & l2 & -> & Hf & Hcf & Hall). exists (x :: l1), l2.
      split_and!; try done. intros g [-> | Hg]%elem_of_cons; [| eauto].
      intros _ Heq. rewrite Heq in Hc. congruence.
    + intros (l1 & l2 & E & Hf & Hcf & Hall). destruct l1 as [| y l1].
      * injection E as -> ->. congruence.
      * injection E as -> ->. exists l1, l2. split_and!; try done.
        intros g Hg. apply Hall. by right.
  - rewrite (scan_cons_new x l cm Hx Hc). cbn [fst].
    rewrite elem_of_cons, IH. split.
    + intros [-> | (l1 & l2 & -> & Hf & Hcf & Hall)].
      * exists [], l. split_and!; try done. by intros g ?%elem_of_nil.
      * apply lookup_insert_None in Hcf as [Hcf Hne].
        exists (x :: l1), l2. split_and!; try done.
        intros g [-> | Hg]%elem_of_cons; [done | eauto].
    + intros (l1 & l2 & E & Hf & Hcf & Hall). destruct l1 as [| y l1].
      * injection E as -> ->. by left.
      * injection E as -> ->. right. exists l1, l2. split_and!; try done.
        -- apply lookup_insert_None. split; [done |]. apply Hall; [left | done].
        -- intros g Hg. apply Hall. by right.
Qed.

Lemma scan_remove_spec l cm f :
  f ∈ (scan l cm).2 ↔
  ∃ l1 l2, l = (l1 ++ f :: l2)%list ∧ here f ∧
           (is_Some (cm !! hash f) ∨ ∃ g, g ∈ l1 ∧ here g ∧ hash g = hash f).
Proof.
  revert cm. induction l as [| x l IH]; intros cm.
  { simpl. split; [by intros ?%elem_of_nil |].
    intros (l1 & l2 & E & _). by destruct l1. }
  destruct (path_exists disk (path x)) eqn:Hx.
  2:{ rewrite scan_cons_absent by congruence. rewrite IH. split.
      - intros (l1 & l2 & -> & Hf & Hor). exists (x :: l1), l2.
        split_and!; try done. destruct Hor as [? | (g & Hg & ? & ?)]; [by left |].
        right. exists g. split_and!; try done. by right.
      - intros (l1 & l2 & E & Hf & Hor). destruct l1 as [| y l1].
        + injection E as -> ->. congruence.
        + injection E as -> ->. exists l1, l2. split_and!; try done.
          destruct Hor as [? | (g & [-> | Hg]%elem_of_cons & Hg' & ?)];
            [by left | congruence | right; eauto]. }
  destruct (cm !! hash x) as [o |] eqn:Hc.
  - rewrite (scan_cons_seen x l cm o Hx Hc). cbn [snd].
    rewrite elem_of_cons, IH. split.
    + intros [-> | (l1 & l2 & -> & Hf & Hor)].
      * exists [], l. split_and!; try done. left. by rewrite Hc.
      * exists (x :: l1), l2. split_and!; try done.
        destruct Hor as [? | (g & Hg & ? & ?)]; [by left |].
        right. exists g. split_and!; try done. by right.
    + intros (l1 & l2 & E & Hf & Hor). destruct l1 as [| y l1].
      * injection E as -> ->. by left.
      * injection E as -> ->. right. exists l1, l2. split_and!; try done.
        destruct Hor as [? | (g & [-> | Hg]%elem_of_cons & Hg' & Heq)];
          [by left | | right; eauto].
        left. rewrite <- Heq, Hc. eauto.
  - rewrite (scan_cons_new x l cm Hx Hc). cbn [snd]. rewrite IH. split.
    + intros (l1 & l2 & -> & Hf & Hor). exists (x :: l1), l2.
      split_and!; try done.
      destruct Hor as [[o Ho] | (g & Hg & ? & ?)].
      * apply lookup_insert_Some in Ho as [[Heq _] | [_ Ho]].
        -- right. exists x. split_and!; try done. left.
        -- left. eauto.
      * right. exists g. split_and!; try done. by right.
    + intros (l1 & l2 & E & Hf & Hor). destruct l1 as [| y l1].
      * injection E as -> ->. destruct Hor as [[o Ho] | (g & Hg & _)];
          [congruence | by apply elem_of_nil in Hg].
      * injection E as -> ->. exists l1, l2. split_and!; try done.
        destruct Hor as [[o Ho] | (g & [-> | Hg]%elem_of_cons & Hg' & Heq)].
        -- left. exists o. rewrite lookup_insert_ne; [done |].
           intros Heq. rewrite <- Heq in Ho. congruence.
        -- left. rewrite <- Heq, lookup_insert_eq. eauto.
        -- right. eauto.
Qed.

Lemma scan_keep_sublist l cm : sublist (scan l cm).1 l.
Proof.
  revert cm. induction l as [| x l IH]; intros cm; [simpl; constructor |].
  destruct (path_exists disk (path x)) eqn:Hx.
  2:{ rewrite scan_cons_absent by congruence. apply sublist_cons, IH. }
  destruct (cm !! hash x) as [o |] eqn:Hc.
  - rewrite (scan_cons_seen x l cm o Hx Hc). apply sublist_cons, IH.
  - rewrite (scan_cons_new x l cm Hx Hc). apply sublist_skip, IH.
Qed.

Lemma remove_all_lookup (rm : list string) (d : gmap string string) (p : string) :
  foldl (fun disk filename => os_remove disk (path filename)) d rm !! p
  = if decide (p ∈ path <$> rm) then None else d !! p.
Proof.
  revert d. induction rm as [| r rm IH]; intros d.
  { cbn [foldl]. destruct (decide _) as [H |]; [by apply elem_of_nil in H | done]. }
  cbn [foldl]. rewrite IH, fmap_cons. unfold os_remove.
  destruct (decide (p ∈ path <$> rm)) as [Hin | Hnin].
  - rewrite decide_True; [done | by right].
  - destruct (decide (p = path r)) as [-> | Hne].
    + rewrite decide_True by left. apply lookup_delete_eq.
    + rewrite decide_False; [by apply lookup_delete_ne |].
      by intros [? | ?]%elem_of_cons.
Qed.

Lemma contains_sep_app_r a b :
  py.contains "/" b = true → py.contains "/" (a ++ b) = true.
Proof.
  intros H. induction a as [| c a IH]; [done |].
  change (String c a ++ b) with (String c (a ++ b)).
  cbn [py.contains]. rewrite IH. apply orb_true_r.
Qed.

Lemma prefix_sep_cons c x y :
  String.prefix "/" (String c x) = String.prefix "/" (String c y).
Proof.
  cbn [String.prefix]. destruct (Ascii.ascii_dec "/" c); [| done].
  by destruct x, y.
Qed.

Lemma contains_sep_app_l a b :
  py.contains "/" a = true → py.contains "/" (a ++ b) = true.
Proof.
  induction a as [| c a IH]; [done |].
  change (String c a ++ b) with (String c (a ++ b)).
  cbn [py.contains]. rewrite !orb_true_iff. intros [H | H]; [left | right; auto].
  by rewrite (prefix_sep_cons c (a ++ b) a).
Qed.

Lemma endswith_sep_contains a :
  py.endswith_sep a = true → py.contains "/" a = true.
Proof.
  induction a as [| c a IH]; [done |].
  cbn [py.endswith_sep py.contains]. destruct a as [| c' a].
  - intros ->%Ascii.eqb_eq. reflexivity.
  - intros H. rewrite (IH H). apply orb_true_r.
Qed.

Lemma path_contains_sep f :
  output_folder ≠ "" → py.contains "/" (path f) = true.
Proof.
  intros Hne. unfold py.path_join.
  destruct (String.prefix "/" f) eqn:Hp.
  { destruct f as [| c f]; [vm_compute in Hp; discriminate |].
    cbn [py.contains]. rewrite Hp. reflexivity. }
  destruct (String.eqb_spec output_folder ""); [done |]. cbn [orb].
  destruct (py.endswith_sep output_folder) eqn:Hs.
  - by apply contains_sep_app_l, endswith_sep_contains.
  - apply contains_sep_app_r. change ("/" ++ f) with (String "/" f).
    cbn [py.contains]. by rewrite (prefix_sep_cons "/" f "").
Qed.

Lemma hash_cases f :
  hash f = path f ∨ ∃ data_string, hash f = md5_hexdigest data_string.
Proof.
  unfold _get_file_content_hash, content_digest.
  destruct (py.endswith (path f) ".csv").
  { destruct (read_file disk (path f)) as [c |]; [| by left]. simpl.
    destruct (csv_data_string c); simpl; eauto. }
  destruct (py.endswith (path f) ".xlsx"); [| by left].
  destruct (read_file disk (path f)) as [c |]; [| by left]. simpl.
  destruct (xlsx_data_string c); simpl; eauto.
Qed.

Lemma split_unique (l1 l2 l1' l2' : list string) (f : string) :
  NoDup (l1 ++ f :: l2) →
  (l1 ++ f :: l2 = l1' ++ f :: l2')%list → l1 = l1'.
Proof.
  revert l1'. induction l1 as [| x l1 IH]; intros [| y l1'] Hnd E; simpl in *.
  - done.
  - injection E as <- ->. apply NoDup_cons in Hnd as [Hnd _].
    exfalso. apply Hnd. set_solver.
  - injection E as -> <-. apply NoDup_cons in Hnd as [Hnd _].
    exfalso. apply Hnd. set_solver.
  - injection E as -> E. apply NoDup_cons in Hnd as [_ Hnd].
    f_equal. by apply IH.
Qed.

Lemma first_or_later (files : list string) (f : string) :
  f ∈ files → here f →
  first_occurrence (fun f => hash f) (fun f => here f) files f
  ∨ later_occurrence (fun f => hash f) (fun f => here f) files f.
Proof.
  intros (l1 & l2 & ->)%list_elem_of_split Hf.
  destruct (decide (Exists (fun g => here g ∧ hash g = hash f) l1)) as [He | Hn].
  - right. exists l1, l2. split_and!; try done.
    apply Exists_exists in He as (g & Hg & ? & ?). eauto.
  - left. exists l1, l2. split_and!; try done.
    intros g Hg Hgh Heq. apply Hn, Exists_exists. eauto.
Qed.

Lemma first_not_later (files : list string) (f : string) :
  NoDup files →
  first_occurrence (fun f => hash f) (fun f => here f) files f →
  later_occurrence (fun f => hash f) (fun f => here f) files f → False.
Proof.
  intros Hnd (l1 & l2 & E & _ & Hall) (l1' & l2' & E' & _ & g & Hg & Hgh & Heq).
  assert (l1 = l1') as <-.
  { eapply split_unique; [by rewrite <- E | by rewrite <- E, <- E']. }
  by eapply Hall.
Qed.

Lemma NoDup_fmap_elem_inj {A B} (h : A → B) (l : list A) (x y : A) :
  NoDup (h <$> l) → x ∈ l → y ∈ l → h x = h y → x = y.
Proof.
  induction l as [| a l IH]; intros Hnd Hx Hy Heq; [by apply elem_of_nil in Hx |].
  rewrite fmap_cons in Hnd. apply NoDup_cons in Hnd as [Ha Hnd].
  apply elem_of_cons in Hx as [-> | Hx]; apply elem_of_cons in Hy as [-> | Hy];
    try done.
  - exfalso. apply Ha. rewrite Heq. by apply list_elem_of_fmap_2.
  - exfalso. apply Ha. rewrite <- Heq. by apply list_elem_of_fmap_2.
  - by apply IH.
Qed.

Lemma unhashable_first (files : list string) (f : string) :
  (∀ s, py.contains "/" (md5_hexdigest s) = false) →
  output_folder ≠ "" →
  NoDup (path <$> files) →
  f ∈ files → here f →
  hash f = path f →
  first_occurrence (fun f => hash f) (fun f => here f) files f.
Proof.
  intros Hmd5 Hfolder Hnd (l1 & l2 & ->)%list_elem_of_split Hf Hh.
  exists l1, l2. split_and!; try done.
  intros g Hg _ Heq. rewrite Hh in Heq.
  destruct (hash_cases g) as [Hp | (s & Hd)].
  - rewrite fmap_app, fmap_cons in Hnd.
    apply NoDup_app in Hnd as (_ & Hnd & _).
    apply (Hnd (path g)); [by apply list_elem_of_fmap_2 |].
    rewrite <- Hp, Heq. left.
  - pose proof (path_contains_sep f Hfolder) as Hsep.
    rewrite <- Heq, Hd, Hmd5 in Hsep. discriminate.
Qed.

(** C10. [remove_duplicate_files] is called on the names [os.listdir] gives
    for the output folder of a session: no name twice, and a folder path that
    is not empty.  For such a list it returns an order-preserving sub-list of
    its input.  Of the listed files found on disk, those returned are exactly
    the first in list order with their content hash, and they are still on
    disk afterwards with their content; every later file with the hash of an
    earlier one is left out and is gone from disk.  A file that cannot be
    read or hashed has its path as hash, which no digest and no other path
    equals, so it is returned and stays on disk. *)
Theorem remove_duplicate_files_keeps_first (processed_files : list string) :
  (∀ s, py.contains "/" (md5_hexdigest s) = false) →
  output_folder ≠ "" →
  NoDup (path <$> processed_files) →
  let result :=
    remove_duplicate_files csv_data_string xlsx_data_string md5_hexdigest
      output_folder processed_files disk in
  let kept := fst result in
  let disk' := snd result in
  let first :=
    first_occurrence (fun f => hash f) (fun f => here f) processed_files in
  let later :=
    later_occurrence (fun f => hash f) (fun f => here f) processed_files in
  sublist kept processed_files ∧
  (∀ f, f ∈ processed_files → here f → (f ∈ kept ↔ first f)) ∧
  (∀ f, first f → disk' !! path f = disk !! path f) ∧
  (∀ f, later f → (f ∉ kept) ∧ disk' !! path f = None) ∧
  (∀ f, f ∈ processed_files → here f →
        (∀ digest, content_digest csv_data_string xlsx_data_string
                     md5_hexdigest disk (path f) ≠ py.Return (Some digest)) →
        hash f = path f ∧ f ∈ kept ∧ disk' !! path f = disk !! path f).
Proof.
  intros Hmd5 Hfolder Hnd result kept disk' first later. subst kept disk'.
  assert (Hnd' : NoDup processed_files) by by eapply NoDup_fmap_1.
  assert (Hkeep : ∀ f, f ∈ (scan processed_files ∅).1 ↔ first f).
  { intros f. rewrite scan_keep_spec. subst first. unfold first_occurrence.
    split; intros (l1 & l2 & H); exists l1, l2; [naive_solver |].
    destruct H as (? & ? & ?). split_and!; done. }
  assert (Hrm : ∀ f, f ∈ (scan processed_files ∅).2 ↔ later f).
  { intros f. rewrite scan_remove_spec. subst later. unfold later_occurrence.
    split; intros (l1 & l2 & H); exists l1, l2; [| naive_solver].
    destruct H as (? & ? & [[o Ho] | ?]); [| done].
    by rewrite lookup_empty in Ho. }
  assert (Hmem : ∀ f, first f ∨ later f → f ∈ processed_files).
  { intros f [(l1 & l2 & -> & _) | (l1 & l2 & -> & _)]; set_solver. }
  assert (Hexcl : ∀ f, first f → later f → False)
    by (intros f; by apply first_not_later).
  assert (Hcore :
    sublist (fst result) processed_files ∧
    (∀ f, f ∈ processed_files → here f → (f ∈ fst result ↔ first f)) ∧
    (∀ f, first f → snd result !! path f = disk !! path f) ∧
    (∀ f, later f → (f ∉ fst result) ∧ snd result !! path f = None)).
  { subst result. unfold remove_duplicate_files.
    pose proof (scan_keep_sublist processed_files ∅) as Hsub.
    destruct (scan processed_files ∅) as [keep rm] eqn:E. cbn [fst snd] in *.
    destruct rm as [| r rm].
    - cbn [fst snd]. split_and!; try done.
      + intros f Hin Hf. split; [| done]. intros _.
        destruct (first_or_later processed_files f Hin Hf) as [? | Hl]; [done |].
        apply Hrm in Hl. by apply elem_of_nil in Hl.
      + intros f Hl. apply Hrm in Hl. by apply elem_of_nil in Hl.
    - cbn [fst snd]. split_and!; try done.
      + intros f Hfirst. rewrite remove_all_lookup, decide_False; [done |].
        intros (g & Hp & Hg)%list_elem_of_fmap. apply Hrm in Hg.
        assert (f = g) as <-; [| by eapply Hexcl].
        eapply (NoDup_fmap_elem_inj (fun f => path f)); eauto.
      + intros f Hl. split.
        * intros Hk. apply Hkeep in Hk. by eapply Hexcl.
        * rewrite remove_all_lookup, decide_True; [done |].
          apply list_elem_of_fmap_2. by apply Hrm. }
  destruct Hcore as (H1 & H2 & H3 & H4). split_and!; try done.
  intros f Hin Hf Hu.
  assert (Hh : hash f = path f).
  { unfold _get_file_content_hash.
    destruct (content_digest _ _ _ _ _) as [[d |] | e]; try done.
    by destruct (Hu d). }
  assert (Hfirst : first f) by by apply unhashable_first.
  split_and!; [done | by apply H2 | by apply H3].
Qed.

End Duplicates.

(** A folder with two CSV files of equal content, one that pandas cannot
    read and one of different content; a fifth listed file is not on disk. *)
Lemma remove_duplicate_files_keeps_first_witness :
  let csv := fun s => if String.eqb s "garbage" then py.Raise py.ValueError
                      else py.Return s in
  let md5 := fun s => if py.contains "/" s then "" else s in
  let disk : gmap string string :=
    {[ "out/a.csv" := "x,y"; "out/b.csv" := "x,y"; "out/c.csv" := "garbage";
       "out/d.csv" := "p,q" ]} in
  let files := ["a.csv"; "b.csv"; "c.csv"; "d.csv"; "e.csv"] in
  let result := remove_duplicate_files csv csv md5 "out" files disk in
  fst result = ["a.csv"; "c.csv"; "d.csv"] ∧
  snd result !! "out/b.csv" = None ∧
  snd result !! "out/c.csv" = Some "garbage" ∧
  "c.csv" ∈ fst result.
Proof.
  intros csv md5 disk files result.
  destruct (remove_duplicate_files_keeps_first csv csv md5 "out" disk files)
    as (_ & _ & _ & Hlater & Hbad).
  - intros s. subst md5. cbv beta.
    destruct (py.contains "/" s) eqn:E; [reflexivity | exact E].
  - discriminate.
  - apply (bool_decide_unpack _). vm_compute. exact I.
  - split; [vm_compute; reflexivity |]. split.
    + apply (Hlater "b.csv"). exists ["a.csv"], ["c.csv"; "d.csv"; "e.csv"].
      split; [reflexivity |]. split; [vm_compute; reflexivity |].
      exists "a.csv". split; [left |]. split; vm_compute; reflexivity.
    + destruct (Hbad "c.csv") as (_ & Hin & Hdisk).
      * right. right. left.
      * vm_compute. reflexivity.
      * intros digest. vm_compute. discriminate.
      * split; [| exact Hin]. etransitivity; [exact Hdisk |].
        vm_compute. reflexivity.
Defined.

(** * Further properties of the embedded code *)

(** ** Lists *)

Section Lists.

Lemma List_filter_stdpp {A} (f : A → bool) (l : list A) :
  List.filter f l = filter (fun x => Is_true (f x)) l.
Proof.
  induction l as [| x l IH]; [reflexivity |].
  cbn [List.filter]. rewrite filter_cons, <- IH.
  destruct (f x); by rewrite ?decide_True, ?decide_False by (simpl; tauto).
Qed.

End Lists.

(** ** The validation sheets *)

Section ValidationSheets.

Lemma string_compare_lt_trans (a b c : string) :
  String.compare a b = Lt → String.compare b c = Lt → String.compare a c = Lt.
Proof.
  intros Hab Hbc.
  assert (Hle : String.le a c).
  { transitivity b; unfold String.le, String.leb; by rewrite ?Hab, ?Hbc. }
  unfold String.le, String.leb in Hle.
  destruct (String.compare a c) eqn:Hac; [| done | done].
  apply String.compare_eq_iff in Hac. subst c.
  rewrite String.compare_antisym, Hab in Hbc. discriminate.
Qed.

Local Instance group3_le_total : Total group3_le.
Proof.
  intros [[a1 a2] a3] [[b1 b2] b3]. unfold group3_le. cbn [fst snd].
  rewrite (String.compare_antisym b1 a1), (String.compare_antisym b2 a2).
  destruct (String.compare a1 b1); cbn [CompOpp]; auto.
  destruct (String.compare a2 b2); cbn [CompOpp]; auto.
  apply (total String.le).
Qed.

Local Instance group3_le_trans : Transitive group3_le.
Proof.
  intros [[a1 a2] a3] [[b1 b2] b3] [[c1 c2] c3]. unfold group3_le. cbn [fst snd].
  destruct (String.compare a1 b1) eqn:H1; [| | done].
  2:{ intros _. destruct (String.compare b1 c1) eqn:H2; [| | done].
      - apply String.compare_eq_iff in H2. subst. by rewrite H1.
      - by rewrite (string_compare_lt_trans _ _ _ H1 H2). }
  apply String.compare_eq_iff in H1. subst b1.
  destruct (String.compare a1 c1); [| done | done].
  destruct (String.compare a2 b2) eqn:H3; [| | done].
  2:{ intros _. destruct (String.compare b2 c2) eqn:H4; [| | done].
      - apply String.compare_eq_iff in H4. subst. by rewrite H3.
      - by rewrite (string_compare_lt_trans _ _ _ H3 H4). }
  apply String.compare_eq_iff in H3. subst b2.
  destruct (String.compare a2 c2); [| done | done].
  intros ??. by etransitivity.
Qed.

Local Instance group3_le_antisymm : AntiSymm (=) group3_le.
Proof.
  intros [[a1 a2] a3] [[b1 b2] b3]. unfold group3_le. cbn [fst snd].
  rewrite (String.compare_antisym b1 a1), (String.compare_antisym b2 a2).
  destruct (String.compare a1 b1) eqn:H1; cbn [CompOpp]; [| done | done].
  destruct (String.compare a2 b2) eqn:H2; cbn [CompOpp]; [| done | done].
  apply String.compare_eq_iff in H1, H2. subst. intros ??.
  f_equal. by apply (anti_symm String.le).
Qed.

Lemma sales_keys bi hyp :
  sales_key <$> generate_sales_validation_data bi hyp
  = merge_sort group3_le (elements (dom bi ∪ dom hyp)).
Proof.
  unfold generate_sales_validation_data. cbv zeta.
  rewrite <- list_fmap_compose.
  rewrite <- (list_fmap_id (merge_sort _ _)) at 2.
  apply list_fmap_ext. intros _ k _. apply sales_key_row.
Qed.

(** X1. The sales validation sheet has exactly one row for every key of the
    union of the two maps, in ascending order of the key, and the row of a
    key holds the two BI amounts as they are and the two Hyperion amounts
    times 1000. *)
Theorem sales_validation_sheet_keys
    (bi_map hyperion_map : gmap group3 (float * float)) :
  let rows := generate_sales_validation_data bi_map hyperion_map in
  StronglySorted group3_le (sales_key <$> rows) ∧
  NoDup (sales_key <$> rows) ∧
  (∀ k, k ∈ sales_key <$> rows ↔ k ∈ dom bi_map ∪ dom hyperion_map) ∧
  (∀ r, r ∈ rows →
     sv_BI_actual r = (default (0, 0)%float (bi_map !! sales_key r)).1 ∧
     sv_BI_prior r = (default (0, 0)%float (bi_map !! sales_key r)).2 ∧
     sv_Hyperion_actual r
       = ((default (0, 0)%float (hyperion_map !! sales_key r)).1 * 1000)%float ∧
     sv_Hyperion_prior r
       = ((default (0, 0)%float (hyperion_map !! sales_key r)).2 * 1000)%float).
Proof.
  intros rows. subst rows. rewrite sales_keys. split_and!.
  - apply StronglySorted_merge_sort; apply _.
  - rewrite merge_sort_Permutation. apply NoDup_elements.
  - intros k. rewrite merge_sort_Permutation. apply elem_of_elements.
  - intros r (k & -> & _)%list_elem_of_fmap. rewrite sales_key_row.
    by destruct k as [[??]?].
Qed.

Lemma StronglySorted_sublist {A} (R : relation A) (l1 l2 : list A) :
  sublist l1 l2 → StronglySorted R l2 → StronglySorted R l1.
Proof.
  induction 1 as [| x l1 l2 Hsub IH | x l1 l2 Hsub IH]; intros Hs.
  - constructor.
  - apply StronglySorted_inv in Hs as [Hs Hall]. constructor; [by apply IH |].
    apply Forall_forall. intros y Hy. eapply Forall_forall in Hall; [done |].
    by eapply elem_of_sublist.
  - apply StronglySorted_inv in Hs as [Hs _]. by apply IH.
Qed.

Lemma pex_group_row series_sum bi hyp g :
  pv_Group (pex_row_for series_sum bi hyp g) = g.
Proof. reflexivity. Qed.

Lemma pex_groups series_sum bi hyp :
  pv_Group <$> generate_pex_validation_data series_sum bi hyp
  = filter (fun g => g ≠ "nan")
      (merge_sort String.le (elements (dom bi ∪ dom hyp))).
Proof.
  unfold generate_pex_validation_data. cbv zeta.
  rewrite <- list_fmap_compose.
  rewrite (list_fmap_ext _ id) by done. rewrite list_fmap_id.
  rewrite List_filter_stdpp. apply list_filter_iff. intros g.
  destruct (String.eqb_spec g "nan"); simpl; tauto.
Qed.

(** X2. The PEX validation sheet has exactly one row for every group of the
    union of the two sides other than "nan", in ascending order.  The row
    named "Total Period Expense" does not look its BI amounts up: it holds
    the sums pandas takes over all BI groups, in the order of the groups. *)
Theorem pex_validation_sheet_groups (series_sum : list float → float)
    (df_bi_grouped hyperion_map : gmap string (float * float)) :
  let rows := generate_pex_validation_data series_sum df_bi_grouped hyperion_map in
  let groups := merge_sort String.le (elements (dom df_bi_grouped)) in
  StronglySorted String.le (pv_Group <$> rows) ∧
  NoDup (pv_Group <$> rows) ∧
  (∀ g, g ∈ pv_Group <$> rows ↔
        g ∈ dom df_bi_grouped ∪ dom hyperion_map ∧ g ≠ "nan") ∧
  (∀ r, r ∈ rows → pv_Group r = "Total Period Expense" →
     pv_BI_actual r
       = series_sum ((fun g => (default (0, 0)%float (df_bi_grouped !! g)).1)
                       <$> groups) ∧
     pv_BI_prior r
       = series_sum ((fun g => (default (0, 0)%float (df_bi_grouped !! g)).2)
                       <$> groups)) ∧
  (∀ r, r ∈ rows → pv_Group r ≠ "Total Period Expense" →
     pv_BI_actual r = (default (0, 0)%float (df_bi_grouped !! pv_Group r)).1 ∧
     pv_BI_prior r = (default (0, 0)%float (df_bi_grouped !! pv_Group r)).2).
Proof.
  intros rows groups. subst rows groups. rewrite pex_groups. split_and!.
  - eapply StronglySorted_sublist; [apply sublist_filter |].
    apply StronglySorted_merge_sort; apply _.
  - apply NoDup_filter. rewrite merge_sort_Permutation. apply NoDup_elements.
  - intros g. rewrite list_elem_of_filter, merge_sort_Permutation, elem_of_elements.
    tauto.
  - intros r (g & -> & _)%list_elem_of_fmap. rewrite pex_group_row. intros ->.
    split; reflexivity.
  - intros r (g & -> & _)%list_elem_of_fmap. rewrite pex_group_row. intros Hg.
    unfold pex_row_for. cbn [pv_BI_actual pv_BI_prior].
    destruct (String.eqb_spec g "Total Period Expense"); [done |].
    split; reflexivity.
Qed.

Local Instance key_le_total : Total key_le.
Proof.
  intros [| a | a] [| b | b]; simpl; auto.
  - apply (total String.le).
  - apply (total Qcle).
Qed.

Local Instance key_le_trans : Transitive key_le.
Proof.
  intros [| a | a] [| b | b] [| c | c]; simpl; try done.
  - apply (transitivity (R := String.le)).
  - apply Qcle_trans.
Qed.

Lemma compared_sorted (l : list dict_key) :
  StronglySorted key_le l → StronglySorted key_le (omap oe_compared_key l).
Proof.
  induction 1 as [| k l Hs IH Hall]; [constructor |].
  cbn [omap list_omap]. destruct (oe_compared_key k) as [k' |] eqn:Ek; [| exact IH].
  apply oe_compared_key_Some in Ek as [-> _].
  constructor; [exact IH |].
  apply Forall_forall. intros y [Hy _]%compared_elem.
  eapply Forall_forall in Hall; eauto.
Qed.

Lemma compared_NoDup (l : list dict_key) : NoDup l → NoDup (omap oe_compared_key l).
Proof.
  induction 1 as [| k l Hk Hnd IH]; [constructor |].
  cbn [omap list_omap]. destruct (oe_compared_key k) as [k' |] eqn:Ek; [| exact IH].
  apply oe_compared_key_Some in Ek as [-> _].
  constructor; [| exact IH].
  by intros [Hin _]%compared_elem.
Qed.

Lemma sorted_keys_cases sorted_floats (keys : gset dict_key) :
  (∀ keys, sorted_floats keys ≡ₚ elements keys) →
  (mixed_keys keys ∧ sorted_keys sorted_floats keys = py.Raise py.TypeError) ∨
  (¬ mixed_keys keys ∧
   ∃ l, sorted_keys sorted_floats keys = py.Return l ∧ l ≡ₚ elements keys ∧
        (KNaN ∉ keys → StronglySorted key_le l)).
Proof.
  intros Hperm. unfold sorted_keys.
  destruct (decide (set_Forall (fun k => is_text k) keys)) as [Hall | Hnall].
  { right. split.
    - intros [_ (k & Hk & Ht)]. specialize (Hall k Hk). simpl in Hall.
      by rewrite Ht in Hall.
    - eexists. split; [reflexivity |]. split; [apply merge_sort_Permutation |].
      intros _. apply StronglySorted_merge_sort; apply _. }
  destruct (decide (set_Exists (fun k => is_text k) keys)) as [Hex | Hnex].
  { left. split; [| done]. split.
    - destruct Hex as (k & Hk & Ht). exists k. split; [done |].
      by apply Is_true_true.
    - apply (not_set_Forall_Exists _) in Hnall as (k & Hk & Ht).
      exists k. split; [done |].
      destruct (is_text k) eqn:Et; [| done].
      exfalso. apply Ht. simpl. by rewrite Et. }
  right. split.
  { intros [(k & Hk & Ht) _]. apply Hnex. exists k. split; [done |].
    by apply Is_true_true. }
  destruct (decide (KNaN ∈ keys ∧ keys ≠ {[KNaN]})) as [[Hnan _] | _].
  - eexists. split; [reflexivity |]. split; [apply Hperm | done].
  - eexists. split; [reflexivity |]. split; [apply merge_sort_Permutation |].
    intros _. apply StronglySorted_merge_sort; apply _.
Qed.

(** X3. The OE report yields a sheet exactly when Hyperion data was found
    (a DPC map that is not empty, or a total that is not 0), the keys can be
    sorted (no blank cell and no number among names), and at least one key
    other than a blank, "nan" and "Adjustment figure" exists.  So a file
    whose only DPC keys are those two names gets no sheet at all, although
    its SERVICE totals could be compared: the SERVICE comparison needs a
    variable that only the loop body binds. *)
Theorem oe_validation_sheet_produced
    (sorted_floats : gset dict_key → list dict_key)
    (bi_map_mtd bi_map_py : gmap string float)
    (bi_service_total_mtd bi_service_total_py : float)
    (hyperion_dpc_map_mtd hyperion_dpc_map_py : gmap dict_key float)
    (last_row_mtd last_row_py : float) :
  (∀ keys, sorted_floats keys ≡ₚ elements keys) →
  let keys : gset dict_key :=
    set_map KStr (dom bi_map_mtd ∪ dom bi_map_py : gset string)
      ∪ set_map hyperion_to_bi_key
          (dom hyperion_dpc_map_mtd ∪ dom hyperion_dpc_map_py : gset dict_key) in
  is_Some (generate_oe_validation_data sorted_floats bi_map_mtd bi_map_py
             bi_service_total_mtd bi_service_total_py
             hyperion_dpc_map_mtd hyperion_dpc_map_py last_row_mtd last_row_py) ↔
  ¬ (size hyperion_dpc_map_mtd = 0%nat ∧ (last_row_mtd =? 0)%float = true) ∧
  ¬ ((∃ k, k ∈ keys ∧ is_text k = true) ∧ (∃ k, k ∈ keys ∧ is_text k = false)) ∧
  (∃ k, k ∈ keys ∧ k ≠ KNaN ∧ k ≠ KStr "nan" ∧ k ≠ KStr "Adjustment figure").
Proof.
  intros Hperm keys. unfold generate_oe_validation_data.
  assert (Hguard :
    bool_decide (size hyperion_dpc_map_mtd = 0%nat) && (last_row_mtd =? 0)%float
      = true
    ↔ size hyperion_dpc_map_mtd = 0%nat ∧ (last_row_mtd =? 0)%float = true).
  { by rewrite andb_true_iff, bool_decide_eq_true. }
  destruct (_ && _).
  { split; [by intros [? ?] | tauto]. }
  assert (G' : ¬ (size hyperion_dpc_map_mtd = 0%nat
                  ∧ (last_row_mtd =? 0)%float = true)).
  { intros H. apply Hguard in H. congruence. }
  change keys with (oe_keys bi_map_mtd bi_map_py hyperion_dpc_map_mtd
                      hyperion_dpc_map_py) in *.
  fold (mixed_keys keys).
  destruct (sorted_keys_cases sorted_floats keys Hperm)
    as [[Hmix E] | (Hmix & l & E & Hl & _)].
  - rewrite (oe_compare_unsorted _ _ _ _ _ _ _ _ _ _ E).
    split; [by intros [? ?] | tauto].
  - rewrite (oe_compare_sorted _ _ _ _ _ _ _ _ _ _ E).
    assert (Hex : omap oe_compared_key l ≠ []
                  ↔ ∃ k, k ∈ keys ∧ k ≠ KNaN ∧ k ≠ KStr "nan"
                         ∧ k ≠ KStr "Adjustment figure").
    { split.
      - destruct (omap _ _) as [| k ks] eqn:Ec; [done |]. intros _. exists k.
        assert (Hk : k ∈ omap oe_compared_key l) by (rewrite Ec; left).
        apply compared_elem in Hk. by rewrite Hl, elem_of_elements in Hk.
      - intros (k & Hk & H) Ec.
        assert (Hin : k ∈ omap oe_compared_key l).
        { apply compared_elem. by rewrite Hl, elem_of_elements. }
        rewrite Ec in Hin. by apply elem_of_nil in Hin. }
    destruct (omap oe_compared_key l) as [| k ks].
    + split; [by intros [? ?] |]. intros (_ & _ & H). by apply Hex in H.
    + split; [| by eauto]. intros _. split_and!; [done | done |].
      by apply Hex.
Qed.

(** X4. A sheet the OE report yields ends with the row "SERVICE (Total)",
    which compares the Hyperion total times 1000 with the BI SERVICE total;
    before it comes exactly one row for every key of the BI maps and every
    translated key of the Hyperion maps other than a blank, "nan" and
    "Adjustment figure".  The rows are in ascending order of their keys,
    unless a blank was among them. *)
Theorem oe_validation_sheet_rows
    (sorted_floats : gset dict_key → list dict_key)
    (bi_map_mtd bi_map_py : gmap string float)
    (bi_service_total_mtd bi_service_total_py : float)
    (hyperion_dpc_map_mtd hyperion_dpc_map_py : gmap dict_key float)
    (last_row_mtd last_row_py : float) (rows : list oe_validation_row) :
  (∀ keys, sorted_floats keys ≡ₚ elements keys) →
  generate_oe_validation_data sorted_floats bi_map_mtd bi_map_py
    bi_service_total_mtd bi_service_total_py
    hyperion_dpc_map_mtd hyperion_dpc_map_py last_row_mtd last_row_py
  = Some rows →
  ∃ body,
    rows = (body ++ [oe_service_row bi_service_total_mtd bi_service_total_py
                       last_row_mtd last_row_py])%list ∧
    body ≠ [] ∧
    NoDup (ov_Group <$> body) ∧
    (∀ k, k ∈ ov_Group <$> body ↔
          ((∃ m, k = KStr m ∧ m ∈ dom bi_map_mtd ∪ dom bi_map_py) ∨
           (∃ h, h ∈ dom hyperion_dpc_map_mtd ∪ dom hyperion_dpc_map_py ∧
                 hyperion_to_bi_key h = k)) ∧
          k ≠ KNaN ∧ k ≠ KStr "nan" ∧ k ≠ KStr "Adjustment figure") ∧
    (KNaN ∉ dom hyperion_dpc_map_mtd ∪ dom hyperion_dpc_map_py →
     StronglySorted key_le (ov_Group <$> body)) ∧
    (∀ r, r ∈ body →
          r = oe_row_for bi_map_mtd bi_map_py hyperion_dpc_map_mtd
                hyperion_dpc_map_py (ov_Group r)).
Proof.
  intros Hperm. unfold generate_oe_validation_data. destruct (_ && _); [done |].
  set (keys := oe_keys bi_map_mtd bi_map_py hyperion_dpc_map_mtd
                 hyperion_dpc_map_py).
  destruct (sorted_keys_cases sorted_floats keys Hperm)
    as [[Hmix E] | (Hmix & l & E & Hl & Hsorted)].
  { by rewrite (oe_compare_unsorted _ _ _ _ _ _ _ _ _ _ E). }
  rewrite (oe_compare_sorted _ _ _ _ _ _ _ _ _ _ E).
  set (compared := omap oe_compared_key l).
  assert (Hgroups : ov_Group <$> (oe_row_for bi_map_mtd bi_map_py
            hyperion_dpc_map_mtd hyperion_dpc_map_py <$> compared) = compared).
  { rewrite <- list_fmap_compose. rewrite <- (list_fmap_id compared) at 2.
    by apply list_fmap_ext. }
  destruct compared as [| k0 ks] eqn:Ec; [done |]. rewrite <- Ec in *.
  intros [= <-].
  eexists. split; [reflexivity |]. rewrite Hgroups. split_and!.
  - intros H. apply fmap_nil_inv in H. by rewrite Ec in H.
  - apply compared_NoDup. rewrite Hl. apply NoDup_elements.
  - intros k. subst compared. rewrite compared_elem, Hl, elem_of_elements.
    subst keys. rewrite elem_of_oe_keys. split.
    + intros ([(m & -> & Hm) | (h & -> & Hh)] & H); split; eauto.
    + intros ([(m & -> & Hm) | (h & Hh & <-)] & H); split; eauto.
  - intros Hnan. apply compared_sorted, Hsorted.
    intros [(m & [=] & _) | (h & Hh & Hin)]%elem_of_oe_keys.
    destruct h; try discriminate Hh. done.
  - intros r (k & -> & _)%list_elem_of_fmap. reflexivity.
Qed.

End ValidationSheets.

(** A file whose only DPC key is "Adjustment figure": no sheet, although the
    Hyperion total 0.2 and the BI SERVICE total 200 could be compared.  And a
    file without bookings checked against a sheet whose column B holds the
    number 2024 only: a sheet with a row for 2024. *)
Lemma oe_validation_sheet_produced_witness :
  let bi_map_mtd : gmap string float := {["Adjustment figure" := 200%float]} in
  let hyperion_dpc_map_mtd : gmap dict_key float :=
    {[KNum (Q2Qc 2024) := 1%float]} in
  generate_oe_validation_data elements bi_map_mtd ∅ 200%float 0%float
    ∅ ∅ 0.2%float 0%float = None ∧
  is_Some (generate_oe_validation_data elements ∅ ∅ 0%float 0%float
             hyperion_dpc_map_mtd ∅ 0%float 0%float).
Proof.
  intros bi_map_mtd hyperion_dpc_map_mtd. split.
  - pose proof (oe_validation_sheet_produced elements bi_map_mtd ∅ 200%float
                  0%float ∅ ∅ 0.2%float 0%float ltac:(done)) as T.
    cbv zeta in T.
    destruct (generate_oe_validation_data elements bi_map_mtd ∅ 200%float
                0%float ∅ ∅ 0.2%float 0%float) as [rows |]; [| reflexivity].
    exfalso.
    destruct (proj1 T) as (_ & _ & k & Hk & _ & _ & Ha); [by eexists |].
    apply elem_of_union in Hk as [Hk | Hk];
      apply elem_of_map in Hk as (x & Hx & Hin).
    + subst k bi_map_mtd.
      rewrite dom_singleton_L, dom_empty_L, (right_id_L ∅ (∪)) in Hin.
      apply elem_of_singleton in Hin. by subst x.
    + rewrite dom_empty_L, (right_id_L ∅ (∪)) in Hin. by apply elem_of_empty in Hin.
  - apply (oe_validation_sheet_produced elements ∅ ∅ 0%float 0%float
             hyperion_dpc_map_mtd ∅ 0%float 0%float ltac:(done)).
    split_and!.
    + intros [Hsz _]. vm_compute in Hsz. discriminate.
    + intros [(k & Hk & Ht) _].
      apply elem_of_union in Hk as [Hk | Hk];
        apply elem_of_map in Hk as (x & -> & Hin).
      * rewrite dom_empty_L, (right_id_L ∅ (∪)) in Hin.
        by apply elem_of_empty in Hin.
      * subst hyperion_dpc_map_mtd.
        rewrite dom_singleton_L, dom_empty_L, (right_id_L ∅ (∪)) in Hin.
        apply elem_of_singleton in Hin. subst x. discriminate.
    + exists (KNum (Q2Qc 2024)). split_and!; [| done | done | done].
      apply elem_of_union. right. apply elem_of_map.
      exists (KNum (Q2Qc 2024)). split; [done |].
      apply (bool_decide_unpack _). vm_compute. exact I.
Defined.

(** A file with bookings under "ANA" and a Hyperion sheet that names "ANA"
    and, by its alias, "OEM". *)
Lemma oe_validation_sheet_rows_witness :
  let bi_map_mtd : gmap string float := {["ANA" := 1000%float]} in
  let hyperion_dpc_map_mtd : gmap dict_key float :=
    <[KStr "OEM_SI" := 2%float]> {[KStr "ANA" := 1%float]} in
  ∃ rows body,
    generate_oe_validation_data elements bi_map_mtd ∅ 0%float 0%float
      hyperion_dpc_map_mtd ∅ 3%float 0%float
      = Some rows ∧
    rows = (body ++ [oe_service_row 0 0 3 0])%list ∧
    KStr "OEM" ∈ ov_Group <$> body ∧
    length rows = 3%nat.
Proof.
  intros bi_map_mtd hyperion_dpc_map_mtd.
  destruct (generate_oe_validation_data elements bi_map_mtd ∅ 0%float 0%float
              hyperion_dpc_map_mtd ∅ 3%float 0%float)
    as [rows |] eqn:E; [| vm_compute in E; discriminate].
  destruct (oe_validation_sheet_rows elements bi_map_mtd ∅ 0%float 0%float
              hyperion_dpc_map_mtd ∅ 3%float 0%float rows ltac:(done) E)
    as (body & Hrows & _ & _ & Hin & _).
  exists rows, body. split_and!; [done | done | |].
  - apply Hin. split_and!; [| discriminate | discriminate | discriminate].
    right. exists (KStr "OEM_SI"). split; [| vm_compute; reflexivity].
    apply elem_of_union. left. apply elem_of_dom. eexists. vm_compute. reflexivity.
  - vm_compute in E. injection E as <-. reflexivity.
Defined.

(** ** Duplicate removal, again *)

Section DuplicatesAgain.

Variable csv_data_string : string → py.result string.
Variable xlsx_data_string : string → py.result string.
Variable md5_hexdigest : string → string.
Variable output_folder : string.

Local Abbreviation path := (py.path_join output_folder).
Local Abbreviation hash_on disk f :=
  (_get_file_content_hash csv_data_string xlsx_data_string md5_hexdigest
     disk (path f)).
Local Abbreviation here_on disk f := (path_exists disk (path f) = true).
Local Abbreviation scan_on disk :=
  (scan_files csv_data_string xlsx_data_string md5_hexdigest output_folder disk).
Local Abbreviation dedup :=
  (remove_duplicate_files csv_data_string xlsx_data_string md5_hexdigest
     output_folder).
Local Abbreviation later_on disk files :=
  (later_occurrence (fun f => hash_on disk f) (fun f => here_on disk f) files).
Local Abbreviation first_on disk files :=
  (first_occurrence (fun f => hash_on disk f) (fun f => here_on disk f) files).

Lemma scan_removed_later disk files f :
  f ∈ (scan_on disk files ∅).2 ↔ later_on disk files f.
Proof.
  rewrite scan_remove_spec. unfold later_occurrence.
  split; intros (l1 & l2 & H); exists l1, l2; [| naive_solver].
  destruct H as (? & ? & [[o Ho] | ?]); [| done].
  by rewrite lookup_empty in Ho.
Qed.

Lemma scan_kept_first disk files f :
  f ∈ (scan_on disk files ∅).1 ↔ first_on disk files f.
Proof.
  rewrite scan_keep_spec. unfold first_occurrence.
  split; intros (l1 & l2 & H); exists l1, l2; [naive_solver |].
  destruct H as (? & ? & ?). split_and!; done.
Qed.

(** X5. [remove_duplicate_files] never writes a file and never deletes one
    that is not a listed duplicate: a path whose content differs afterwards
    is the path of a listed file that repeats the hash of an earlier listed
    file, and it is gone.  When no listed file repeats an earlier hash the
    input list comes back as it was, names of missing files included; once
    something is removed, only names of files found on disk are returned. *)
Theorem remove_duplicate_files_deletes_only_duplicates
    (processed_files : list string) (disk : gmap string string) :
  let result := dedup processed_files disk in
  (∀ p, snd result !! p = disk !! p ∨
        (snd result !! p = None ∧
         ∃ f, later_on disk processed_files f ∧ p = path f)) ∧
  ((∀ f, ¬ later_on disk processed_files f) → result = (processed_files, disk)) ∧
  ((∃ f, later_on disk processed_files f) →
   ∀ f, f ∈ fst result → here_on disk f).
Proof.
  intros result. subst result. unfold remove_duplicate_files.
  pose proof (scan_removed_later disk processed_files) as Hrm.
  pose proof (scan_kept_first disk processed_files) as Hkeep.
  destruct (scan_on disk processed_files ∅) as [keep rm]. cbn [fst snd] in *.
  destruct rm as [| r rm]; cbn [fst snd].
  - split_and!; [by left | done |].
    intros (f & Hf%Hrm). by apply elem_of_nil in Hf.
  - split_and!.
    + intros p. rewrite remove_all_lookup.
      destruct (decide _) as [(f & -> & Hf)%list_elem_of_fmap |]; [| by left].
      right. split; [done |]. exists f. by rewrite <- Hrm.
    + intros Hnone. exfalso. apply (Hnone r), Hrm. left.
    + intros _ f (l1 & l2 & _ & Hf & _)%Hkeep. exact Hf.
Qed.

Lemma content_hash_ext (disk1 disk2 : gmap string string) (p : string) :
  disk1 !! p = disk2 !! p →
  _get_file_content_hash csv_data_string xlsx_data_string md5_hexdigest disk1 p
  = _get_file_content_hash csv_data_string xlsx_data_string md5_hexdigest disk2 p.
Proof.
  intros E. unfold _get_file_content_hash, content_digest, read_file.
  by rewrite E.
Qed.

Lemma path_exists_ext (disk1 disk2 : gmap string string) (p : string) :
  disk1 !! p = disk2 !! p → path_exists disk1 p = path_exists disk2 p.
Proof. intros E. unfold path_exists. by rewrite E. Qed.

Lemma NoDup_split_unique {A} (l1 l2 l1' l2' : list A) (x : A) :
  NoDup (l1 ++ x :: l2) →
  (l1 ++ x :: l2 = l1' ++ x :: l2')%list → l1 = l1'.
Proof.
  revert l1'. induction l1 as [| y l1 IH]; intros [| y' l1'] Hnd E;
    simplify_list_eq; try done.
  - apply NoDup_cons in Hnd as [Hnd _]. exfalso. apply Hnd. set_solver.
  - apply NoDup_cons in Hnd as [Hnd _]. exfalso. apply Hnd. set_solver.
  - apply NoDup_cons in Hnd as [_ Hnd]. f_equal. by eapply IH.
Qed.

Lemma sublist_split_before (l1 l2 files : list string) (f : string) :
  sublist (l1 ++ f :: l2)%list files →
  ∃ m1 m2, files = (m1 ++ f :: m2)%list ∧ ∀ g, g ∈ l1 → g ∈ m1.
Proof.
  intros (k1 & k2 & -> & H1 & H2)%sublist_app_l.
  apply sublist_cons_l in H2 as (k3 & k4 & -> & _).
  exists (k1 ++ k3)%list, k4. split; [by rewrite <- app_assoc |].
  intros g Hg. apply elem_of_app. left. by eapply elem_of_sublist.
Qed.

(** X6. Removing duplicates is idempotent: for a list of file names that
    denote pairwise distinct paths in a non-empty output folder, a second
    run on the returned list finds nothing to remove, returns that list and
    leaves the disk as the first run left it. *)
Theorem remove_duplicate_files_idempotent
    (processed_files : list string) (disk : gmap string string) :
  NoDup (path <$> processed_files) →
  let result := dedup processed_files disk in
  dedup (fst result) (snd result) = result.
Proof.
  intros Hnd result.
  assert (Hnd' : NoDup processed_files) by by eapply NoDup_fmap_1.
  subst result. unfold remove_duplicate_files at 2 3 4.
  pose proof (scan_removed_later disk processed_files) as Hrm.
  pose proof (scan_kept_first disk processed_files) as Hkeep.
  pose proof (scan_keep_sublist csv_data_string xlsx_data_string md5_hexdigest
                output_folder disk processed_files ∅) as Hsub.
  destruct (scan_on disk processed_files ∅) as [keep rm] eqn:E.
  cbn [fst snd] in *.
  destruct rm as [| r rm].
  { cbn [fst snd]. unfold remove_duplicate_files. by rewrite E. }
  cbn [fst snd].
  set (disk' := foldl _ disk (r :: rm)).
  assert (Hsame : ∀ f, f ∈ keep → disk' !! path f = disk !! path f).
  { intros f Hf. subst disk'. rewrite remove_all_lookup, decide_False; [done |].
    intros (g & Hp & Hg)%list_elem_of_fmap.
    assert (Hfin : f ∈ processed_files) by by eapply elem_of_sublist.
    assert (Hgin : g ∈ processed_files).
    { apply Hrm in Hg as (l1 & l2 & -> & _). set_solver. }
    assert (f = g) as <-.
    { eapply (NoDup_fmap_elem_inj (fun f => path f)); eauto. }
    eapply (first_not_later csv_data_string xlsx_data_string md5_hexdigest
              output_folder disk processed_files f); [done | | ].
    - by apply Hkeep.
    - by apply Hrm. }
  assert (Hnone : (scan_on disk' keep ∅).2 = []).
  { destruct (scan_on disk' keep ∅).2 as [| f l] eqn:E2; [done |]. exfalso.
    assert (Hf : f ∈ (scan_on disk' keep ∅).2) by (rewrite E2; left).
    apply scan_removed_later in Hf as (l1 & l2 & Ek & Hhere & g & Hg & Hghere & Heq).
    assert (Hfk : f ∈ keep) by (rewrite Ek; set_solver).
    assert (Hgk : g ∈ keep) by (rewrite Ek; set_solver).
    rewrite (content_hash_ext disk' disk (path f) (Hsame f Hfk)) in Heq.
    rewrite (content_hash_ext disk' disk (path g) (Hsame g Hgk)) in Heq.
    rewrite (path_exists_ext disk' disk (path g) (Hsame g Hgk)) in Hghere.
    rewrite Ek in Hsub.
    apply sublist_split_before in Hsub as (m1 & m2 & Efiles & Hbefore).
    apply Hkeep in Hfk as (a & b & Efiles' & _ & Hall).
    assert (a = m1) as ->.
    { apply (NoDup_split_unique a b m1 m2 f); congruence. }
    by eapply (Hall g); [apply Hbefore | |]. }
  unfold remove_duplicate_files.
  destruct (scan_on disk' keep ∅) as [keep' rm']. cbn [snd] in Hnone.
  by rewrite Hnone.
Qed.

End DuplicatesAgain.

(** Two files of equal content and one that differs: the second run on what
    the first run returned changes nothing. *)
Lemma remove_duplicate_files_idempotent_witness :
  let csv := fun s : string => py.Return s in
  let md5 := fun s : string => s in
  let disk : gmap string string :=
    {[ "out/a.csv" := "x,y"; "out/b.csv" := "x,y"; "out/d.csv" := "p,q" ]} in
  let result := remove_duplicate_files csv csv md5 "out" ["a.csv"; "b.csv"; "d.csv"] disk in
  fst result = ["a.csv"; "d.csv"] ∧
  remove_duplicate_files csv csv md5 "out" (fst result) (snd result) = result.
Proof.
  intros csv md5 disk result. split; [vm_compute; reflexivity |].
  apply (remove_duplicate_files_idempotent csv csv md5 "out"
           ["a.csv"; "b.csv"; "d.csv"] disk).
  apply (bool_decide_unpack _). vm_compute. exact I.
Defined.

(** ** Adjustments, again *)

Section AdjustmentsAgain.

Variable series_sum : list float → float.

Lemma mapM_adjustments_raise_inv df hp (l : list (dict_key * float)) e :
  mapM (adjustment_for series_sum df hp) l = py.Raise e →
  e = py.TypeError ∧ ∃ x v, (KNum x, v) ∈ l.
Proof.
  induction l as [| item l IH]; [discriminate |].
  cbn [mapM].
  destruct (adjustment_for series_sum df hp item) as [found | e'] eqn:E.
  - cbn [mbind result_bind py.bind].
    destruct (mapM (adjustment_for series_sum df hp) l) as [rest | e''] eqn:El.
    + discriminate.
    + cbn [mbind result_bind py.bind]. intros [= <-].
      destruct (IH eq_refl) as (-> & x & v & Hin).
      split; [done |]. exists x, v. by right.
  - cbn [mbind result_bind py.bind]. intros [= <-].
    apply adjustment_for_raises in E as [-> [x Hx]].
    destruct item as [k v]. cbn in Hx. subst k.
    split; [done |]. exists x, v. left.
Qed.

Lemma length_omap_le {A B} (f : A → option B) (l : list A) :
  (length (omap f l) ≤ length l)%nat.
Proof.
  induction l as [| x l IH]; [reflexivity |].
  cbn [omap list_omap]. destruct (f x); cbn [length]; lia.
Qed.

Lemma omap_all_None {A B} (f : A → option B) (l : list A) :
  (∀ x, x ∈ l → f x = None) → omap f l = [].
Proof.
  induction l as [| x l IH]; intros H; [reflexivity |].
  simpl. rewrite (H x) by left. apply IH. intros y Hy. apply H. by right.
Qed.

(** X7. [add_hyperion_adjustments] raises only [TypeError], and only for a
    number among the Hyperion keys.  Otherwise it only appends: the rows of
    the table come first, in order, changed only by the coercion of the two
    bookings columns to numbers, and every row after them is an adjustment
    row (document type "Adjustment figure", classified PRODUCT or SERVICE),
    at most one per Hyperion key and one for the SERVICE total.  When for
    every text key without "Total" neither period differs from the table by
    more than 0.001 and neither SERVICE total times 1000 exceeds 0.001 in
    absolute value, all as floats, nothing is appended. *)
Theorem hyperion_adjustments_append_only (bi_df : list oe_row)
    (hyperion_dpc_map_mtd : list (dict_key * float))
    (hyperion_dpc_map_py : gmap dict_key float)
    (last_row_mtd last_row_py : float) :
  match add_hyperion_adjustments series_sum bi_df hyperion_dpc_map_mtd
          hyperion_dpc_map_py last_row_mtd last_row_py with
  | py.Raise e =>
      e = py.TypeError ∧ ∃ x v, (KNum x, v) ∈ hyperion_dpc_map_mtd
  | py.Return out =>
      (∀ x v, (KNum x, v) ∉ hyperion_dpc_map_mtd) ∧
      take (length bi_df) out = numeric_bookings <$> bi_df ∧
      (∀ r, r ∈ drop (length bi_df) out →
         Sales_doc_type r = Some "Adjustment figure" ∧
         (Product_Service r = Some "PRODUCT" ∨ Product_Service r = Some "SERVICE")) ∧
      (length out ≤ length bi_df + length hyperion_dpc_map_mtd + 1)%nat ∧
      ((∀ s v, (KStr s, v) ∈ hyperion_dpc_map_mtd → py.contains "Total" s = false →
          abs_gt (v * 1000
                  - groupby_sum series_sum Bookings_MTD_Net_Sales bi_df
                      (hyperion_to_bi s))%float 0.001%float = false ∧
          abs_gt (default 0 (hyperion_dpc_map_py !! KStr s) * 1000
                  - groupby_sum series_sum Bookings_PY_MTD bi_df
                      (hyperion_to_bi s))%float 0.001%float = false) →
       abs_gt (last_row_mtd * 1000)%float 0.001%float = false →
       abs_gt (last_row_py * 1000)%float 0.001%float = false →
       out = numeric_bookings <$> bi_df)
  end.
Proof.
  destruct (add_hyperion_adjustments series_sum bi_df hyperion_dpc_map_mtd
              hyperion_dpc_map_py last_row_mtd last_row_py) as [out | e] eqn:E.
  2:{ unfold add_hyperion_adjustments in E. cbv zeta in E.
      destruct (mapM _ hyperion_dpc_map_mtd) as [found | e'] eqn:Em;
        [discriminate |].
      injection E as <-. by eapply mapM_adjustments_raise_inv. }
  assert (Hnum : ∀ x v, (KNum x, v) ∉ hyperion_dpc_map_mtd).
  { intros x v Hin. unfold add_hyperion_adjustments in E. cbv zeta in E.
    by rewrite (mapM_adjustments_raise series_sum _ _ _ x v Hin) in E. }
  rewrite (add_hyperion_adjustments_return series_sum _ _ _ _ _ Hnum) in E.
  injection E as <-.
  set (df' := numeric_bookings <$> bi_df).
  assert (Hlen : length bi_df = length df') by (subst df'; by rewrite length_fmap).
  split_and!.
  - exact Hnum.
  - by rewrite Hlen, take_app_length.
  - rewrite Hlen, drop_app_length. intros r [Hr | Hr]%elem_of_app.
    + apply list_elem_of_omap in Hr as (item & _ & Hr).
      apply adjustment_of_row in Hr as (s & _ & _ & _ & -> & ->). auto.
    + apply service_adjustment_row in Hr as (-> & _ & ->). auto.
  - rewrite !length_app, <- Hlen.
    pose proof (length_omap_le (adjustment_of series_sum df' hyperion_dpc_map_py)
                  hyperion_dpc_map_mtd).
    assert (length (service_adjustment last_row_mtd last_row_py) ≤ 1)%nat
      by (unfold service_adjustment; cbv zeta; destruct (_ || _); simpl; lia).
    lia.
  - intros Hagree Hm Hp.
    assert (Hnone : omap (adjustment_of series_sum df' hyperion_dpc_map_py)
                      hyperion_dpc_map_mtd = []).
    { apply omap_all_None. intros [[| s | x] v] Hin.
      - reflexivity.
      - unfold adjustment_of, adjustment_for. cbn [fst snd].
        destruct (py.contains "Total" s) eqn:Ht; [reflexivity |].
        destruct (Hagree s v Hin Ht) as [H1 H2].
        subst df'. rewrite groupby_sum_numeric_mtd, groupby_sum_numeric_py.
        cbv zeta. by rewrite H1, H2.
      - by destruct (Hnum x v). }
    rewrite Hnone. unfold service_adjustment. cbv zeta.
    rewrite Hm, Hp. cbn [orb].
    by rewrite !app_nil_r.
Qed.

End AdjustmentsAgain.

(** ** Cross rates, again *)

Section CrossRatesAgain.

(** X9. [get_cross_rates] succeeds exactly when both codes are in the rates
    table and neither rate of the source currency is zero, and the rates it
    returns are target rate over source rate.  A zero rate of the target
    currency is no error: the cross rate returned is then 0. *)
Theorem get_cross_rates_succeeds (rates_dict : gmap string rate_entry)
    (source_curr target_curr : string) :
  (∀ out, clean_sales.get_cross_rates source_curr target_curr rates_dict
          = py.Return ([], out) ↔
     ∃ source target,
       rates_dict !! source_curr = Some source ∧
       rates_dict !! target_curr = Some target ∧
       ¬ (Current_Year_Rate source == 0)%Q ∧ ¬ (Prev_Year_Rate source == 0)%Q ∧
       out = (Some (Current_Year_Rate target / Current_Year_Rate source)%Q,
              Some (Prev_Year_Rate target / Prev_Year_Rate source)%Q)) ∧
  (∀ c p, clean_sales.get_cross_rates source_curr target_curr rates_dict
          = py.Return ([], (Some c, Some p)) →
     ∀ target, rates_dict !! target_curr = Some target →
       ((Current_Year_Rate target == 0)%Q → (c == 0)%Q) ∧
       ((Prev_Year_Rate target == 0)%Q → (p == 0)%Q)).
Proof.
  assert (Hiff : ∀ out,
    clean_sales.get_cross_rates source_curr target_curr rates_dict
      = py.Return ([], out) ↔
    ∃ source target,
      rates_dict !! source_curr = Some source ∧
      rates_dict !! target_curr = Some target ∧
      ¬ (Current_Year_Rate source == 0)%Q ∧ ¬ (Prev_Year_Rate source == 0)%Q ∧
      out = (Some (Current_Year_Rate target / Current_Year_Rate source)%Q,
             Some (Prev_Year_Rate target / Prev_Year_Rate source)%Q)).
  { intros out.
    unfold clean_sales.get_cross_rates, clean_sales.cross_rates_body, rates_getitem.
    destruct (rates_dict !! target_curr) as [t |].
    2:{ split; [done | by intros (? & ? & ? & ? & _)]. }
    destruct (rates_dict !! source_curr) as [s |].
    2:{ split; [done | by intros (? & ? & ? & _)]. }
    cbn [mbind result_bind py.bind py.try_except]. unfold truediv.
    destruct (Qeq_bool (Current_Year_Rate s) 0) eqn:Hsc.
    { apply Qeq_bool_iff in Hsc. split; [done |].
      by intros (? & ? & [= <-] & _ & ? & _). }
    destruct (Qeq_bool (Prev_Year_Rate s) 0) eqn:Hsp.
    { apply Qeq_bool_iff in Hsp. split; [done |].
      by intros (? & ? & [= <-] & _ & _ & ? & _). }
    apply Qeq_bool_neq in Hsc, Hsp.
    cbn [py.bind py.try_except fst snd]. split.
    - intros [= <-]. by exists s, t.
    - by intros (? & ? & [= <-] & [= <-] & _ & _ & ->). }
  split; [exact Hiff |].
  intros c p (s & t & Hs & Ht & Hsc & Hsp & [= -> ->])%Hiff target Ht'.
  assert (target = t) as -> by congruence.
  split; intros H; rewrite H; field; done.
Qed.

End CrossRatesAgain.

(** ** The batch loop *)

Section BatchLoop.

Import clean_oe.

Variable folder : Type.
Variable match_filename : string → option name_parts.
Variable load_currency_rates : nat → string → option (gmap string rate_entry).
Variable clean_and_save :
  gset string → name_parts → string → Q * Q * bool → sheet → folder →
  py.result (folder * string).

Local Abbreviation conversion :=
  (conversion_rates load_currency_rates).
Local Abbreviation one_file :=
  (process_file folder match_filename load_currency_rates clean_and_save).
Local Abbreviation loop :=
  (batch_loop folder match_filename load_currency_rates clean_and_save).

(** What the cache holds after one look-up. *)
Lemma conversion_rates_cache currency_map cache comp_no_for_oe unit month_int
    year_str :
  let cache' :=
    (conversion currency_map cache comp_no_for_oe unit month_int year_str).1 in
  cache' = cache ∨
  (cache !! (month_int, year_str) = None ∧
   cache' = <[(month_int, year_str) := load_currency_rates month_int year_str]> cache).
Proof.
  unfold conversion_rates.
  destruct (currency_map !! _) as [[source_curr target_curr] |]; [| by left].
  destruct (String.eqb source_curr target_curr); [by left |].
  destruct (cache !! (month_int, year_str)) as [entry |] eqn:Ec.
  - left. rewrite Ec. destruct entry as [rates_dict |]; [| done].
    destruct (bool_decide _); [done |].
    by destruct (get_cross_rates _ _ _) as [[? [[?|] [?|]]] | ?].
  - right. split; [done |]. rewrite lookup_insert_eq.
    destruct (load_currency_rates month_int year_str) as [rates_dict |]; [| done].
    destruct (bool_decide _); [done |].
    by destruct (get_cross_rates _ _ _) as [[? [[?|] [?|]]] | ?].
Qed.

Lemma process_file_cache mo currency_map comp_no_to_oe st file :
  let st' := (one_file mo currency_map comp_no_to_oe st file).1 in
  rates_cache folder st' = rates_cache folder st ∨
  ∃ month_int year_str,
    rates_cache folder st !! (month_int, year_str) = None ∧
    rates_cache folder st'
    = <[(month_int, year_str) := load_currency_rates month_int year_str]>
        (rates_cache folder st).
Proof.
  unfold process_file, iteration.
  destruct (match_filename (filename file)) as [parts |]; [| by left].
  destruct (strptime_month (month_abbr parts)) as [month_int | e]; [| by left].
  destruct (comp_no_to_oe !! profit_center parts) as [[| a oe] |]; [by left | | by left].
  pose proof (conversion_rates_cache currency_map (rates_cache folder st)
                (String a oe) (unit parts) month_int (year_str parts)) as Hc.
  destruct (conversion _ _ _ _ _ _) as [cache rates]. cbn [fst] in Hc.
  assert (Hgoal : cache = rates_cache folder st ∨
    ∃ month_int year_str,
      rates_cache folder st !! (month_int, year_str) = None ∧
      cache = <[(month_int, year_str) := load_currency_rates month_int year_str]>
                (rates_cache folder st)).
  { destruct Hc as [-> | [? ->]]; [by left | right; eauto]. }
  destruct (read_Sheet1 file) as [df | e]; [| exact Hgoal].
  destruct (no_applicable_data df); [exact Hgoal |].
  by destruct (clean_and_save _ _ _ _ _ _) as [[folder' name] | e].
Qed.

(** X10. The cache of currency tables only grows during a batch: an entry,
    once there, is never replaced, and an entry added is the loader's answer
    for its month and year.  A failed load is cached like any other answer,
    so it is not retried for the rest of the batch: every later file of that
    month and year goes through without conversion. *)
Theorem rates_cache_only_grows (mo_comp_numbers : gset string)
    (currency_map : gmap (string * string) (string * string))
    (comp_no_to_oe_map : gmap string string)
    (st : batch_state folder) (excel_files : list input_file) :
  let st' :=
    (loop mo_comp_numbers currency_map comp_no_to_oe_map st excel_files).1 in
  (∀ key entry, rates_cache folder st !! key = Some entry →
                rates_cache folder st' !! key = Some entry) ∧
  (∀ key entry, rates_cache folder st' !! key = Some entry →
                rates_cache folder st !! key = Some entry ∨
                entry = load_currency_rates key.1 key.2) ∧
  (∀ comp_no_for_oe unit month_int year_str,
     rates_cache folder st !! (month_int, year_str) = Some None →
     conversion currency_map (rates_cache folder st') comp_no_for_oe unit
       month_int year_str
     = (rates_cache folder st', (1, 1, false)%Q)).
Proof.
  intros st'.
  assert (Hinv :
    (∀ key entry, rates_cache folder st !! key = Some entry →
                  rates_cache folder st' !! key = Some entry) ∧
    (∀ key entry, rates_cache folder st' !! key = Some entry →
                  rates_cache folder st !! key = Some entry ∨
                  entry = load_currency_rates key.1 key.2)).
  { subst st'. revert st. induction excel_files as [| file rest IH]; intros st.
    { cbn [batch_loop fst]. split; auto. }
    cbn [batch_loop].
    pose proof (process_file_cache mo_comp_numbers currency_map comp_no_to_oe_map
                  st file) as Hstep.
    destruct (one_file _ _ _ st file) as [st1 o]. cbn [fst] in Hstep.
    specialize (IH st1).
    destruct (loop _ _ _ st1 rest) as [st2 os]. cbn [fst] in *.
    destruct IH as [IH1 IH2].
    destruct Hstep as [E | (m & y & Hnone & E)]; rewrite E in IH1, IH2.
    - split; auto.
    - split.
      + intros key entry Hk. apply IH1. rewrite lookup_insert_ne; [done |].
        intros <-. congruence.
      + intros key entry Hk. apply IH2 in Hk as [Hk | Hk]; [| by right].
        apply lookup_insert_Some in Hk as [[<- <-] | [_ Hk]]; [by right | by left]. }
  destruct Hinv as [Hkeep Hnew]. split_and!; [done | done |].
  intros comp_no_for_oe unit month_int year_str Hfailed.
  apply Hkeep in Hfailed. unfold conversion_rates.
  destruct (currency_map !! _) as [[source_curr target_curr] |]; [| done].
  destruct (String.eqb source_curr target_curr); [done |].
  rewrite Hfailed. cbv iota beta zeta. by rewrite Hfailed.
Qed.

(** X11. The batch loop gives every input file exactly one outcome, in
    order, whatever happens to the files before it, and the list of processed
    files it returns grows by exactly the names of the files reported as
    processed, in that order. *)
Theorem batch_loop_outcomes (mo_comp_numbers : gset string)
    (currency_map : gmap (string * string) (string * string))
    (comp_no_to_oe_map : gmap string string)
    (st : batch_state folder) (excel_files : list input_file) :
  let result :=
    loop mo_comp_numbers currency_map comp_no_to_oe_map st excel_files in
  length (snd result) = length excel_files ∧
  processed_files folder (fst result)
  = (processed_files folder st ++ written_names (snd result))%list ∧
  (∀ i file, excel_files !! i = Some file →
     match_filename (filename file) = None →
     snd result !! i = Some (Skipped FilenameDoesNotMatch)).
Proof.
  intros result. subst result. revert st.
  induction excel_files as [| file rest IH]; intros st.
  { cbn [batch_loop fst snd written_names omap list_omap].
    rewrite app_nil_r. split_and!; done. }
  cbn [batch_loop].
  assert (Hstep :
    processed_files folder (one_file mo_comp_numbers currency_map
                              comp_no_to_oe_map st file).1
    = (processed_files folder st
       ++ written_names [(one_file mo_comp_numbers currency_map
                            comp_no_to_oe_map st file).2])%list ∧
    (match_filename (filename file) = None →
     (one_file mo_comp_numbers currency_map comp_no_to_oe_map st file).2
     = Skipped FilenameDoesNotMatch)).
  { unfold process_file, iteration, written_names.
    destruct (match_filename (filename file)) as [parts |];
      [| by rewrite app_nil_r].
    split; [| done].
    destruct (strptime_month (month_abbr parts)) as [month_int | e];
      [| by rewrite app_nil_r].
    destruct (comp_no_to_oe_map !! profit_center parts) as [[| a oe] |];
      [by rewrite app_nil_r | | by rewrite app_nil_r].
    destruct (conversion_rates _ _ _ _ _ _ _) as [cache rates].
    destruct (read_Sheet1 file) as [df | e]; [| by rewrite app_nil_r].
    destruct (no_applicable_data df); [by rewrite app_nil_r |].
    destruct (clean_and_save _ _ _ _ _ _) as [[folder' name] | e];
      [done | by rewrite app_nil_r]. }
  destruct (one_file _ _ _ st file) as [st1 o]. cbn [fst snd] in Hstep.
  specialize (IH st1).
  destruct (loop _ _ _ st1 rest) as [st2 os]. cbn [fst snd] in *.
  destruct IH as (IHlen & IHfiles & IHskip). destruct Hstep as [Hfiles Hskip].
  split_and!.
  - cbn [length]. by rewrite IHlen.
  - rewrite IHfiles, Hfiles, <- app_assoc. f_equal.
    unfold written_names. cbn [omap list_omap]. by destruct o.
  - intros [| i] f Hi Hm; cbn in Hi |- *.
    + injection Hi as <-. by rewrite Hskip.
    + by apply (IHskip i f).
Qed.

End BatchLoop.

(** ** Classification and the removal of SERVICE rows *)

Section ClassificationAgain.

Import clean_oe.

Variable float_repr : Q → string.

Local Abbreviation source := (source_series float_repr).


Lemma filter_fmap_pre {A B} (f : A → B) (P : B → Prop) `{∀ y, Decision (P y)}
    (l : list A) :
  filter P (f <$> l) = f <$> filter (P ∘ f) l.
Proof.
  induction l as [| x l IH]; [reflexivity |].
  rewrite fmap_cons, !filter_cons. unfold compose at 1.
  destruct (decide (P (f x))); by rewrite ?fmap_cons, IH.
Qed.

(** X12. Classification followed by the removal of SERVICE rows keeps, in
    order, exactly the rows whose normalised document type is neither "none"
    nor one of the types the table classifies as SERVICE.  Every row kept is
    labelled "PRODUCT" or "Product"; a row of unknown document type is always
    kept. *)
Theorem service_rows_removed (df : list doc_row) :
  let out := remove_service (classify float_repr df).1 in
  out = classified float_repr
          <$> filter (fun r => source r ≠ "none" ∧
                               dict_get classification_map (source r) ≠ Some "SERVICE")
                df ∧
  (∀ r, r ∈ out →
        Product_Service r = Str "PRODUCT" ∨ Product_Service r = Str "Product") ∧
  (∀ r, r ∈ df → dict_get classification_map (source r) = None →
        source r ≠ "none" → classified float_repr r ∈ out).
Proof.
  intros out.
  assert (Hout : out = classified float_repr
            <$> filter (fun r => source r ≠ "none" ∧
                          dict_get classification_map (source r) ≠ Some "SERVICE")
                  df).
  { subst out. unfold remove_service.
    rewrite classify_table, List_filter_stdpp, filter_fmap_pre, list_filter_filter.
    f_equal. apply list_filter_iff. intros r. unfold compose, classified, mapped_series.
    cbn [Product_Service cell_is].
    destruct (dict_get classification_map (source r)) as [c |] eqn:E; cbn [default].
    - cbn [cell_is id]. destruct (String.eqb c "SERVICE") eqn:Eq; simpl.
      + apply String.eqb_eq in Eq as ->.
        split; [by intros [[] _] | by intros [_ []]].
      + apply String.eqb_neq in Eq.
        split.
        * intros [_ Hs]. split; [exact Hs | congruence].
        * intros [Hs _]. split; [exact I | exact Hs].
    - simpl. split.
      * intros [_ Hs]. split; [exact Hs | discriminate].
      * intros [Hs _]. split; [exact I | exact Hs]. }
  split; [exact Hout |]. rewrite Hout. split.
  - intros r' (r & -> & [[Hn Hs] _]%list_elem_of_filter)%list_elem_of_fmap.
    unfold classified, mapped_series. cbn [Product_Service].
    destruct (dict_get classification_map (source r)) as [c |] eqn:E; [| by right].
    left. destruct (classification_values _ _ E) as [-> | ->]; [done |].
    by destruct Hs.
  - intros r Hr Hnone Hn. apply list_elem_of_fmap_2, list_elem_of_filter.
    split; [| done]. split; [done |]. by rewrite Hnone.
Qed.

End ClassificationAgain.

(** ** The extraction of the Hyperion maps *)

Section Extraction.

Variable parse_float : string → option Q.

Lemma cell_eqb_sym (a b : cell) : cell_eqb a b = cell_eqb b a.
Proof.
  destruct a as [| s | p], b as [| t | q]; simpl; try done.
  - apply String.eqb_sym.
  - destruct (Qeq_bool p q) eqn:E1, (Qeq_bool q p) eqn:E2; try done.
    + apply Qeq_bool_iff in E1. symmetry in E1. apply Qeq_bool_iff in E1. congruence.
    + apply Qeq_bool_iff in E2. symmetry in E2. apply Qeq_bool_iff in E2. congruence.
Qed.

Lemma cell_eqb_trans (a b c : cell) :
  cell_eqb a b = true → cell_eqb b c = true → cell_eqb a c = true.
Proof.
  destruct a as [| s | p], b as [| t | q], c as [| u | r]; simpl; try done.
  - intros ->%String.eqb_eq ->%String.eqb_eq. apply String.eqb_refl.
  - rewrite !Qeq_bool_iff. intros -> ->. reflexivity.
Qed.

Lemma cell_dict_get_set {V} (d : list (cell * V)) (k k' : cell) (v : V) :
  cell_dict_get (cell_dict_set d k v) k'
  = if cell_eqb k k' then Some v else cell_dict_get d k'.
Proof.
  induction d as [| [k0 v0] d IH]; simpl.
  - done.
  - destruct (cell_eqb k0 k) eqn:E0; simpl.
    + destruct (cell_eqb k0 k') eqn:E1.
      * rewrite cell_eqb_sym in E0. by rewrite (cell_eqb_trans _ _ _ E0 E1).
      * destruct (cell_eqb k k') eqn:E2; [| done].
        by rewrite (cell_eqb_trans _ _ _ E0 E2) in E1.
    + destruct (cell_eqb k0 k') eqn:E1; [| exact IH].
      destruct (cell_eqb k k') eqn:E2; [| done].
      rewrite cell_eqb_sym in E2. rewrite (cell_eqb_trans _ _ _ E1 E2) in E0. done.
Qed.

Lemma series_to_dict_snoc {V} (items : list (cell * V)) (kv : cell * V) :
  series_to_dict (items ++ [kv]) = cell_dict_set (series_to_dict items) kv.1 kv.2.
Proof. unfold series_to_dict. by rewrite foldl_app. Qed.

Lemma last_filter_snoc {A} (f : A → bool) (l : list A) (x : A) :
  last (List.filter f (l ++ [x]))
  = if f x then Some x else last (List.filter f l).
Proof.
  rewrite List.filter_app. cbn [List.filter]. destruct (f x).
  - apply last_snoc.
  - by rewrite app_nil_r.
Qed.

Lemma series_to_dict_get {V} (items : list (cell * V)) (s : string) :
  cell_dict_get (series_to_dict items) (Str s) = last_value items s.
Proof.
  induction items as [| kv items IH] using rev_ind; [reflexivity |].
  rewrite series_to_dict_snoc, cell_dict_get_set, IH. unfold last_value.
  rewrite last_filter_snoc. by destruct (cell_eqb kv.1 (Str s)).
Qed.

Lemma cell_dict_set_keys {V} (d : list (cell * V)) (k : cell) (v : V) :
  fst <$> cell_dict_set d k v
  = if existsb (fun k' => cell_eqb k' k) (fst <$> d) then fst <$> d
    else ((fst <$> d) ++ [k])%list.
Proof.
  induction d as [| [k0 v0] d IH]; [done |].
  cbn [cell_dict_set]. rewrite fmap_cons. cbn [existsb fst].
  destruct (cell_eqb k0 k) eqn:E; cbn [orb]; [done |].
  rewrite fmap_cons, IH. cbn [fst]. by destruct (existsb _ _).
Qed.

Lemma series_to_dict_distinct {V} (items : list (cell * V)) :
  distinct_keys (fst <$> series_to_dict items).
Proof.
  induction items as [| kv items IH] using rev_ind.
  { intros i j a b Hi. by destruct i. }
  rewrite series_to_dict_snoc, cell_dict_set_keys.
  destruct (existsb _ _) eqn:E; [exact IH |].
  set (keys := fst <$> series_to_dict items) in *.
  assert (Hnew : ∀ i a, keys !! i = Some a → cell_eqb a kv.1 = false).
  { intros i a Hi. destruct (cell_eqb a kv.1) eqn:Ea; [| done].
    assert (existsb (fun k' => cell_eqb k' kv.1) keys = true); [| congruence].
    apply existsb_exists. exists a. split; [| done].
    apply list_elem_of_In. by eapply list_elem_of_lookup_2. }
  intros i j a b Hi Hj Hab.
  apply lookup_app_Some in Hi as [Hi | [Hi1 Hi2]];
    apply lookup_app_Some in Hj as [Hj | [Hj1 Hj2]].
  - by eapply IH.
  - apply list_lookup_singleton_Some in Hj2 as [_ <-].
    by rewrite (Hnew i a Hi) in Hab.
  - apply list_lookup_singleton_Some in Hi2 as [_ <-].
    rewrite cell_eqb_sym in Hab. by rewrite (Hnew j b Hj) in Hab.
  - apply list_lookup_singleton_Some in Hi2 as [Hi2 _].
    apply list_lookup_singleton_Some in Hj2 as [Hj2 _]. lia.
Qed.

Import cleaning_configurations.

Lemma find_target_col_spec (profit_center : string) (idx : nat)
    (vals : list cell) (j : nat) :
  find_target_col profit_center idx vals = Some j ↔
  ∃ i val, j = (idx + i)%nat ∧ (4 ≤ j)%nat ∧ vals !! i = Some val ∧
    names_profit_center profit_center val = true ∧
    ∀ i' val', (i' < i)%nat → (4 ≤ idx + i')%nat → vals !! i' = Some val' →
               names_profit_center profit_center val' = false.
Proof.
  revert idx. induction vals as [| val vals IH]; intros idx.
  { simpl. split; [done |]. by intros (i & v & _ & _ & ? & _). }
  cbn [find_target_col].
  assert (Hrest :
    find_target_col profit_center (S idx) vals = Some j ↔
    ∃ i val0, j = (idx + S i)%nat ∧ (4 ≤ j)%nat ∧ vals !! i = Some val0 ∧
      names_profit_center profit_center val0 = true ∧
      ∀ i' val', (i' < i)%nat → (4 ≤ idx + S i')%nat → vals !! i' = Some val' →
                 names_profit_center profit_center val' = false).
  { rewrite IH. split; intros (i & v & -> & H4 & Hv & Hn & Hfirst);
      exists i, v; split_and!; try done; try lia.
    - intros i' v' ? ?. apply Hfirst; [done | lia].
    - intros i' v' ? ?. apply Hfirst; [done | lia]. }
  destruct (Nat.ltb_spec idx 4) as [Hlt | Hge].
  - rewrite Hrest. split.
    + intros (i & v & -> & H4 & Hv & Hn & Hfirst). exists (S i), v.
      split_and!; try done. intros [| i'] v' Hi' H4' Hv'; [lia |].
      cbn in Hv'. apply (Hfirst i' v'); [lia | lia | done].
    + intros ([| i] & v & -> & H4 & Hv & Hn & Hfirst); [lia |].
      exists i, v. split_and!; try done.
      intros i' v' Hi' H4' Hv'. apply (Hfirst (S i') v'); [lia | lia | done].
  - destruct (names_profit_center profit_center val) eqn:Eval.
    + split.
      * intros [= <-]. exists 0%nat, val. split_and!; try done; try lia.
      * intros ([| i] & v & -> & H4 & Hv & Hn & Hfirst); [f_equal; lia |].
        rewrite (Hfirst 0%nat val) in Eval; [done | lia | lia | done].
    + rewrite Hrest. split.
      * intros (i & v & -> & H4 & Hv & Hn & Hfirst). exists (S i), v.
        split_and!; try done. intros [| i'] v' Hi' H4' Hv'.
        -- cbn in Hv'. by injection Hv' as <-.
        -- cbn in Hv'. apply (Hfirst i' v'); [lia | lia | done].
      * intros ([| i] & v & -> & H4 & Hv & Hn & Hfirst).
        -- cbn in Hv. injection Hv as <-. congruence.
        -- exists i, v. split_and!; try done.
           intros i' v' Hi' H4' Hv'. apply (Hfirst (S i') v'); [lia | lia | done].
Qed.

(** X13. The column of a profit center is the first column from index 4
    (column E) on whose cell in row 7 is a text ending, once stripped, in a
    dot and the profit center.  A sheet of fewer than 27 rows, or one whose
    row 7 names the profit center in no column or only in columns A to D,
    yields two empty maps and two totals of 0. *)
Theorem extract_dpc_maps_target_column (df_sheet : frame) (profit_center : string) :
  (∀ j, find_target_col profit_center 0 (nth 6 df_sheet []) = Some j ↔
        (4 ≤ j)%nat ∧
        (∃ val, nth 6 df_sheet [] !! j = Some val ∧
                names_profit_center profit_center val = true) ∧
        (∀ i val, (4 ≤ i < j)%nat → nth 6 df_sheet [] !! i = Some val →
                  names_profit_center profit_center val = false)) ∧
  ((length df_sheet < 27)%nat ∨
   (∀ i val, (4 ≤ i)%nat → nth 6 df_sheet [] !! i = Some val →
             names_profit_center profit_center val = false) →
   _extract_dpc_maps_from_sheet parse_float df_sheet profit_center
   = ([], [], 0%Q, 0%Q)).
Proof.
  assert (Hspec : ∀ j,
    find_target_col profit_center 0 (nth 6 df_sheet []) = Some j ↔
    (4 ≤ j)%nat ∧
    (∃ val, nth 6 df_sheet [] !! j = Some val ∧
            names_profit_center profit_center val = true) ∧
    (∀ i val, (4 ≤ i < j)%nat → nth 6 df_sheet [] !! i = Some val →
              names_profit_center profit_center val = false)).
  { intros j. rewrite find_target_col_spec. split.
    - intros (i & v & -> & H4 & Hv & Hn & Hfirst). cbn in *.
      split_and!; [done | eauto |]. intros i' v' [? ?]. by apply Hfirst.
    - intros (H4 & (v & Hv & Hn) & Hfirst). exists j, v.
      split_and!; try done. intros i' v' ? ?. apply Hfirst. cbn in *. lia. }
  split; [exact Hspec |].
  intros Hcase. unfold _extract_dpc_maps_from_sheet.
  destruct (Nat.ltb_spec (length df_sheet) 27) as [| Hlen]; [done |].
  destruct Hcase as [? | Hnone]; [lia |]. cbv zeta.
  destruct (find_target_col _ _ _) as [j |]; [| done].
  destruct (proj1 (Hspec j) eq_refl) as (H4 & (v & Hv & Hn) & _).
  by rewrite (Hnone j v H4 Hv) in Hn.
Qed.

Local Abbreviation column_items col rows :=
  ((fun row => (nth 1 row NaN, default 0%Q (to_numeric parse_float (nth col row NaN))))
     <$> rows).

(** X14. For a sheet of at least 27 rows whose row 7 names the profit center
    in column j: rows 12 to the last but one are the DPC rows, the last row
    is the total row.  The two maps have no two equal keys; for a text key
    they hold the amount (0 when it is no number) that the last DPC row with
    that text in column B has in column j, or in column j+1 for the prior
    year.  The totals are the amounts of the last row in the two columns.
    When the sheet has no column j+1, the prior-year map is empty and the
    prior-year total is 0. *)
Theorem extract_dpc_maps_contents (df_sheet : frame) (profit_center : string)
    (j : nat) :
  (27 ≤ length df_sheet)%nat →
  Forall (fun row => length row = ncols df_sheet) df_sheet →
  find_target_col profit_center 0 (nth 6 df_sheet []) = Some j →
  ∃ dpc_rows total_row mtd_map py_map last_row_mtd last_row_py,
    _extract_dpc_maps_from_sheet parse_float df_sheet profit_center
      = (mtd_map, py_map, last_row_mtd, last_row_py) ∧
    drop 11 df_sheet = (dpc_rows ++ [total_row])%list ∧
    distinct_keys (fst <$> mtd_map) ∧ distinct_keys (fst <$> py_map) ∧
    (∀ s, cell_dict_get mtd_map (Str s) = last_value (column_items j dpc_rows) s) ∧
    last_row_mtd = default 0%Q (to_numeric parse_float (nth j total_row NaN)) ∧
    ((S j < ncols df_sheet)%nat →
       (∀ s, cell_dict_get py_map (Str s)
             = last_value (column_items (S j) dpc_rows) s) ∧
       last_row_py = default 0%Q (to_numeric parse_float (nth (S j) total_row NaN))) ∧
    ((ncols df_sheet ≤ S j)%nat → py_map = [] ∧ last_row_py = 0%Q).
Proof.
  intros Hlen Hrect Hj.
  assert (Hwidth : (j < ncols df_sheet)%nat).
  { apply find_target_col_spec in Hj as (i & v & -> & _ & Hv & _).
    apply lookup_lt_Some in Hv. cbn.
    assert (Hrow : nth 6 df_sheet [] ∈ df_sheet).
    { apply list_elem_of_In, nth_In. lia. }
    eapply Forall_forall in Hrect; [| exact Hrow]. lia. }
  destruct (drop 11 df_sheet) as [| r0 rest] eqn:Edrop using rev_ind.
  { apply (f_equal length) in Edrop. rewrite length_drop in Edrop. simpl in Edrop. lia. }
  clear IHrest. rename r0 into total_row. rename rest into dpc_rows.
  assert (Hlen' : length (dpc_rows ++ [total_row]) = (length df_sheet - 11)%nat)
    by (by rewrite <- Edrop, length_drop).
  rewrite length_app in Hlen'. cbn in Hlen'.
  assert (Hin : ∀ row, row ∈ (dpc_rows ++ [total_row])%list → length row = ncols df_sheet).
  { intros row Hrow. eapply Forall_forall in Hrect; [exact Hrect |].
    rewrite <- Edrop in Hrow. by eapply elem_of_sublist, sublist_drop. }
  unfold _extract_dpc_maps_from_sheet.
  destruct (Nat.ltb_spec (length df_sheet) 27) as [| _]; [lia |].
  cbv zeta. rewrite Hj.
  destruct (Nat.leb_spec (length df_sheet) 12) as [| _]; [lia |].
  rewrite Edrop.
  assert (Hne : frame_empty (dpc_rows ++ [total_row]) = false).
  { unfold frame_empty, ncols. rewrite length_app. cbn [length].
    destruct dpc_rows as [| r1 dpc_rows']; [cbn in Hlen'; lia |].
    cbn [hd app]. rewrite (Hin r1) by (left).
    apply orb_false_iff. split; apply Nat.eqb_neq; lia. }
  rewrite Hne.
  replace (length (dpc_rows ++ [total_row]) - 1)%nat with (length dpc_rows)
    by (rewrite length_app; cbn; lia).
  rewrite take_app_length, List.last_last.
  assert (Hne' : frame_empty dpc_rows = false).
  { unfold frame_empty, ncols.
    destruct dpc_rows as [| r1 dpc_rows']; [cbn in Hlen'; lia |].
    cbn [hd length]. rewrite (Hin r1) by (left).
    apply orb_false_iff. split; apply Nat.eqb_neq; lia. }
  rewrite Hne'.
  eexists dpc_rows, total_row, _, _, _, _. split; [reflexivity |].
  split_and!; try done.
  - apply series_to_dict_distinct.
  - destruct (_ <? _)%nat; [apply series_to_dict_distinct |].
    intros i k a b Hi. by destruct i.
  - intros s. apply series_to_dict_get.
  - intros Hprior. apply Nat.ltb_lt in Hprior. rewrite Hprior.
    split; [| done]. intros s. apply series_to_dict_get.
  - intros Hno. destruct (Nat.ltb_spec (S j) (ncols df_sheet)); [lia | done].
Qed.

End Extraction.

(** A sheet of 27 rows with six columns, the profit center 9005 named in
    column E of row 7; "ANA" occurs in two DPC rows, the second one wins. *)
Lemma extract_dpc_maps_contents_witness :
  let blank := replicate 6 NaN in
  let row name v := [NaN; Str name; NaN; NaN; Num v; Num (v + 1)%Q] in
  let header := [NaN; NaN; NaN; NaN; Str "Entity.9005 "; Str "PY"] in
  let dpc := ([row "ANA" 1%Q; row "OEM_SI" 5%Q; row "ANA" 2%Q]
                ++ replicate 12 (row "PI" 0%Q))%list in
  let df_sheet :=
    (replicate 6 blank ++ [header] ++ replicate 4 blank ++ dpc
       ++ [row "Total" 9%Q])%list in
  ∃ mtd_map py_map last_row_mtd last_row_py,
    _extract_dpc_maps_from_sheet (fun _ => None) df_sheet "9005"
      = (mtd_map, py_map, last_row_mtd, last_row_py) ∧
    cell_dict_get mtd_map (Str "ANA") = Some 2%Q ∧
    cell_dict_get py_map (Str "ANA") = Some (2 + 1)%Q ∧
    cell_dict_get mtd_map (Str "Total") = None ∧
    last_row_mtd = 9%Q.
Proof.
  intros blank row header dpc df_sheet.
  destruct (extract_dpc_maps_contents (fun _ => None) df_sheet "9005" 4)
    as (dpc_rows & total_row & mtd_map & py_map & last_row_mtd & last_row_py
        & E & Hdrop & _ & _ & Hmtd & Hlast & Hprior & _).
  - vm_compute. lia.
  - apply (bool_decide_unpack _). vm_compute. exact I.
  - vm_compute. reflexivity.
  - assert (Hsplit : drop 11 df_sheet = (dpc ++ [row "Total" 9%Q])%list)
      by (vm_compute; reflexivity).
    rewrite Hsplit in Hdrop. apply app_inj_tail in Hdrop as [<- <-].
    exists mtd_map, py_map, last_row_mtd, last_row_py. split_and!.
    + exact E.
    + rewrite Hmtd. vm_compute. reflexivity.
    + destruct Hprior as [Hpy _]; [vm_compute; lia |].
      rewrite Hpy. vm_compute. reflexivity.
    + rewrite Hmtd. vm_compute. reflexivity.
    + rewrite Hlast. vm_compute. reflexivity.
Defined.

(** The profit center named in column B only: nothing is extracted. *)
Lemma extract_dpc_maps_target_column_witness :
  let blank := replicate 6 NaN in
  let header := [NaN; Str "Entity.9005"; NaN; NaN; Str "Entity.9006"; NaN] in
  let df_sheet := (replicate 6 blank ++ [header] ++ replicate 20 blank)%list in
  _extract_dpc_maps_from_sheet (fun _ => None) df_sheet "9005" = ([], [], 0%Q, 0%Q).
Proof.
  intros blank header df_sheet.
  apply (extract_dpc_maps_target_column (fun _ => None) df_sheet "9005").
  right. intros i val Hi Hval.
  change (nth 6 df_sheet []) with header in Hval.
  do 4 (destruct i as [| i]; [lia |]).
  destruct i as [| [| i]]; cbn in Hval; [| | done];
    injection Hval as <-; reflexivity.
Defined.

(** ** File names written and parsed back *)

Section Regex.

Import re.

Lemma string_app_cons (c : ascii) (a b : string) :
  (String c a ++ b = String c (a ++ b))%string.
Proof. reflexivity. Qed.

Lemma string_app_nil (b : string) : ("" ++ b = b)%string.
Proof. reflexivity. Qed.

Lemma string_app_assoc (a b c : string) : ((a ++ b) ++ c = a ++ (b ++ c))%string.
Proof.
  induction a as [| x a IH]; [done |]. rewrite !string_app_cons. by rewrite IH.
Qed.

Lemma string_length_app (a b : string) :
  String.length (a ++ b) = (String.length a + String.length b)%nat.
Proof.
  induction a as [| x a IH]; [done |]. rewrite string_app_cons.
  cbn [String.length Nat.add]. by rewrite IH.
Qed.

Lemma all_in_app (p : ascii → bool) (a b : string) :
  all_in p (a ++ b) = all_in p a && all_in p b.
Proof.
  induction a as [| x a IH]; [done |]. rewrite string_app_cons. cbn [all_in].
  rewrite IH. apply andb_assoc.
Qed.

Lemma substring_app (w rest : string) :
  String.substring 0 (String.length w) (w ++ rest) = w.
Proof.
  induction w as [| c w IH]; [by destruct rest |].
  rewrite string_app_cons. cbn [String.length String.substring]. by rewrite IH.
Qed.

Lemma consumed_app (w rest : string) : consumed (w ++ rest) rest = w.
Proof.
  unfold consumed. rewrite string_length_app.
  replace (String.length w + String.length rest - String.length rest)%nat
    with (String.length w) by lia.
  apply substring_app.
Qed.

Lemma char_eqb_refl ic c : char_eqb ic c c = true.
Proof. unfold char_eqb. destruct ic; apply Ascii.eqb_refl. Qed.

Lemma lit_app ic (l s : string) : lit ic l (l ++ s) = Some s.
Proof.
  induction l as [| a l IH]; [done |]. rewrite string_app_cons. cbn [lit].
  by rewrite char_eqb_refl.
Qed.

Lemma in_class_sensitive (p : ascii → bool) (c : ascii) : in_class false p c = p c.
Proof. unfold in_class. cbn. apply orb_false_r. Qed.

Lemma star_greedy {R} ic p (w rest : string) (k : string → option R) (x : R) :
  all_in (in_class ic p) w = true → stops ic p rest →
  k rest = Some x → star ic p (w ++ rest) k = Some x.
Proof.
  intros Hw Hrest Hk. induction w as [| c w IH].
  - rewrite string_app_nil. destruct rest as [| c rest]; [done |].
    cbn [star]. cbn in Hrest. by rewrite Hrest.
  - cbn in Hw. apply andb_true_iff in Hw as [Hc Hw].
    rewrite string_app_cons. cbn [star]. rewrite Hc, (IH Hw). done.
Qed.

Lemma plus_greedy {R} ic p (w rest : string) (k : string → option R) (x : R) :
  w ≠ "" → all_in (in_class ic p) w = true → stops ic p rest →
  k rest = Some x → plus ic p (w ++ rest) k = Some x.
Proof.
  intros Hne Hw Hrest Hk. destruct w as [| c w]; [done |].
  cbn in Hw. apply andb_true_iff in Hw as [Hc Hw].
  rewrite string_app_cons. cbn [plus]. rewrite Hc. by apply star_greedy.
Qed.

(** When what follows cannot start inside the class, [p+] takes all of the
    class and nothing else is tried. *)
Lemma star_exact {R} ic p (w rest : string) (k : string → option R) :
  all_in (in_class ic p) w = true → stops ic p rest →
  (∀ c t, in_class ic p c = true → k (String c t) = None) →
  star ic p (w ++ rest) k = k rest.
Proof.
  intros Hw Hrest Hk. induction w as [| c w IH].
  - rewrite string_app_nil. destruct rest as [| c rest]; [done |].
    cbn [star]. cbn in Hrest. by rewrite Hrest.
  - cbn in Hw. apply andb_true_iff in Hw as [Hc Hw].
    rewrite string_app_cons. cbn [star]. rewrite Hc, (IH Hw).
    destruct (k rest) as [x |] eqn:E; [done |].
    by apply Hk.
Qed.

Lemma plus_exact {R} ic p (w rest : string) (k : string → option R) :
  w ≠ "" → all_in (in_class ic p) w = true → stops ic p rest →
  (∀ c t, in_class ic p c = true → k (String c t) = None) →
  plus ic p (w ++ rest) k = k rest.
Proof.
  intros Hne Hw Hrest Hk. destruct w as [| c w]; [done |].
  cbn in Hw. apply andb_true_iff in Hw as [Hc Hw].
  rewrite string_app_cons. cbn [plus]. rewrite Hc. by apply star_exact.
Qed.

Lemma plus_stops {R} ic p (s : string) (k : string → option R) :
  stops ic p s → plus ic p s k = None.
Proof. destruct s as [| c s]; [done |]. cbn. by intros ->. Qed.

Lemma times_exact {R} ic p (w rest : string) (k : string → option R) :
  all_in (in_class ic p) w = true →
  times ic (String.length w) p (w ++ rest) k = k rest.
Proof.
  intros Hw. induction w as [| c w IH]; [done |].
  cbn in Hw. apply andb_true_iff in Hw as [Hc Hw].
  rewrite string_app_cons. cbn [String.length times]. by rewrite Hc, IH.
Qed.

Lemma all_in_sensitive (p : ascii → bool) (s : string) :
  all_in (in_class false p) s = all_in p s.
Proof.
  induction s as [| c s IH]; [done |]. cbn [all_in].
  by rewrite in_class_sensitive, IH.
Qed.

Lemma run_seq ic r1 r2 s caps k :
  run ic (Seq r1 r2) s caps k
  = run ic r1 s caps (fun s' caps' => run ic r2 s' caps' k).
Proof. reflexivity. Qed.

Lemma run_lit ic l s caps k : run ic (Lit l) (l ++ s) caps k = k s caps.
Proof. cbn [run]. by rewrite lit_app. Qed.

Lemma run_lit_end ic l caps k : run ic (Lit l) l caps k = k "" caps.
Proof.
  cbn [run]. replace (lit ic l l) with (Some ""); [done |].
  induction l as [| a l IH]; [done |]. cbn [lit]. by rewrite char_eqb_refl.
Qed.

Lemma run_group_plus_greedy ic p w rest caps k x :
  w ≠ "" → all_in (in_class ic p) w = true → stops ic p rest →
  k rest (caps ++ [Some w])%list = Some x →
  run ic (Group (Plus p)) (w ++ rest) caps k = Some x.
Proof.
  intros Hne Hw Hrest Hk. cbn [run]. apply plus_greedy; try done.
  by rewrite consumed_app.
Qed.

Lemma run_group_plus_exact ic p w rest caps k :
  w ≠ "" → all_in (in_class ic p) w = true → stops ic p rest →
  (∀ c t caps', in_class ic p c = true → k (String c t) caps' = None) →
  run ic (Group (Plus p)) (w ++ rest) caps k = k rest (caps ++ [Some w])%list.
Proof.
  intros Hne Hw Hrest Hk. cbn [run]. rewrite plus_exact; try done.
  - by rewrite consumed_app.
  - intros c t Hc. by apply Hk.
Qed.

Lemma run_group_times ic p w rest caps k :
  all_in (in_class ic p) w = true →
  run ic (Group (Times (String.length w) p)) (w ++ rest) caps k
  = k rest (caps ++ [Some w])%list.
Proof.
  intros Hw. cbn [run]. rewrite times_exact by done. by rewrite consumed_app.
Qed.

Lemma search_unfold ic r s :
  search ic r s
  = match match_ ic r s with
    | Some caps => Some caps
    | None =>
        match s with
        | String _ s' => search ic r s'
        | EmptyString => None
        end
    end.
Proof. by destruct s. Qed.

Lemma search_match ic r s caps :
  match_ ic r s = Some caps → search ic r s = Some caps.
Proof. intros H. by rewrite search_unfold, H. Qed.


Lemma sales_typed_match (unit c date type : string) :
  word_of upper_alnum unit → word_of digit c →
  String.length date = 4%nat → all_in digit date = true →
  word_of upper_alnum type →
  match_ false sales_typed_pattern
    ("Sales_Data_Processed_" ++ unit ++ "_" ++ c ++ "_" ++ date ++ "_"
       ++ type ++ ".csv")
  = Some [Some unit; Some c; Some date; Some type].
Proof.
  intros [Hu1 Hu2] [Hc1 Hc2] Hd1 Hd2 [Ht1 Ht2].
  unfold match_, sales_typed_pattern. cbn [cat].
  rewrite run_seq, run_lit.
  rewrite run_seq. apply run_group_plus_greedy;
    [done | by rewrite all_in_sensitive | reflexivity |].
  rewrite run_seq, run_lit.
  rewrite run_seq. apply run_group_plus_greedy;
    [done | by rewrite all_in_sensitive | reflexivity |].
  rewrite run_seq, run_lit.
  rewrite run_seq, <- Hd1, run_group_times by (by rewrite all_in_sensitive).
  rewrite run_seq, run_lit.
  rewrite run_seq. apply run_group_plus_greedy;
    [done | by rewrite all_in_sensitive | reflexivity |].
  by rewrite run_lit_end.
Qed.

(** X15. A file name written by the sales segregation, for an entity number
    made of digits, a unit made of capitals and digits, a two-digit month and
    year and a tag made of capitals and digits, is parsed back by
    [_parse_sales_filename] into the same unit, entity number, date part and
    type. *)
Theorem sales_filename_round_trip (file_parts : clean_sales.file_parts)
    (comp_no seg_type : string) :
  clean_sales.comp_no file_parts = Some comp_no →
  word_of upper_alnum (clean_sales.unit_name file_parts) →
  word_of digit comp_no →
  String.length (clean_sales.month_part file_parts) = 2%nat →
  all_in digit (clean_sales.month_part file_parts) = true →
  String.length (clean_sales.year_part_short file_parts) = 2%nat →
  all_in digit (clean_sales.year_part_short file_parts) = true →
  word_of upper_alnum seg_type →
  _parse_sales_filename (clean_sales.segregated_filename file_parts seg_type)
  = Some {| sfi_comp_no := comp_no;
            sfi_unit := clean_sales.unit_name file_parts;
            sfi_date_part := clean_sales.month_part file_parts
                               ++ clean_sales.year_part_short file_parts;
            sfi_type := Some seg_type |}.
Proof.
  intros Hc Hu Hcn Hm1 Hm2 Hy1 Hy2 Ht.
  unfold _parse_sales_filename, clean_sales.segregated_filename. rewrite Hc.
  cbn [default from_option id].
  rewrite <- (string_app_assoc (clean_sales.month_part file_parts)).
  assert (Hd1 : String.length (clean_sales.month_part file_parts
                  ++ clean_sales.year_part_short file_parts) = 4%nat)
    by (rewrite string_length_app; lia).
  assert (Hd2 : all_in digit (clean_sales.month_part file_parts
                  ++ clean_sales.year_part_short file_parts) = true)
    by (by rewrite all_in_app, Hm2, Hy2).
  by rewrite (search_match _ _ _ _ (sales_typed_match _ _ _ _ Hu Hcn Hd1 Hd2 Ht)).
Qed.

(** *** Patterns that do not match *)

Lemma all_in_impl (p q : ascii → bool) (s : string) :
  (∀ c, p c = true → q c = true) → all_in p s = true → all_in q s = true.
Proof.
  intros Hpq. induction s as [| c s IH]; [done |]. cbn [all_in].
  rewrite !andb_true_iff. intros [Hc Hs]. split; [by apply Hpq | by apply IH].
Qed.

Lemma run_lit_head ic a l r c t caps k :
  char_eqb ic a c = false →
  run ic (Seq (Lit (String a l)) r) (String c t) caps k = None.
Proof. intros H. cbn [run lit]. by rewrite H. Qed.

(** The search moves over text that cannot start the literal a pattern
    begins with. *)
Lemma search_skip ic a l r (pre s : string) :
  all_in (fun c => negb (char_eqb ic a c)) pre = true →
  search ic (Seq (Lit (String a l)) r) (pre ++ s)
  = search ic (Seq (Lit (String a l)) r) s.
Proof.
  induction pre as [| c pre IH]; [done |]. cbn [all_in].
  rewrite andb_true_iff, negb_true_iff. intros [Hc Hpre].
  rewrite string_app_cons, search_unfold. unfold match_ at 1.
  rewrite run_lit_head by done. by apply IH.
Qed.

(** No match in a text that lacks the second character of the literal. *)
Lemma search_absent ic a b l r (x : string) :
  all_in (fun c => negb (char_eqb ic b c)) x = true →
  search ic (Seq (Lit (String a (String b l))) r) x = None.
Proof.
  induction x as [| c x IH]; [done |]. cbn [all_in].
  rewrite andb_true_iff. intros [Hc Hx].
  rewrite search_unfold. unfold match_ at 1. cbn [run lit].
  destruct (char_eqb ic a c); [| by apply IH].
  destruct x as [| d x]; [done |].
  cbn [all_in] in Hx. apply andb_true_iff in Hx as [Hd Hx'].
  apply negb_true_iff in Hd. rewrite Hd. apply IH. cbn [all_in].
  by rewrite Hd, Hx'.
Qed.

Lemma upper_alnum_not ic (c : ascii) :
  in_class ic upper_alnum c = true →
  char_eqb ic "_" c = false ∧ char_eqb ic "." c = false ∧
  char_eqb ic "(" c = false.
Proof.
  destruct ic, c as [[] [] [] [] [] [] [] []]; vm_compute; intros H;
    try discriminate H; done.
Qed.

Lemma digit_not ic (c : ascii) :
  in_class ic digit c = true →
  char_eqb ic "_" c = false ∧ char_eqb ic "." c = false ∧
  char_eqb ic "(" c = false ∧ char_eqb ic ")" c = false.
Proof.
  destruct ic, c as [[] [] [] [] [] [] [] []]; vm_compute; intros H;
    try discriminate H; done.
Qed.

Lemma upper_alnum_not_a (c : ascii) :
  upper_alnum c = true → negb (char_eqb false "a" c) = true.
Proof. destruct c as [[] [] [] [] [] [] [] []]; vm_compute; done. Qed.

Lemma digit_upper_alnum (c : ascii) : digit c = true → upper_alnum c = true.
Proof. unfold upper_alnum, digit. intros ->. apply orb_true_r. Qed.

(** The text after the literal prefix of a processed sales file has no
    letter "a". *)
Lemma sales_tail_no_a (unit mid : string) :
  all_in upper_alnum unit = true →
  all_in (fun c => negb (char_eqb false "a" c)) mid = true →
  all_in (fun c => negb (char_eqb false "a" c)) (unit ++ "_" ++ mid) = true.
Proof.
  intros Hu Hmid. rewrite !all_in_app, Hmid.
  rewrite (all_in_impl _ _ _ upper_alnum_not_a Hu). reflexivity.
Qed.

Lemma digits_no_a (d : string) :
  all_in digit d = true →
  all_in (fun c => negb (char_eqb false "a" c)) d = true.
Proof.
  apply all_in_impl. intros c Hc. by apply upper_alnum_not_a, digit_upper_alnum.
Qed.

Local Ltac lit_fails H :=
  intros ? ? ? H; rewrite run_seq; apply run_lit_head;
  first [ apply upper_alnum_not in H; tauto | apply digit_not in H; tauto ].

Lemma sales_typed_no_match_untyped (unit c date : string) :
  word_of upper_alnum unit → word_of digit c →
  String.length date = 4%nat → all_in digit date = true →
  search false sales_typed_pattern
    ("Sales_Data_Processed_" ++ unit ++ "_" ++ c ++ "_" ++ date ++ ".csv")
  = None.
Proof.
  intros [Hu1 Hu2] [Hc1 Hc2] Hd1 Hd2.
  rewrite search_unfold.
  assert (Hhere : match_ false sales_typed_pattern
    ("Sales_Data_Processed_" ++ unit ++ "_" ++ c ++ "_" ++ date ++ ".csv") = None).
  { unfold match_, sales_typed_pattern. cbn [cat].
    rewrite run_seq, run_lit.
    rewrite run_seq, run_group_plus_exact;
      [| done | by rewrite all_in_sensitive | reflexivity | lit_fails H].
    rewrite run_seq, run_lit.
    rewrite run_seq, run_group_plus_exact;
      [| done | by rewrite all_in_sensitive | reflexivity | lit_fails H].
    rewrite run_seq, run_lit.
    rewrite run_seq, <- Hd1, run_group_times by (by rewrite all_in_sensitive).
    reflexivity. }
  rewrite Hhere.
  change ("Sales_Data_Processed_" ++ unit ++ "_" ++ c ++ "_" ++ date ++ ".csv")
    with (String "S" ("ales_Data_Processed_"
            ++ (unit ++ "_" ++ c ++ "_" ++ date ++ ".csv"))).
  unfold sales_typed_pattern. cbn [cat].
  rewrite search_skip by reflexivity.
  apply search_absent, sales_tail_no_a; [done |].
  rewrite !all_in_app, (digits_no_a c Hc2), (digits_no_a date Hd2). reflexivity.
Qed.

Lemma sales_untyped_match (unit c date : string) :
  word_of upper_alnum unit → word_of digit c →
  String.length date = 4%nat → all_in digit date = true →
  match_ false sales_untyped_pattern
    ("Sales_Data_Processed_" ++ unit ++ "_" ++ c ++ "_" ++ date ++ ".csv")
  = Some [Some unit; Some c; Some date].
Proof.
  intros [Hu1 Hu2] [Hc1 Hc2] Hd1 Hd2.
  unfold match_, sales_untyped_pattern. cbn [cat].
  rewrite run_seq, run_lit.
  rewrite run_seq. apply run_group_plus_greedy;
    [done | by rewrite all_in_sensitive | reflexivity |].
  rewrite run_seq, run_lit.
  rewrite run_seq. apply run_group_plus_greedy;
    [done | by rewrite all_in_sensitive | reflexivity |].
  rewrite run_seq, run_lit.
  rewrite run_seq, <- Hd1, run_group_times by (by rewrite all_in_sensitive).
  by rewrite run_lit_end.
Qed.

(** Neither pattern matches a name that has no entity number. *)
Lemma sales_no_match_without_comp_no (typed : bool) (unit date : string) :
  word_of upper_alnum unit →
  String.length date = 4%nat → all_in digit date = true →
  search false (if typed then sales_typed_pattern else sales_untyped_pattern)
    ("Sales_Data_Processed_" ++ unit ++ "_" ++ date ++ ".csv")
  = None.
Proof.
  intros [Hu1 Hu2] Hd1 Hd2.
  assert (Hdne : date ≠ "") by (intros ->; discriminate Hd1).
  rewrite search_unfold.
  assert (Hhere : match_ false
    (if typed then sales_typed_pattern else sales_untyped_pattern)
    ("Sales_Data_Processed_" ++ unit ++ "_" ++ date ++ ".csv") = None).
  { unfold match_. destruct typed; unfold sales_typed_pattern, sales_untyped_pattern;
      cbn [cat]; rewrite run_seq, run_lit;
      (rewrite run_seq, run_group_plus_exact;
        [| done | by rewrite all_in_sensitive | reflexivity | lit_fails H]);
      rewrite run_seq, run_lit;
      (rewrite run_seq, run_group_plus_exact;
        [| done | by rewrite all_in_sensitive | reflexivity | lit_fails H]);
      reflexivity. }
  rewrite Hhere.
  change ("Sales_Data_Processed_" ++ unit ++ "_" ++ date ++ ".csv")
    with (String "S" ("ales_Data_Processed_" ++ (unit ++ "_" ++ date ++ ".csv"))).
  destruct typed; unfold sales_typed_pattern, sales_untyped_pattern; cbn [cat];
    rewrite search_skip by reflexivity;
    apply search_absent, sales_tail_no_a; try done;
    rewrite !all_in_app, (digits_no_a date Hd2); reflexivity.
Qed.

(** The name written for a file whose name could not be read at all. *)
Lemma sales_no_match_unknown_unit (typed : bool) (date : string) :
  all_in digit date = true →
  search false (if typed then sales_typed_pattern else sales_untyped_pattern)
    ("Sales_Data_Processed_" ++ "UnknownUnit" ++ "_" ++ date ++ ".csv")
  = None.
Proof.
  intros Hd.
  rewrite search_unfold.
  assert (Hhere : match_ false
    (if typed then sales_typed_pattern else sales_untyped_pattern)
    ("Sales_Data_Processed_" ++ "UnknownUnit" ++ "_" ++ date ++ ".csv") = None).
  { unfold match_.
    change ("UnknownUnit" ++ "_" ++ date ++ ".csv")
      with ("U" ++ ("nknownUnit" ++ "_" ++ date ++ ".csv")).
    destruct typed; unfold sales_typed_pattern, sales_untyped_pattern;
      cbn [cat]; rewrite run_seq, run_lit;
      (rewrite run_seq, run_group_plus_exact;
        [| done | reflexivity | reflexivity |
         intros ? ? ? H; rewrite run_seq; apply run_lit_head;
         apply upper_alnum_not in H; tauto]);
      reflexivity. }
  rewrite Hhere.
  change ("Sales_Data_Processed_" ++ "UnknownUnit" ++ "_" ++ date ++ ".csv")
    with (String "S" ("ales_Data_Processed_"
            ++ ("UnknownUnit_" ++ date ++ ".csv"))).
  destruct typed; unfold sales_typed_pattern, sales_untyped_pattern; cbn [cat];
    rewrite search_skip by reflexivity;
    apply search_absent;
    rewrite !all_in_app, (digits_no_a date Hd); reflexivity.
Qed.

(** X16. The name of a file written by the fallback of the sales pipeline
    for an entity number is parsed back with no type.  The name of a file
    written without an entity number is not parsed at all, so the grouping
    step keeps such a file as it is: this holds for a unit in capitals and
    digits taken from an input name of the old format, and for the unit
    "UnknownUnit" written for an input name that could not be read. *)
Theorem sales_fallback_filename_parsed (file_parts : clean_sales.file_parts) :
  all_in digit (clean_sales.month_part file_parts) = true →
  all_in digit (clean_sales.year_part_short file_parts) = true →
  (∀ comp_no, clean_sales.comp_no file_parts = Some comp_no →
     word_of upper_alnum (clean_sales.unit_name file_parts) →
     String.length (clean_sales.month_part file_parts) = 2%nat →
     String.length (clean_sales.year_part_short file_parts) = 2%nat →
     word_of digit comp_no →
     _parse_sales_filename (clean_sales.fallback_filename file_parts)
     = Some {| sfi_comp_no := comp_no;
               sfi_unit := clean_sales.unit_name file_parts;
               sfi_date_part := clean_sales.month_part file_parts
                                  ++ clean_sales.year_part_short file_parts;
               sfi_type := None |}) ∧
  (clean_sales.comp_no file_parts = None →
   (word_of upper_alnum (clean_sales.unit_name file_parts) ∧
    String.length (clean_sales.month_part file_parts) = 2%nat ∧
    String.length (clean_sales.year_part_short file_parts) = 2%nat)
   ∨ clean_sales.unit_name file_parts = "UnknownUnit" →
   _parse_sales_filename (clean_sales.fallback_filename file_parts) = None).
Proof.
  intros Hm2 Hy2.
  assert (Hd2 : all_in digit (clean_sales.month_part file_parts
                  ++ clean_sales.year_part_short file_parts) = true)
    by (by rewrite all_in_app, Hm2, Hy2).
  assert (Hd1 : String.length (clean_sales.month_part file_parts) = 2%nat →
                String.length (clean_sales.year_part_short file_parts) = 2%nat →
                String.length (clean_sales.month_part file_parts
                  ++ clean_sales.year_part_short file_parts) = 4%nat)
    by (intros ? ?; rewrite string_length_app; lia).
  split.
  - intros comp_no Hc Hu Hm1 Hy1 Hcn. specialize (Hd1 Hm1 Hy1).
    unfold _parse_sales_filename, clean_sales.fallback_filename. rewrite Hc.
    destruct (String.eqb_spec comp_no "") as [-> | _]; [by destruct Hcn |].
    rewrite <- !(string_app_assoc (clean_sales.month_part file_parts)).
    rewrite (sales_typed_no_match_untyped _ _ _ Hu Hcn Hd1 Hd2).
    by rewrite (search_match _ _ _ _ (sales_untyped_match _ _ _ Hu Hcn Hd1 Hd2)).
  - intros Hc Hunit.
    unfold _parse_sales_filename, clean_sales.fallback_filename. rewrite Hc.
    rewrite <- !(string_app_assoc (clean_sales.month_part file_parts)).
    destruct Hunit as [(Hu & Hm1 & Hy1) | ->].
    + specialize (Hd1 Hm1 Hy1).
      rewrite (sales_no_match_without_comp_no true _ _ Hu Hd1 Hd2).
      by rewrite (sales_no_match_without_comp_no false _ _ Hu Hd1 Hd2).
    + rewrite (sales_no_match_unknown_unit true _ Hd2).
      by rewrite (sales_no_match_unknown_unit false _ Hd2).
Qed.

End Regex.

(** The 3RD file of entity 2033 of unit DK01 for September 2025. *)
Lemma sales_filename_round_trip_witness :
  _parse_sales_filename "Sales_Data_Processed_DK01_2033_0925_3RD.csv"
  = Some {| sfi_comp_no := "2033"; sfi_unit := "DK01";
            sfi_date_part := "0925"; sfi_type := Some "3RD" |}.
Proof.
  apply (sales_filename_round_trip
           {| clean_sales.unit_name := "DK01"; clean_sales.comp_no := Some "2033";
              clean_sales.month_part := "09"; clean_sales.year_part_short := "25";
              clean_sales.sales_col := "Sales SEP 2025";
              clean_sales.py_col := "PY Sales SEP 2024" |} "2033" "3RD");
    first [ reflexivity | split; [discriminate | reflexivity] ].
Defined.

(** The fallback file of the same entity, and the fallback file written in
    November 2026 for an input name that could not be read. *)
Lemma sales_fallback_filename_parsed_witness :
  _parse_sales_filename "Sales_Data_Processed_DK01_2033_0925.csv"
  = Some {| sfi_comp_no := "2033"; sfi_unit := "DK01";
            sfi_date_part := "0925"; sfi_type := None |} ∧
  _parse_sales_filename "Sales_Data_Processed_UnknownUnit_1126.csv" = None.
Proof.
  split.
  - refine (proj1 (sales_fallback_filename_parsed
             {| clean_sales.unit_name := "DK01"; clean_sales.comp_no := Some "2033";
                clean_sales.month_part := "09"; clean_sales.year_part_short := "25";
                clean_sales.sales_col := "Sales SEP 2025";
                clean_sales.py_col := "PY Sales SEP 2024" |} _ _)
             "2033" _ _ _ _ _);
      first [ reflexivity | split; [discriminate | reflexivity] ].
  - refine (proj2 (sales_fallback_filename_parsed
             {| clean_sales.unit_name := "UnknownUnit"; clean_sales.comp_no := None;
                clean_sales.month_part := "11"; clean_sales.year_part_short := "26";
                clean_sales.sales_col := "Sales NOV 2026";
                clean_sales.py_col := "PY Sales NOV 2025" |} _ _) _ _);
      first [ reflexivity | right; reflexivity ].
Defined.

(** ** The name of a processed order-entry file *)

Section RegexSound.

Import re.

(** *** What a match tells about the text *)

Lemma star_sound {R} ic p s (k : string → option R) x :
  star ic p s k = Some x →
  ∃ w rest, s = w ++ rest ∧ all_in (in_class ic p) w = true ∧ k rest = Some x.
Proof.
  induction s as [| c s IH]; cbn [star].
  - intros H. by exists "", "".
  - destruct (in_class ic p c) eqn:Hc; [| intros H; by exists "", (String c s)].
    destruct (star ic p s k) as [y |] eqn:E; [| intros H; by exists "", (String c s)].
    intros [= ->]. destruct (IH eq_refl) as (w & rest & -> & Hw & Hk).
    exists (String c w), rest. split; [done |]. split; [| done].
    cbn [all_in]. by rewrite Hc, Hw.
Qed.

Lemma plus_sound {R} ic p s (k : string → option R) x :
  plus ic p s k = Some x →
  ∃ w rest, s = w ++ rest ∧ w ≠ "" ∧ all_in (in_class ic p) w = true ∧
            k rest = Some x.
Proof.
  destruct s as [| c s]; [done |]. cbn [plus].
  destruct (in_class ic p c) eqn:Hc; [| done].
  intros H. apply star_sound in H as (w & rest & -> & Hw & Hk).
  exists (String c w), rest. split; [done |]. split; [done |]. split; [| done].
  cbn [all_in]. by rewrite Hc, Hw.
Qed.

Lemma times_sound {R} ic n p s (k : string → option R) x :
  times ic n p s k = Some x →
  ∃ w rest, s = w ++ rest ∧ String.length w = n ∧
            all_in (in_class ic p) w = true ∧ k rest = Some x.
Proof.
  revert s. induction n as [| n IH]; intros s; cbn [times].
  - intros H. by exists "", s.
  - destruct s as [| c s]; [done |].
    destruct (in_class ic p c) eqn:Hc; [| done].
    intros H. apply IH in H as (w & rest & -> & Hn & Hw & Hk).
    exists (String c w), rest. split; [done |]. split; [by cbn; rewrite Hn |].
    split; [| done]. cbn [all_in]. by rewrite Hc, Hw.
Qed.

Lemma run_lit_sound ic l s caps k x :
  run ic (Lit l) s caps k = Some x → ∃ s', k s' caps = Some x.
Proof. cbn [run]. destruct (lit ic l s) as [s' |]; [by exists s' | done]. Qed.

Lemma run_group_plus_sound ic p s caps k x :
  run ic (Group (Plus p)) s caps k = Some x →
  ∃ w rest, word_of (in_class ic p) w ∧
            k rest (caps ++ [Some w])%list = Some x.
Proof.
  cbn [run]. intros H. apply plus_sound in H as (w & rest & -> & Hne & Hw & Hk).
  rewrite consumed_app in Hk. by exists w, rest.
Qed.

Lemma run_group_times_sound ic n p s caps k x :
  run ic (Group (Times n p)) s caps k = Some x →
  ∃ w rest, String.length w = n ∧ all_in (in_class ic p) w = true ∧
            k rest (caps ++ [Some w])%list = Some x.
Proof.
  cbn [run]. intros H. apply times_sound in H as (w & rest & -> & Hn & Hw & Hk).
  rewrite consumed_app in Hk. by exists w, rest.
Qed.

Lemma search_sound ic r s m :
  search ic r s = Some m → ∃ s', match_ ic r s' = Some m.
Proof.
  induction s as [| c s IH]; rewrite search_unfold.
  - destruct (match_ ic r "") eqn:E; [| done]. intros [= <-]. by exists "".
  - destruct (match_ ic r (String c s)) eqn:E; [| exact IH].
    intros [= <-]. by exists (String c s).
Qed.

Lemma run_opt_take ic r s caps k x :
  run ic r s caps k = Some x → run ic (Opt r) s caps k = Some x.
Proof. intros H. cbn [run]. by rewrite H. Qed.

Lemma run_opt_skip ic r s caps k :
  run ic r s caps k = None →
  run ic (Opt r) s caps k = k s (caps ++ replicate (ngroups r) None)%list.
Proof. intros H. cbn [run]. by rewrite H. Qed.

(** *** Decimal numerals *)

Lemma pretty_N_go_digits (x : N) (s : string) :
  all_in digit s = true → all_in digit (pretty_N_go x s) = true.
Proof.
  revert s. induction (N.lt_wf_0 x) as [x _ IH]; intros s Hs.
  assert (x = 0 ∨ 0 < x)%N as [-> | Hx] by lia.
  - by rewrite pretty_N_go_0.
  - rewrite pretty_N_go_step by done. apply IH; [by apply N.div_lt |].
    cbn [all_in]. rewrite Hs, andb_true_r.
    unfold pretty_N_char. by repeat case_match.
Qed.

Lemma pretty_N_go_nonempty (x : N) (s : string) :
  s ≠ "" ∨ (0 < x)%N → pretty_N_go x s ≠ "".
Proof.
  revert s. induction (N.lt_wf_0 x) as [x _ IH]; intros s Hs.
  assert (x = 0 ∨ 0 < x)%N as [-> | Hx] by lia.
  - rewrite pretty_N_go_0. destruct Hs as [Hs | Hs]; [done | lia].
  - rewrite pretty_N_go_step by done. apply IH; [by apply N.div_lt |]. by left.
Qed.

Lemma pretty_nat_digits (n : nat) : word_of digit (pretty n).
Proof.
  unfold pretty, pretty_nat, pretty, pretty_N.
  destruct (decide (N.of_nat n = 0%N)) as [_ | Hn]; [done |]. split.
  - apply pretty_N_go_nonempty. right. lia.
  - by apply pretty_N_go_digits.
Qed.

(** *** os.path.splitext *)

Lemma rfind_from_app (c : ascii) (w rest : string) (i : nat) (last : Z) :
  all_in (fun d => negb (Ascii.eqb d c)) w = true →
  py.rfind_from c (w ++ rest) i last = py.rfind_from c rest (i + String.length w) last.
Proof.
  revert i. induction w as [| d w IH]; intros i.
  - intros _. rewrite string_app_nil. cbn. by rewrite Nat.add_0_r.
  - cbn [all_in]. rewrite andb_true_iff, negb_true_iff. intros [Hd Hw].
    rewrite string_app_cons. cbn [py.rfind_from String.length]. rewrite Hd.
    rewrite (IH _ Hw). f_equal. lia.
Qed.

Lemma substring_app_r (w rest : string) (n : nat) :
  String.substring (String.length w) n (w ++ rest) = String.substring 0 n rest.
Proof. induction w as [| c w IH]; [done |]. by rewrite string_app_cons. Qed.

Lemma splitext_csv (w : string) :
  w ≠ "" → all_in plain w = true → py.splitext (w ++ ".csv") = (w, ".csv").
Proof.
  intros Hne Hw. unfold py.splitext, py.rfind.
  rewrite !rfind_from_app; cycle 1.
  { revert Hw. apply all_in_impl. intros c. unfold plain.
    rewrite andb_true_iff. tauto. }
  { revert Hw. apply all_in_impl. intros c. unfold plain.
    rewrite andb_true_iff. tauto. }
  cbn [py.rfind_from Ascii.eqb Bool.eqb Nat.add]. unfold py.slice.
  replace (-1 <? Z.of_nat (String.length w))%Z with true
    by (symmetry; apply Z.ltb_lt; lia).
  replace (Z.to_nat (-1 + 1)) with 0%nat by lia.
  replace (Z.to_nat (Z.of_nat (String.length w) - (-1 + 1)))
    with (String.length w) by lia.
  replace (Z.to_nat 0) with 0%nat by lia.
  replace (Z.to_nat (Z.of_nat (String.length w) - 0))
    with (String.length w) by lia.
  rewrite Nat2Z.id, substring_app, substring_app_r, string_length_app.
  replace (Z.to_nat (Z.of_nat (String.length w + String.length ".csv")
                     - Z.of_nat (String.length w))) with 4%nat by (cbn; lia).
  destruct w as [| c w]; [done |]. cbn [all_in] in Hw.
  apply andb_true_iff in Hw as [Hc _]. unfold plain in Hc.
  apply andb_true_iff in Hc as [Hc _].
  cbn [list_ascii_of_string existsb]. by rewrite Hc.
Qed.

End RegexSound.

Section OutputName.

Import re clean_oe.

Lemma string_app_inv_r (a b c : string) : a ++ c = b ++ c → a = b.
Proof.
  revert b. induction a as [| x a IH]; intros [| y b] E.
  - done.
  - apply (f_equal String.length) in E.
    rewrite !string_length_app in E. cbn [String.length] in E. lia.
  - apply (f_equal String.length) in E.
    rewrite !string_length_app in E. cbn [String.length] in E. lia.
  - rewrite !string_app_cons in E. injection E as -> E. f_equal. by apply IH.
Qed.

Lemma prefix_nil (x : string) : String.prefix "" x = true.
Proof. by destruct x. Qed.

Variable disk : gmap string string.
Variable output_folder : string.
Variable base : string.

Local Abbreviation path := (py.path_join output_folder).
Local Abbreviation candidate k :=
  ((py.splitext base).1 ++ "(" ++ pretty k ++ ")" ++ (py.splitext base).2).

Lemma candidate_inj (j k : nat) : candidate j = candidate k → j = k.
Proof.
  intros E. apply (inj _) in E. rewrite !string_app_cons, !string_app_nil in E.
  injection E as E. apply string_app_inv_r in E. by apply (inj pretty).
Qed.

Lemma path_candidate_inj (j k : nat) :
  path (candidate j) = path (candidate k) → j = k.
Proof.
  unfold py.path_join.
  assert (Hpre : String.prefix "/" (candidate j) = String.prefix "/" (candidate k))
    by (destruct (py.splitext base).1;
        rewrite ?string_app_nil, !string_app_cons; cbn [String.prefix];
        repeat case_match; try discriminate; rewrite ?prefix_nil; reflexivity).
  rewrite Hpre. destruct (String.prefix "/" (candidate k)).
  - apply candidate_inj.
  - destruct ((output_folder =? "") || py.endswith_sep output_folder); intros E;
      apply (inj _) in E; [by apply candidate_inj |].
    rewrite !string_app_cons, !string_app_nil in E. injection E as E.
    by apply candidate_inj.
Qed.

Lemma while_exists_Some fuel cur c name :
  while_exists disk output_folder base fuel cur c = Some name →
  path_exists disk (path name) = false ∧
  ((name = cur) ∨
   (path_exists disk (path cur) = true ∧
    ∃ k, (c ≤ k)%nat ∧ name = candidate k ∧
         ∀ j, (c ≤ j < k)%nat → path_exists disk (path (candidate j)) = true)).
Proof.
  revert cur c. induction fuel as [| fuel IH]; intros cur c; [done |].
  cbn [while_exists]. destruct (path_exists disk (path cur)) eqn:Hcur.
  - destruct (py.splitext base) as [base_name extension] eqn:Hsplit.
    intros H. apply IH in H as [Hfree [-> | [Hc (k & Hk & -> & Hall)]]].
    + split; [done |]. right. split; [done |]. exists c.
      split; [lia |]. split; [done |]. intros j Hj. lia.
    + split; [done |]. right. split; [done |]. exists k.
      split; [lia |]. split; [done |]. intros j Hj.
      destruct (decide (j = c)) as [-> | Hne]; [exact Hc |]. apply Hall. lia.
  - intros [= <-]. split; [done |]. by left.
Qed.

Lemma while_exists_None fuel cur c :
  while_exists disk output_folder base fuel cur c = None →
  ∀ j, (c ≤ j ∧ S j < c + fuel)%nat →
       path_exists disk (path (candidate j)) = true.
Proof.
  revert cur c. induction fuel as [| fuel IH]; intros cur c; [intros _ j; lia |].
  cbn [while_exists]. destruct (path_exists disk (path cur)) eqn:Hcur; [| done].
  destruct (py.splitext base) as [base_name extension] eqn:Hsplit.
  intros H j Hj. destruct (decide (j = c)) as [-> | Hne].
  - destruct fuel as [| fuel]; [lia |]. cbn [while_exists] in H.
    cbn [fst snd].
    destruct (path_exists disk (path (base_name ++ "(" ++ pretty c ++ ")" ++ extension)));
      done.
  - apply (IH _ _ H). lia.
Qed.

Lemma while_exists_more fuel fuel' cur c name :
  (fuel ≤ fuel')%nat →
  while_exists disk output_folder base fuel cur c = Some name →
  while_exists disk output_folder base fuel' cur c = Some name.
Proof.
  revert fuel' cur c. induction fuel as [| fuel IH]; intros fuel' cur c Hle; [done |].
  destruct fuel' as [| fuel']; [lia |]. cbn [while_exists].
  destruct (path_exists disk (path cur)); [| done].
  destruct (py.splitext base) as [base_name extension]. apply IH. lia.
Qed.

(** More names than files: one of them is free. *)
Lemma candidates_not_all_exist (n : nat) :
  (size disk < n)%nat →
  ¬ ∀ j, (1 ≤ j ∧ j < 1 + n)%nat →
         path_exists disk (path (candidate j)) = true.
Proof.
  intros Hn Hall.
  pose (l := (fun j => path (candidate j)) <$> seq 1 n).
  assert (Hnd : NoDup l).
  { assert (Hinj : Inj (=) (=) (fun j => path (candidate j)))
      by (intros j k; apply path_candidate_inj).
    apply (NoDup_fmap_2 _), NoDup_seq. }
  assert (Hsub : l ⊆+ elements (dom disk)).
  { apply NoDup_submseteq; [done |]. intros p Hp.
    apply list_elem_of_fmap in Hp as (j & -> & Hj). apply elem_of_seq in Hj.
    apply elem_of_elements, elem_of_dom.
    specialize (Hall j ltac:(lia)). unfold path_exists in Hall.
    by apply bool_decide_eq_true in Hall. }
  apply submseteq_length in Hsub.
  unfold l in Hsub. rewrite length_fmap, length_seq in Hsub.
  rewrite <- size_dom in Hn. unfold size, set_size in Hn. cbn in Hn. lia.
Qed.

Lemma final_output_filename_spec :
  ∃ name,
    final_output_filename disk output_folder base = Some name ∧
    path_exists disk (path name) = false ∧
    ((name = base) ∨
     (path_exists disk (path base) = true ∧
      ∃ k, (1 ≤ k)%nat ∧ name = candidate k ∧
           ∀ j, (1 ≤ j < k)%nat → path_exists disk (path (candidate j)) = true)).
Proof.
  unfold final_output_filename.
  destruct (while_exists disk output_folder base (S (S (size disk))) base 1)
    as [name |] eqn:E.
  - exists name. split; [done |]. by apply while_exists_Some in E.
  - exfalso. apply (candidates_not_all_exist (S (size disk))); [lia |].
    intros j Hj. apply (while_exists_None _ _ _ E). lia.
Qed.

End OutputName.

Section OrderEntryNames.

Import re clean_oe.

Lemma in_class_intro ic (p : ascii → bool) (c : ascii) :
  p c = true → in_class ic p c = true.
Proof. unfold in_class. by intros ->. Qed.

Lemma all_in_class ic (p : ascii → bool) (s : string) :
  all_in p s = true → all_in (in_class ic p) s = true.
Proof. apply all_in_impl. intros c. apply in_class_intro. Qed.

Lemma upper_alnum_plain ic (c : ascii) :
  in_class ic upper_alnum c = true → plain c = true.
Proof.
  destruct ic, c as [[] [] [] [] [] [] [] []]; vm_compute; intros H;
    try discriminate H; done.
Qed.

Lemma digit_plain ic (c : ascii) : in_class ic digit c = true → plain c = true.
Proof.
  destruct ic, c as [[] [] [] [] [] [] [] []]; vm_compute; intros H;
    try discriminate H; done.
Qed.

Lemma digit_not_D ic (c : ascii) :
  in_class ic digit c = true → char_eqb ic "D" c = false.
Proof.
  destruct ic, c as [[] [] [] [] [] [] [] []]; vm_compute; intros H;
    try discriminate H; done.
Qed.

Lemma run_group ic r s caps k :
  run ic (Group r) s caps k
  = run ic r s caps
      (fun s' caps' => k s' (caps' ++ [Some (consumed s s')])%list).
Proof. reflexivity. Qed.

Lemma run_plus ic p s caps k :
  run ic (Plus p) s caps k = plus ic p s (fun s' => k s' caps).
Proof. reflexivity. Qed.

Lemma search_step ic r c s :
  match_ ic r (String c s) = None →
  search ic r (String c s) = search ic r s.
Proof. intros H. by rewrite search_unfold, H. Qed.

Lemma lit_pair ic (l1 l2 : string) (a b : ascii) (x rest : string) :
  lit ic (l1 ++ String a (String b l2)) x = Some rest →
  has_pair ic a b x = true.
Proof.
  revert x. induction l1 as [| e l1 IH]; intros x.
  - rewrite string_app_nil. cbn [lit]. destruct x as [| c [| d x]]; try done.
    + by destruct (char_eqb ic a c).
    + cbn [has_pair]. destruct (char_eqb ic a c); [| done].
      destruct (char_eqb ic b d); [done | done].
  - rewrite string_app_cons. cbn [lit]. destruct x as [| c x]; [done |].
    destruct (char_eqb ic e c); [| done]. intros H. apply IH in H.
    cbn [has_pair]. rewrite H. apply orb_true_r.
Qed.

Lemma has_pair_tail ic a b c x :
  has_pair ic a b (String c x) = false → has_pair ic a b x = false.
Proof. cbn [has_pair]. rewrite orb_false_iff. tauto. Qed.

(** No match in a text that lacks a pair of neighbours of the literal a
    pattern begins with. *)
Lemma search_pair_absent ic (l1 l2 : string) (a b : ascii) r (x : string) :
  has_pair ic a b x = false →
  search ic (Seq (Lit (l1 ++ String a (String b l2))) r) x = None.
Proof.
  assert (Hhere : ∀ y, has_pair ic a b y = false →
            match_ ic (Seq (Lit (l1 ++ String a (String b l2))) r) y = None).
  { intros y Hy. unfold match_. cbn [run].
    destruct (lit ic (l1 ++ String a (String b l2)) y) as [rest |] eqn:E; [| done].
    apply lit_pair in E. congruence. }
  induction x as [| c x IH]; intros Hx; rewrite search_unfold, (Hhere _ Hx).
  - done.
  - apply IH. by apply has_pair_tail in Hx.
Qed.

Lemma has_pair_skip ic a b (w rest : string) :
  all_in (fun c => negb (char_eqb ic a c)) w = true →
  has_pair ic a b (w ++ rest) = has_pair ic a b rest.
Proof.
  induction w as [| c w IH]; [done |]. cbn [all_in].
  rewrite andb_true_iff, negb_true_iff. intros [Hc Hw].
  rewrite string_app_cons. cbn [has_pair]. rewrite Hc. by apply IH.
Qed.

Lemma has_pair_cons ic a b c d x :
  char_eqb ic b d = false →
  has_pair ic a b (String c (String d x)) = has_pair ic a b (String d x).
Proof.
  intros Hd. cbn [has_pair]. rewrite Hd, andb_false_r. reflexivity.
Qed.

(** *** The groups of an input file name *)

Lemma match_order_entry_sound (filename : string) (parts : name_parts) :
  match_order_entry filename = Some parts →
  String.length (year_str parts) = 4%nat ∧
  all_in (in_class true digit) (year_str parts) = true ∧
  word_of (in_class true upper_alnum) (unit parts) ∧
  word_of (in_class true digit) (profit_center parts).
Proof.
  unfold match_order_entry.
  destruct (search true order_entry_pattern filename) as [m |] eqn:E; [| done].
  intros [= <-]. apply search_sound in E as [s E].
  unfold match_, order_entry_pattern in E. cbn [cat] in E.
  rewrite run_seq in E. apply run_lit_sound in E as [s1 E].
  rewrite run_seq in E. apply run_group_times_sound in E as (mon & s2 & _ & _ & E).
  rewrite run_seq in E. apply run_lit_sound in E as [s3 E].
  rewrite run_seq in E. apply run_group_times_sound in E as (y & s4 & Hy1 & Hy2 & E).
  rewrite run_seq in E. apply run_lit_sound in E as [s5 E].
  rewrite run_seq in E. apply run_group_plus_sound in E as (u & s6 & Hu & E).
  rewrite run_seq in E. apply run_lit_sound in E as [s7 E].
  rewrite run_seq in E. apply run_group_plus_sound in E as (pc & s8 & Hpc & E).
  rewrite run_seq in E. apply run_lit_sound in E as [s9 E].
  rewrite run_seq in E. apply run_group_plus_sound in E as (t & s10 & Ht & E).
  apply run_lit_sound in E as [s11 E]. injection E as <-.
  cbn. done.
Qed.

Lemma last2_of_4 (p : ascii → bool) (y : string) :
  String.length y = 4%nat → all_in p y = true →
  String.length (py.last2 y) = 2%nat ∧ all_in p (py.last2 y) = true.
Proof.
  destruct y as [| a [| b [| c [| d [| e y]]]]]; try done.
  intros _. cbn [all_in]. rewrite !andb_true_iff. intros (_ & _ & Hc & Hd & _).
  split; [done |]. cbn. by rewrite Hc, Hd.
Qed.

(** *** The pattern of processed file names *)

Local Ltac lit_fails H :=
  intros ? ? ? H; rewrite run_seq; apply run_lit_head;
  first [ apply upper_alnum_not in H; tauto | apply digit_not in H; tauto ].

Lemma paren_assoc (n e : string) :
  "(" ++ n ++ ")" ++ e = ("(" ++ n ++ ")") ++ e.
Proof. by rewrite !string_app_assoc. Qed.

Lemma oe_processed_match (u pc d e : string) :
  word_of (in_class true upper_alnum) u → word_of (in_class true digit) pc →
  String.length d = 4%nat → all_in (in_class true digit) d = true →
  name_end e →
  ∃ g, match_ true oe_processed_pattern
         ("OE_Data_Processed_" ++ u ++ "_" ++ pc ++ "_" ++ d ++ e)
       = Some [Some u; Some pc; Some d; g].
Proof.
  intros [Hu1 Hu2] [Hc1 Hc2] Hd1 Hd2 He.
  unfold match_, oe_processed_pattern. cbn [cat].
  destruct He as [-> | (n & [Hn1 Hn2] & ->)]; eexists.
  - rewrite run_seq, run_lit.
    rewrite run_seq. apply run_group_plus_greedy; [done | done | reflexivity |].
    rewrite run_seq, run_lit.
    rewrite run_seq. apply run_group_plus_greedy; [done | done | reflexivity |].
    rewrite run_seq, run_lit.
    rewrite run_seq, <- Hd1, run_group_times by done.
    rewrite run_seq, run_opt_skip by reflexivity.
    rewrite run_lit_end. reflexivity.
  - rewrite run_seq, run_lit.
    rewrite run_seq. apply run_group_plus_greedy; [done | done | reflexivity |].
    rewrite run_seq, run_lit.
    rewrite run_seq. apply run_group_plus_greedy; [done | done | reflexivity |].
    rewrite run_seq, run_lit.
    rewrite run_seq, <- Hd1, run_group_times by done.
    rewrite run_seq. apply run_opt_take.
    rewrite paren_assoc, run_group.
    set (K := fun (s' : string) (caps' : groups) => _).
    rewrite <- paren_assoc, run_seq, run_lit, run_seq, run_plus.
    apply plus_greedy; [done | by apply all_in_class | reflexivity |].
    cbv beta. rewrite run_lit. unfold K.
    rewrite consumed_app, run_lit_end. reflexivity.
Qed.

Lemma alnum_no_underscore ic (s : string) :
  all_in (in_class ic upper_alnum) s = true →
  all_in (fun c => negb (char_eqb ic "_" c)) s = true.
Proof.
  apply all_in_impl. intros c Hc. apply upper_alnum_not in Hc as (-> & _). done.
Qed.

Lemma digits_no_underscore ic (s : string) :
  all_in (in_class ic digit) s = true →
  all_in (fun c => negb (char_eqb ic "_" c)) s = true.
Proof.
  apply all_in_impl. intros c Hc. apply digit_not in Hc as (-> & _). done.
Qed.

Lemma oe_processed_no_match (u pc yy e : string) :
  word_of (in_class true upper_alnum) u → word_of (in_class true digit) pc →
  all_in (in_class true digit) yy = true → name_end e →
  search true oe_processed_pattern
    ("OE_Data_Processed_" ++ u ++ "_" ++ pc ++ "_" ++ ("MM" ++ yy) ++ e)
  = None.
Proof.
  intros [Hu1 Hu2] [Hc1 Hc2] Hy He.
  set (tail := u ++ "_" ++ pc ++ "_" ++ ("MM" ++ yy) ++ e).
  assert (Hhere : match_ true oe_processed_pattern
                    ("OE_Data_Processed_" ++ tail) = None).
  { unfold tail, match_, oe_processed_pattern. cbn [cat].
    rewrite run_seq, run_lit.
    rewrite run_seq, run_group_plus_exact;
      [| done | done | reflexivity | lit_fails H].
    rewrite run_seq, run_lit.
    rewrite run_seq, run_group_plus_exact;
      [| done | done | reflexivity | lit_fails H].
    rewrite run_seq, run_lit. reflexivity. }
  assert (Htail : search true oe_processed_pattern tail = None).
  { unfold oe_processed_pattern. cbn [cat].
    apply (search_pair_absent true "OE" "ata_Processed_" "_" "D").
    unfold tail. rewrite has_pair_skip by (by apply alnum_no_underscore).
    destruct pc as [| d0 pc]; [done |].
    cbn [all_in] in Hc2. apply andb_true_iff in Hc2 as [Hd0 Hc2].
    change ("_" ++ String d0 pc ++ "_" ++ ("MM" ++ yy) ++ e)
      with (String "_" (String d0 (pc ++ "_" ++ ("MM" ++ yy) ++ e))).
    rewrite has_pair_cons by (by apply digit_not_D).
    rewrite <- string_app_cons, has_pair_skip
      by (apply digits_no_underscore; cbn [all_in]; by rewrite Hd0, Hc2).
    change ("_" ++ ("MM" ++ yy) ++ e)
      with (String "_" (String "M" ("M" ++ (yy ++ e)))).
    rewrite has_pair_cons by reflexivity.
    change (String "M" ("M" ++ (yy ++ e))) with ("MM" ++ (yy ++ e)).
    rewrite has_pair_skip by reflexivity.
    rewrite has_pair_skip by (by apply digits_no_underscore).
    destruct He as [-> | (n & [_ Hn] & ->)]; [reflexivity |].
    change ("(" ++ n ++ ")" ++ ".csv") with ("(" ++ (n ++ ")" ++ ".csv")).
    rewrite has_pair_skip by reflexivity.
    rewrite has_pair_skip
      by (by apply (digits_no_underscore true), all_in_class).
    reflexivity. }
  rewrite !string_app_cons, string_app_nil.
  rewrite search_step by exact Hhere.
  do 17 (rewrite search_step by reflexivity). exact Htail.
Qed.

Lemma stem_plain (u pc d : string) :
  all_in (in_class true upper_alnum) u = true →
  all_in (in_class true digit) pc = true → all_in plain d = true →
  all_in plain ("OE_Data_Processed_" ++ u ++ "_" ++ pc ++ "_" ++ d) = true.
Proof.
  intros Hu Hpc Hd. rewrite !all_in_app, Hd.
  rewrite (all_in_impl _ _ _ (upper_alnum_plain true) Hu).
  rewrite (all_in_impl _ _ _ (digit_plain true) Hpc). reflexivity.
Qed.

Lemma month_mm_listed (month_abbr mm : string) :
  (month_abbr, mm) ∈ month_map →
  month_mm month_abbr = mm ∧ String.length mm = 2%nat ∧
  all_in (in_class true digit) mm = true.
Proof.
  unfold month_map. intros H.
  repeat (apply elem_of_cons in H as [[= -> ->] | H]; [done |]).
  by apply elem_of_nil in H.
Qed.

Lemma month_mm_default (month_abbr : string) :
  month_abbr ∉ month_map.*1 → month_mm month_abbr = "MM".
Proof.
  intros Hnot. unfold month_mm, month_map. cbn [List.find fst].
  repeat match goal with
    | |- context [String.eqb ?a ?b] =>
        destruct (String.eqb_spec a b) as [E | _];
          [exfalso; apply Hnot; rewrite <- E;
           cbn [month_map fmap list_fmap fst]; rewrite !elem_of_cons; tauto |]
    end.
  reflexivity.
Qed.

(** The names the loop tries for a processed file. *)
Lemma oe_output_name_shape (disk : gmap string string)
    (output_folder u pc d : string) :
  all_in (in_class true upper_alnum) u = true →
  all_in (in_class true digit) pc = true → all_in plain d = true →
  ∃ name e,
    final_output_filename disk output_folder
      ("OE_Data_Processed_" ++ u ++ "_" ++ pc ++ "_" ++ d ++ ".csv") = Some name ∧
    name_end e ∧
    name = "OE_Data_Processed_" ++ u ++ "_" ++ pc ++ "_" ++ d ++ e.
Proof.
  intros Hu Hpc Hd.
  set (base := "OE_Data_Processed_" ++ u ++ "_" ++ pc ++ "_" ++ d ++ ".csv").
  assert (Hbase : base = ("OE_Data_Processed_" ++ u ++ "_" ++ pc ++ "_" ++ d)
                           ++ ".csv")
    by (unfold base; by rewrite !string_app_assoc).
  destruct (final_output_filename_spec disk output_folder base)
    as (name & Hfinal & _ & Hshape).
  destruct Hshape as [-> | (_ & k & _ & -> & _)].
  - exists base, ".csv". split; [done |]. split; [by left | done].
  - exists ((py.splitext base).1 ++ "(" ++ pretty k ++ ")" ++ (py.splitext base).2),
           ("(" ++ pretty k ++ ")" ++ ".csv").
    split; [done |]. split.
    + right. exists (pretty k). split; [apply pretty_nat_digits | done].
    + rewrite Hbase, splitext_csv by (by (try apply stem_plain)).
      cbn [fst snd]. by rewrite !string_app_assoc.
Qed.

(** X17. The loop that chooses the name of an output file ends, whatever is
    in the folder, and the name it ends with is of no file there: the base
    name when that is free, and otherwise the base name with the counter
    [(n)] before its extension, for the least [n >= 1] whose name is free. *)
Theorem oe_output_name_is_free (disk : gmap string string)
    (output_folder base_output_filename : string) :
  ∃ name,
    final_output_filename disk output_folder base_output_filename = Some name ∧
    (∀ fuel, (size disk + 2 ≤ fuel)%nat →
       while_exists disk output_folder base_output_filename fuel
         base_output_filename 1 = Some name) ∧
    path_exists disk (py.path_join output_folder name) = false ∧
    (path_exists disk (py.path_join output_folder base_output_filename) = false →
     name = base_output_filename) ∧
    (path_exists disk (py.path_join output_folder base_output_filename) = true →
     ∃ counter, (1 ≤ counter)%nat ∧
       name = (py.splitext base_output_filename).1 ++ "(" ++ pretty counter ++ ")"
                ++ (py.splitext base_output_filename).2 ∧
       ∀ j, (1 ≤ j < counter)%nat →
         path_exists disk
           (py.path_join output_folder
              ((py.splitext base_output_filename).1 ++ "(" ++ pretty j ++ ")"
                 ++ (py.splitext base_output_filename).2)) = true).
Proof.
  destruct (final_output_filename_spec disk output_folder base_output_filename)
    as (name & Hfinal & Hfree & Hshape).
  exists name. split; [done |]. split.
  { intros fuel Hfuel. apply (while_exists_more _ _ _ (S (S (size disk)))); [lia |].
    exact Hfinal. }
  split; [done |]. split.
  - intros Hbase. destruct Hshape as [-> | [Hex _]]; [done | congruence].
  - intros Hbase. destruct Hshape as [-> | [_ H]]; [congruence | exact H].
Qed.

(** X18. For an input file named with a month abbreviation as the month
    table spells it, the processed file is written under a name, with a
    counter or not, that [_parse_oe_filename] reads back as the unit and the
    entity number of the input name and the date part MMYY. *)
Theorem oe_output_name_parsed (disk : gmap string string)
    (output_folder filename : string) (parts : name_parts) (mm : string) :
  match_order_entry filename = Some parts →
  (month_abbr parts, mm) ∈ month_map →
  ∃ name,
    final_output_filename disk output_folder (base_output_filename parts)
    = Some name ∧
    _parse_oe_filename name
    = Some {| ofi_unit := unit parts; ofi_comp_no := profit_center parts;
              ofi_date_part := mm ++ py.last2 (year_str parts) |}.
Proof.
  intros Hmatch Hmm.
  destruct (match_order_entry_sound _ _ Hmatch) as (Hy1 & Hy2 & Hu & Hpc).
  destruct (last2_of_4 _ _ Hy1 Hy2) as [Hl1 Hl2].
  destruct (month_mm_listed _ _ Hmm) as (Hmonth & Hm1 & Hm2).
  unfold base_output_filename, date_part. rewrite Hmonth.
  set (d := mm ++ py.last2 (year_str parts)).
  assert (Hd1 : String.length d = 4%nat)
    by (unfold d; rewrite string_length_app; lia).
  assert (Hd2 : all_in (in_class true digit) d = true)
    by (unfold d; by rewrite all_in_app, Hm2, Hl2).
  destruct (oe_output_name_shape disk output_folder (unit parts)
              (profit_center parts) d) as (name & e & Hfinal & He & ->);
    [apply Hu | apply Hpc | exact (all_in_impl _ _ _ (digit_plain true) Hd2) |].
  eexists. split; [exact Hfinal |].
  destruct (oe_processed_match _ _ _ _ Hu Hpc Hd1 Hd2 He) as [g Hg].
  unfold _parse_oe_filename. by rewrite (search_match _ _ _ _ Hg).
Qed.

(** X19. The pattern of input names ignores case, the month table does not:
    for an input file whose month abbreviation is spelled otherwise than in
    the table, the date part of the output name starts with the default
    [MM], and [_parse_oe_filename] does not read that name. *)
Theorem oe_output_name_unparsed (disk : gmap string string)
    (output_folder filename : string) (parts : name_parts) :
  match_order_entry filename = Some parts →
  month_abbr parts ∉ month_map.*1 →
  ∃ name,
    final_output_filename disk output_folder (base_output_filename parts)
    = Some name ∧
    _parse_oe_filename name = None.
Proof.
  intros Hmatch Hmm.
  destruct (match_order_entry_sound _ _ Hmatch) as (Hy1 & Hy2 & Hu & Hpc).
  destruct (last2_of_4 _ _ Hy1 Hy2) as [Hl1 Hl2].
  unfold base_output_filename, date_part. rewrite (month_mm_default _ Hmm).
  destruct (oe_output_name_shape disk output_folder (unit parts)
              (profit_center parts) ("MM" ++ py.last2 (year_str parts)))
    as (name & e & Hfinal & He & ->); [apply Hu | apply Hpc | |].
  { rewrite all_in_app, (all_in_impl _ _ _ (digit_plain true) Hl2). reflexivity. }
  eexists. split; [exact Hfinal |].
  unfold _parse_oe_filename.
  by rewrite (oe_processed_no_match _ _ _ _ Hu Hpc Hl2 He).
Qed.

End OrderEntryNames.

(** The September file of entity 2033, written a second time into the same
    folder. *)
Lemma oe_output_name_parsed_witness :
  let disk : gmap string string :=
    {[ "out/OE_Data_Processed_DK01_2033_0925.csv" := "" ]} in
  ∃ name,
    clean_oe.final_output_filename disk "out"
      "OE_Data_Processed_DK01_2033_0925.csv" = Some name ∧
    _parse_oe_filename name
    = Some {| ofi_unit := "DK01"; ofi_comp_no := "2033";
              ofi_date_part := "0925" |}.
Proof.
  intros disk.
  apply (oe_output_name_parsed disk "out"
           "Order Entry_Sep_2025_DK01_2033_MO.xlsx"
           {| clean_oe.month_abbr := "Sep"; clean_oe.year_str := "2025";
              clean_oe.unit := "DK01"; clean_oe.profit_center := "2033";
              clean_oe.type_mo := "MO" |} "09").
  - vm_compute. reflexivity.
  - apply (bool_decide_unpack _). vm_compute. exact I.
Defined.

(** The same file with the month written in capitals. *)
Lemma oe_output_name_unparsed_witness :
  ∃ name,
    clean_oe.final_output_filename ∅ "out" "OE_Data_Processed_DK01_2033_MM25.csv"
    = Some name ∧
    _parse_oe_filename name = None.
Proof.
  apply (oe_output_name_unparsed ∅ "out"
           "Order Entry_SEP_2025_DK01_2033_MO.xlsx"
           {| clean_oe.month_abbr := "SEP"; clean_oe.year_str := "2025";
              clean_oe.unit := "DK01"; clean_oe.profit_center := "2033";
              clean_oe.type_mo := "MO" |}).
  - vm_compute. reflexivity.
  - apply (bool_decide_unpack _). vm_compute. exact I.
Defined.

(** ** The names of the sales files *)

Section SalesNames.

Import re clean_sales.

Lemma run_eos_sound ic s caps k x :
  run ic Eos s caps k = Some x → k s caps = Some x.
Proof.
  cbn [run].
  by destruct (String.eqb s "" || String.eqb s (String (Ascii.ascii_of_nat 10) "")).
Qed.

Lemma upper_char_alnum (c : ascii) :
  in_class true upper_alnum c = true → upper_alnum (py.upper_char c) = true.
Proof.
  destruct c as [[] [] [] [] [] [] [] []]; vm_compute; intros H;
    try discriminate H; done.
Qed.

Lemma upper_word (s : string) :
  word_of (in_class true upper_alnum) s → word_of upper_alnum (py.upper s).
Proof.
  intros [Hne Hs]. split; [by destruct s |].
  clear Hne. induction s as [| c s IH]; [done |]. cbn [all_in] in Hs.
  apply andb_true_iff in Hs as [Hc Hs]. cbn [py.upper all_in].
  by rewrite (upper_char_alnum _ Hc), (IH Hs).
Qed.

Lemma digit_insensitive (c : ascii) :
  in_class true digit c = true → digit c = true.
Proof.
  destruct c as [[] [] [] [] [] [] [] []]; vm_compute; intros H;
    try discriminate H; done.
Qed.

Lemma digits_insensitive (s : string) :
  all_in (in_class true digit) s = true → all_in digit s = true.
Proof. apply all_in_impl, digit_insensitive. Qed.

Lemma all_in_substring (p : ascii → bool) (s : string) (i n : nat) :
  all_in p s = true → all_in p (String.substring i n s) = true.
Proof.
  revert i n. induction s as [| c s IH]; intros i n Hs.
  - by destruct i, n.
  - cbn [all_in] in Hs. apply andb_true_iff in Hs as [Hc Hs].
    destruct i as [| i]; [| by apply IH].
    destruct n as [| n]; [done |]. cbn [String.substring all_in].
    by rewrite Hc, IH.
Qed.

Lemma sales_name_sound (s : string) (m : groups) :
  match_ true sales_name_pattern s = Some m →
  ∃ u c mo y,
    m = [Some u; Some c; Some mo; Some y] ∧
    word_of (in_class true upper_alnum) u ∧ word_of (in_class true digit) c ∧
    String.length mo = 2%nat ∧ all_in (in_class true digit) mo = true ∧
    String.length y = 4%nat ∧ all_in (in_class true digit) y = true.
Proof.
  unfold match_, sales_name_pattern. cbn [cat]. intros E.
  rewrite run_seq in E. apply run_lit_sound in E as [s1 E].
  rewrite run_seq in E. apply run_group_plus_sound in E as (u & s2 & Hu & E).
  rewrite run_seq in E. apply run_lit_sound in E as [s3 E].
  rewrite run_seq in E. apply run_group_plus_sound in E as (c & s4 & Hc & E).
  rewrite run_seq in E. apply run_lit_sound in E as [s5 E].
  rewrite run_seq in E. apply run_group_times_sound in E as (mo & s6 & Hm1 & Hm2 & E).
  rewrite run_seq in E. apply run_lit_sound in E as [s7 E].
  rewrite run_seq in E. apply run_group_times_sound in E as (y & s8 & Hy1 & Hy2 & E).
  apply run_eos_sound in E. injection E as <-.
  by exists u, c, mo, y.
Qed.

Lemma old_name_sound (s : string) (m : groups) :
  search true old_name_pattern s = Some m →
  ∃ u mo y,
    m = [Some u; Some mo; Some y] ∧
    word_of (in_class true upper_alnum) u ∧
    String.length mo = 2%nat ∧ all_in (in_class true digit) mo = true ∧
    String.length y = 4%nat ∧ all_in (in_class true digit) y = true.
Proof.
  intros E. apply search_sound in E as [s' E]. revert E.
  unfold match_, old_name_pattern. cbn [cat]. intros E.
  rewrite run_seq in E. apply run_lit_sound in E as [s1 E].
  rewrite run_seq in E. apply run_group_plus_sound in E as (u & s2 & Hu & E).
  rewrite run_seq in E. apply run_lit_sound in E as [s3 E].
  rewrite run_seq in E. apply run_group_times_sound in E as (mo & s6 & Hm1 & Hm2 & E).
  rewrite run_seq in E. apply run_lit_sound in E as [s7 E].
  rewrite run_seq in E. apply run_group_times_sound in E as (y & s8 & Hy1 & Hy2 & E).
  apply run_eos_sound in E. injection E as <-.
  by exists u, mo, y.
Qed.

(** X20. The names the sales pipeline writes are read back by the grouping
    step as the parts [_get_headers_and_parts] took from the input name, for
    an input name of ASCII characters: for an input name with an entity
    number, the 3RD and IC files and the fallback file give the unit in
    capitals, the entity number, the date part MMYY and the type, if any; for
    an input name without an entity number the fallback file is not read at
    all.  (Outside ASCII, Python lets [[A-Z0-9]] with [re.IGNORECASE] match
    the Kelvin sign and the dotted capital I, which [upper] keeps and the
    pattern of the grouping step, which does not ignore case, refuses.) *)
Theorem sales_names_read_back (now_month now_year : nat) (filename : string)
    (file_parts : clean_sales.file_parts) :
  isascii filename = true →
  _get_headers_and_parts now_month now_year filename = Some file_parts →
  (∀ comp_no, clean_sales.comp_no file_parts = Some comp_no →
     (∀ seg_type, seg_type ∈ ["3RD"; "IC"] →
        _parse_sales_filename (segregated_filename file_parts seg_type)
        = Some {| sfi_comp_no := comp_no; sfi_unit := unit_name file_parts;
                  sfi_date_part := month_part file_parts
                                     ++ year_part_short file_parts;
                  sfi_type := Some seg_type |}) ∧
     _parse_sales_filename (fallback_filename file_parts)
     = Some {| sfi_comp_no := comp_no; sfi_unit := unit_name file_parts;
               sfi_date_part := month_part file_parts
                                  ++ year_part_short file_parts;
               sfi_type := None |}) ∧
  (clean_sales.comp_no file_parts = None →
   _parse_sales_filename (fallback_filename file_parts) = None).
Proof.
  intros _. unfold _get_headers_and_parts.
  destruct (match_ true sales_name_pattern (py.splitext filename).1)
    as [m |] eqn:E1.
  - apply sales_name_sound in E1
      as (u & c & mo & y & -> & Hu & Hc & Hm1 & Hm2 & Hy1 & Hy2).
    cbn [group lookup list_lookup Nat.sub mjoin option_join default from_option id].
    destruct (month_abbr !! py.int mo) as [abbr |]; [| done]. intros [= <-].
    apply upper_word in Hu. destruct Hc as [Hc1 Hc2].
    apply digits_insensitive in Hc2, Hm2, Hy2.
    destruct (last2_of_4 _ _ Hy1 Hy2) as [Hl1 Hl2].
    assert (Hd1 : String.length (mo ++ py.last2 y) = 4%nat)
      by (rewrite string_length_app; lia).
    assert (Hd2 : all_in digit (mo ++ py.last2 y) = true)
      by (by rewrite all_in_app, Hm2, Hl2).
    split; [| done]. cbn [clean_sales.comp_no unit_name month_part year_part_short].
    intros comp_no [= <-]. split.
    + intros seg_type Hseg.
      assert (Ht : word_of upper_alnum seg_type).
      { apply elem_of_cons in Hseg as [-> | Hseg]; [done |].
        apply elem_of_cons in Hseg as [-> | Hseg]; [done |].
        by apply elem_of_nil in Hseg. }
      unfold _parse_sales_filename, segregated_filename.
      cbn [clean_sales.comp_no unit_name month_part year_part_short
           default from_option id].
      rewrite <- (string_app_assoc mo).
      by rewrite (search_match _ _ _ _
                    (sales_typed_match _ _ _ _ Hu (conj Hc1 Hc2) Hd1 Hd2 Ht)).
    + unfold _parse_sales_filename, fallback_filename.
      cbn [clean_sales.comp_no unit_name month_part year_part_short].
      destruct (String.eqb_spec c "") as [-> | _]; [done |].
      rewrite <- !(string_app_assoc mo).
      rewrite (sales_typed_no_match_untyped _ _ _ Hu (conj Hc1 Hc2) Hd1 Hd2).
      by rewrite (search_match _ _ _ _
                    (sales_untyped_match _ _ _ Hu (conj Hc1 Hc2) Hd1 Hd2)).
  - destruct (search true old_name_pattern (py.splitext filename).1)
      as [m |] eqn:E2.
    + apply old_name_sound in E2
        as (u & mo & y & -> & Hu & Hm1 & Hm2 & Hy1 & Hy2).
      cbn [group lookup list_lookup Nat.sub mjoin option_join default from_option id].
      destruct (month_abbr !! py.int mo) as [abbr |]; [| done]. intros [= <-].
      apply upper_word in Hu. apply digits_insensitive in Hm2, Hy2.
      destruct (last2_of_4 _ _ Hy1 Hy2) as [Hl1 Hl2].
      assert (Hd1 : String.length (mo ++ py.last2 y) = 4%nat)
        by (rewrite string_length_app; lia).
      assert (Hd2 : all_in digit (mo ++ py.last2 y) = true)
        by (by rewrite all_in_app, Hm2, Hl2).
      split; [done |]. intros _.
      unfold _parse_sales_filename, fallback_filename.
      cbn [clean_sales.comp_no unit_name month_part year_part_short].
      rewrite <- !(string_app_assoc mo).
      rewrite (sales_no_match_without_comp_no true _ _ Hu Hd1 Hd2).
      by rewrite (sales_no_match_without_comp_no false _ _ Hu Hd1 Hd2).
    + destruct (month_abbr !! now_month) as [abbr |]; [| done]. intros [= <-].
      split; [done |]. intros _.
      unfold _parse_sales_filename, fallback_filename.
      cbn [clean_sales.comp_no unit_name month_part year_part_short].
      assert (Hf : ∀ n, all_in digit (py.format_02d n) = true).
      { intros n. unfold py.format_02d. destruct (n <? 10)%nat.
        - rewrite all_in_app. by rewrite (proj2 (pretty_nat_digits n)).
        - apply pretty_nat_digits. }
      assert (Hd : all_in digit (py.format_02d now_month
                                   ++ py.last2 (py.format_02d now_year)) = true).
      { rewrite all_in_app, Hf. by apply all_in_substring. }
      rewrite <- !(string_app_assoc (py.format_02d now_month)).
      rewrite (sales_no_match_unknown_unit true _ Hd).
      by rewrite (sales_no_match_unknown_unit false _ Hd).
Qed.

End SalesNames.

(** The file of entity 2033 of unit DK01 for September 2025, named in small
    letters. *)
Lemma sales_names_read_back_witness :
  let file_parts :=
    {| clean_sales.unit_name := "DK01"; clean_sales.comp_no := Some "2033";
       clean_sales.month_part := "09"; clean_sales.year_part_short := "25";
       clean_sales.sales_col := "Sales SEP 2025";
       clean_sales.py_col := "PY Sales SEP 2024" |} in
  _parse_sales_filename (clean_sales.segregated_filename file_parts "IC")
  = Some {| sfi_comp_no := "2033"; sfi_unit := "DK01";
            sfi_date_part := "0925"; sfi_type := Some "IC" |}.
Proof.
  intros file_parts.
  refine (proj1 (proj1 (sales_names_read_back 11 2026
                          "sales_dk01_2033_09_2025.xlsx" file_parts _ _)
                   "2033" _) "IC" _).
  - reflexivity.
  - vm_compute. reflexivity.
  - reflexivity.
  - apply (bool_decide_unpack _). vm_compute. exact I.
Defined.

(** ** The cleaning of a sales sheet *)

Section Cleaning.

Import clean_sales.

Variable float_repr : Q → string.

Lemma free_of_app (a : ascii) (s t : string) :
  free_of a (s ++ t) = free_of a s && free_of a t.
Proof. apply all_in_app. Qed.

Lemma replace1_free (old : ascii) (new s : string) :
  free_of old new = true → free_of old (py.replace1 old new s) = true.
Proof.
  intros Hnew. induction s as [| c s IH]; [done |]. cbn [py.replace1].
  rewrite free_of_app, IH, andb_true_r.
  destruct (Ascii.eqb c old) eqn:E; [done |]. unfold free_of. cbn [all_in].
  by rewrite E.
Qed.

Lemma replace1_keeps_free (a old : ascii) (new s : string) :
  free_of a new = true → free_of a s = true →
  free_of a (py.replace1 old new s) = true.
Proof.
  intros Hnew. induction s as [| c s IH]; [done |]. unfold free_of at 1.
  cbn [all_in]. rewrite andb_true_iff. intros [Hc Hs]. cbn [py.replace1].
  rewrite free_of_app, (IH Hs), andb_true_r.
  destruct (Ascii.eqb c old); [done |]. unfold free_of. cbn [all_in].
  by rewrite Hc.
Qed.

Lemma free_of_contains (a : ascii) (s : string) :
  free_of a s = true → py.contains (String a "") s = false.
Proof.
  induction s as [| c s IH]; [done |]. unfold free_of. cbn [all_in].
  rewrite andb_true_iff, negb_true_iff. intros [Hc Hs].
  cbn [py.contains String.prefix]. rewrite (IH Hs), orb_false_r.
  destruct (ascii_dec a c) as [-> | _]; [| done].
  by rewrite Ascii.eqb_refl in Hc.
Qed.

Lemma safe_replace_text (c : cell) (s : string) :
  safe_replace c = Str s → free_of "/" s = true ∧ free_of "," s = true.
Proof.
  destruct c as [| s0 | q]; try done. intros [= <-]. split.
  - apply replace1_keeps_free; [done |]. by apply replace1_free.
  - by apply replace1_free.
Qed.

(** X21. After the cleaning no text cell of a data row (any row but the
    first) holds a slash or a comma. *)
Theorem clean_dataframe_no_separators (df : list (list cell)) (row : list cell)
    (s : string) :
  row ∈ drop 1 (_clean_dataframe float_repr df) → Str s ∈ row →
  py.contains "/" s = false ∧ py.contains "," s = false.
Proof.
  unfold _clean_dataframe. cbv zeta.
  set (d1 := fmap (M := list) newline_to_space <$> df : list (list cell)).
  set (d2 := if (8 <? ncols d1)%nat
             then alter (non_holding float_repr) 8 <$> d1 else d1
           : list (list cell)).
  set (d3 := if (4 <? ncols d2)%nat
             then alter (standard_industrial float_repr) 4 <$> d2 else d2
           : list (list cell)).
  destruct (Nat.ltb_spec 1 (length d3)) as [Hlen | Hlen].
  - rewrite drop_app_length'; [| rewrite length_take; lia].
    intros Hrow Hs. apply list_elem_of_fmap in Hrow as (r & -> & _).
    apply list_elem_of_fmap in Hs as (c & Hc & _). symmetry in Hc.
    apply safe_replace_text in Hc as [H1 H2].
    split; by apply free_of_contains.
  - rewrite drop_ge by lia. intros Hrow. by apply elem_of_nil in Hrow.
Qed.

Lemma lookup_cell_fmap (f : cell → cell) (df : list (list cell)) (i j : nat) :
  ((fmap (M := list) f <$> df) !! i ≫= (.!! j)) = f <$> (df !! i ≫= (.!! j)).
Proof.
  rewrite list_lookup_fmap. destruct (df !! i) as [row |]; [| done].
  cbn. by rewrite list_lookup_fmap.
Qed.

Lemma lookup_cell_alter (f : cell → cell) (k : nat) (df : list (list cell)) (i j : nat) :
  j ≠ k → ((alter f k <$> df) !! i ≫= (.!! j)) = (df !! i ≫= (.!! j)).
Proof.
  intros Hj. rewrite list_lookup_fmap. destruct (df !! i) as [row |]; [| done].
  cbn. by rewrite list_lookup_alter_ne.
Qed.

Lemma lookup_cell_tail (f : cell → cell) (df : list (list cell)) (i j : nat) :
  ((take 1 df ++ (fmap (M := list) f <$> drop 1 df))%list !! i ≫= (.!! j))
  = (if (i =? 0)%nat then id else f) <$> (df !! i ≫= (.!! j)).
Proof.
  destruct df as [| r0 df]; [by destruct i |]. destruct i as [| i].
  - cbn. by destruct (r0 !! j).
  - cbn [take drop app lookup list_lookup Nat.eqb]. rewrite drop_0.
    change (((fmap (M := list) f <$> df) !! i ≫= (.!! j)) = f <$> (df !! i ≫= (.!! j))).
    apply lookup_cell_fmap.
Qed.

(** X22. The cleaning leaves every number and every blank cell outside
    columns E and I (indices 4 and 8) where and as it is; the sales figures of
    columns M and O among them. *)
Theorem clean_dataframe_keeps_numbers (df : list (list cell)) (i j : nat) (c : cell) :
  j ≠ 4%nat → j ≠ 8%nat → (∀ s, c ≠ Str s) →
  (df !! i ≫= (.!! j)) = Some c →
  (_clean_dataframe float_repr df !! i ≫= (.!! j)) = Some c.
Proof.
  intros H4 H8 Hc Hcell. unfold _clean_dataframe. cbv zeta.
  set (d1 := fmap (M := list) newline_to_space <$> df : list (list cell)).
  set (d2 := if (8 <? ncols d1)%nat
             then alter (non_holding float_repr) 8 <$> d1 else d1
           : list (list cell)).
  set (d3 := if (4 <? ncols d2)%nat
             then alter (standard_industrial float_repr) 4 <$> d2 else d2
           : list (list cell)).
  assert (Hnum : ∀ f : cell → cell, (∀ x, (∀ s, x ≠ Str s) → f x = x) → f c = c)
    by (intros f Hf; by apply Hf).
  assert (H1 : (d1 !! i ≫= (.!! j)) = Some c).
  { unfold d1. rewrite lookup_cell_fmap, Hcell. cbn. f_equal.
    destruct c; [done | by destruct (Hc s) | done]. }
  assert (H2 : (d2 !! i ≫= (.!! j)) = Some c).
  { unfold d2. destruct (8 <? ncols d1)%nat; [| done].
    by rewrite lookup_cell_alter. }
  assert (H3 : (d3 !! i ≫= (.!! j)) = Some c).
  { unfold d3. destruct (4 <? ncols d2)%nat; [| done].
    by rewrite lookup_cell_alter. }
  destruct (1 <? length d3)%nat; [| done].
  rewrite lookup_cell_tail, H3. cbn. f_equal.
  destruct (i =? 0)%nat; [done |].
  destruct c; [done | by destruct (Hc s) | done].
Qed.

End Cleaning.

(** A data row with a comma and a slash in its first cell. *)
Lemma clean_dataframe_no_separators_witness :
  py.contains "/" "Pumps_ small_large" = false ∧
  py.contains "," "Pumps_ small_large" = false.
Proof.
  apply (clean_dataframe_no_separators (fun _ => "1.5")
           [[Str "Product/Service"; Str "Sales"];
            [Str "Pumps, small/large"; Num 3]]
           [Str "Pumps_ small_large"; Num 3]).
  - vm_compute. apply list_elem_of_here.
  - apply list_elem_of_here.
Defined.

(** The figure in the second column of that row. *)
Lemma clean_dataframe_keeps_numbers_witness :
  (clean_sales._clean_dataframe (fun _ => "1.5")
     [[Str "Product/Service"; Str "Sales"];
      [Str "Pumps, small/large"; Num 3]] !! 1%nat ≫= (.!! 1%nat))
  = Some (Num 3).
Proof.
  apply (clean_dataframe_keeps_numbers (fun _ => "1.5")
           [[Str "Product/Service"; Str "Sales"];
            [Str "Pumps, small/large"; Num 3]] 1 1 (Num 3)).
  - lia.
  - lia.
  - discriminate.
  - reflexivity.
Defined.

(** ** The validation of a processed order-entry file *)

Section OrderEntryValidation.

Import re clean_oe.

Lemma underscore_only (c : ascii) : char_eqb true "_" c = true → c = "_"%char.
Proof.
  destruct c as [[] [] [] [] [] [] [] []]; vm_compute; intros H;
    try discriminate H; done.
Qed.

Lemma run_lit_underscore_inv s caps k x :
  run true (Lit "_") s caps k = Some x →
  ∃ s', s = String "_" s' ∧ k s' caps = Some x.
Proof.
  cbn [run lit]. destruct s as [| c s]; [done |].
  destruct (char_eqb true "_" c) eqn:E; [| done].
  apply underscore_only in E as ->. intros H. by exists s.
Qed.

Lemma run_times ic n p s caps k :
  run ic (Times n p) s caps k = times ic n p s (fun s' => k s' caps).
Proof. reflexivity. Qed.

Lemma run_group_plus_inv ic p s caps k x :
  run ic (Group (Plus p)) s caps k = Some x →
  ∃ w rest, s = w ++ rest ∧ word_of (in_class ic p) w ∧
            k rest (caps ++ [Some w])%list = Some x.
Proof.
  cbn [run]. intros H. apply plus_sound in H as (w & rest & -> & Hne & Hw & Hk).
  rewrite consumed_app in Hk. by exists w, rest.
Qed.

Lemma run_group_times_inv ic n p s caps k x :
  run ic (Group (Times n p)) s caps k = Some x →
  ∃ w rest, s = w ++ rest ∧ String.length w = n ∧
            all_in (in_class ic p) w = true ∧
            k rest (caps ++ [Some w])%list = Some x.
Proof.
  cbn [run]. intros H. apply times_sound in H as (w & rest & -> & Hn & Hw & Hk).
  rewrite consumed_app in Hk. by exists w, rest.
Qed.

(** *** Fields between underscores *)

Lemma field_unique (w w' r r' : string) :
  no_underscore w = true → no_underscore w' = true →
  w ++ String "_" r = w' ++ String "_" r' → w = w' ∧ r = r'.
Proof.
  revert w'. induction w as [| c w IH]; intros [| c' w'] Hw Hw' E.
  - rewrite !string_app_nil in E. by injection E as ->.
  - rewrite string_app_nil, string_app_cons in E. injection E as <- _.
    by cbn in Hw'.
  - rewrite string_app_nil, string_app_cons in E. injection E as -> _.
    by cbn in Hw.
  - rewrite !string_app_cons in E. injection E as -> E.
    unfold no_underscore in Hw, Hw'. cbn [all_in] in Hw, Hw'.
    apply andb_true_iff in Hw as [_ Hw]. apply andb_true_iff in Hw' as [_ Hw'].
    destruct (IH w' Hw Hw' E) as [-> ->]. done.
Qed.

Lemma field_prefix (w r f R : string) :
  no_underscore w = true → w ++ r = f ++ String "_" R →
  ∃ f2, f = w ++ f2 ∧ r = f2 ++ String "_" R.
Proof.
  revert f. induction w as [| c w IH]; intros f Hw E.
  - exists f. by rewrite string_app_nil in E.
  - unfold no_underscore in Hw. cbn [all_in] in Hw.
    apply andb_true_iff in Hw as [Hc Hw]. destruct f as [| c' f].
    + rewrite string_app_nil, string_app_cons in E. injection E as -> _.
      by cbn in Hc.
    + rewrite !string_app_cons in E. injection E as -> E.
      destruct (IH f Hw E) as (f2 & -> & ->). by exists f2.
Qed.

Lemma digit_alnum_class (s : string) :
  all_in (in_class true digit) s = true →
  all_in (in_class true upper_alnum) s = true.
Proof.
  apply all_in_impl. intros c.
  destruct c as [[] [] [] [] [] [] [] []]; vm_compute; intros H;
    try discriminate H; done.
Qed.

(** *** The optional counter and the extension *)

Lemma suffix_head_fails (c : ascii) (t : string) caps k :
  char_eqb true "(" c = false → char_eqb true "." c = false →
  run true (Seq counter_suffix (Lit ".csv")) (String c t) caps k = None.
Proof.
  intros H1 H2. unfold counter_suffix. cbn [cat run lit]. by rewrite H1, H2.
Qed.

Lemma suffix_match (e : string) (caps : groups) :
  name_end e →
  ∃ g, run true (Seq counter_suffix (Lit ".csv")) e caps
         (fun _ caps' => Some caps')
       = Some (caps ++ [g])%list.
Proof.
  unfold counter_suffix. cbn [cat].
  intros [-> | (n & [Hn1 Hn2] & ->)]; eexists.
  - rewrite run_seq, run_opt_skip by reflexivity.
    rewrite run_lit_end. reflexivity.
  - rewrite run_seq. apply run_opt_take.
    rewrite paren_assoc, run_group.
    set (K := fun (s' : string) (caps' : groups) => _).
    rewrite <- paren_assoc, run_seq, run_lit, run_seq, run_plus.
    apply plus_greedy; [done | by apply all_in_class | reflexivity |].
    cbv beta. rewrite run_lit. unfold K.
    rewrite consumed_app, run_lit_end. reflexivity.
Qed.

(** Four digits, the optional counter and the extension do not match at a
    field that an underscore ends. *)
Lemma times4_field_fails (grp : bool) (f R : string) caps k :
  all_in (in_class true upper_alnum) f = true →
  run true (Seq (if grp then Group (Times 4 digit) else Times 4 digit)
              (Seq counter_suffix (Lit ".csv")))
    (f ++ String "_" R) caps k = None.
Proof.
  intros Hf.
  destruct (run true _ (f ++ String "_" R) caps k) as [x |] eqn:E; [| done].
  exfalso. rewrite run_seq in E.
  assert (∃ w r caps', f ++ String "_" R = w ++ r ∧
            all_in (in_class true digit) w = true ∧
            run true (Seq counter_suffix (Lit ".csv")) r caps' k = Some x)
    as (w & r & caps' & Heq & Hw & Hk).
  { destruct grp.
    - apply run_group_times_inv in E as (w & r & Heq & _ & Hw & Hk).
      by exists w, r, (caps ++ [Some w])%list.
    - rewrite run_times in E.
      apply times_sound in E as (w & r & Heq & _ & Hw & Hk).
      by exists w, r, caps. }
  symmetry in Heq. apply field_prefix in Heq as (f2 & -> & ->);
    [| by apply digits_no_underscore].
  rewrite all_in_app in Hf. apply andb_true_iff in Hf as [_ Hf2].
  destruct f2 as [| c f2].
  - rewrite string_app_nil, suffix_head_fails in Hk by reflexivity. done.
  - cbn [all_in] in Hf2. apply andb_true_iff in Hf2 as [Hc _].
    apply upper_alnum_not in Hc as (_ & Hdot & Hpar).
    rewrite string_app_cons, suffix_head_fails in Hk by done. done.
Qed.

Lemma strip_digits (s : string) :
  all_in (in_class true digit) s = true → py.strip s = s.
Proof.
  intros Hs.
  assert (Hns : all_in (fun c => negb (py.isspace c)) s = true).
  { revert Hs. apply all_in_impl. intros c.
    destruct c as [[] [] [] [] [] [] [] []]; vm_compute; intros H;
      try discriminate H; done. }
  clear Hs. unfold py.strip.
  assert (Hl : py.lstrip s = s).
  { destruct s as [| c s]; [done |]. cbn [all_in] in Hns.
    apply andb_true_iff in Hns as [Hc _]. apply negb_true_iff in Hc.
    cbn [py.lstrip]. by rewrite Hc. }
  rewrite Hl. induction s as [| c s IH]; [done |].
  cbn [all_in] in Hns. apply andb_true_iff in Hns as [Hc Hs].
  apply negb_true_iff in Hc. cbn [py.rstrip].
  destruct s as [| d s]; [cbn; by rewrite Hc |].
  rewrite IH; [done | done |].
  cbn [all_in] in Hs. apply andb_true_iff in Hs as [Hd _].
  apply negb_true_iff in Hd. cbn [py.lstrip]. by rewrite Hd.
Qed.

(** *** The two searches in the name of a processed file *)

Local Ltac lit_fails H :=
  intros ? ? H; rewrite run_seq; apply run_lit_head;
  first [ apply upper_alnum_not in H; tauto | apply digit_not in H; tauto ].

Lemma oe_single_search (u pc d e : string) :
  word_of (in_class true upper_alnum) u → word_of (in_class true digit) pc →
  String.length d = 4%nat → all_in (in_class true digit) d = true →
  name_end e →
  ∃ g, search true oe_single_regex
         ("OE_Data_Processed_" ++ u ++ "_" ++ pc ++ "_" ++ d ++ e)
       = Some [Some pc; g].
Proof.
  intros [Hu1 Hu2] [Hc1 Hc2] Hd1 Hd2 He.
  set (T := u ++ "_" ++ pc ++ "_" ++ d ++ e).
  unfold oe_single_regex. cbn [cat].
  set (tail := Seq (Group (Plus digit))
                 (Seq (Lit "_") (Seq (Times 4 digit)
                    (Seq counter_suffix (Lit ".csv"))))).
  assert (H2 : match_ true (Seq (Lit "_") (Seq (Plus upper_alnum)
                 (Seq (Lit "_") tail))) (String "_" ("Data_Processed_" ++ T))
               = None).
  { unfold match_.
    change (String "_" ("Data_Processed_" ++ T))
      with ("_" ++ ("Data" ++ ("_" ++ ("Processed_" ++ T)))).
    rewrite run_seq, run_lit, run_seq, run_plus.
    rewrite plus_exact; [| done | reflexivity | reflexivity | lit_fails H].
    rewrite run_seq, run_lit. reflexivity. }
  assert (H7 : match_ true (Seq (Lit "_") (Seq (Plus upper_alnum)
                 (Seq (Lit "_") tail))) (String "_" ("Processed_" ++ T))
               = None).
  { unfold match_.
    change (String "_" ("Processed_" ++ T))
      with ("_" ++ ("Processed" ++ ("_" ++ T))).
    rewrite run_seq, run_lit, run_seq, run_plus.
    rewrite plus_exact; [| done | reflexivity | reflexivity | lit_fails H].
    rewrite run_seq, run_lit.
    destruct (run true tail T [] (fun _ caps => Some caps)) as [x |] eqn:E;
      [| done].
    exfalso. unfold tail in E. rewrite run_seq in E.
    apply run_group_plus_inv in E as (w & r & Heq & [_ Hw] & E).
    rewrite run_seq in E. apply run_lit_underscore_inv in E as (r' & -> & E).
    unfold T in Heq.
    change (u ++ "_" ++ pc ++ "_" ++ d ++ e)
      with (u ++ String "_" (pc ++ String "_" (d ++ e))) in Heq.
    apply field_unique in Heq as [_ <-];
      [| by apply alnum_no_underscore | by apply digits_no_underscore].
    rewrite (times4_field_fails false) in E by (by apply digit_alnum_class).
    done. }
  destruct (suffix_match e ([] ++ [Some pc])%list He) as [g Hg].
  exists g.
  change ("OE_Data_Processed_" ++ T)
    with ("OE" ++ String "_" ("Data_Processed_" ++ T)).
  rewrite search_skip by reflexivity. rewrite search_step by exact H2.
  change ("Data_Processed_" ++ T)
    with ("Data" ++ String "_" ("Processed_" ++ T)).
  rewrite search_skip by reflexivity. rewrite search_step by exact H7.
  change ("Processed_" ++ T) with ("Processed" ++ ("_" ++ T)).
  rewrite search_skip by reflexivity. apply search_match.
  unfold match_, T, tail.
  rewrite run_seq, run_lit, run_seq, run_plus.
  apply plus_greedy; [done | done | reflexivity |]. cbv beta.
  rewrite run_seq, run_lit. rewrite run_seq.
  apply run_group_plus_greedy; [done | done | reflexivity |].
  rewrite run_seq, run_lit. rewrite run_seq, run_times, <- Hd1, times_exact by done.
  exact Hg.
Qed.

Lemma oe_date_search (u pc d e : string) :
  word_of (in_class true upper_alnum) u → word_of (in_class true digit) pc →
  String.length d = 4%nat → all_in (in_class true digit) d = true →
  name_end e →
  ∃ g, search true oe_date_regex
         ("OE_Data_Processed_" ++ u ++ "_" ++ pc ++ "_" ++ d ++ e)
       = Some [Some d; g].
Proof.
  intros [Hu1 Hu2] [Hc1 Hc2] Hd1 Hd2 He.
  unfold oe_date_regex. cbn [cat].
  set (r := Seq (Lit "_") (Seq (Group (Times 4 digit))
              (Seq counter_suffix (Lit ".csv")))).
  assert (Hfield : ∀ f R, all_in (in_class true upper_alnum) f = true →
            match_ true r (String "_" (f ++ String "_" R)) = None).
  { intros f R Hf. unfold match_, r.
    change (String "_" (f ++ String "_" R)) with ("_" ++ (f ++ String "_" R)).
    rewrite run_seq, run_lit. by apply (times4_field_fails true). }
  destruct (suffix_match e ([] ++ [Some d])%list He) as [g Hg].
  exists g. subst r.
  change ("OE_Data_Processed_" ++ u ++ "_" ++ pc ++ "_" ++ d ++ e)
    with ("OE" ++ String "_" ("Data" ++ String "_" ("Processed" ++
            String "_" (u ++ String "_" (pc ++ String "_" (d ++ e)))))).
  rewrite search_skip by reflexivity. rewrite search_step by reflexivity.
  rewrite search_skip by reflexivity. rewrite search_step by reflexivity.
  rewrite search_skip by reflexivity.
  rewrite search_step by (by apply Hfield).
  rewrite search_skip by (by apply alnum_no_underscore).
  rewrite search_step by (by apply Hfield, digit_alnum_class).
  rewrite search_skip by (by apply digits_no_underscore).
  apply search_match. unfold match_.
  change (String "_" (d ++ e)) with ("_" ++ (d ++ e)).
  rewrite run_seq, run_lit. rewrite run_seq, <- Hd1, run_group_times by done.
  exact Hg.
Qed.

Lemma month_round_trip (month_abbr mm yy : string) :
  (month_abbr, mm) ∈ month_map →
  default "Sheet1"
    (snd <$> List.find (fun kv => String.eqb kv.1 (String.substring 0 2 (mm ++ yy)))
               month_num_to_abbr) = month_abbr.
Proof.
  intros H.
  assert (Hsub : String.substring 0 2 (mm ++ yy) = mm).
  { destruct (month_mm_listed _ _ H) as (_ & Hl & _).
    rewrite <- Hl. apply substring_app. }
  rewrite Hsub. unfold month_map in H.
  repeat (apply elem_of_cons in H as [[= -> ->] | H]; [reflexivity |]).
  by apply elem_of_nil in H.
Qed.

(** X23. A file the order-entry batch writes is one the validation
    accepts: with a map that has an order-entry number for the entity number
    of the input name, the validation reads that entity number from the
    output name, with a counter or not, looks up the order-entry number, and
    arrives at the date part MMYY and at the sheet named by the month
    abbreviation of the input name. *)
Theorem oe_written_file_is_validated (disk : gmap string string)
    (comp_no_to_oe_map group_to_pc_map : gmap string string)
    (output_folder filename : string) (parts : name_parts)
    (mm comp_no_for_oe : string) :
  match_order_entry filename = Some parts →
  (clean_oe.month_abbr parts, mm) ∈ month_map →
  comp_no_to_oe_map !! profit_center parts = Some comp_no_for_oe →
  comp_no_for_oe ≠ "" → group_to_pc_map ≠ ∅ →
  ∃ name,
    final_output_filename disk output_folder (base_output_filename parts)
    = Some name ∧
    oe_validation_target comp_no_to_oe_map group_to_pc_map name
    = Some {| pc_str := comp_no_for_oe;
              target_date_part := mm ++ py.last2 (year_str parts);
              target_month_abbr := clean_oe.month_abbr parts |}.
Proof.
  intros Hmatch Hmm Hpc Hne Hgroup.
  destruct (match_order_entry_sound _ _ Hmatch) as (Hy1 & Hy2 & Hu & Hc).
  destruct (last2_of_4 _ _ Hy1 Hy2) as [Hl1 Hl2].
  destruct (month_mm_listed _ _ Hmm) as (Hmonth & Hm1 & Hm2).
  unfold base_output_filename, date_part. rewrite Hmonth.
  pose proof (month_round_trip _ _ (py.last2 (year_str parts)) Hmm) as Hsheet.
  set (d := mm ++ py.last2 (year_str parts)) in *.
  assert (Hd1 : String.length d = 4%nat)
    by (unfold d; rewrite string_length_app; lia).
  assert (Hd2 : all_in (in_class true digit) d = true)
    by (unfold d; by rewrite all_in_app, Hm2, Hl2).
  destruct (oe_output_name_shape disk output_folder (unit parts)
              (profit_center parts) d) as (name & e & Hfinal & He & ->);
    [apply Hu | apply Hc | exact (all_in_impl _ _ _ (digit_plain true) Hd2) |].
  eexists. split; [exact Hfinal |].
  destruct (oe_single_search _ _ _ _ Hu Hc Hd1 Hd2 He) as [g1 Hg1].
  destruct (oe_date_search _ _ _ _ Hu Hc Hd1 Hd2 He) as [g2 Hg2].
  unfold oe_validation_target.
  rewrite bool_decide_false by (intros ->; by rewrite lookup_empty in Hpc).
  rewrite bool_decide_false by done.
  rewrite Hg1, Hg2.
  cbn [group lookup list_lookup Nat.sub mjoin option_join default from_option id].
  rewrite (strip_digits _ (proj2 Hc)). unfold get_truthy. rewrite Hpc.
  destruct comp_no_for_oe as [| c0 pc0]; [done |].
  destruct (String.eqb_spec d "") as [Hd0 | _];
    [by rewrite Hd0 in Hd1 |].
  cbv zeta. by rewrite Hsheet.
Qed.

End OrderEntryValidation.

(** The September file of entity 2033, whose order-entry number is 9005,
    written a second time into the same folder. *)
Lemma oe_written_file_is_validated_witness :
  let disk : gmap string string :=
    {[ "out/OE_Data_Processed_DK01_2033_0925.csv" := "" ]} in
  ∃ name,
    clean_oe.final_output_filename disk "out"
      "OE_Data_Processed_DK01_2033_0925.csv" = Some name ∧
    oe_validation_target {[ "2033" := "9005" ]} {[ "Nordic" := "9001" ]} name
    = Some {| pc_str := "9005"; target_date_part := "0925";
              target_month_abbr := "Sep" |}.
Proof.
  intros disk.
  apply (oe_written_file_is_validated disk {[ "2033" := "9005" ]}
           {[ "Nordic" := "9001" ]} "out"
           "Order Entry_Sep_2025_DK01_2033_MO.xlsx"
           {| clean_oe.month_abbr := "Sep"; clean_oe.year_str := "2025";
              clean_oe.unit := "DK01"; clean_oe.profit_center := "2033";
              clean_oe.type_mo := "MO" |} "09" "9005").
  - vm_compute. reflexivity.
  - apply (bool_decide_unpack _). vm_compute. exact I.
  - vm_compute. reflexivity.
  - discriminate.
  - apply (bool_decide_unpack _). vm_compute. exact I.
Defined.

(** ** The validation of a processed sales file *)

Section SalesValidation.

Import re clean_sales.

(** *** A match goes on with what is left of the text *)

Lemma lit_suffix ic (l s s' : string) :
  lit ic l s = Some s' → ∃ p, s = p ++ s'.
Proof.
  revert s. induction l as [| a l IH]; intros s; cbn [lit].
  - intros [= <-]. by exists "".
  - destruct s as [| c s]; [done |]. destruct (char_eqb ic a c); [| done].
    intros H. apply IH in H as [p ->]. by exists (String c p).
Qed.

Lemma run_suffix ic (r : regex) s caps k x :
  run ic r s caps k = Some x →
  ∃ p s' caps', s = p ++ s' ∧ k s' caps' = Some x.
Proof.
  revert s caps k.
  induction r as [l | p | n p | r1 IH1 r2 IH2 | r1 IH1 r2 IH2 | r IH | r IH |];
    intros s caps k; cbn [run].
  - destruct (lit ic l s) as [s' |] eqn:E; [| done]. intros H.
    apply lit_suffix in E as [p ->]. by exists p, s', caps.
  - intros H. apply plus_sound in H as (w & rest & -> & _ & _ & H).
    by exists w, rest, caps.
  - intros H. apply times_sound in H as (w & rest & -> & _ & _ & H).
    by exists w, rest, caps.
  - intros H. apply IH1 in H as (p1 & s1 & caps1 & -> & H).
    apply IH2 in H as (p2 & s2 & caps2 & -> & H).
    exists (p1 ++ p2), s2, caps2. by rewrite string_app_assoc.
  - destruct (run ic r1 s caps k) as [y |] eqn:E.
    + intros [= <-]. by apply IH1 in E.
    + apply IH2.
  - intros H. apply IH in H as (p & s' & caps' & -> & H).
    by exists p, s', (caps' ++ [Some (consumed (p ++ s') s')])%list.
  - destruct (run ic r s caps k) as [y |] eqn:E.
    + intros [= <-]. by apply IH in E.
    + intros H. by exists "", s, (caps ++ replicate (ngroups r) None)%list.
  - destruct (String.eqb s "" || String.eqb s (String (Ascii.ascii_of_nat 10) ""));
      [| done].
    intros H. by exists "", s, caps.
Qed.

Lemma seq_suffix ic (r1 r2 : regex) s caps k x :
  run ic (Seq r1 r2) s caps k = Some x →
  ∃ p s' caps', s = p ++ s' ∧ run ic r2 s' caps' k = Some x.
Proof. rewrite run_seq. apply run_suffix. Qed.

Lemma has_pair_app_r ic a b (p s : string) :
  has_pair ic a b s = true → has_pair ic a b (p ++ s) = true.
Proof.
  intros Hs. induction p as [| c p IH]; [done |].
  rewrite string_app_cons. cbn [has_pair]. rewrite IH. apply orb_true_r.
Qed.

Lemma has_type_dot_app_r (p s : string) :
  has_type_dot s = true → has_type_dot (p ++ s) = true.
Proof.
  unfold has_type_dot. rewrite !orb_true_iff.
  intros [H | H]; [left | right]; by apply has_pair_app_r.
Qed.

Lemma has_type_dot_tail (c : ascii) (s : string) :
  has_type_dot (String c s) = false → has_type_dot s = false.
Proof.
  unfold has_type_dot. rewrite !orb_false_iff.
  intros [H1 H2]. split; by eapply has_pair_tail.
Qed.

(** *** Both patterns of the sales validation ask for a type *)

Lemma type_ext_pair s caps k x :
  run true (Seq type_group (Lit ".csv")) s caps k = Some x →
  has_type_dot s = true.
Proof.
  unfold type_group, has_type_dot. rewrite run_seq. cbn [run lit].
  destruct s as [| c1 [| c2 [| c3 [| c4 s]]]]; cbn [lit];
    repeat match goal with
      | |- context [char_eqb true ?a ?b] =>
          let E := fresh "E" in destruct (char_eqb true a b) eqn:E
      end; try done; intros _; cbn [has_pair];
    rewrite ?E, ?E0, ?E1, ?E2, ?E3, ?E4, ?E5; cbn;
    rewrite ?orb_true_r; done.
Qed.

Lemma typed_patterns_need_type (grouped : bool) (s : string) (m : groups) :
  match_ true (if grouped then sales_grouped_regex else sales_single_regex) s
  = Some m →
  has_type_dot s = true.
Proof.
  unfold match_. destruct grouped;
    unfold sales_grouped_regex, sales_single_regex; cbn [cat]; intros H.
  - apply seq_suffix in H as (p1 & s1 & c1 & -> & H).
    apply seq_suffix in H as (p2 & s2 & c2 & -> & H).
    apply seq_suffix in H as (p3 & s3 & c3 & -> & H).
    apply seq_suffix in H as (p4 & s4 & c4 & -> & H).
    apply seq_suffix in H as (p5 & s5 & c5 & -> & H).
    apply type_ext_pair in H. by do 5 apply has_type_dot_app_r.
  - apply seq_suffix in H as (p1 & s1 & c1 & -> & H).
    apply seq_suffix in H as (p2 & s2 & c2 & -> & H).
    apply seq_suffix in H as (p3 & s3 & c3 & -> & H).
    apply seq_suffix in H as (p4 & s4 & c4 & -> & H).
    apply seq_suffix in H as (p5 & s5 & c5 & -> & H).
    apply seq_suffix in H as (p6 & s6 & c6 & -> & H).
    apply seq_suffix in H as (p7 & s7 & c7 & -> & H).
    apply type_ext_pair in H. by do 7 apply has_type_dot_app_r.
Qed.

Lemma typed_patterns_no_match (grouped : bool) (s : string) :
  has_type_dot s = false →
  search true (if grouped then sales_grouped_regex else sales_single_regex) s
  = None.
Proof.
  assert (Hhere : ∀ t, has_type_dot t = false →
            match_ true (if grouped then sales_grouped_regex
                         else sales_single_regex) t = None).
  { intros t Ht.
    destruct (match_ true _ t) as [m |] eqn:E; [| done].
    apply typed_patterns_need_type in E. congruence. }
  induction s as [| c s IH]; intros Hs; rewrite search_unfold, (Hhere _ Hs).
  - done.
  - apply IH. by apply has_type_dot_tail in Hs.
Qed.

(** *** The name of a fallback file has no type *)

Lemma has_pair_no_second ic a b (w : string) (c : ascii) (rest : string) :
  all_in (fun x => negb (char_eqb ic b x)) w = true →
  char_eqb ic b c = false →
  has_pair ic a b (w ++ String c rest) = has_pair ic a b (String c rest).
Proof.
  intros Hw Hc. induction w as [| x w IH]; [done |].
  cbn [all_in] in Hw. apply andb_true_iff in Hw as [_ Hw].
  rewrite string_app_cons. specialize (IH Hw).
  assert (Hnext : match w ++ String c rest with
                  | String d _ => char_eqb ic b d
                  | EmptyString => false
                  end = false).
  { destruct w as [| y w]; [exact Hc |]. rewrite string_app_cons.
    cbn [all_in] in Hw. apply andb_true_iff in Hw as [Hy _].
    by apply negb_true_iff in Hy. }
  cbn [has_pair]. rewrite Hnext, andb_false_r. exact IH.
Qed.

Lemma alnum_no_dot ic (s : string) :
  all_in (in_class ic upper_alnum) s = true →
  all_in (fun c => negb (char_eqb ic "." c)) s = true.
Proof.
  apply all_in_impl. intros c Hc. apply upper_alnum_not in Hc as (_ & Hc & _).
  by rewrite Hc.
Qed.

Lemma digit_not_type ic (c : ascii) :
  in_class ic digit c = true →
  char_eqb ic "D" c = false ∧ char_eqb ic "C" c = false ∧
  char_eqb ic "R" c = false ∧ char_eqb ic "I" c = false.
Proof.
  destruct ic, c as [[] [] [] [] [] [] [] []]; vm_compute; intros H;
    try discriminate H; done.
Qed.

Lemma untyped_name_no_type (w y : string) :
  all_in (fun x => negb (char_eqb true "." x)) w = true →
  y ≠ "" → all_in (in_class true digit) y = true →
  has_type_dot (w ++ y ++ ".csv") = false.
Proof.
  intros Hw Hy1 Hy2.
  assert (∃ y' c, y = y' ++ String c "" ∧
            all_in (in_class true digit) y' = true ∧
            in_class true digit c = true) as (y' & c & -> & Hy' & Hc).
  { clear Hw. induction y as [| c y IH]; [done |].
    cbn [all_in] in Hy2. apply andb_true_iff in Hy2 as [Hc Hy].
    destruct y as [| d y].
    - by exists "", c.
    - destruct (IH ltac:(done) Hy) as (y' & e & -> & Hy' & He).
      exists (String c y'), e. split; [done |]. split; [| done].
      cbn [all_in]. by rewrite Hc, Hy'. }
  destruct (digit_not_type true c Hc) as (HD & HC & _ & _).
  destruct (digit_not true c Hc) as (_ & Hdot & _).
  assert (Heq : w ++ (y' ++ String c "") ++ ".csv" = (w ++ y') ++ String c ".csv")
    by (by rewrite !string_app_assoc).
  rewrite Heq. unfold has_type_dot.
  rewrite !has_pair_no_second; try exact Hdot.
  - cbn [has_pair]. by rewrite HD, HC.
  - by rewrite all_in_app, Hw, (alnum_no_dot true _ (digit_alnum_class _ Hy')).
  - by rewrite all_in_app, Hw, (alnum_no_dot true _ (digit_alnum_class _ Hy')).
Qed.

Lemma dot_insensitive (c : ascii) :
  negb (Ascii.eqb c ".") = true → negb (char_eqb true "." c) = true.
Proof.
  destruct c as [[] [] [] [] [] [] [] []]; vm_compute; intros H;
    try discriminate H; done.
Qed.

(** X25. The name of a fallback file carries no type, and the validation
    asks for one: for such a file it returns without a sheet.  This holds
    for every unit name without a dot: the unit in capitals and digits taken
    from an input name, and "UnknownUnit", written for an input name that
    could not be read. *)
Theorem sales_fallback_file_not_validated
    (hyperion_3rd_file_path hyperion_IC_file_path : string)
    (group_to_pc_map : gmap string string) (file_parts : clean_sales.file_parts) :
  free_of "." (unit_name file_parts) = true →
  all_in digit (month_part file_parts) = true →
  year_part_short file_parts ≠ "" →
  all_in digit (year_part_short file_parts) = true →
  (∀ c, clean_sales.comp_no file_parts = Some c → all_in digit c = true) →
  sales_validation_target hyperion_3rd_file_path hyperion_IC_file_path
    group_to_pc_map (fallback_filename file_parts) = None.
Proof.
  intros Hu Hm Hy1 Hy2 Hc.
  assert (Hnone : ∀ w, all_in (fun x => negb (char_eqb true "." x)) w = true →
            sales_validation_target hyperion_3rd_file_path hyperion_IC_file_path
              group_to_pc_map (w ++ year_part_short file_parts ++ ".csv") = None).
  { intros w Hw.
    pose proof (untyped_name_no_type w _ Hw Hy1 (all_in_class true _ _ Hy2)) as H.
    unfold sales_validation_target, _get_pc_and_group_from_filename.
    rewrite (typed_patterns_no_match false _ H).
    by rewrite (typed_patterns_no_match true _ H). }
  apply (all_in_class true) in Hm.
  unfold free_of in Hu. apply (all_in_impl _ _ _ dot_insensitive) in Hu.
  apply digit_alnum_class, alnum_no_dot in Hm.
  assert (Heq : ∀ w, "Sales_Data_Processed_" ++ unit_name file_parts ++ "_" ++ w
                       ++ month_part file_parts ++ year_part_short file_parts
                       ++ ".csv"
                     = ("Sales_Data_Processed_" ++ unit_name file_parts ++ "_" ++ w
                          ++ month_part file_parts)
                         ++ year_part_short file_parts ++ ".csv")
    by (intros w; by rewrite !string_app_assoc).
  assert (Hplain : sales_validation_target hyperion_3rd_file_path
                     hyperion_IC_file_path group_to_pc_map
                     ("Sales_Data_Processed_" ++ unit_name file_parts ++ "_"
                        ++ month_part file_parts ++ year_part_short file_parts
                        ++ ".csv") = None).
  { rewrite <- (string_app_nil (month_part file_parts ++ _)), Heq.
    apply Hnone. by rewrite !all_in_app, Hu, Hm. }
  unfold fallback_filename.
  destruct (clean_sales.comp_no file_parts) as [c |] eqn:Ec; [| exact Hplain].
  destruct (String.eqb c ""); [exact Hplain |].
  specialize (Hc c eq_refl). apply (all_in_class true) in Hc.
  apply digit_alnum_class, alnum_no_dot in Hc.
  change (c ++ "_" ++ month_part file_parts ++ year_part_short file_parts ++ ".csv")
    with (c ++ ("_" ++ month_part file_parts ++ year_part_short file_parts
                  ++ ".csv")).
  rewrite <- (string_app_assoc c "_"), Heq.
  apply Hnone. by rewrite !all_in_app, Hu, Hc, Hm.
Qed.

(** *** The name of a typed file *)

Local Ltac lit_fails H :=
  intros ? ? H; rewrite run_seq; apply run_lit_head;
  first [ apply upper_alnum_not in H; tauto | apply digit_not in H; tauto ].

Lemma type_group_digits (d0 d1 : ascii) (t : string) r caps k :
  in_class true digit d0 = true → in_class true digit d1 = true →
  run true (Seq type_group r) (String d0 (String d1 t)) caps k = None.
Proof.
  intros H0 H1. destruct (digit_not_type true d0 H0) as (_ & _ & _ & HI).
  destruct (digit_not_type true d1 H1) as (_ & _ & HR & _).
  unfold type_group. cbn [run lit]. rewrite HI, HR.
  by destruct (char_eqb true "3" d0).
Qed.

Lemma type_group_match (seg_type : string) (caps : groups) :
  seg_type ∈ ["3RD"; "IC"] →
  run true (Seq type_group (Lit ".csv")) (seg_type ++ ".csv") caps
    (fun _ caps' => Some caps')
  = Some (caps ++ [Some seg_type])%list.
Proof.
  intros H. apply elem_of_cons in H as [-> | H]; [reflexivity |].
  apply elem_of_cons in H as [-> | H]; [reflexivity |].
  by apply elem_of_nil in H.
Qed.

Lemma sales_single_search (u c d seg_type : string) :
  word_of (in_class true upper_alnum) u → word_of (in_class true digit) c →
  String.length d = 4%nat → all_in (in_class true digit) d = true →
  seg_type ∈ ["3RD"; "IC"] →
  search true sales_single_regex
    ("Sales_Data_Processed_" ++ u ++ "_" ++ c ++ "_" ++ d ++ "_"
       ++ seg_type ++ ".csv")
  = Some [Some c; Some seg_type].
Proof.
  intros [Hu1 Hu2] [Hc1 Hc2] Hd1 Hd2 Hseg.
  set (T := u ++ "_" ++ c ++ "_" ++ d ++ "_" ++ seg_type ++ ".csv").
  unfold sales_single_regex. cbn [cat].
  set (tail := Seq (Group (Plus digit))
                 (Seq (Lit "_") (Seq (Times 4 digit)
                    (Seq (Lit "_") (Seq type_group (Lit ".csv")))))).
  assert (H5 : match_ true (Seq (Lit "_") (Seq (Plus upper_alnum)
                 (Seq (Lit "_") tail))) (String "_" ("Data_Processed_" ++ T))
               = None).
  { unfold match_.
    change (String "_" ("Data_Processed_" ++ T))
      with ("_" ++ ("Data" ++ ("_" ++ ("Processed_" ++ T)))).
    rewrite run_seq, run_lit, run_seq, run_plus.
    rewrite plus_exact; [| done | reflexivity | reflexivity | lit_fails H].
    rewrite run_seq, run_lit. reflexivity. }
  assert (H10 : match_ true (Seq (Lit "_") (Seq (Plus upper_alnum)
                  (Seq (Lit "_") tail))) (String "_" ("Processed_" ++ T))
                = None).
  { unfold match_.
    change (String "_" ("Processed_" ++ T))
      with ("_" ++ ("Processed" ++ ("_" ++ T))).
    rewrite run_seq, run_lit, run_seq, run_plus.
    rewrite plus_exact; [| done | reflexivity | reflexivity | lit_fails H].
    rewrite run_seq, run_lit.
    destruct (run true tail T [] (fun _ caps => Some caps)) as [x |] eqn:E;
      [| done].
    exfalso. unfold tail in E. rewrite run_seq in E.
    apply run_group_plus_inv in E as (w & r & Heq & [_ Hw] & E).
    rewrite run_seq in E. apply run_lit_underscore_inv in E as (r' & -> & E).
    unfold T in Heq.
    change (u ++ "_" ++ c ++ "_" ++ d ++ "_" ++ seg_type ++ ".csv")
      with (u ++ String "_" (c ++ String "_" (d ++ "_" ++ seg_type ++ ".csv")))
      in Heq.
    apply field_unique in Heq as [_ <-];
      [| by apply alnum_no_underscore | by apply digits_no_underscore].
    rewrite run_seq, run_times in E.
    apply times_sound in E as (w3 & r3 & Heq & _ & Hw3 & E).
    rewrite run_seq in E. apply run_lit_underscore_inv in E as (r3' & -> & E).
    apply field_unique in Heq as [_ <-];
      [| by apply digits_no_underscore | by apply digits_no_underscore].
    destruct d as [| d0 [| d1 d]]; try done.
    cbn [all_in] in Hd2. apply andb_true_iff in Hd2 as [H0 Hd2].
    apply andb_true_iff in Hd2 as [H1 _].
    rewrite !string_app_cons, type_group_digits in E by done. done. }
  change ("Sales_Data_Processed_" ++ T)
    with ("Sales" ++ String "_" ("Data_Processed_" ++ T)).
  rewrite search_skip by reflexivity. rewrite search_step by exact H5.
  change ("Data_Processed_" ++ T)
    with ("Data" ++ String "_" ("Processed_" ++ T)).
  rewrite search_skip by reflexivity. rewrite search_step by exact H10.
  change ("Processed_" ++ T) with ("Processed" ++ ("_" ++ T)).
  rewrite search_skip by reflexivity. apply search_match.
  unfold match_, T, tail.
  rewrite run_seq, run_lit, run_seq, run_plus.
  apply plus_greedy; [done | done | reflexivity |]. cbv beta.
  rewrite run_seq, run_lit. rewrite run_seq.
  apply run_group_plus_greedy; [done | done | reflexivity |].
  rewrite run_seq, run_lit. rewrite run_seq, run_times, <- Hd1, times_exact by done.
  rewrite run_seq, run_lit. by apply type_group_match.
Qed.

Lemma sales_date_search (u c d seg_type : string) :
  word_of (in_class true upper_alnum) u → word_of (in_class true digit) c →
  String.length d = 4%nat → all_in (in_class true digit) d = true →
  seg_type ∈ ["3RD"; "IC"] →
  search true (sales_date_regex seg_type)
    ("Sales_Data_Processed_" ++ u ++ "_" ++ c ++ "_" ++ d ++ "_"
       ++ seg_type ++ ".csv")
  = Some [Some d].
Proof.
  intros [Hu1 Hu2] [Hc1 Hc2] Hd1 Hd2 Hseg.
  unfold sales_date_regex. cbn [cat].
  assert (Hfield : ∀ f (d0 d1 : ascii) R,
            all_in (in_class true upper_alnum) f = true →
            in_class true digit d0 = true →
            in_class true digit d1 = true ∨ d1 = "_"%char →
            match_ true (Seq (Lit "_") (Seq (Group (Times 4 digit))
                           (Lit ("_" ++ seg_type ++ ".csv"))))
              (String "_" (f ++ String "_" (String d0 (String d1 R)))) = None).
  { intros f d0 d1 R Hf H0 H1. unfold match_.
    change (String "_" (f ++ String "_" (String d0 (String d1 R))))
      with ("_" ++ (f ++ String "_" (String d0 (String d1 R)))).
    rewrite run_seq, run_lit.
    destruct (run true _ (f ++ String "_" (String d0 (String d1 R))) []
                (fun _ caps => Some caps)) as [x |] eqn:E; [| done].
    exfalso. rewrite run_seq in E.
    apply run_group_times_inv in E as (w & r & Heq & _ & Hw & E).
    symmetry in Heq. apply field_prefix in Heq as (f2 & -> & ->);
      [| by apply digits_no_underscore].
    rewrite all_in_app in Hf. apply andb_true_iff in Hf as [_ Hf2].
    destruct (digit_not_type true d0 H0) as (_ & _ & _ & HI).
    assert (HR : char_eqb true "R" d1 = false).
    { destruct H1 as [H1 | ->]; [| reflexivity].
      by destruct (digit_not_type true d1 H1) as (_ & _ & HR & _). }
    destruct f2 as [| x0 f2].
    - rewrite string_app_nil in E. revert E.
      apply elem_of_cons in Hseg as [-> | Hseg].
      { change ("_" ++ "3RD" ++ ".csv") with "_3RD.csv".
        cbn [run lit]. rewrite HR.
        by destruct (char_eqb true "_" "_"), (char_eqb true "3" d0). }
      apply elem_of_cons in Hseg as [-> | Hseg]; [| by apply elem_of_nil in Hseg].
      change ("_" ++ "IC" ++ ".csv") with "_IC.csv".
      cbn [run lit]. rewrite HI. by destruct (char_eqb true "_" "_").
    - cbn [all_in] in Hf2. apply andb_true_iff in Hf2 as [Hx _].
      apply upper_alnum_not in Hx as (Hus & _ & _).
      rewrite (string_app_cons x0) in E. revert E.
      change ("_" ++ seg_type ++ ".csv") with (String "_" (seg_type ++ ".csv")).
      cbn [run lit]. by rewrite Hus. }
  destruct c as [| c0 c']; [done |].
  cbn [all_in] in Hc2. apply andb_true_iff in Hc2 as [Hc0 Hc2].
  destruct d as [| d0 [| d1 d']]; try done.
  pose proof Hd2 as Hd2'. cbn [all_in] in Hd2'.
  apply andb_true_iff in Hd2' as [H0 Hd2']. apply andb_true_iff in Hd2' as [H1 _].
  set (dd := String d0 (String d1 d')) in *.
  set (cc := String c0 c') in *.
  assert (Hcc : all_in (in_class true digit) cc = true)
    by (unfold cc; cbn [all_in]; by rewrite Hc0, Hc2).
  change ("Sales_Data_Processed_" ++ u ++ "_" ++ cc ++ "_" ++ dd ++ "_"
            ++ seg_type ++ ".csv")
    with ("Sales" ++ String "_" ("Data" ++ String "_" ("Processed" ++
            String "_" (u ++ String "_" (cc ++ String "_"
              (dd ++ "_" ++ seg_type ++ ".csv")))))).
  rewrite search_skip by reflexivity. rewrite search_step by reflexivity.
  rewrite search_skip by reflexivity. rewrite search_step by reflexivity.
  rewrite search_skip by reflexivity.
  assert (Hu_step : match_ true (Seq (Lit "_") (Seq (Group (Times 4 digit))
                      (Lit ("_" ++ seg_type ++ ".csv"))))
                      (String "_" (u ++ String "_" (cc ++ String "_"
                         (dd ++ "_" ++ seg_type ++ ".csv")))) = None).
  { unfold cc. destruct c' as [| c1 c''].
    - rewrite string_app_cons, string_app_nil. apply Hfield; [done | done |].
      by right.
    - rewrite !string_app_cons. apply Hfield; [done | done |]. left.
      cbn [all_in] in Hc2. by apply andb_true_iff in Hc2 as [Hc1' _]. }
  rewrite search_step by exact Hu_step.
  rewrite search_skip by (by apply alnum_no_underscore).
  assert (Hc_step : match_ true (Seq (Lit "_") (Seq (Group (Times 4 digit))
                      (Lit ("_" ++ seg_type ++ ".csv"))))
                      (String "_" (cc ++ String "_"
                         (dd ++ "_" ++ seg_type ++ ".csv"))) = None).
  { unfold dd. rewrite !string_app_cons.
    apply Hfield; [by apply digit_alnum_class | done | by left]. }
  rewrite search_step by exact Hc_step.
  rewrite search_skip by (by apply digits_no_underscore).
  apply search_match. unfold match_.
  change (String "_" (dd ++ "_" ++ seg_type ++ ".csv"))
    with ("_" ++ (dd ++ ("_" ++ seg_type ++ ".csv"))).
  rewrite run_seq, run_lit. rewrite run_seq, <- Hd1, run_group_times by done.
  by rewrite run_lit_end.
Qed.

(** *** The type tag in the name *)

Lemma upper_app (a b : string) : py.upper (a ++ b) = py.upper a ++ py.upper b.
Proof.
  induction a as [| c a IH]; [done |].
  rewrite string_app_cons. cbn [py.upper]. by rewrite IH.
Qed.

Lemma upper_fixed (s : string) : all_in upper_alnum s = true → py.upper s = s.
Proof.
  induction s as [| c s IH]; [done |]. cbn [all_in].
  rewrite andb_true_iff. intros [Hc Hs]. cbn [py.upper]. rewrite (IH Hs).
  f_equal. revert Hc.
  destruct c as [[] [] [] [] [] [] [] []]; vm_compute; intros H;
    try discriminate H; done.
Qed.

Lemma contains_app_r (sub p s : string) :
  py.contains sub s = true → py.contains sub (p ++ s) = true.
Proof.
  intros Hs. induction p as [| c p IH]; [done |].
  rewrite string_app_cons. cbn [py.contains]. rewrite IH. apply orb_true_r.
Qed.

Lemma contains_skip (a : ascii) (sub w rest : string) :
  all_in (fun c => negb (Ascii.eqb a c)) w = true →
  py.contains (String a sub) (w ++ rest) = py.contains (String a sub) rest.
Proof.
  induction w as [| c w IH]; [done |]. cbn [all_in].
  rewrite andb_true_iff, negb_true_iff. intros [Hc Hw].
  rewrite string_app_cons. cbn [py.contains String.prefix].
  destruct (ascii_dec a c) as [-> | _]; [by rewrite Ascii.eqb_refl in Hc |].
  by apply IH.
Qed.

Lemma contains_underscore (sub X : string) :
  py.contains (String "_" sub) (String "_" X)
  = String.prefix sub X || py.contains (String "_" sub) X.
Proof. cbn [py.contains String.prefix]. by destruct (ascii_dec "_" "_"). Qed.

Lemma alnum_no_underscore_eqb (s : string) :
  all_in upper_alnum s = true →
  all_in (fun c => negb (Ascii.eqb "_" c)) s = true.
Proof.
  apply all_in_impl. intros c.
  destruct c as [[] [] [] [] [] [] [] []]; vm_compute; intros H;
    try discriminate H; done.
Qed.

Lemma prefix_3RD_field (u R : string) :
  String.prefix "3RD" u = false →
  String.prefix "3RD" (u ++ String "_" R) = false.
Proof.
  destruct u as [| a [| b [| c u]]];
    rewrite ?string_app_cons, ?string_app_nil; cbn [String.prefix];
    repeat (destruct (ascii_dec _ _)); try done.
  by rewrite !prefix_nil.
Qed.

Lemma prefix_3RD_digits (c R : string) :
  all_in digit c = true → String.prefix "3RD" (c ++ String "_" R) = false.
Proof.
  intros Hc. apply prefix_3RD_field.
  destruct c as [| a [| b c]]; cbn [String.prefix];
    repeat (destruct (ascii_dec _ _)); try done.
  subst. cbn [all_in] in Hc. by rewrite andb_false_r in Hc.
Qed.

Lemma typed_name_tag (u c d seg_type : string) :
  all_in upper_alnum u = true → all_in digit c = true →
  all_in digit d = true → seg_type ∈ ["3RD"; "IC"] →
  (seg_type = "IC" → String.prefix "3RD" u = false) →
  (if py.contains "_3RD"
        (py.upper ("Sales_Data_Processed_" ++ u ++ "_" ++ c ++ "_" ++ d ++ "_"
                     ++ seg_type ++ ".csv"))
   then "3RD"
   else if py.contains "_IC"
             (py.upper ("Sales_Data_Processed_" ++ u ++ "_" ++ c ++ "_" ++ d
                          ++ "_" ++ seg_type ++ ".csv"))
   then "IC" else "") = seg_type.
Proof.
  intros Hu Hc Hd Hseg Hpre.
  assert (Hname : py.upper ("Sales_Data_Processed_" ++ u ++ "_" ++ c ++ "_"
                              ++ d ++ "_" ++ seg_type ++ ".csv")
                  = "SALES" ++ String "_" ("DATA" ++ String "_" ("PROCESSED" ++
                      String "_" (u ++ String "_" (c ++ String "_" (d ++
                        String "_" (py.upper (seg_type ++ ".csv")))))))).
  { rewrite !upper_app, (upper_fixed u Hu).
    rewrite (upper_fixed c (all_in_impl _ _ _ digit_upper_alnum Hc)).
    by rewrite (upper_fixed d (all_in_impl _ _ _ digit_upper_alnum Hd)). }
  rewrite Hname.
  apply elem_of_cons in Hseg as [-> | Hseg].
  - rewrite contains_app_r; [done |]. apply (contains_app_r _ (String "_" "DATA")).
    apply (contains_app_r _ (String "_" "PROCESSED")).
    apply (contains_app_r _ (String "_" u)).
    apply (contains_app_r _ (String "_" c)).
    apply (contains_app_r _ (String "_" d)). reflexivity.
  - apply elem_of_cons in Hseg as [-> | Hseg]; [| by apply elem_of_nil in Hseg].
    specialize (Hpre eq_refl).
    assert (H3 : py.contains "_3RD"
              ("SALES" ++ String "_" ("DATA" ++ String "_" ("PROCESSED" ++
                 String "_" (u ++ String "_" (c ++ String "_" (d ++
                   String "_" (py.upper ("IC" ++ ".csv")))))))) = false).
    { rewrite contains_skip by reflexivity.
      rewrite contains_underscore, contains_skip by reflexivity.
      rewrite contains_underscore, contains_skip by reflexivity.
      rewrite contains_underscore, (prefix_3RD_field _ _ Hpre).
      rewrite contains_skip by (by apply alnum_no_underscore_eqb).
      rewrite contains_underscore, (prefix_3RD_digits _ _ Hc).
      rewrite contains_skip
        by (by apply alnum_no_underscore_eqb, (all_in_impl _ _ _ digit_upper_alnum)).
      replace (d ++ String "_" (py.upper ("IC" ++ ".csv")))
        with (d ++ String "_" "IC.CSV") by reflexivity.
      rewrite contains_underscore, (prefix_3RD_digits _ _ Hd).
      rewrite contains_skip
        by (by apply alnum_no_underscore_eqb, (all_in_impl _ _ _ digit_upper_alnum)).
      reflexivity. }
    rewrite H3.
    rewrite contains_app_r; [done |]. apply (contains_app_r _ (String "_" "DATA")).
    apply (contains_app_r _ (String "_" "PROCESSED")).
    apply (contains_app_r _ (String "_" u)).
    apply (contains_app_r _ (String "_" c)).
    apply (contains_app_r _ (String "_" d)). reflexivity.
Qed.

(** X24. A 3RD or IC file the sales pipeline writes for an entity number
    is one the validation accepts: it reads from the name the entity number
    as the profit center of a single entity, the type, and the date part
    MMYY, whose month names the sheet.  An IC file needs a unit that does
    not begin with 3RD, or the test for the type takes it for a 3RD file. *)
Theorem sales_written_file_is_validated
    (hyperion_3rd_file_path hyperion_IC_file_path : string)
    (group_to_pc_map : gmap string string) (file_parts : clean_sales.file_parts)
    (comp_no seg_type : string) :
  clean_sales.comp_no file_parts = Some comp_no →
  word_of upper_alnum (unit_name file_parts) → word_of digit comp_no →
  String.length (month_part file_parts) = 2%nat →
  all_in digit (month_part file_parts) = true →
  String.length (year_part_short file_parts) = 2%nat →
  all_in digit (year_part_short file_parts) = true →
  seg_type ∈ ["3RD"; "IC"] →
  (seg_type = "IC" → String.prefix "3RD" (unit_name file_parts) = false) →
  hyperion_3rd_file_path ≠ "" → hyperion_IC_file_path ≠ "" →
  sales_validation_target hyperion_3rd_file_path hyperion_IC_file_path
    group_to_pc_map (segregated_filename file_parts seg_type)
  = Some {| st_pc_str := comp_no; st_is_grouped := false;
            st_file_type_str := seg_type;
            st_date_part := month_part file_parts ++ year_part_short file_parts;
            st_month_abbr :=
              default "Sheet1"
                (snd <$> List.find
                           (fun kv => String.eqb kv.1 (month_part file_parts))
                           month_num_to_abbr) |}.
Proof.
  intros Hcomp [Hu1 Hu2] [Hc1 Hc2] Hm1 Hm2 Hy1 Hy2 Hseg Hpre H3 HIC.
  unfold segregated_filename. rewrite Hcomp. cbn [default from_option id].
  rewrite <- (string_app_assoc (month_part file_parts)).
  set (d := month_part file_parts ++ year_part_short file_parts).
  assert (Hd1 : String.length d = 4%nat)
    by (unfold d; rewrite string_length_app; lia).
  assert (Hd2 : all_in digit d = true)
    by (unfold d; by rewrite all_in_app, Hm2, Hy2).
  assert (Hsub : String.substring 0 2 d = month_part file_parts)
    by (unfold d; rewrite <- Hm1; apply substring_app).
  pose proof (sales_single_search _ _ _ _
                (conj Hu1 (all_in_class true _ _ Hu2))
                (conj Hc1 (all_in_class true _ _ Hc2)) Hd1
                (all_in_class true _ _ Hd2) Hseg) as Hsingle.
  pose proof (sales_date_search _ _ _ _
                (conj Hu1 (all_in_class true _ _ Hu2))
                (conj Hc1 (all_in_class true _ _ Hc2)) Hd1
                (all_in_class true _ _ Hd2) Hseg) as Hdate.
  pose proof (typed_name_tag _ _ _ _ Hu2 Hc2 Hd2 Hseg Hpre) as Htag.
  unfold sales_validation_target, _get_pc_and_group_from_filename.
  rewrite Hsingle.
  cbn [group lookup list_lookup Nat.sub mjoin option_join default from_option id].
  rewrite (strip_digits _ (all_in_class true _ _ Hc2)).
  destruct comp_no as [| c0 c']; [done |].
  set (name := "Sales_Data_Processed_" ++ _) in *.
  destruct (py.contains "_3RD" (py.upper name)).
  - subst seg_type. rewrite Hdate.
    cbn [group lookup list_lookup Nat.sub mjoin option_join default from_option id].
    destruct hyperion_3rd_file_path; [done |].
    destruct d as [| d0 d']; [done |]. cbn [String.eqb orb]. cbv zeta.
    by rewrite Hsub.
  - destruct (py.contains "_IC" (py.upper name)).
    + subst seg_type. rewrite Hdate.
      cbn [group lookup list_lookup Nat.sub mjoin option_join default
           from_option id].
      destruct hyperion_IC_file_path; [done |].
      destruct d as [| d0 d']; [done |]. cbn [String.eqb orb]. cbv zeta.
      by rewrite Hsub.
    + subst seg_type. apply elem_of_cons in Hseg as [[=] | Hseg].
      apply elem_of_cons in Hseg as [[=] | Hseg]. by apply elem_of_nil in Hseg.
Qed.

End SalesValidation.

(** The IC file of entity 2033 of unit DK01 for September 2025. *)
Lemma sales_written_file_is_validated_witness :
  sales_validation_target "Sales_3RD.xlsx" "Sales_IC.xlsx" ∅
    "Sales_Data_Processed_DK01_2033_0925_IC.csv"
  = Some {| st_pc_str := "2033"; st_is_grouped := false;
            st_file_type_str := "IC"; st_date_part := "0925";
            st_month_abbr := "Sep" |}.
Proof.
  apply (sales_written_file_is_validated "Sales_3RD.xlsx" "Sales_IC.xlsx" ∅
           {| clean_sales.unit_name := "DK01"; clean_sales.comp_no := Some "2033";
              clean_sales.month_part := "09"; clean_sales.year_part_short := "25";
              clean_sales.sales_col := "Sales SEP 2025";
              clean_sales.py_col := "PY Sales SEP 2024" |} "2033" "IC");
    first [ reflexivity | discriminate
          | split; [discriminate | reflexivity]
          | apply (bool_decide_unpack _); vm_compute; exact I ].
Defined.

(** The fallback file of the same entity, and the fallback file written in
    November 2026 for an input name that could not be read. *)
Lemma sales_fallback_file_not_validated_witness :
  sales_validation_target "Sales_3RD.xlsx" "Sales_IC.xlsx" ∅
    "Sales_Data_Processed_DK01_2033_0925.csv" = None ∧
  sales_validation_target "Sales_3RD.xlsx" "Sales_IC.xlsx" ∅
    "Sales_Data_Processed_UnknownUnit_1126.csv" = None.
Proof.
  split.
  - apply (sales_fallback_file_not_validated "Sales_3RD.xlsx" "Sales_IC.xlsx" ∅
             {| clean_sales.unit_name := "DK01"; clean_sales.comp_no := Some "2033";
                clean_sales.month_part := "09"; clean_sales.year_part_short := "25";
                clean_sales.sales_col := "Sales SEP 2025";
                clean_sales.py_col := "PY Sales SEP 2024" |}).
    + reflexivity.
    + reflexivity.
    + discriminate.
    + reflexivity.
    + intros c [= <-]. reflexivity.
  - apply (sales_fallback_file_not_validated "Sales_3RD.xlsx" "Sales_IC.xlsx" ∅
             {| clean_sales.unit_name := "UnknownUnit"; clean_sales.comp_no := None;
                clean_sales.month_part := "11"; clean_sales.year_part_short := "26";
                clean_sales.sales_col := "Sales NOV 2026";
                clean_sales.py_col := "PY Sales NOV 2025" |}).
    + reflexivity.
    + reflexivity.
    + discriminate.
    + reflexivity.
    + intros c [=].
Defined.

(** ** The grouping of the sales files *)

Section Grouping.

Variable A : Type.
Variable read_csv : string → py.result A.
Variable concat_to_csv : list A → py.result string.
Variable output_folder : string.
Variable group_map : gmap string string.

Local Abbreviation path := (py.path_join output_folder).
Local Abbreviation first_loop_step :=
  (fun '(files_to_group, final_file_list) filename =>
     match sales_group_key group_map filename with
     | None => (files_to_group, final_file_list ++ [filename])%list
     | Some key =>
         (queue files_to_group key (py.path_join output_folder filename),
          final_file_list)
     end).

Lemma queue_files_kept (processed_files : list string)
    (files_to_group : list (group_key * list string))
    (final_file_list : list string) :
  (∀ f, f ∈ processed_files → sales_group_key group_map f = None) →
  foldl first_loop_step (files_to_group, final_file_list) processed_files
  = (files_to_group, (final_file_list ++ processed_files)%list).
Proof.
  revert final_file_list.
  induction processed_files as [| f l IH]; intros final_file_list Hall.
  - by rewrite app_nil_r.
  - cbn [foldl]. rewrite (Hall f) by apply list_elem_of_here.
    rewrite IH by (intros g Hg; apply Hall; by apply list_elem_of_further).
    by rewrite <- app_assoc.
Qed.

Lemma queue_files_one_key (key : group_key) (processed_files : list string)
    (file_paths final_file_list : list string) :
  (∀ f, f ∈ processed_files → sales_group_key group_map f = Some key) →
  foldl first_loop_step ([(key, file_paths)], final_file_list) processed_files
  = ([(key, (file_paths ++ (path <$> processed_files))%list)], final_file_list).
Proof.
  revert file_paths.
  induction processed_files as [| f l IH]; intros file_paths Hall.
  - by rewrite app_nil_r.
  - cbn [foldl]. rewrite (Hall f) by apply list_elem_of_here.
    cbn [queue]. rewrite decide_True by done.
    rewrite IH by (intros g Hg; apply Hall; by apply list_elem_of_further).
    by rewrite <- app_assoc.
Qed.

(** X26. When no file of the list has a group (its name is not that of a
    processed sales file, it has no entity number, or the entity number has
    no group), the grouping returns the list as it came and touches no
    file. *)
Theorem group_sales_files_nothing_to_group (processed_files : list string)
    (disk : gmap string string) :
  (∀ f, f ∈ processed_files → sales_group_key group_map f = None) →
  group_sales_files A read_csv concat_to_csv output_folder processed_files
    group_map disk
  = (disk, processed_files).
Proof.
  intros Hall. unfold group_sales_files.
  destruct (bool_decide (group_map = ∅)); [done |].
  unfold queue_files. by rewrite (queue_files_kept _ [] [] Hall).
Qed.

(** X27. When every file of the list falls into one group and at least one
    of them can be read, the merged file is written under the name of the
    group, the returned list holds that name alone, and every file of the
    group is removed: also one that could not be read and so is no part of
    the merged file. *)
Theorem group_sales_files_merges (key : group_key)
    (processed_files : list string) (disk : gmap string string)
    (df : A) (df_list : list A) (content : string) :
  (∀ f, f ∈ processed_files → sales_group_key group_map f = Some key) →
  read_group A read_csv disk (path <$> processed_files) = df :: df_list →
  concat_to_csv (df :: df_list) = py.Return content →
  group_sales_files A read_csv concat_to_csv output_folder processed_files
    group_map disk
  = (foldl os_remove (<[path (new_filename key) := content]> disk)
       (path <$> processed_files),
     [new_filename key]).
Proof.
  intros Hall Hread Hconcat. unfold group_sales_files.
  destruct processed_files as [| f l]; [done |].
  assert (Hf : sales_group_key group_map f = Some key)
    by apply Hall, list_elem_of_here.
  rewrite bool_decide_false.
  2: { intros ->. revert Hf. unfold sales_group_key.
       destruct (_parse_sales_filename f) as [file_info |]; [| done].
       unfold get_truthy. rewrite lookup_empty.
       by destruct (String.eqb (sfi_comp_no file_info) ""). }
  unfold queue_files. cbn [foldl]. rewrite Hf. cbn [queue].
  rewrite (queue_files_one_key key l)
    by (intros g Hg; apply Hall; by apply list_elem_of_further).
  cbn [foldl merge_group app]. rewrite fmap_cons in Hread.
  rewrite Hread, Hconcat. done.
Qed.

End Grouping.

(** Two files of one group, the second of which cannot be read: the merged
    file holds the first, and both are removed. *)
Lemma group_sales_files_merges_witness :
  let read_csv (content : string) : py.result string :=
    if String.eqb content "" then py.Raise py.ValueError else py.Return content in
  let concat_to_csv (l : list string) : py.result string :=
    py.Return (String.concat "+" l) in
  group_sales_files string read_csv concat_to_csv "out"
    ["Sales_Data_Processed_DK01_2033_0925_3RD.csv";
     "Sales_Data_Processed_SE01_2040_0925_3RD.csv"]
    {[ "2033" := "Nordic"; "2040" := "Nordic" ]}
    {[ "out/Sales_Data_Processed_DK01_2033_0925_3RD.csv" := "a";
       "out/Sales_Data_Processed_SE01_2040_0925_3RD.csv" := "" ]}
  = ({[ "out/Sales_Data_Processed_Nordic_0925_3RD.csv" := "a" ]},
     ["Sales_Data_Processed_Nordic_0925_3RD.csv"]).
Proof.
  intros read_csv concat_to_csv.
  pose proof (group_sales_files_merges string read_csv concat_to_csv "out"
                {[ "2033" := "Nordic"; "2040" := "Nordic" ]}
                ("Nordic", "0925", Some "3RD")
                ["Sales_Data_Processed_DK01_2033_0925_3RD.csv";
                 "Sales_Data_Processed_SE01_2040_0925_3RD.csv"]
                {[ "out/Sales_Data_Processed_DK01_2033_0925_3RD.csv" := "a";
                   "out/Sales_Data_Processed_SE01_2040_0925_3RD.csv" := "" ]}
                "a" [] "a") as H.
  rewrite H.
  - vm_compute. reflexivity.
  - intros f Hf. apply elem_of_cons in Hf as [-> | Hf]; [vm_compute; reflexivity |].
    apply elem_of_cons in Hf as [-> | Hf]; [vm_compute; reflexivity |].
    by apply elem_of_nil in Hf.
  - vm_compute. reflexivity.
  - vm_compute. reflexivity.
Defined.

(** A file that is not a processed sales file, and a fallback file without
    an entity number. *)
Lemma group_sales_files_nothing_to_group_witness :
  group_sales_files string py.Return (fun _ => py.Raise py.ValueError) "out"
    ["other.csv"; "Sales_Data_Processed_DK01_0925.csv"]
    {[ "2033" := "Nordic" ]} ∅
  = (∅, ["other.csv"; "Sales_Data_Processed_DK01_0925.csv"]).
Proof.
  apply (group_sales_files_nothing_to_group string py.Return
           (fun _ => py.Raise py.ValueError) "out" {[ "2033" := "Nordic" ]}).
  intros f Hf. apply elem_of_cons in Hf as [-> | Hf]; [vm_compute; reflexivity |].
  apply elem_of_cons in Hf as [-> | Hf]; [vm_compute; reflexivity |].
  by apply elem_of_nil in Hf.
Defined.

(** ** The validation of a merged sales file *)

Section MergedSalesValidation.

Import re.

Lemma group_name_char_facts (c : ascii) :
  in_class true group_name_char c = true →
  in_class true digit c = false ∧ char_eqb true "_" c = false ∧
  Ascii.eqb "_" (py.upper_char c) = false ∧
  Ascii.eqb "3" (py.upper_char c) = false.
Proof.
  destruct c as [[] [] [] [] [] [] [] []]; vm_compute; intros H;
    try discriminate H; done.
Qed.

Lemma group_name_no_underscore (g : string) :
  all_in (in_class true group_name_char) g = true → no_underscore g = true.
Proof.
  apply all_in_impl. intros c Hc.
  apply group_name_char_facts in Hc as (_ & -> & _). done.
Qed.

Local Ltac lit_fails H :=
  intros ? ? H; rewrite run_seq; apply run_lit_head;
  first [ apply upper_alnum_not in H; tauto | apply digit_not in H; tauto ].

Lemma merged_single_search (g d seg_type : string) :
  word_of (in_class true group_name_char) g →
  String.length d = 4%nat → all_in (in_class true digit) d = true →
  seg_type ∈ ["3RD"; "IC"] →
  search true sales_single_regex
    ("Sales_Data_Processed_" ++ g ++ "_" ++ d ++ "_" ++ seg_type ++ ".csv")
  = None.
Proof.
  intros [Hg1 Hg2] Hd1 Hd2 Hseg.
  set (E := seg_type ++ ".csv").
  assert (HE : E = "3RD.csv" ∨ E = "IC.csv").
  { unfold E. apply elem_of_cons in Hseg as [-> | Hseg]; [by left |].
    apply elem_of_cons in Hseg as [-> | Hseg]; [by right |].
    by apply elem_of_nil in Hseg. }
  clearbody E. clear Hseg.
  set (T := g ++ "_" ++ d ++ "_" ++ E).
  unfold sales_single_regex. cbn [cat].
  set (tail := Seq (Group (Plus digit))
                 (Seq (Lit "_") (Seq (Times 4 digit)
                    (Seq (Lit "_") (Seq type_group (Lit ".csv")))))).
  set (r := Seq (Lit "_") (Seq (Plus upper_alnum) (Seq (Lit "_") tail))).
  assert (H5 : match_ true r (String "_" ("Data_Processed_" ++ T)) = None).
  { unfold match_, r.
    change (String "_" ("Data_Processed_" ++ T))
      with ("_" ++ ("Data" ++ ("_" ++ ("Processed_" ++ T)))).
    rewrite run_seq, run_lit, run_seq, run_plus.
    rewrite plus_exact; [| done | reflexivity | reflexivity | lit_fails H].
    rewrite run_seq, run_lit. reflexivity. }
  assert (H10 : match_ true r (String "_" ("Processed_" ++ T)) = None).
  { unfold match_, r.
    change (String "_" ("Processed_" ++ T))
      with ("_" ++ ("Processed" ++ ("_" ++ T))).
    rewrite run_seq, run_lit, run_seq, run_plus.
    rewrite plus_exact; [| done | reflexivity | reflexivity | lit_fails H].
    rewrite run_seq, run_lit. unfold tail, T. rewrite run_seq. cbn [run].
    apply plus_stops. destruct g as [| c g]; [done |].
    cbn [all_in] in Hg2. apply andb_true_iff in Hg2 as [Hc _].
    rewrite string_app_cons. cbn [stops].
    by apply group_name_char_facts in Hc as (-> & _). }
  assert (Hg : match_ true r (String "_" T) = None).
  { unfold match_, r.
    destruct (run true _ (String "_" T) [] (fun _ caps => Some caps))
      as [x |] eqn:Ex; [| done].
    exfalso. change (String "_" T) with ("_" ++ T) in Ex.
    rewrite run_seq, run_lit, run_seq, run_plus in Ex.
    apply plus_sound in Ex as (w & rest & Heq & _ & Hw & Ex).
    rewrite run_seq in Ex. apply run_lit_underscore_inv in Ex as (r' & -> & Ex).
    unfold T in Heq.
    change (g ++ "_" ++ d ++ "_" ++ E) with (g ++ String "_" (d ++ String "_" E))
      in Heq.
    apply field_unique in Heq as [_ <-];
      [| by apply group_name_no_underscore | by apply alnum_no_underscore].
    unfold tail in Ex. rewrite run_seq in Ex.
    apply run_group_plus_inv in Ex as (w2 & r2 & Heq & [_ Hw2] & Ex).
    rewrite run_seq in Ex. apply run_lit_underscore_inv in Ex as (r2' & -> & Ex).
    apply field_unique in Heq as [_ <-];
      [| by apply digits_no_underscore | by apply digits_no_underscore].
    by destruct HE as [-> | ->]. }
  assert (Hd : match_ true r (String "_" (d ++ String "_" E)) = None).
  { unfold match_, r.
    destruct (run true _ (String "_" (d ++ String "_" E)) []
                (fun _ caps => Some caps)) as [x |] eqn:Ex; [| done].
    exfalso.
    change (String "_" (d ++ String "_" E)) with ("_" ++ (d ++ String "_" E))
      in Ex.
    rewrite run_seq, run_lit, run_seq, run_plus in Ex.
    apply plus_sound in Ex as (w & rest & Heq & _ & Hw & Ex).
    rewrite run_seq in Ex. apply run_lit_underscore_inv in Ex as (r' & -> & Ex).
    apply field_unique in Heq as [_ <-];
      [| by apply digits_no_underscore | by apply alnum_no_underscore].
    by destruct HE as [-> | ->]. }
  change ("Sales_Data_Processed_" ++ T)
    with ("Sales" ++ String "_" ("Data" ++ String "_" ("Processed" ++
            String "_" (g ++ String "_" (d ++ String "_" E))))).
  fold r.
  unfold r at 1. rewrite search_skip by reflexivity. fold r.
  rewrite search_step by exact H5.
  unfold r at 1. rewrite search_skip by reflexivity. fold r.
  rewrite search_step by exact H10.
  unfold r at 1. rewrite search_skip by reflexivity. fold r.
  rewrite search_step by exact Hg.
  unfold r at 1. rewrite search_skip by (by apply group_name_no_underscore).
  fold r. rewrite search_step by exact Hd.
  unfold r at 1. rewrite search_skip by (by apply digits_no_underscore).
  subst r tail. by destruct HE as [-> | ->].
Qed.

Lemma merged_grouped_search (g d seg_type : string) :
  word_of (in_class true group_name_char) g →
  String.length d = 4%nat → all_in (in_class true digit) d = true →
  seg_type ∈ ["3RD"; "IC"] →
  search true sales_grouped_regex
    ("Sales_Data_Processed_" ++ g ++ "_" ++ d ++ "_" ++ seg_type ++ ".csv")
  = Some [Some g; Some seg_type].
Proof.
  intros [Hg1 Hg2] Hd1 Hd2 Hseg.
  set (T := g ++ "_" ++ d ++ "_" ++ seg_type ++ ".csv").
  unfold sales_grouped_regex. cbn [cat].
  change ("Sales_Data_Processed_" ++ T)
    with ("Sales" ++ String "_" ("Data" ++ ("_Processed_" ++ T))).
  rewrite search_skip by reflexivity. rewrite search_step by reflexivity.
  rewrite search_skip by reflexivity. apply search_match.
  unfold match_, T.
  rewrite run_seq, run_lit. rewrite run_seq.
  apply run_group_plus_greedy; [done | done | reflexivity |].
  rewrite run_seq, run_lit. rewrite run_seq, run_times, <- Hd1, times_exact by done.
  rewrite run_seq, run_lit. by apply type_group_match.
Qed.

Lemma merged_date_search (g d seg_type : string) :
  word_of (in_class true group_name_char) g →
  String.length d = 4%nat → all_in (in_class true digit) d = true →
  search true (sales_date_regex seg_type)
    ("Sales_Data_Processed_" ++ g ++ "_" ++ d ++ "_" ++ seg_type ++ ".csv")
  = Some [Some d].
Proof.
  intros [Hg1 Hg2] Hd1 Hd2.
  unfold sales_date_regex. cbn [cat].
  change ("Sales_Data_Processed_" ++ g ++ "_" ++ d ++ "_" ++ seg_type ++ ".csv")
    with ("Sales" ++ String "_" ("Data" ++ String "_" ("Processed" ++
            String "_" (g ++ String "_" (d ++ ("_" ++ seg_type ++ ".csv")))))).
  rewrite search_skip by reflexivity. rewrite search_step by reflexivity.
  rewrite search_skip by reflexivity. rewrite search_step by reflexivity.
  rewrite search_skip by reflexivity.
  rewrite search_step.
  2: { destruct g as [| c g]; [done |].
       cbn [all_in] in Hg2. apply andb_true_iff in Hg2 as [Hc _].
       apply group_name_char_facts in Hc as (Hc & _).
       unfold match_. rewrite (string_app_cons c).
       change (String "_" (String c ?X)) with ("_" ++ String c X).
       rewrite run_seq, run_lit, run_seq. cbn [run times]. by rewrite Hc. }
  rewrite search_skip by (by apply group_name_no_underscore).
  apply search_match. unfold match_.
  change (String "_" (d ++ ("_" ++ seg_type ++ ".csv")))
    with ("_" ++ (d ++ ("_" ++ seg_type ++ ".csv"))).
  rewrite run_seq, run_lit. rewrite run_seq, <- Hd1, run_group_times by done.
  by rewrite run_lit_end.
Qed.

Lemma upper_group_name (g : string) :
  all_in (in_class true group_name_char) g = true →
  all_in (fun c => negb (Ascii.eqb "_" c)) (py.upper g) = true ∧
  ∀ R, String.prefix "3RD" (py.upper g ++ String "_" R) = false.
Proof.
  intros Hg. split.
  - induction g as [| c g IH]; [done |]. cbn [all_in] in Hg.
    apply andb_true_iff in Hg as [Hc Hg]. cbn [py.upper all_in].
    apply group_name_char_facts in Hc as (_ & _ & -> & _). by rewrite IH.
  - intros R. destruct g as [| c g]; [done |]. cbn [all_in] in Hg.
    apply andb_true_iff in Hg as [Hc _].
    apply group_name_char_facts in Hc as (_ & _ & _ & Hc).
    cbn [py.upper]. rewrite string_app_cons. cbn [String.prefix].
    destruct (ascii_dec "3" (py.upper_char c)) as [E | _]; [| done].
    by rewrite <- E in Hc.
Qed.

Lemma merged_name_tag (g d seg_type : string) :
  all_in (in_class true group_name_char) g = true →
  all_in digit d = true → seg_type ∈ ["3RD"; "IC"] →
  (if py.contains "_3RD"
        (py.upper ("Sales_Data_Processed_" ++ g ++ "_" ++ d ++ "_"
                     ++ seg_type ++ ".csv"))
   then "3RD"
   else if py.contains "_IC"
             (py.upper ("Sales_Data_Processed_" ++ g ++ "_" ++ d ++ "_"
                          ++ seg_type ++ ".csv"))
   then "IC" else "") = seg_type.
Proof.
  intros Hg Hd Hseg. destruct (upper_group_name g Hg) as [Hus H3rd].
  assert (Hname : py.upper ("Sales_Data_Processed_" ++ g ++ "_" ++ d ++ "_"
                              ++ seg_type ++ ".csv")
                  = "SALES" ++ String "_" ("DATA" ++ String "_" ("PROCESSED" ++
                      String "_" (py.upper g ++ String "_" (d ++
                        String "_" (py.upper (seg_type ++ ".csv"))))))).
  { rewrite !upper_app.
    by rewrite (upper_fixed d (all_in_impl _ _ _ digit_upper_alnum Hd)). }
  rewrite Hname.
  apply elem_of_cons in Hseg as [-> | Hseg].
  - rewrite contains_app_r; [done |]. apply (contains_app_r _ (String "_" "DATA")).
    apply (contains_app_r _ (String "_" "PROCESSED")).
    apply (contains_app_r _ (String "_" (py.upper g))).
    apply (contains_app_r _ (String "_" d)). reflexivity.
  - apply elem_of_cons in Hseg as [-> | Hseg]; [| by apply elem_of_nil in Hseg].
    assert (H3 : py.contains "_3RD"
              ("SALES" ++ String "_" ("DATA" ++ String "_" ("PROCESSED" ++
                 String "_" (py.upper g ++ String "_" (d ++
                   String "_" (py.upper ("IC" ++ ".csv"))))))) = false).
    { rewrite contains_skip by reflexivity.
      rewrite contains_underscore, contains_skip by reflexivity.
      rewrite contains_underscore, contains_skip by reflexivity.
      rewrite contains_underscore, H3rd.
      rewrite contains_skip by done.
      replace (d ++ String "_" (py.upper ("IC" ++ ".csv")))
        with (d ++ String "_" "IC.CSV") by reflexivity.
      rewrite contains_underscore, (prefix_3RD_digits _ _ Hd).
      rewrite contains_skip
        by (by apply alnum_no_underscore_eqb, (all_in_impl _ _ _ digit_upper_alnum)).
      reflexivity. }
    rewrite H3.
    rewrite contains_app_r; [done |]. apply (contains_app_r _ (String "_" "DATA")).
    apply (contains_app_r _ (String "_" "PROCESSED")).
    apply (contains_app_r _ (String "_" (py.upper g))).
    apply (contains_app_r _ (String "_" d)). reflexivity.
Qed.

(** X28. The merged file of a group is one the validation accepts as a
    grouped file, when the name of the group is made of letters, blanks,
    brackets and hyphens and the directory gives the group a summary profit
    center: the validation then checks that profit center, for the type and
    the date part of the merged files. *)
Theorem merged_sales_file_is_validated
    (hyperion_3rd_file_path hyperion_IC_file_path : string)
    (group_to_pc_map : gmap string string)
    (group_name date_part file_type pc_for_group : string) :
  word_of (in_class true group_name_char) group_name →
  String.length date_part = 4%nat → all_in digit date_part = true →
  file_type ∈ ["3RD"; "IC"] →
  group_to_pc_map !! py.strip group_name = Some pc_for_group →
  pc_for_group ≠ "" →
  hyperion_3rd_file_path ≠ "" → hyperion_IC_file_path ≠ "" →
  sales_validation_target hyperion_3rd_file_path hyperion_IC_file_path
    group_to_pc_map (new_filename (group_name, date_part, Some file_type))
  = Some {| st_pc_str := pc_for_group; st_is_grouped := true;
            st_file_type_str := file_type; st_date_part := date_part;
            st_month_abbr :=
              default "Sheet1"
                (snd <$> List.find
                           (fun kv => String.eqb kv.1
                                        (String.substring 0 2 date_part))
                           month_num_to_abbr) |}.
Proof.
  intros Hg Hd1 Hd2 Hseg Hpc Hne H3 HIC. cbn [new_filename].
  pose proof (merged_single_search _ _ _ Hg Hd1 (all_in_class true _ _ Hd2) Hseg)
    as Hsingle.
  pose proof (merged_grouped_search _ _ _ Hg Hd1 (all_in_class true _ _ Hd2) Hseg)
    as Hgrouped.
  pose proof (merged_date_search _ _ file_type Hg Hd1 (all_in_class true _ _ Hd2))
    as Hdate.
  pose proof (merged_name_tag _ _ _ (proj2 Hg) Hd2 Hseg) as Htag.
  unfold sales_validation_target, _get_pc_and_group_from_filename.
  rewrite Hsingle, Hgrouped.
  cbn [group lookup list_lookup Nat.sub mjoin option_join default from_option id].
  unfold get_truthy. rewrite Hpc.
  destruct pc_for_group as [| c0 c']; [done |].
  set (name := "Sales_Data_Processed_" ++ _) in *.
  destruct (py.contains "_3RD" (py.upper name)).
  - subst file_type. rewrite Hdate.
    cbn [group lookup list_lookup Nat.sub mjoin option_join default from_option id].
    destruct hyperion_3rd_file_path; [done |].
    by destruct date_part as [| d0 d'].
  - destruct (py.contains "_IC" (py.upper name)).
    + subst file_type. rewrite Hdate.
      cbn [group lookup list_lookup Nat.sub mjoin option_join default
           from_option id].
      destruct hyperion_IC_file_path; [done |].
      by destruct date_part as [| d0 d'].
    + subst file_type. apply elem_of_cons in Hseg as [[=] | Hseg].
      apply elem_of_cons in Hseg as [[=] | Hseg]. by apply elem_of_nil in Hseg.
Qed.

End MergedSalesValidation.

(** The merged 3RD file of the group Nordic for September 2025. *)
Lemma merged_sales_file_is_validated_witness :
  sales_validation_target "Sales_3RD.xlsx" "Sales_IC.xlsx"
    {[ "Nordic" := "9001" ]} "Sales_Data_Processed_Nordic_0925_3RD.csv"
  = Some {| st_pc_str := "9001"; st_is_grouped := true;
            st_file_type_str := "3RD"; st_date_part := "0925";
            st_month_abbr := "Sep" |}.
Proof.
  apply (merged_sales_file_is_validated "Sales_3RD.xlsx" "Sales_IC.xlsx"
           {[ "Nordic" := "9001" ]} "Nordic" "0925" "3RD" "9001");
    first [ reflexivity | discriminate
          | split; [discriminate | reflexivity]
          | apply (bool_decide_unpack _); vm_compute; exact I
          | vm_compute; reflexivity ].
Defined.
